(** * Pico-Remote-Analyzer: infrared burst capture and decoding

    Shallow embedding of the interrupt handler [isr_signal_trap], of
    [init_burst_variables] and of the brand decoder [decode_ir_command]
    (Samsung.c, the file named by REMOTE_FILENAME; Memorex.c has the same
    body and differs only in NUMBER_OF_STEPS, 73 instead of 135).  The
    functions that talk to the terminal and the loop of [main] follow
    further down, over a machine that adds the keyboard and the screen.

    C objects are modelled as follows.
    - [UINT8], [UINT16], [UINT32], [UINT64] values are integers of [Z]
      with the wrap-around written out.
    - The global arrays are lists, read and written by index; an index
      outside the array is a [Fault], since C gives it no meaning.
    - Console output is a list of structured lines, one constructor per
      kind of line the decoder prints, with the values it shows; blank
      lines are left out and, in the console of the decoder, the banner of
      [display_header] is one line.
    - Every array cell touched is recorded in [accesses].
    - The local [Loop2UInt16] of the decoder is never assigned before it is
      read (line 106 has [Loop2UInt16 - 0] where an assignment was meant):
      its value on entry is a parameter of the model. *)

From Stdlib Require Import ZArith Ascii String Lia.
From stdpp Require Import base list.

Local Open Scope Z_scope.

(** ** Integer types of Pico-Remote-Analyzer.c *)

Definition UINT8 (z : Z) : Z := z mod 2 ^ 8.
Definition UINT16 (z : Z) : Z := z mod 2 ^ 16.
Definition UINT32 (z : Z) : Z := z mod 2 ^ 32.
Definition UINT64 (z : Z) : Z := z mod 2 ^ 64.

(** ** Constants of Pico-Remote-Analyzer.c *)

Definition IR_RX : Z := 22.
Definition FLAG_OFF : Z := 0.
Definition FLAG_ON : Z := 1.
Definition MAX_BUTTONS : Z := 128.
Definition MAX_IR_READINGS : Z := 500.

(** Size of the array [RemoteData], declared [RemoteData[256]]. *)
Definition REMOTE_DATA_SIZE : Z := 256.

(** Event masks of the Pico SDK (hardware/gpio.h). *)
Definition GPIO_IRQ_EDGE_FALL : Z := 4.
Definition GPIO_IRQ_EDGE_RISE : Z := 8.

(** ** Constants of Samsung.c *)

Definition NUMBER_OF_BITS : Z := 32.
Definition NUMBER_OF_STEPS : Z := 135.
Definition NUMBER_OF_WAKEUP_STEPS : Z := 2.
Definition SEPARATOR : Z := 10000.
Definition TRIGGER_POINT_0_1 : Z := 750.

(** ** Global variables *)

(** One element of [RemoteData]. *)
Module Entry.
Record t := Build { ButtonName : string; CommandId : Z }.
End Entry.

Record Memory := {
  IrFinalValue : list Z;
  IrInitialValue : list Z;
  IrLevel : list Z;
  IrResultValue : list Z;
  IrStepCount : Z;
  ButtonName : string;
  LevelString : list string;
  RemoteData : list Entry.t;
  RemoteDataTotal : Z
}.

(** The four arrays of MAX_IR_READINGS cells filled by the interrupt
    handler. *)
Inductive Array := ArIrFinalValue | ArIrInitialValue | ArIrLevel | ArIrResultValue.

Definition cells (a : Array) (m : Memory) : list Z :=
  match a with
  | ArIrFinalValue => IrFinalValue m
  | ArIrInitialValue => IrInitialValue m
  | ArIrLevel => IrLevel m
  | ArIrResultValue => IrResultValue m
  end.

Definition set_cells (a : Array) (l : list Z) (m : Memory) : Memory :=
  match a with
  | ArIrFinalValue =>
      Build_Memory l (IrInitialValue m) (IrLevel m) (IrResultValue m) (IrStepCount m)
        (ButtonName m) (LevelString m) (RemoteData m) (RemoteDataTotal m)
  | ArIrInitialValue =>
      Build_Memory (IrFinalValue m) l (IrLevel m) (IrResultValue m) (IrStepCount m)
        (ButtonName m) (LevelString m) (RemoteData m) (RemoteDataTotal m)
  | ArIrLevel =>
      Build_Memory (IrFinalValue m) (IrInitialValue m) l (IrResultValue m) (IrStepCount m)
        (ButtonName m) (LevelString m) (RemoteData m) (RemoteDataTotal m)
  | ArIrResultValue =>
      Build_Memory (IrFinalValue m) (IrInitialValue m) (IrLevel m) l (IrStepCount m)
        (ButtonName m) (LevelString m) (RemoteData m) (RemoteDataTotal m)
  end.

Definition set_IrStepCount (n : Z) (m : Memory) : Memory :=
  Build_Memory (IrFinalValue m) (IrInitialValue m) (IrLevel m) (IrResultValue m) n
    (ButtonName m) (LevelString m) (RemoteData m) (RemoteDataTotal m).

Definition set_RemoteData (l : list Entry.t) (m : Memory) : Memory :=
  Build_Memory (IrFinalValue m) (IrInitialValue m) (IrLevel m) (IrResultValue m)
    (IrStepCount m) (ButtonName m) (LevelString m) l (RemoteDataTotal m).

Definition set_RemoteDataTotal (n : Z) (m : Memory) : Memory :=
  Build_Memory (IrFinalValue m) (IrInitialValue m) (IrLevel m) (IrResultValue m)
    (IrStepCount m) (ButtonName m) (LevelString m) (RemoteData m) n.

(** ** Console lines *)

Inductive Line :=
| LDecoding
| LTotalSteps (count expected : Z)
| LHeader (count : Z)
| LButton (name : string)
| LColumns
| LGetReady (step : Z) (lvl0 : string) (dur0 : Z) (lvl1 : string) (dur1 : Z)
| LDataBit (step bit : Z) (lvl0 : string) (dur0 : Z) (lvl1 : string) (dur1 : Z) (data : Z)
| LExtraBit (step : Z) (lvl0 : string) (dur0 : Z) (lvl1 : string) (dur1 : Z)
| LEndOfData (step : Z)
| LErrorLow (stamp event value : Z)
| LFinal (data count expected : Z)
| LPrompt.

Inductive Access :=
| Rd (a : Array) (i : Z)
| Wr (a : Array) (i : Z).

(** ** The machine and the monad of C statements *)

Record World := {
  mem : Memory;
  timer : list Z;
  console : list Line;
  accesses : list Access
}.

Inductive Fault :=
| OutOfBounds (a : Array) (i : Z)
| LevelStringOutOfBounds (i : Z)
| RemoteDataOutOfBounds (i : Z).

Inductive Res (A : Type) :=
| Done (a : A)
| Faulty (f : Fault)
| OutOfFuel.

Arguments Done {A} a.
Arguments Faulty {A} f.
Arguments OutOfFuel {A}.

Definition M (A : Type) : Type := World -> Res (A * World).

Definition ret {A} (a : A) : M A := fun w => Done (a, w).

Definition bind {A B} (c : M A) (k : A -> M B) : M B :=
  fun w =>
    match c w with
    | Done (a, w') => k a w'
    | Faulty f => Faulty f
    | OutOfFuel => OutOfFuel
    end.

Declare Scope c_scope.
Delimit Scope c_scope with C.
Notation "x <- c ;; k" := (bind c (fun x => k))
  (at level 100, c at next level, right associativity) : c_scope.
Notation "c ;; k" := (bind c (fun _ => k))
  (at level 100, right associativity) : c_scope.
Local Open Scope c_scope.

Definition fault {A} (f : Fault) : M A := fun _ => Faulty f.
Definition out_of_fuel {A} : M A := fun _ => OutOfFuel.

Definition get_mem : M Memory := fun w => Done (mem w, w).

Definition upd_mem (f : Memory -> Memory) : M unit :=
  fun w => Done (tt, Build_World (f (mem w)) (timer w) (console w) (accesses w)).

Definition touch (x : Access) : M unit :=
  fun w => Done (tt, Build_World (mem w) (timer w) (console w) (x :: accesses w)).

(** [console] and [accesses] hold the newest entry first. *)
Definition printf (l : Line) : M unit :=
  fun w => Done (tt, Build_World (mem w) (timer w) (l :: console w) (accesses w)).

(** [a[i]] as an rvalue. *)
Definition rd (a : Array) (i : Z) : M Z :=
  m <- get_mem ;;
  if (0 <=? i) && (i <? Z.of_nat (length (cells a m))) then
    touch (Rd a i) ;;
    ret (default 0 (cells a m !! Z.to_nat i))
  else fault (OutOfBounds a i).

(** [a[i] = v]. *)
Definition wr (a : Array) (i : Z) (v : Z) : M unit :=
  m <- get_mem ;;
  if (0 <=? i) && (i <? Z.of_nat (length (cells a m))) then
    touch (Wr a i) ;;
    upd_mem (set_cells a (<[Z.to_nat i := v]> (cells a m)))
  else fault (OutOfBounds a i).

(** [LevelString[i]] as an rvalue ([LevelString] has three rows). *)
Definition rd_LevelString (i : Z) : M string :=
  m <- get_mem ;;
  match (if 0 <=? i then LevelString m !! Z.to_nat i else None) with
  | Some s => ret s
  | None => fault (LevelStringOutOfBounds i)
  end.

(** [time_us_64()]: the free-running microsecond timer is an input of the
    program; [timer] lists the values its next calls return (0 once the
    list is used up). *)
Definition time_us_64 : M Z :=
  fun w =>
    match timer w with
    | [] => Done (0, w)
    | t :: ts => Done (UINT64 t, Build_World (mem w) ts (console w) (accesses w))
    end.

(** [gpio_acknowledge_irq] acts on the GPIO block only. *)
Definition gpio_acknowledge_irq (gpio events : Z) : M unit := ret tt.

(** ** init_burst_variables (Pico-Remote-Analyzer.c, lines 679-693) *)

Fixpoint init_loop (fuel : nat) (Loop1UInt : Z) : M unit :=
  if Loop1UInt <? MAX_IR_READINGS then
    match fuel with
    | O => out_of_fuel
    | S f =>
        wr ArIrInitialValue Loop1UInt 0 ;;
        wr ArIrFinalValue Loop1UInt 0 ;;
        wr ArIrResultValue Loop1UInt 0 ;;
        wr ArIrLevel Loop1UInt 2 ;;
        init_loop f (Loop1UInt + 1)
    end
  else ret tt.

Definition init_burst_variables : M unit :=
  upd_mem (set_IrStepCount 0) ;;
  init_loop (Z.to_nat MAX_IR_READINGS) 0.

(** ** isr_signal_trap (Pico-Remote-Analyzer.c, lines 773-805) *)

Definition isr_rise : M unit :=
  m <- get_mem ;;
  t <- time_us_64 ;;
  wr ArIrFinalValue (IrStepCount m) t ;;
  f <- rd ArIrFinalValue (IrStepCount m) ;;
  i <- rd ArIrInitialValue (IrStepCount m) ;;
  wr ArIrResultValue (IrStepCount m) (UINT32 (UINT64 (f - i))) ;;
  wr ArIrLevel (IrStepCount m) 0 ;;
  upd_mem (set_IrStepCount (UINT16 (IrStepCount m + 1))) ;;
  m <- get_mem ;;
  t <- time_us_64 ;;
  wr ArIrInitialValue (IrStepCount m) t ;;
  gpio_acknowledge_irq IR_RX GPIO_IRQ_EDGE_RISE.

Definition isr_fall : M unit :=
  m <- get_mem ;;
  (if IrStepCount m >? 0 then
     t <- time_us_64 ;;
     wr ArIrFinalValue (IrStepCount m) t ;;
     f <- rd ArIrFinalValue (IrStepCount m) ;;
     i <- rd ArIrInitialValue (IrStepCount m) ;;
     wr ArIrResultValue (IrStepCount m) (UINT32 (UINT64 (f - i))) ;;
     wr ArIrLevel (IrStepCount m) 1 ;;
     upd_mem (set_IrStepCount (UINT16 (IrStepCount m + 1)))
   else ret tt) ;;
  m <- get_mem ;;
  t <- time_us_64 ;;
  wr ArIrInitialValue (IrStepCount m) t ;;
  gpio_acknowledge_irq IR_RX GPIO_IRQ_EDGE_FALL.

Definition isr_signal_trap (gpio Events : Z) : M unit :=
  if gpio =? IR_RX then
    (if negb (Z.land Events GPIO_IRQ_EDGE_RISE =? 0) then isr_rise else ret tt) ;;
    (if negb (Z.land Events GPIO_IRQ_EDGE_FALL =? 0) then isr_fall else ret tt)
  else ret tt.

(** ** Start-up state and main's initialisations
       (Pico-Remote-Analyzer.c, lines 68-90 and 157-172) *)

(** Objects with static storage hold zeros when [main] starts. *)
Definition power_on : Memory := {|
  IrFinalValue := replicate (Z.to_nat MAX_IR_READINGS) 0;
  IrInitialValue := replicate (Z.to_nat MAX_IR_READINGS) 0;
  IrLevel := replicate (Z.to_nat MAX_IR_READINGS) 0;
  IrResultValue := replicate (Z.to_nat MAX_IR_READINGS) 0;
  IrStepCount := 0;
  ButtonName := EmptyString;
  LevelString := replicate 3 EmptyString;
  RemoteData := replicate (Z.to_nat REMOTE_DATA_SIZE) (Entry.Build EmptyString 0);
  RemoteDataTotal := 0
|}.

(** [RemoteData[i] = e], both members at once. *)
Definition wr_RemoteData (i : Z) (e : Entry.t) : M unit :=
  m <- get_mem ;;
  if (0 <=? i) && (i <? Z.of_nat (length (RemoteData m))) then
    upd_mem (set_RemoteData (<[Z.to_nat i := e]> (RemoteData m)))
  else fault (RemoteDataOutOfBounds i).

Fixpoint main_init_loop (fuel : nat) (Loop1UInt : Z) : M unit :=
  if Loop1UInt <? MAX_BUTTONS then
    match fuel with
    | O => out_of_fuel
    | S f =>
        wr_RemoteData Loop1UInt (Entry.Build EmptyString 0) ;;
        main_init_loop f (Loop1UInt + 1)
    end
  else ret tt.

Definition set_LevelString (l : list string) (m : Memory) : Memory :=
  Build_Memory (IrFinalValue m) (IrInitialValue m) (IrLevel m) (IrResultValue m)
    (IrStepCount m) (ButtonName m) l (RemoteData m) (RemoteDataTotal m).

Definition main_init : M unit :=
  upd_mem (set_IrStepCount 0) ;;
  upd_mem (set_RemoteDataTotal 0) ;;
  upd_mem (set_LevelString ["low"; "high"; "---"]%string) ;;
  main_init_loop (Z.to_nat MAX_BUTTONS) 0.

(** ** decode_ir_command (Samsung.c, lines 30-153) *)

Record Locals := {
  BitNumber : Z;
  FlagError : Z;
  Loop2UInt16 : Z;
  DataBuffer : Z
}.

Definition set_BitNumber (v : Z) (l : Locals) : Locals :=
  Build_Locals v (FlagError l) (Loop2UInt16 l) (DataBuffer l).
Definition set_FlagError (v : Z) (l : Locals) : Locals :=
  Build_Locals (BitNumber l) v (Loop2UInt16 l) (DataBuffer l).
Definition set_Loop2UInt16 (v : Z) (l : Locals) : Locals :=
  Build_Locals (BitNumber l) (FlagError l) v (DataBuffer l).
Definition set_DataBuffer (v : Z) (l : Locals) : Locals :=
  Build_Locals (BitNumber l) (FlagError l) (Loop2UInt16 l) v.

(** [display_header] as the console of the decoder shows it: one line for
    the banner, with the step count.  The function as it is written, text
    by text, is [display_header_text] further down. *)
Definition display_header : M unit :=
  m <- get_mem ;;
  printf (LHeader (IrStepCount m)).

(** [time_us_32()], used by [uart_send] for its time stamp. *)
Definition time_us_32 : M Z :=
  t <- time_us_64 ;;
  ret (UINT32 t).

(** The four trailing arguments shared by the three [printf] calls of the
    loop: [LevelString[IrLevel[s]], IrResultValue[s],
    LevelString[IrLevel[s + 1]], IrResultValue[s + 1]]. *)
Definition print_pair (Loop1UInt16 : Z) (fmt : string -> Z -> string -> Z -> Line) : M unit :=
  l0 <- rd ArIrLevel Loop1UInt16 ;;
  s0 <- rd_LevelString l0 ;;
  d0 <- rd ArIrResultValue Loop1UInt16 ;;
  l1 <- rd ArIrLevel (Loop1UInt16 + 1) ;;
  s1 <- rd_LevelString l1 ;;
  d1 <- rd ArIrResultValue (Loop1UInt16 + 1) ;;
  printf (fmt s0 d0 s1 d1).

(** Lines 82-89: fold one data bit into [DataBuffer]. *)
Definition data_bit_block (Loop1UInt16 : Z) (l : Locals) : M Locals :=
  if (BitNumber l >? 0) && (BitNumber l <=? NUMBER_OF_BITS) then
    let l := set_DataBuffer (UINT64 (Z.shiftl (DataBuffer l) 1)) l in
    hi <- rd ArIrResultValue (Loop1UInt16 + 1) ;;
    let l := if hi >? TRIGGER_POINT_0_1
             then set_DataBuffer (UINT64 (DataBuffer l + 1)) l else l in
    print_pair Loop1UInt16 (fun s0 d0 s1 d1 =>
      LDataBit Loop1UInt16 (BitNumber l) s0 d0 s1 d1 (DataBuffer l)) ;;
    ret l
  else ret l.

(** Lines 92-96: display the steps past the last data bit. *)
Definition extra_bit_block (Loop1UInt16 : Z) (l : Locals) : M unit :=
  if BitNumber l >? NUMBER_OF_BITS then
    print_pair Loop1UInt16 (LExtraBit Loop1UInt16)
  else ret tt.

(** Lines 108-130: the body of the loop on [Loop2UInt16]. *)
Definition half_bit (Loop1UInt16 : Z) (l : Locals) : M Locals :=
  lvl <- rd ArIrLevel (Loop1UInt16 + Loop2UInt16 l) ;;
  if lvl =? 0 then
    v <- rd ArIrResultValue (Loop1UInt16 + Loop2UInt16 l) ;;
    if v >? TRIGGER_POINT_0_1 then
      let l := set_FlagError FLAG_ON l in
      v' <- rd ArIrResultValue (Loop1UInt16 + Loop2UInt16 l) ;;
      stamp <- time_us_32 ;;
      printf (LErrorLow stamp (Loop1UInt16 + Loop2UInt16 l) v') ;;
      ret l
    else ret l
  else
    let l := set_DataBuffer (UINT64 (Z.shiftl (DataBuffer l) 1)) l in
    v <- rd ArIrResultValue (Loop1UInt16 + Loop2UInt16 l) ;;
    if v >? TRIGGER_POINT_0_1 then
      v' <- rd ArIrResultValue (Loop1UInt16 + Loop2UInt16 l) ;;
      if v' <? TRIGGER_POINT_0_1 * 4
      then ret (set_DataBuffer (UINT64 (DataBuffer l + 1)) l)
      else ret l
    else ret l.

(** Line 106: [for (Loop2UInt16 - 0; Loop2UInt16 < 2; ++Loop2UInt16)].
    The first clause assigns nothing, so the loop starts from whatever
    [Loop2UInt16] holds. *)
Fixpoint half_bit_loop (fuel : nat) (Loop1UInt16 : Z) (l : Locals) : M Locals :=
  if Loop2UInt16 l <? 2 then
    match fuel with
    | O => out_of_fuel
    | S f =>
        l <- half_bit Loop1UInt16 l ;;
        half_bit_loop f Loop1UInt16 (set_Loop2UInt16 (UINT16 (Loop2UInt16 l + 1)) l)
    end
  else ret l.

(** Lines 99-132. *)
Definition separator_block (Loop1UInt16 : Z) (l : Locals) : M Locals :=
  lo <- rd ArIrResultValue Loop1UInt16 ;;
  past <- (if lo >? SEPARATOR then ret true
           else hi <- rd ArIrResultValue (Loop1UInt16 + 1) ;; ret (hi >? SEPARATOR)) ;;
  if past : bool then
    printf (LEndOfData Loop1UInt16) ;;
    ret l
  else half_bit_loop 2 Loop1UInt16 l.

(** Lines 71-133: one turn of the loop on [Loop1UInt16]. *)
Definition loop_body (Loop1UInt16 : Z) (l : Locals) : M Locals :=
  if Loop1UInt16 >=? NUMBER_OF_WAKEUP_STEPS then
    let l := set_BitNumber (UINT8 ((Loop1UInt16 - NUMBER_OF_WAKEUP_STEPS) / 2 + 1)) l in
    l <- data_bit_block Loop1UInt16 l ;;
    extra_bit_block Loop1UInt16 l ;;
    separator_block Loop1UInt16 l
  else
    print_pair Loop1UInt16 (LGetReady Loop1UInt16) ;;
    ret l.

(** Line 70: [for (Loop1UInt16 = 0; Loop1UInt16 < IrStepCount; Loop1UInt16 += 2)].
    One unit of fuel is spent per turn. *)
Fixpoint for_loop (fuel : nat) (Loop1UInt16 : Z) (l : Locals) : M Locals :=
  m <- get_mem ;;
  if Loop1UInt16 <? IrStepCount m then
    match fuel with
    | O => out_of_fuel
    | S f =>
        l <- loop_body Loop1UInt16 l ;;
        for_loop f (UINT16 (Loop1UInt16 + 2)) l
    end
  else ret l.

(** Lines 44-48; [garbage] is what [Loop2UInt16] holds on entry. *)
Definition entry_locals (garbage : Z) : Locals := {|
  BitNumber := 0;
  FlagError := FLAG_OFF;
  Loop2UInt16 := UINT16 garbage;
  DataBuffer := 0
|}.

(** Lines 44-133: everything up to the end of the loop. *)
Definition decode_scan (fuel : nat) (garbage : Z) : M Locals :=
  printf LDecoding ;;
  m <- get_mem ;;
  printf (LTotalSteps (IrStepCount m) NUMBER_OF_STEPS) ;;
  display_header ;;
  m <- get_mem ;;
  printf (LButton (ButtonName m)) ;;
  printf LColumns ;;
  for_loop fuel 0 (entry_locals garbage).

(** Line 144: [(Dum1Str[0] == 'x') || (Dum1Str[0] == 'X')]. *)
Definition confirms (Dum1Str : string) : bool :=
  match Dum1Str with
  | String c _ => Ascii.eqb c "x"%char || Ascii.eqb c "X"%char
  | EmptyString => false
  end.

(** Lines 146-148. *)
Definition record_button (l : Locals) : M unit :=
  m <- get_mem ;;
  wr_RemoteData (RemoteDataTotal m) (Entry.Build (ButtonName m) (DataBuffer l)) ;;
  upd_mem (set_RemoteDataTotal (UINT16 (RemoteDataTotal m + 1))).

(** Lines 136-153.  [Dum1Str] is what [input_string] stored, that is the
    answer typed by the user.  The value returned is the macro
    IR_COMMAND_TO_EXECUTE of Samsung.h, a parameter here; the statements
    after line 153 are never reached. *)
Definition decode_finish (IR_COMMAND_TO_EXECUTE : Z) (Dum1Str : string) (l : Locals) : M Z :=
  m <- get_mem ;;
  printf (LFinal (DataBuffer l) (IrStepCount m) NUMBER_OF_STEPS) ;;
  printf LPrompt ;;
  (if confirms Dum1Str then record_button l else ret tt) ;;
  ret (UINT8 IR_COMMAND_TO_EXECUTE).

(** The whole function; the result pairs the value returned with the value
    left in [*IrCommand] (line 47). *)
Definition decode_ir_command (fuel : nat) (IR_COMMAND_TO_EXECUTE garbage : Z)
    (Dum1Str : string) : M (Z * Z) :=
  l <- decode_scan fuel garbage ;;
  r <- decode_finish IR_COMMAND_TO_EXECUTE Dum1Str l ;;
  ret (r, 0).

(** ** Bursts used in the statements below *)

(** The encoder of the round-trip law, in the words of section 8 of the
    specification: a wake-up pair followed by one low/high pair per bit,
    most significant bit first, with the durations given in the header of
    Samsung.c (4450/4450 for the wake-up pair, 550/550 for a 0 and
    550/1675 for a 1). *)
Fixpoint encode_bits (n : nat) (X : Z) : list Z :=
  match n with
  | O => []
  | S k => 550 :: (if Z.testbit X (Z.of_nat k) then 1675 else 550) :: encode_bits k X
  end.

Definition encode (X : Z) : list Z := 4450 :: 4450 :: encode_bits 32 X.

(** The timer values read by the handler when the line changes level at
    the end of each duration of [durs], starting at time [t]: each later
    edge reads the timer twice. *)
Fixpoint edge_times (t : Z) (durs : list Z) : list Z :=
  match durs with
  | [] => []
  | d :: ds => (t + d) :: (t + d) :: edge_times (t + d) ds
  end.

(** [n] edges, alternately rising and falling. *)
Fixpoint edges (rising : bool) (n : nat) : M unit :=
  match n with
  | O => ret tt
  | S k =>
      isr_signal_trap IR_RX (if rising then GPIO_IRQ_EDGE_RISE else GPIO_IRQ_EDGE_FALL) ;;
      edges (negb rising) k
  end.

(** [main]'s initialisations, [init_burst_variables], and the falling edge
    that starts a burst. *)
Definition start_burst : M unit :=
  main_init ;;
  init_burst_variables ;;
  isr_signal_trap IR_RX GPIO_IRQ_EDGE_FALL.

(** A burst as the program sees it: the start above, then one edge at the
    end of each duration. *)
Definition capture (durs : list Z) : M unit :=
  start_burst ;;
  edges true (length durs).

Definition boot (ticks : list Z) : World := Build_World power_on ticks [] [].

(** What follows a run that ended normally. *)
Definition and_then {A B} (r : Res (A * World)) (k : A -> World -> Res B) : Res B :=
  match r with
  | Done (a, w) => k a w
  | Faulty f => Faulty f
  | OutOfFuel => OutOfFuel
  end.

(** The world left by [capture], with an empty console and access list. *)
Definition captured (durs : list Z) : Res (unit * World) :=
  and_then (capture durs (boot (1000 :: edge_times 1000 durs)))
    (fun _ w => Done (tt, Build_World (mem w) [] [] [])).

(** Run [c] on the burst captured from [durs]. *)
Definition on_burst {A} (durs : list Z) (c : M A) : Res (A * World) :=
  and_then (captured durs) (fun _ w => c w).

(** ** Notions used in the statements *)

(** [a[i]] without the bookkeeping. *)
Definition peek (a : Array) (i : Z) (m : Memory) : Z :=
  default 0 (cells a m !! Z.to_nat i).

(** The sizes given by the declarations, and levels that index
    [LevelString]: the program stores only 0, 1 and 2 in [IrLevel]. *)
Definition wf_b (m : Memory) : bool :=
  forallb (fun a => Z.of_nat (length (cells a m)) =? MAX_IR_READINGS)
    [ArIrFinalValue; ArIrInitialValue; ArIrLevel; ArIrResultValue]
  && forallb (fun v => (0 <=? v) && (v <? 3)) (IrLevel m)
  && (Z.of_nat (length (LevelString m)) =? 3)
  && (Z.of_nat (length (RemoteData m)) =? REMOTE_DATA_SIZE).

Definition wf (m : Memory) : Prop := wf_b m = true.

(** The high duration of the pair at [step] is above the 0/1 trigger
    point. *)
Definition high_is_one (m : Memory) (step : Z) : bool :=
  peek ArIrResultValue (step + 1) m >? TRIGGER_POINT_0_1.

(** One of the two durations of the pair at [step] is above SEPARATOR. *)
Definition is_separator (m : Memory) (step : Z) : bool :=
  (peek ArIrResultValue step m >? SEPARATOR)
  || (peek ArIrResultValue (step + 1) m >? SEPARATOR).

(** The row of [LevelString] named by the level stored at [i]. *)
Definition level_name (m : Memory) (i : Z) : string :=
  default EmptyString (LevelString m !! Z.to_nat (peek ArIrLevel i m)).

(** The cells read by [print_pair], newest first. *)
Definition pair_reads (step : Z) : list Access :=
  [Rd ArIrResultValue (step + 1); Rd ArIrLevel (step + 1);
   Rd ArIrResultValue step; Rd ArIrLevel step].

(** [ok c w R]: from [w] the statement [c] ends normally, with a result
    and a world related by [R]. *)
Definition ok {A} (c : M A) (w : World) (R : A -> World -> Prop) : Prop :=
  exists a w', c w = Done (a, w') /\ R a w'.

(** [grows P Q w w']: [w'] has the memory of [w]; the cells touched since
    [w] satisfy [P] and the lines printed since [w] satisfy [Q]. *)
Definition grows (P : Access -> Prop) (Q : Line -> Prop) (w w' : World) : Prop :=
  mem w' = mem w /\
  (exists acc, accesses w' = acc ++ accesses w /\ Forall P acc) /\
  (exists ls, console w' = ls ++ console w /\ Forall Q ls).

(** Every line but the end-of-data mark and the error report of line 115. *)
Definition plain (ln : Line) : Prop :=
  match ln with
  | LEndOfData _ | LErrorLow _ _ _ => False
  | _ => True
  end.

(** The test of line 82. *)
Definition takes_bit (BitNumber : Z) : bool :=
  (BitNumber >? 0) && (BitNumber <=? NUMBER_OF_BITS).

(** What lines 84-85 leave in [DataBuffer]. *)
Definition folded (m : Memory) (step : Z) (DataBuffer : Z) : Z :=
  if high_is_one m step then UINT64 (UINT64 (Z.shiftl DataBuffer 1) + 1)
  else UINT64 (Z.shiftl DataBuffer 1).

(** The locals after one turn of the loop in which lines 106-131 do
    nothing. *)
Definition step_locals (m : Memory) (step : Z) (l : Locals) : Locals :=
  if step >=? NUMBER_OF_WAKEUP_STEPS then
    let bn := UINT8 ((step - NUMBER_OF_WAKEUP_STEPS) / 2 + 1) in
    Build_Locals bn (FlagError l) (Loop2UInt16 l)
      (if takes_bit bn then folded m step (DataBuffer l) else DataBuffer l)
  else l.

(** The value held after the first [n] data pairs when nothing but lines
    84-85 writes [DataBuffer]. *)
Fixpoint value (m : Memory) (n : nat) : Z :=
  match n with
  | O => 0
  | S k => folded m (NUMBER_OF_WAKEUP_STEPS + 2 * Z.of_nat k) (value m k)
  end.

(** Data pairs folded before the turn at [step]. *)
Definition pairs_before (step : Z) : nat :=
  Z.to_nat (Z.min NUMBER_OF_BITS (step / 2 - 1)).

(** Data pairs folded by a whole scan of [count] steps. *)
Definition data_pairs (count : Z) : nat := pairs_before (count + 1).

(** A read of an event cell at an index that a scan of [count] steps may
    touch: inside the arrays, at most [count], and below [count] when
    [count] is even. *)
Definition within (count : Z) (x : Access) : Prop :=
  exists a i, x = Rd a i /\ 0 <= i < MAX_IR_READINGS /\ i <= count /\
              (Z.even count = true -> i < count).

Definition is_end_mark (ln : Line) : bool :=
  match ln with LEndOfData _ => true | _ => false end.

Definition is_error_line (ln : Line) : bool :=
  match ln with LErrorLow _ _ _ => true | _ => false end.

(** What a scan of [count] steps may print when [Loop2UInt16] holds
    [counter] on entry: an end-of-data mark only for a data pair that holds
    a duration above SEPARATOR, and an error report only when [counter] is
    below 2. *)
Definition marked (m : Memory) (count counter : Z) (ln : Line) : Prop :=
  (forall t, ln = LEndOfData t ->
     Z.even t = true /\ NUMBER_OF_WAKEUP_STEPS <= t < count /\ is_separator m t = true) /\
  (is_error_line ln = true -> counter < 2).

(** The burst in memory is the encoding of the 32-bit word [X]. *)
Definition carries (m : Memory) (X : Z) : Prop :=
  IrStepCount m = 66 /\ take 66 (IrResultValue m) = encode X.

(** The value of [DataBuffer] at the end of a run of [decode_scan]. *)
Definition scan_value (r : Res (Locals * World)) : option Z :=
  match r with
  | Done (l, _) => Some (DataBuffer l)
  | _ => None
  end.

(** The value of [FlagError] at the end of a run of [decode_scan]. *)
Definition scan_flag (r : Res (Locals * World)) : option Z :=
  match r with
  | Done (l, _) => Some (FlagError l)
  | _ => None
  end.

(** The lines printed by a run, oldest first. *)
Definition printed {A} (r : Res (A * World)) : list Line :=
  match r with
  | Done (_, w) => rev (console w)
  | _ => []
  end.

(** The cells touched by a run, oldest first. *)
Definition touched {A} (r : Res (A * World)) : list Access :=
  match r with
  | Done (_, w) => rev (accesses w)
  | _ => []
  end.

(** The value returned by a run. *)
Definition returned {A} (r : Res (A * World)) : option A :=
  match r with
  | Done (a, _) => Some a
  | _ => None
  end.

(** [x] is a read of [a[i]]. *)
Definition reads_cell (a : Array) (i : Z) (x : Access) : bool :=
  match x, a with
  | Rd ArIrFinalValue j, ArIrFinalValue
  | Rd ArIrInitialValue j, ArIrInitialValue
  | Rd ArIrLevel j, ArIrLevel
  | Rd ArIrResultValue j, ArIrResultValue => i =? j
  | _, _ => false
  end.

(** The world in which a run ended, the start-up world if it did not end
    normally. *)
Definition world_of {A} (r : Res (A * World)) : World :=
  match r with
  | Done (_, w) => w
  | _ => boot []
  end.

(** The validity rule in the words of section 4.3, step 2, of the
    specification: [valid = (no BitLevelAnomaly) and (count within one
    pair of expected_step_count, or PrematureTermination exactly where
    expected)]. *)
Definition spec_valid (anomaly : bool) (count : Z) (ended_where_expected : bool) : bool :=
  negb anomaly
  && ((Z.abs (count - NUMBER_OF_STEPS) <=? 2) || ended_where_expected).

(** *** Concrete bursts *)

(** The button "Power" of the Samsung remote control (Samsung.c, line 159). *)
Definition power_burst : list Z := encode 0xE0E040BF.

(** Four pairs, the third of which holds a duration of 15000 microseconds. *)
Definition separator_burst : list Z :=
  [4450; 4450; 550; 1675; 550; 15000; 550; 1675].

(** 133 steps, one pair short of NUMBER_OF_STEPS, none above SEPARATOR. *)
Definition short_burst : list Z := encode 0xE0E040BF ++ replicate 67 550.

(** 135 steps, as NUMBER_OF_STEPS asks, none above SEPARATOR. *)
Definition full_burst : list Z := encode 0xE0E040BF ++ replicate 69 550.

(** Two pairs, the second with a low half of 1000 microseconds. *)
Definition long_low_burst : list Z := [4450; 4450; 1000; 1675].

(** *** Concrete worlds: the bursts above, as captured by the handler *)

Definition power_world : World := world_of (captured power_burst).
Definition separator_world : World := world_of (captured separator_burst).
Definition short_world : World := world_of (captured short_burst).

(** *** The start of a burst *)

(** The edge that the handler sees: rising after a low level, falling after
    a high one. *)
Definition edge (rising : bool) : Z :=
  if rising then GPIO_IRQ_EDGE_RISE else GPIO_IRQ_EDGE_FALL.

(** The world in which the first falling edge of a burst has been seen at
    time 1000, the timer spent. *)
Definition started : World := world_of (start_burst (boot [1000])).

(** [w] with the timer readings [ticks] to come. *)
Definition with_timer (ticks : list Z) (w : World) : World :=
  Build_World (mem w) ticks (console w) (accesses w).

(** The levels of [n] successive steps, the first one low when [rising]:
    a low level ends on a rising edge, a high one on a falling edge. *)
Fixpoint levels (rising : bool) (n : nat) : list Z :=
  match n with
  | O => []
  | S k => (if rising then 0 else 1) :: levels (negb rising) k
  end.

(** The value that [init_burst_variables] stores in every cell of [a]. *)
Definition cleared (a : Array) : Z :=
  match a with
  | ArIrLevel => 2
  | _ => 0
  end.

(** The globals of [Memory] other than the four arrays. *)
Definition globals (m : Memory) : Z * string * list string * list Entry.t * Z :=
  (IrStepCount m, ButtonName m, LevelString m, RemoteData m, RemoteDataTotal m).

(** * The console: keyboard input, prompts and listings
      (Pico-Remote-Analyzer.c)

    The functions below talk to the terminal.  They are modelled over a
    [Machine]: the world of the decoder, the characters that the
    keyboard will deliver, the items printed so far and the two global
    character arrays that [enter_remote_id] fills.
    - A character array is a list of bytes, one per cell; a write past its
      end ([Overrun]), a string function on an array that holds no NUL
      ([Unterminated]), a conversion of a format that has no argument
      ([Directive]) and a number that [atoi] cannot represent
      ([Unrepresentable]) are a [Trouble], since C gives them no meaning.
    - [keys] lists what the next calls of [getchar_timeout_us] return; a
      call made when the list is used up waits for ever ([Starved]).
    - [screen] holds one item per kind of text printed, with the values
      it shows; blank lines are left out.  The lines printed through the
      monad of the decoder are moved to [screen] in the order printed. *)

(** ** Characters and C strings *)

Definition UCHAR (z : Z) : Z := z mod 2 ^ 8.

(** Conversion to [int8_t], with the wrap-around of gcc. *)
Definition int8_t (z : Z) : Z := (z + 2 ^ 7) mod 2 ^ 8 - 2 ^ 7.

(** What [getchar_timeout_us] returns when no character came in time
    (pico/error.h of the SDK). *)
Definition PICO_ERROR_TIMEOUT : Z := -1.

(** [strlen]: the number of bytes before the first NUL of an array, if it
    holds one. *)
Fixpoint strlen (s : list Z) : option nat :=
  match s with
  | [] => None
  | c :: s' => if c =? 0 then Some O else option_map S (strlen s')
  end.

(** The bytes before the first NUL. *)
Fixpoint c_str (s : list Z) : list Z :=
  match s with
  | [] => []
  | c :: s' => if c =? 0 then [] else c :: c_str s'
  end.

(** ** The machine and the monad of the console *)

Inductive Item :=
| IDecoder (l : Line)
| IChars (s : list Z)
| INoBurst
| IAskButton
| ITimingColumns
| ITimingRow (left : Z * string * Z) (right : option (Z * string * Z))
| ISeparator
| IContinued
| IButtonCount (total : Z)
| IButtonColumns
| IButtonRow (index : Z) (name : string) (command : Z)
| IBrand (name : list Z)
| IAskBrand
| IModel (name : list Z)
| IAskModel
| IStepCount (count : Z)
| IAwaitBurst
| IMenu
| IInvalidChoice (text : list Z) (Menu : Z).

Record Machine := {
  world : World;
  keys : list Z;
  screen : list Item;
  BrandName : list Z;
  RemoteModel : list Z
}.

Inductive Trouble :=
| Hardware (f : Fault)
| Overrun (i : Z)
| Unterminated
| Directive
| Unrepresentable.

Inductive Outcome (A : Type) :=
| Returned (a : A)
| Broke (t : Trouble)
| Starved
| Spent.

Arguments Returned {A} a.
Arguments Broke {A} t.
Arguments Starved {A}.
Arguments Spent {A}.

Definition IO (A : Type) : Type := Machine -> Outcome (A * Machine).

Definition io_ret {A} (a : A) : IO A := fun mc => Returned (a, mc).

Definition io_bind {A B} (c : IO A) (k : A -> IO B) : IO B :=
  fun mc =>
    match c mc with
    | Returned (a, mc') => k a mc'
    | Broke t => Broke t
    | Starved => Starved
    | Spent => Spent
    end.

Declare Scope io_scope.
Delimit Scope io_scope with IO.
Notation "x <- c ;; k" := (io_bind c (fun x => k))
  (at level 100, c at next level, right associativity) : io_scope.
Notation "c ;; k" := (io_bind c (fun _ => k))
  (at level 100, right associativity) : io_scope.
Local Open Scope io_scope.

Definition break {A} (t : Trouble) : IO A := fun _ => Broke t.
Definition spent {A} : IO A := fun _ => Spent.

Definition get_machine : IO Machine := fun mc => Returned (mc, mc).

(** A statement of the decoder's monad, run from the console; what it
    prints goes to [screen]. *)
Definition lift {A} (c : M A) : IO A :=
  fun mc =>
    let w := world mc in
    match c (Build_World (mem w) (timer w) [] (accesses w)) with
    | Done (a, w') =>
        Returned (a, Build_Machine (Build_World (mem w') (timer w') (console w) (accesses w'))
                       (keys mc) (map IDecoder (console w') ++ screen mc)
                       (BrandName mc) (RemoteModel mc))
    | Faulty f => Broke (Hardware f)
    | OutOfFuel => Spent
    end.

(** [screen] holds the newest item first. *)
Definition say (i : Item) : IO unit :=
  fun mc => Returned (tt, Build_Machine (world mc) (keys mc) (i :: screen mc)
                            (BrandName mc) (RemoteModel mc)).

Definition getchar_timeout_us (timeout_us : Z) : IO Z :=
  fun mc =>
    match keys mc with
    | [] => Starved
    | k :: ks => Returned (k, Build_Machine (world mc) ks (screen mc)
                                (BrandName mc) (RemoteModel mc))
    end.

(** [s[i] = v] on a character array. *)
Definition store (s : list Z) (i v : Z) : IO (list Z) :=
  if (0 <=? i) && (i <? Z.of_nat (length s)) then io_ret (<[Z.to_nat i := v]> s)
  else break (Overrun i).

(** [s[i]] as an rvalue. *)
Definition load (s : list Z) (i : Z) : IO Z :=
  match (if 0 <=? i then s !! Z.to_nat i else None) with
  | Some c => io_ret c
  | None => break (Overrun i)
  end.

(** The argument of a [%s] conversion. *)
Definition text_of (s : list Z) : IO (list Z) :=
  match strlen s with
  | Some _ => io_ret (c_str s)
  | None => break Unterminated
  end.

(** [strcpy (dst, src)]; the result is the new content of [dst]. *)
Definition strcpy (dst src : list Z) : IO (list Z) :=
  match strlen src with
  | Some n =>
      if (S n <=? length dst)%nat then io_ret (take (S n) src ++ drop (S n) dst)
      else break (Overrun (Z.of_nat (length dst)))
  | None => break Unterminated
  end.

(** ** input_string (Pico-Remote-Analyzer.c, lines 704-761) *)

(** Lines 716-749: the [switch] on the character received.  The result is
    the array and the new value of [Loop1UInt8]. *)
Definition input_switch (DataInput : Z) (Str : list Z) (Loop1UInt8 : Z) : IO (list Z * Z) :=
  if (DataInput =? PICO_ERROR_TIMEOUT) || (DataInput =? 0) then
    io_ret (Str, Loop1UInt8)
  else if DataInput =? 8 then
    if Loop1UInt8 >? 0 then
      let Loop1UInt8 := UINT8 (Loop1UInt8 - 1) in
      Str <- store Str Loop1UInt8 0 ;;
      say (IChars [8; 32; 8]) ;;
      io_ret (Str, Loop1UInt8)
    else io_ret (Str, Loop1UInt8)
  else if DataInput =? 13 then
    r <- (if Loop1UInt8 =? 0 then
            Str <- store Str Loop1UInt8 (UCHAR DataInput) ;;
            let Loop1UInt8 := UINT8 (Loop1UInt8 + 1) in
            Str <- store Str Loop1UInt8 0 ;;
            io_ret (Str, UINT8 (Loop1UInt8 + 1))
          else io_ret (Str, Loop1UInt8)) ;;
    say (IChars [13]) ;;
    io_ret r
  else
    say (IChars [UCHAR DataInput]) ;;
    Str <- store Str Loop1UInt8 (UCHAR DataInput) ;;
    io_ret (Str, UINT8 (Loop1UInt8 + 1)).

(** Lines 712-750: the [do ... while] loop, one unit of fuel per turn. *)
Fixpoint input_loop (fuel : nat) (Str : list Z) (Loop1UInt8 : Z) : IO (list Z * Z) :=
  match fuel with
  | O => spent
  | S f =>
      k <- getchar_timeout_us 50000 ;;
      let DataInput := int8_t k in
      r <- input_switch DataInput Str Loop1UInt8 ;;
      if (snd r <? 128) && negb (DataInput =? 13) then input_loop f (fst r) (snd r)
      else io_ret r
  end.

(** The whole function; the result is the array [String] on return.  Every
    turn of the loop takes one element of [keys], so that one turn more
    than there are keys is fuel enough. *)
Definition input_string (Str : list Z) : IO (list Z) :=
  mc <- get_machine ;;
  r <- input_loop (S (length (keys mc))) Str 0 ;;
  store (fst r) (snd r) 0.

(** ** enter_remote_id (Pico-Remote-Analyzer.c, lines 582-603) *)

Definition set_BrandName (s : list Z) : IO unit :=
  fun mc => Returned (tt, Build_Machine (world mc) (keys mc) (screen mc) s (RemoteModel mc)).

Definition set_RemoteModel (s : list Z) : IO unit :=
  fun mc => Returned (tt, Build_Machine (world mc) (keys mc) (screen mc) (BrandName mc) s).

(** [Dum1UChar] is a local array of 64 bytes that is not initialised: what
    it holds on entry is a parameter. *)
Definition enter_remote_id (Dum1UChar : list Z) : IO unit :=
  mc <- get_machine ;;
  name <- text_of (BrandName mc) ;;
  say (IBrand name) ;;
  say IAskBrand ;;
  Dum1UChar <- input_string Dum1UChar ;;
  c <- load Dum1UChar 0 ;;
  (if negb (c =? 0) && negb (c =? 13) then
     mc <- get_machine ;;
     s <- strcpy (BrandName mc) Dum1UChar ;;
     set_BrandName s
   else io_ret tt) ;;
  mc <- get_machine ;;
  name <- text_of (RemoteModel mc) ;;
  say (IModel name) ;;
  say IAskModel ;;
  Dum1UChar <- input_string Dum1UChar ;;
  c <- load Dum1UChar 0 ;;
  (if negb (c =? 0) && negb (c =? 13) then
     mc <- get_machine ;;
     s <- strcpy (RemoteModel mc) Dum1UChar ;;
     set_RemoteModel s
   else io_ret tt).

(** ** uart_send (Pico-Remote-Analyzer.c, lines 835-881) *)

(** The bytes of a string literal, and the string that a list of bytes
    spells. *)
Definition bytes_of (s : string) : list Z :=
  map (fun c => Z.of_N (N_of_ascii c)) (list_ascii_of_string s).

Definition string_of (l : list Z) : string :=
  string_of_list_ascii (map (fun c => ascii_of_N (Z.to_N c)) l).

(** [strcmp (s, lit) == 0] for a literal [lit]: the comparison stops at
    the first difference or at the NUL that ends [s]. *)
Fixpoint strcmp_is (s lit : list Z) : IO bool :=
  match s, lit with
  | [], _ => break Unterminated
  | c :: _, [] => io_ret (c =? 0)
  | c :: s', l :: lit' => if c =? l then strcmp_is s' lit' else io_ret false
  end.

(** The decimal digits of [n], most significant first. *)
Fixpoint digits (fuel : nat) (n : Z) : list Z :=
  match fuel with
  | O => []
  | S f => (if n <? 10 then [] else digits f (n / 10)) ++ [48 + n mod 10]
  end.

(** The conversions [%7lu] and [%10lu]: the decimal digits, with spaces
    before them up to the width ([n] is below 2^32). *)
Definition lu (width : nat) (n : Z) : list Z :=
  replicate (width - length (digits 10 n)) 32 ++ digits 10 n.

(** What [printf] and [sprintf] write for a format that comes with no
    argument: the characters as they are, one [%] for [%%]; any other
    conversion has no meaning. *)
Fixpoint formatted (fmt : list Z) : IO (list Z) :=
  match fmt with
  | [] => io_ret []
  | 37 :: 37 :: rest => s <- formatted rest ;; io_ret (37 :: s)
  | 37 :: _ => break Directive
  | c :: rest => s <- formatted rest ;; io_ret (c :: s)
  end.

(** [sprintf (&LineString[strlen (LineString)], ...)]: [s] is appended to
    the C string held by [LineString], an array of 512 bytes. *)
Definition append_LineString (LineString s : list Z) : IO (list Z) :=
  if (length (LineString ++ s) <? 512)%nat then io_ret (LineString ++ s)
  else break (Overrun 512).

(** The result is the array [String] on return: the function writes to it
    when it holds one of the two tags. *)
Definition uart_send (LineNumber : Z) (Str : list Z) : IO (list Z) :=
  let LineString := [] in
  home <- strcmp_is Str (bytes_of "home") ;;
  Str <- (if home : bool then
            s <- store Str 0 27 ;;
            s <- store s 1 91 ;;
            s <- store s 2 72 ;;
            store s 3 0
          else io_ret Str) ;;
  cls <- strcmp_is Str (bytes_of "cls") ;;
  Str <- (if cls : bool then
            s <- store Str 0 27 ;;
            s <- store s 1 91 ;;
            s <- store s 2 50 ;;
            s <- store s 3 74 ;;
            store s 4 0
          else io_ret Str) ;;
  c <- load Str 0 ;;
  LineString <- (if negb (c =? 45) && negb (c =? 13) && negb (c =? 27) && negb (c =? 124)
                 then
                   s <- append_LineString [] (bytes_of "[" ++ lu 7 LineNumber ++ bytes_of "] ") ;;
                   t <- lift time_us_32 ;;
                   append_LineString s (bytes_of "[" ++ lu 10 t ++ bytes_of "] ")
                 else io_ret LineString) ;;
  fmt <- text_of Str ;;
  s <- formatted fmt ;;
  LineString <- append_LineString LineString s ;;
  out <- formatted LineString ;;
  say (IChars out) ;;
  io_ret Str.

(** ** get_pico_id, the Unique ID string
       (Pico-Remote-Analyzer.c, lines 658-665) *)

(** The size of [board_id.id] (pico/unique_id.h of the SDK). *)
Definition PICO_UNIQUE_BOARD_ID_SIZE_BYTES : Z := 8.

Definition hex_digit (d : Z) : Z := if d <? 10 then 48 + d else 55 + d.

(** The conversion [%2.2X] of a byte: two hexadecimal digits, in upper
    case. *)
Definition X2 (b : Z) : list Z := [hex_digit (b / 16); hex_digit (b mod 16)].

(** [sprintf (&PicoUniqueId[strlen (PicoUniqueId)], ...)]: [s] is appended
    to the C string held by [PicoUniqueId], an array of 41 bytes. *)
Definition append_PicoUniqueId (PicoUniqueId s : list Z) : IO (list Z) :=
  if (length (PicoUniqueId ++ s) <? 41)%nat then io_ret (PicoUniqueId ++ s)
  else break (Overrun 41).

(** Lines 660-665; [id] is [board_id.id] and the result is the C string
    left in [PicoUniqueId]. *)
Fixpoint unique_id_loop (fuel : nat) (Loop1UInt8 : Z) (id PicoUniqueId : list Z)
    : IO (list Z) :=
  if Loop1UInt8 <? PICO_UNIQUE_BOARD_ID_SIZE_BYTES then
    match fuel with
    | O => spent
    | S f =>
        b <- load id Loop1UInt8 ;;
        s <- append_PicoUniqueId PicoUniqueId (X2 b) ;;
        s <- (if negb (Loop1UInt8 mod 2 =? 0) && negb (Loop1UInt8 =? 7)
              then append_PicoUniqueId s (bytes_of "-")
              else io_ret s) ;;
        unique_id_loop f (UINT8 (Loop1UInt8 + 1)) id s
    end
  else io_ret PicoUniqueId.

(** Lines 659-665. *)
Definition unique_id (id : list Z) : IO (list Z) :=
  unique_id_loop (Z.to_nat PICO_UNIQUE_BOARD_ID_SIZE_BYTES) 0 id [].

(** ** main, the brand name (Pico-Remote-Analyzer.c, lines 164-166) *)

(** Lines 165-166; [strlen (BrandName)] is evaluated at every turn. *)
Fixpoint brand_loop (fuel : nat) (Loop1UInt : Z) (BrandName : list Z) : IO (list Z) :=
  match strlen BrandName with
  | None => break Unterminated
  | Some n =>
      if Loop1UInt <? Z.of_nat n then
        match fuel with
        | O => spent
        | S f =>
            c <- load BrandName Loop1UInt ;;
            s <- (if c =? 46 then store BrandName Loop1UInt 0 else io_ret BrandName) ;;
            brand_loop f (UINT32 (Loop1UInt + 1)) s
        end
      else io_ret BrandName
  end.

(** Lines 164-166, for the file name given by the macro REMOTE_FILENAME;
    the loop takes at most as many turns as the array has cells. *)
Definition set_brand (REMOTE_FILENAME : list Z) : IO unit :=
  mc <- get_machine ;;
  s <- strcpy (BrandName mc) (REMOTE_FILENAME ++ [0]) ;;
  s <- brand_loop (length s) 0 s ;;
  set_BrandName s.

(** ** display_header (Pico-Remote-Analyzer.c, lines 520-571)

    The decoder's model above takes the banner as one line.  Here is the
    function as it is written, with its six calls of [sprintf] into a
    local array and its six loops that centre a line under the bar; the
    functions of the console call it in this form.  [PicoType] and
    [PicoUniqueId] are the globals that [get_pico_id] sets, [Str] is the
    local array [String] of 128 bytes, not initialised; [fuel] bounds the
    turns of each loop. *)

Definition TYPE_PICO : Z := 1.

(** The bar that line 162 stores in [Separator]: 53 signs [=] with a
    space between them, then a carriage return. *)
Definition Separator : list Z :=
  bytes_of "= = = = = = = = = = = = = = = = = = = = = = = = = = = = = = = = = = = = = = = = = = = = = = = = = = = = ="
  ++ [13].

(** [sprintf (String, ...)] for a text without NUL: the text and its NUL
    are written from the start of the array. *)
Definition sprintf_to (Str text : list Z) : IO (list Z) :=
  if (length text <? length Str)%nat then io_ret (text ++ 0 :: drop (S (length text)) Str)
  else break (Overrun (Z.of_nat (length Str))).

(** [(strlen (Separator) - strlen (String)) / 2]: [strlen] returns a
    [size_t], unsigned and 32 bits wide on the Pico, so that the
    difference wraps around when [String] is the longer of the two. *)
Definition margin (Str : list Z) : IO Z :=
  s <- text_of Str ;;
  io_ret (UINT32 (Z.of_nat (length Separator) - Z.of_nat (length s)) / 2).

(** The loops of lines 531-532, 541-542, 547-548, 553-554, 559-560 and
    565-566; the bound is evaluated at every turn. *)
Fixpoint pad (fuel : nat) (Loop1UInt16 : Z) (Str : list Z) : IO unit :=
  bound <- margin Str ;;
  if Loop1UInt16 <? bound then
    match fuel with
    | O => spent
    | S f =>
        say (IChars [32]) ;;
        pad f (UINT16 (Loop1UInt16 + 1)) Str
    end
  else io_ret tt.

(** One line of the banner: [sprintf], the loop, then
    [printf ("%s", String)]. *)
Definition banner_line (fuel : nat) (Str text : list Z) : IO (list Z) :=
  Str <- sprintf_to Str text ;;
  pad fuel 0 Str ;;
  s <- text_of Str ;;
  say (IChars s) ;;
  io_ret Str.

(** The two calls of lines 536-540 write one text. *)
Definition display_header_text (fuel : nat) (PicoType : Z) (PicoUniqueId Str : list Z)
    : IO unit :=
  say ISeparator ;;
  Str <- banner_line fuel Str (bytes_of "Flash-Remote-Analyzer" ++ [13]) ;;
  Str <- banner_line fuel Str
           (bytes_of "Microcontroller is a " ++
            (if PicoType =? TYPE_PICO then bytes_of "Pico" else bytes_of "Pico W") ++ [13]) ;;
  id <- text_of PicoUniqueId ;;
  Str <- banner_line fuel Str (bytes_of "Pico's Unique ID: " ++ id ++ [13]) ;;
  mc <- get_machine ;;
  brand <- text_of (BrandName mc) ;;
  Str <- banner_line fuel Str (bytes_of "Brand under analysis: " ++ brand ++ [13]) ;;
  mc <- get_machine ;;
  model <- text_of (RemoteModel mc) ;;
  Str <- banner_line fuel Str (bytes_of "Remote control model number: " ++ model ++ [13]) ;;
  m <- lift get_mem ;;
  _ <- banner_line fuel Str (bytes_of "Step count: " ++ digits 10 (IrStepCount m) ++ [13]) ;;
  say ISeparator.

(** What [display_header] works from besides the machine, the same at
    every call: the two globals that [get_pico_id] sets at start-up, which
    nothing changes afterwards, and what the local array [String] holds
    on entry; [spaces] is the fuel of each of its loops. *)
Record Board := {
  spaces : nat;
  PicoType : Z;
  PicoUniqueId : list Z;
  header_String : list Z
}.

(** ** display_button_list (Pico-Remote-Analyzer.c, lines 473-509) *)

(** The number of lines per page, [LineCount = 50]. *)
Definition LineCount : Z := 50.

(** [RemoteData[i]] as an rvalue, both members at once. *)
Definition rd_RemoteData (i : Z) : M Entry.t :=
  fun w =>
    match (if 0 <=? i then RemoteData (mem w) !! Z.to_nat i else None) with
    | Some e => Done (e, w)
    | None => Faulty (RemoteDataOutOfBounds i)
    end.

(** Lines 484-488 and 499-503: the banner, the number of buttons and the
    two lines that name the columns. *)
Definition button_heading (h : Board) : IO unit :=
  display_header_text (spaces h) (PicoType h) (PicoUniqueId h) (header_String h) ;;
  m <- lift get_mem ;;
  say (IButtonCount (RemoteDataTotal m)) ;;
  say IButtonColumns.

(** Lines 490-505, one unit of fuel per turn. *)
Fixpoint button_rows (h : Board) (fuel : nat) (Loop1UInt16 : Z) : IO unit :=
  m <- lift get_mem ;;
  if Loop1UInt16 <? RemoteDataTotal m then
    match fuel with
    | O => spent
    | S f =>
        e <- lift (rd_RemoteData Loop1UInt16) ;;
        say (IButtonRow Loop1UInt16 (Entry.ButtonName e) (Entry.CommandId e)) ;;
        (if (Loop1UInt16 mod LineCount =? 0) && negb (Loop1UInt16 =? 0) then
           say IContinued ;;
           say ISeparator ;;
           button_heading h
         else io_ret tt) ;;
        button_rows h f (UINT16 (Loop1UInt16 + 1))
    end
  else io_ret tt.

(** The loop takes as many turns as [RemoteDataTotal] says. *)
Definition display_button_list (h : Board) : IO unit :=
  button_heading h ;;
  m <- lift get_mem ;;
  button_rows h (Z.to_nat (RemoteDataTotal m)) 0 ;;
  say ISeparator.

(** ** display_burst_timing (Pico-Remote-Analyzer.c, lines 389-462) *)

(** [ButtonName] is an array of 64 bytes; [Memory] keeps the C string that
    it holds. *)
Definition array_of (size : nat) (s : string) : list Z :=
  take size (bytes_of s ++ replicate size 0).

Definition set_ButtonName (s : string) (m : Memory) : Memory :=
  Build_Memory (IrFinalValue m) (IrInitialValue m) (IrLevel m) (IrResultValue m)
    (IrStepCount m) s (LevelString m) (RemoteData m) (RemoteDataTotal m).

(** Lines 416-420: [input_string (ButtonName)]. *)
Definition enter_ButtonName : IO unit :=
  say IAskButton ;;
  m <- lift get_mem ;;
  s <- input_string (array_of 64 (ButtonName m)) ;;
  lift (upd_mem (set_ButtonName (string_of (c_str s)))).

(** The arguments [i + 1, LevelString[IrLevel[i]], IrResultValue[i]]
    of the calls of [printf] at lines 437 and 441. *)
Definition step_fields (i : Z) : M (Z * string * Z) :=
  (lvl <- rd ArIrLevel i ;;
   s <- rd_LevelString lvl ;;
   d <- rd ArIrResultValue i ;;
   ret (i + 1, s, d))%C.

(** Lines 435-451: the loop on [Loop2UInt16]; the [break] of line 449
    ends it. *)
Fixpoint timing_rows (fuel : nat) (Loop1UInt16 Loop2UInt16 : Z) : IO unit :=
  if Loop2UInt16 <? Loop1UInt16 + LineCount then
    match fuel with
    | O => spent
    | S f =>
        l <- lift (step_fields Loop2UInt16) ;;
        m <- lift get_mem ;;
        r <- (if IrStepCount m >? Loop2UInt16 + LineCount then
                r <- lift (step_fields (Loop2UInt16 + LineCount)) ;;
                io_ret (Some r)
              else io_ret None) ;;
        say (ITimingRow l r) ;;
        m <- lift get_mem ;;
        if Loop2UInt16 =? IrStepCount m then say ISeparator
        else timing_rows f Loop1UInt16 (UINT16 (Loop2UInt16 + 1))
    end
  else io_ret tt.

(** Lines 423-459: the loop on [Loop1UInt16], one unit of fuel per page. *)
Fixpoint timing_pages (h : Board) (fuel : nat) (Loop1UInt16 : Z) : IO unit :=
  m <- lift get_mem ;;
  if Loop1UInt16 <? IrStepCount m then
    match fuel with
    | O => spent
    | S f =>
        display_header_text (spaces h) (PicoType h) (PicoUniqueId h) (header_String h) ;;
        m <- lift get_mem ;;
        lift (printf (LButton (ButtonName m))) ;;
        say ITimingColumns ;;
        timing_rows (Z.to_nat LineCount) Loop1UInt16 Loop1UInt16 ;;
        m <- lift get_mem ;;
        (if IrStepCount m >? Loop1UInt16 + LineCount * 2 then say IContinued
         else io_ret tt) ;;
        say ISeparator ;;
        timing_pages h f (UINT16 (Loop1UInt16 + LineCount * 2))
    end
  else io_ret tt.

(** [Str] is the local array [String] of 128 bytes, not initialised. *)
Definition display_burst_timing (h : Board) (fuel : nat) (FlagAskButton : Z) (Str : list Z)
    : IO unit :=
  m <- lift get_mem ;;
  if IrStepCount m =? 0 then
    say INoBurst ;;
    _ <- input_string Str ;;
    io_ret tt
  else
    (if negb (FlagAskButton =? 0) then enter_ButtonName else io_ret tt) ;;
    timing_pages h fuel 0.

(** ** decode_ir_command and decode_ir_burst at the console
       (Samsung.c, lines 30-153; Pico-Remote-Analyzer.c, lines 315-378) *)

(** [decode_ir_command] statement by statement, with the banner of line 57
    as it is written and the answer to its question read from the
    keyboard; [Dum1Str] is its local array of 64 bytes, not initialised. *)
Definition decode_ir_command_io (h : Board) (fuel : nat) (IR_COMMAND_TO_EXECUTE garbage : Z)
    (Dum1Str : list Z) : IO (Z * Z) :=
  lift (printf LDecoding) ;;
  m <- lift get_mem ;;
  lift (printf (LTotalSteps (IrStepCount m) NUMBER_OF_STEPS)) ;;
  display_header_text (spaces h) (PicoType h) (PicoUniqueId h) (header_String h) ;;
  m <- lift get_mem ;;
  lift (printf (LButton (ButtonName m))) ;;
  lift (printf LColumns) ;;
  l <- lift (for_loop fuel 0 (entry_locals garbage)) ;;
  say ISeparator ;;
  m <- lift get_mem ;;
  lift (printf (LFinal (DataBuffer l) (IrStepCount m) NUMBER_OF_STEPS)) ;;
  say ISeparator ;;
  lift (printf LPrompt) ;;
  Dum1Str <- input_string Dum1Str ;;
  c <- load Dum1Str 0 ;;
  (if (c =? 120) || (c =? 88) then lift (record_button l) else io_ret tt) ;;
  io_ret (UINT8 IR_COMMAND_TO_EXECUTE, 0).

(** [pages] and [turns] are the fuel of the two loops; [Str] and
    [Str'] are the local arrays [String] of [decode_ir_burst] (256 bytes)
    and of [display_burst_timing]. *)
Definition decode_ir_burst (h : Board) (pages turns : nat) (IR_COMMAND_TO_EXECUTE garbage : Z)
    (FlagAskButton : Z) (Str Str' Dum1Str : list Z) : IO unit :=
  m <- lift get_mem ;;
  if IrStepCount m =? 0 then
    say INoBurst ;;
    _ <- input_string Str ;;
    io_ret tt
  else
    (if negb (FlagAskButton =? 0) then enter_ButtonName else io_ret tt) ;;
    display_burst_timing h pages FLAG_OFF Str' ;;
    _ <- decode_ir_command_io h turns IR_COMMAND_TO_EXECUTE garbage Dum1Str ;;
    io_ret tt.

Close Scope io_scope.

(** ** Notions used in the statements about the console *)

(** A key that [input_string] stores: neither a time-out, nor NUL, nor
    Backspace, nor Enter. *)
Definition ordinary (k : Z) : Prop := 0 < k < 255 /\ k <> 8 /\ k <> 13.

(** The echo of the characters [cs], newest first. *)
Definition echo (cs : list Z) : list Item := map (fun c => IChars [c]) (rev cs).

(** [mc] after the keys have been taken up to [rest] and [items] printed. *)
Definition after (rest : list Z) (items : list Item) (mc : Machine) : Machine :=
  Build_Machine (world mc) rest (items ++ screen mc) (BrandName mc) (RemoteModel mc).

(** What a key other than Enter does to the line typed so far: a
    time-out and NUL leave it as it is, Backspace takes its last
    character away, any other key is added at its end. *)
Definition strike (line : list Z) (k : Z) : list Z :=
  if (int8_t k =? PICO_ERROR_TIMEOUT) || (int8_t k =? 0) then line
  else if int8_t k =? 8 then removelast line
  else line ++ [UCHAR (int8_t k)].

(** The line on the screen after the keys [ks]. *)
Definition typed (ks : list Z) : list Z := fold_left strike ks [].

(** [mc] after the reads [acc] of the event arrays and the items [items]
    printed, both newest first. *)
Definition shown (acc : list Access) (items : list Item) (mc : Machine) : Machine :=
  Build_Machine
    (Build_World (mem (world mc)) (timer (world mc)) (console (world mc))
       (acc ++ accesses (world mc)))
    (keys mc) (items ++ screen mc) (BrandName mc) (RemoteModel mc).

(** The entry of [RemoteData] at index [i]. *)
Definition entry_at (m : Memory) (i : Z) : Entry.t :=
  default (Entry.Build EmptyString 0) (RemoteData m !! Z.to_nat i).

(** The row of the button list for the entry at index [i]. *)
Definition button_row (m : Memory) (i : Z) : Z * string * Z :=
  (i, Entry.ButtonName (entry_at m i), Entry.CommandId (entry_at m i)).

(** The rows of the button list among the items printed, oldest first. *)
Definition listed (items : list Item) : list (Z * string * Z) :=
  omap (fun it => match it with
                  | IButtonRow i name command => Some (i, name, command)
                  | _ => None
                  end) (rev items).

(** What a row of the timing table shows for the step of index [i]: its
    number, the name of its level and its duration. *)
Definition step_row (m : Memory) (i : Z) : Z * string * Z :=
  (i + 1, level_name m i, peek ArIrResultValue i m).

(** The steps shown by the rows of the timing table among the items
    printed, oldest first, the left column of a row before the right one. *)
Definition timed (items : list Item) : list (Z * string * Z) :=
  flat_map (fun it => match it with
                      | ITimingRow l r => l :: match r with Some e => [e] | None => [] end
                      | _ => []
                      end) (rev items).

(** What the row that starts at the step of index [j] shows: that step,
    and in the right column the step 50 places later if the burst has
    one. *)
Definition row_entries (m : Memory) (j : Z) : list (Z * string * Z) :=
  step_row m j ::
  (if IrStepCount m >? j + LineCount then [step_row m (j + LineCount)] else []).

(** The step number that an entry of the timing table shows. *)
Definition number (e : Z * string * Z) : Z := e.1.1.

(** The memory after lines 146-148 have recorded [command] under the name
    held by [ButtonName]. *)
Definition recorded (command : Z) (m : Memory) : Memory :=
  set_RemoteDataTotal (UINT16 (RemoteDataTotal m + 1))
    (set_RemoteData
       (<[Z.to_nat (RemoteDataTotal m) := Entry.Build (ButtonName m) command]> (RemoteData m))
       m).

(** The test of line 144 on the first character of the answer. *)
Definition is_x (c : Z) : bool := (c =? 120) || (c =? 88).

(** The stamp that [uart_send] puts before a line: its number and the
    time, each between brackets. *)
Definition stamp (LineNumber t : Z) : list Z :=
  (bytes_of "[" ++ lu 7 LineNumber ++ bytes_of "] ") ++
  (bytes_of "[" ++ lu 10 t ++ bytes_of "] ").

(** The test of line 867 on the first character of the line: one of
    [-], carriage return, ESC and [|]. *)
Definition bare (s : list Z) : bool :=
  match s with
  | c :: _ => (c =? 45) || (c =? 13) || (c =? 27) || (c =? 124)
  | [] => false
  end.

(** The part of a file name before its first dot. *)
Fixpoint stem (f : list Z) : list Z :=
  match f with
  | [] => []
  | c :: f' => if c =? 46 then [] else c :: stem f'
  end.


(** * The main loop (Pico-Remote-Analyzer.c, lines 222-292) *)

Local Open Scope io_scope.

(** ** atoi (stdlib.h)

    White space, an optional sign, then decimal digits up to the first
    character that is not one; the C library gives no meaning to a value
    that an [int] cannot hold. *)
Definition isspace (c : Z) : bool := (c =? 32) || ((9 <=? c) && (c <=? 13)).
Definition isdigit (c : Z) : bool := (48 <=? c) && (c <=? 57).

Fixpoint skip_space (s : list Z) : list Z :=
  match s with
  | c :: s' => if isspace c then skip_space s' else s
  | [] => []
  end.

Fixpoint decimal (acc : Z) (s : list Z) : Z :=
  match s with
  | c :: s' => if isdigit c then decimal (10 * acc + (c - 48)) s' else acc
  | [] => acc
  end.

Definition INT_MAX : Z := 2 ^ 31 - 1.
Definition INT_MIN : Z := - 2 ^ 31.

(** The number that a text spells for [atoi]. *)
Definition spelled (text : list Z) : Z :=
  match skip_space text with
  | 45 :: ds => - decimal 0 ds
  | 43 :: ds => decimal 0 ds
  | ds => decimal 0 ds
  end.

Definition atoi (s : list Z) : IO Z :=
  text <- text_of s ;;
  if (INT_MIN <=? spelled text) && (spelled text <=? INT_MAX) then io_ret (spelled text)
  else break Unrepresentable.

(** ** The wait for a burst (lines 233-235)

    [main] sleeps until the handler has counted a step, and 250 ms more.
    The burst [durs] comes in that time: the falling edge that starts it
    at time [t], then one edge at the end of each duration.  No edge comes
    later in the turn.  When the handler has counted nothing, [main] never
    leaves line 233. *)
Definition set_timer (ticks : list Z) : IO unit :=
  fun mc => Returned (tt, Build_Machine (with_timer ticks (world mc)) (keys mc) (screen mc)
                            (BrandName mc) (RemoteModel mc)).

Definition starve {A} : IO A := fun _ => Starved.

Definition await_burst (t : Z) (durs : list Z) : IO unit :=
  set_timer (t :: edge_times t durs) ;;
  lift (isr_signal_trap IR_RX GPIO_IRQ_EDGE_FALL) ;;
  lift (edges true (length durs)) ;;
  m <- lift get_mem ;;
  if IrStepCount m =? 0 then starve else io_ret tt.

(** ** One turn of the loop (lines 222-292)

    [Str] is the array [String] of [main], 256 bytes that keep their
    content from one turn to the next.  The other arrays are the locals of
    the functions called, not initialised: [Dum1UChar] of
    [enter_remote_id], [Str3] of [decode_ir_burst], [Str2] of
    [display_burst_timing] and [Dum1Str] of [decode_ir_command], whose
    local [Loop2UInt16] holds [garbage].  [pages] and [turns] are the fuel
    of the loops of the last two. *)

(** Lines 225-251: up to the answer to the menu; the result is the array
    [String]. *)
Definition main_menu (h : Board) (t : Z) (durs : list Z) (Str : list Z) : IO (list Z) :=
  lift init_burst_variables ;;
  m <- lift get_mem ;;
  say (IStepCount (IrStepCount m)) ;;
  say IAwaitBurst ;;
  await_burst t durs ;;
  display_header_text (spaces h) (PicoType h) (PicoUniqueId h) (header_String h) ;;
  m <- lift get_mem ;;
  say (IStepCount (IrStepCount m)) ;;
  say IMenu ;;
  input_string Str.

(** Lines 252-291: the choice. *)
Definition main_choice (h : Board) (pages turns : nat) (IR_COMMAND_TO_EXECUTE garbage : Z)
    (Dum1UChar Str3 Str2 Dum1Str Str : list Z) : IO unit :=
  c <- load Str 0 ;;
  if c =? 13 then io_ret tt
  else
    n <- atoi Str ;;
    let Menu := UINT32 n in
    if Menu =? 1 then enter_remote_id Dum1UChar
    else if Menu =? 2 then display_burst_timing h pages FLAG_ON Str2
    else if Menu =? 3 then
      decode_ir_burst h pages turns IR_COMMAND_TO_EXECUTE garbage FLAG_ON Str3 Str2 Dum1Str
    else if Menu =? 4 then display_button_list h
    else
      text <- text_of Str ;;
      say (IInvalidChoice text Menu).

(** The result is the array [String] at the end of the turn. *)
Definition main_turn (h : Board) (pages turns : nat) (IR_COMMAND_TO_EXECUTE garbage t : Z)
    (durs : list Z) (Dum1UChar Str3 Str2 Dum1Str Str : list Z) : IO (list Z) :=
  Str <- main_menu h t durs Str ;;
  main_choice h pages turns IR_COMMAND_TO_EXECUTE garbage Dum1UChar Str3 Str2 Dum1Str Str ;;
  io_ret Str.

Close Scope io_scope.

(** ** Notions used in the statements about the main loop *)

(** What neither [init_burst_variables] nor the handler touches in the
    memory: the button name, the names of the levels and the buttons
    recorded. *)
Definition records (m : Memory) : string * list string * list Entry.t * Z :=
  (ButtonName m, LevelString m, RemoteData m, RemoteDataTotal m).

(** [c] leaves the records and the console as they are. *)
Definition keeps {A} (c : M A) : Prop :=
  forall w a w', c w = Done (a, w') ->
    records (mem w') = records (mem w) /\ console w' = console w.

(** [mc] with the world [w]. *)
Definition on_world (w : World) (mc : Machine) : Machine :=
  Build_Machine w (keys mc) (screen mc) (BrandName mc) (RemoteModel mc).

(** ** Notions used in the statements about the banner *)

(** A line as the banner shows it, newest item first: the text after as
    many spaces as half of what the bar has more than the text. *)
Definition centred (text : list Z) : list Item :=
  IChars text ::
  replicate (Z.to_nat ((Z.of_nat (length Separator) - Z.of_nat (length text)) / 2))
    (IChars [32]).

(** The six texts of the banner. *)
Definition banner_texts (PicoType : Z) (id brand model : list Z) (count : Z)
    : list (list Z) :=
  [bytes_of "Flash-Remote-Analyzer" ++ [13];
   bytes_of "Microcontroller is a " ++
     (if PicoType =? TYPE_PICO then bytes_of "Pico" else bytes_of "Pico W") ++ [13];
   bytes_of "Pico's Unique ID: " ++ id ++ [13];
   bytes_of "Brand under analysis: " ++ brand ++ [13];
   bytes_of "Remote control model number: " ++ model ++ [13];
   bytes_of "Step count: " ++ digits 10 count ++ [13]].

(** What [display_header] leaves on the screen, newest item first. *)
Definition banner (h : Board) (mc : Machine) : list Item :=
  ISeparator ::
  flat_map centred
    (rev (banner_texts (PicoType h) (c_str (PicoUniqueId h)) (c_str (BrandName mc))
            (c_str (RemoteModel mc)) (IrStepCount (mem (world mc))))) ++
  [ISeparator].

(** The items of the banner: the bar and characters. *)
Definition is_text (it : Item) : bool :=
  match it with
  | ISeparator | IChars _ => true
  | _ => false
  end.

(** [s] holds a C string of at most [limit] characters. *)
Definition short_enough (limit : nat) (s : list Z) : Prop :=
  match strlen s with
  | Some n => (n <= limit)%nat
  | None => False
  end.

(** The conditions under which [display_header] prints the banner and
    returns: 128 bytes for its [String], fuel for its loops, a Unique ID
    of at most 40 characters, a brand of at most 83 and a model of at
    most 76. *)
Definition banner_fits (h : Board) (mc : Machine) : Prop :=
  length (header_String h) = 128%nat /\ (53 <= spaces h)%nat /\
  short_enough 40 (PicoUniqueId h) /\
  short_enough 83 (BrandName mc) /\ short_enough 76 (RemoteModel mc).

(** ** Console sessions

    The machine on the world [w] with the keys [ks] waiting, an empty
    screen and the names that [main] sets at lines 163-166. *)
Definition console_on (w : World) (ks : list Z) : Machine :=
  Build_Machine w ks [] (array_of 128 "Samsung") (array_of 128 "TBD").

(** The world after a burst of four steps. *)
Definition long_low_world : World := world_of (captured long_low_burst).

(** The Power world with a step count that has passed MAX_IR_READINGS. *)
Definition overrun_world : World :=
  Build_World (set_IrStepCount (MAX_IR_READINGS + 1) (mem power_world)) [] [] [].

(** A Pico with the Unique ID string that [get_pico_id] builds from the
    identifier E6 60 58 38 83 5C 11 2A. *)
Definition pico_board : Board :=
  Build_Board 53 1 (array_of 41 "E660-5838-835C-112A") (replicate 128 0).

(** The Power world with two buttons recorded. *)
Definition recorded_world : World :=
  Build_World
    (recorded 0xE0E0E01F
       (set_ButtonName "Volume up"
          (recorded 0xE0E040BF (set_ButtonName "Power" (mem power_world)))))
    [] [] [].
(** * Properties *)

(** ** Running the primitives *)

Lemma wf_cells m a : wf m -> Z.of_nat (length (cells a m)) = MAX_IR_READINGS.
Proof.
  unfold wf, wf_b. rewrite !andb_true_iff. intros [[[H _] _] _].
  simpl in H. rewrite !andb_true_iff in H.
  destruct a; simpl; lia.
Qed.

Lemma wf_level m i : wf m -> 0 <= peek ArIrLevel i m < 3.
Proof.
  unfold wf, wf_b. rewrite !andb_true_iff. intros [[[_ H] _] _].
  unfold peek. simpl. destruct (IrLevel m !! Z.to_nat i) as [v|] eqn:E; simpl; [|lia].
  rewrite forallb_forall in H.
  apply list_elem_of_lookup_2, list_elem_of_In in E. specialize (H _ E).
  simpl in H. lia.
Qed.

Lemma wf_rows m : wf m -> length (LevelString m) = 3%nat.
Proof. unfold wf, wf_b. rewrite !andb_true_iff. lia. Qed.

Lemma wf_remote m : wf m -> Z.of_nat (length (RemoteData m)) = REMOTE_DATA_SIZE.
Proof. unfold wf, wf_b. rewrite !andb_true_iff. lia. Qed.

Lemma rd_done a i w :
  wf (mem w) -> 0 <= i < MAX_IR_READINGS ->
  rd a i w = Done (peek a i (mem w),
                   Build_World (mem w) (timer w) (console w) (Rd a i :: accesses w)).
Proof.
  intros Hwf Hi. unfold rd, bind, get_mem.
  rewrite (wf_cells _ a Hwf).
  replace ((0 <=? i) && (i <? MAX_IR_READINGS)) with true
    by (symmetry; apply andb_true_iff; lia).
  reflexivity.
Qed.

Lemma wr_fault a i v w :
  wf (mem w) -> MAX_IR_READINGS <= i ->
  wr a i v w = Faulty (OutOfBounds a i).
Proof.
  intros Hwf Hi. unfold wr, bind, get_mem.
  rewrite (wf_cells _ a Hwf).
  replace (i <? MAX_IR_READINGS) with false by (symmetry; apply Z.ltb_ge; lia).
  rewrite andb_false_r. reflexivity.
Qed.

Lemma rd_LevelString_done i m w :
  mem w = m -> wf m ->
  rd_LevelString (peek ArIrLevel i m) w = Done (level_name m i, w).
Proof.
  intros <- Hwf. unfold rd_LevelString, bind, get_mem, level_name.
  pose proof (wf_level _ i Hwf) as Hl. pose proof (wf_rows _ Hwf) as Hr.
  replace (0 <=? peek ArIrLevel i (mem w)) with true by (symmetry; apply Z.leb_le; lia).
  destruct (lookup_lt_is_Some_2 (LevelString (mem w)) (Z.to_nat (peek ArIrLevel i (mem w))))
    as [s Hs]; [lia|].
  rewrite Hs. reflexivity.
Qed.

(** One statement of a sequence, run on a well-formed memory. *)
Ltac run_rd :=
  unfold bind at 1; rewrite rd_done by (cbn [mem]; auto; lia); cbn [mem].
Ltac run_name H :=
  unfold bind at 1;
  match goal with
  | |- context [rd_LevelString (peek ArIrLevel ?i ?m) ?w0] =>
      rewrite (rd_LevelString_done i m w0 eq_refl H)
  end.

Lemma print_pair_done step fmt w :
  wf (mem w) -> 0 <= step -> step + 1 < MAX_IR_READINGS ->
  print_pair step fmt w =
  Done (tt, Build_World (mem w) (timer w)
              (fmt (level_name (mem w) step) (peek ArIrResultValue step (mem w))
                   (level_name (mem w) (step + 1))
                   (peek ArIrResultValue (step + 1) (mem w)) :: console w)
              (pair_reads step ++ accesses w)).
Proof.
  intros Hwf H0 H1. unfold print_pair.
  run_rd. run_name Hwf. run_rd. run_rd. run_name Hwf. run_rd.
  reflexivity.
Qed.

(** ** Runs that end normally *)

Lemma ok_ret {A} (a : A) w (R : A -> World -> Prop) : R a w -> ok (ret a) w R.
Proof. intros H. exists a, w. split; [reflexivity | exact H]. Qed.

Lemma ok_bind {A B} (c : M A) (k : A -> M B) w (R : B -> World -> Prop) :
  ok c w (fun a w1 => ok (k a) w1 R) -> ok (bind c k) w R.
Proof.
  intros (a & w1 & Hc & b & w2 & Hk & HR).
  exists b, w2. split; [|exact HR]. unfold bind. rewrite Hc. exact Hk.
Qed.

Lemma ok_weaken {A} (c : M A) w (R R' : A -> World -> Prop) :
  ok c w R -> (forall a w', R a w' -> R' a w') -> ok c w R'.
Proof. intros (a & w' & Hc & HR) H. exists a, w'. auto. Qed.

Lemma ok_rd a i w (R : Z -> World -> Prop) :
  wf (mem w) -> 0 <= i < MAX_IR_READINGS ->
  R (peek a i (mem w)) (Build_World (mem w) (timer w) (console w) (Rd a i :: accesses w)) ->
  ok (rd a i) w R.
Proof. intros Hwf Hi HR. eexists _, _. split; [apply rd_done; assumption | exact HR]. Qed.

Lemma ok_printf ln w (R : unit -> World -> Prop) :
  R tt (Build_World (mem w) (timer w) (ln :: console w) (accesses w)) ->
  ok (printf ln) w R.
Proof. intros HR. eexists _, _. split; [reflexivity | exact HR]. Qed.

Lemma ok_get_mem w (R : Memory -> World -> Prop) : R (mem w) w -> ok get_mem w R.
Proof. intros HR. eexists _, _. split; [reflexivity | exact HR]. Qed.

Lemma ok_time_us_32 w (R : Z -> World -> Prop) :
  (forall t ts, R t (Build_World (mem w) ts (console w) (accesses w))) ->
  ok time_us_32 w R.
Proof.
  intros HR. unfold time_us_32, bind, time_us_64, ret, ok.
  destruct w as [m tm co ac]; simpl in *. destruct tm as [|t ts]; eexists _, _; split;
    try reflexivity; apply HR.
Qed.

Lemma ok_print_pair step fmt w (R : unit -> World -> Prop) :
  wf (mem w) -> 0 <= step -> step + 1 < MAX_IR_READINGS ->
  R tt (Build_World (mem w) (timer w)
          (fmt (level_name (mem w) step) (peek ArIrResultValue step (mem w))
               (level_name (mem w) (step + 1))
               (peek ArIrResultValue (step + 1) (mem w)) :: console w)
          (pair_reads step ++ accesses w)) ->
  ok (print_pair step fmt) w R.
Proof.
  intros Hwf H0 H1 HR. eexists _, _. split; [apply print_pair_done; assumption | exact HR].
Qed.

Lemma grows_refl P Q w : grows P Q w w.
Proof. repeat split; exists []; split; auto. Qed.

Lemma grows_cons_acc P Q w m ts ls acc x :
  grows P Q w (Build_World m ts ls acc) -> P x ->
  grows P Q w (Build_World m ts ls (x :: acc)).
Proof.
  intros (Hm & (ac & Ha & HP) & Hc) Hx. cbn in *. repeat split; cbn; auto.
  exists (x :: ac). rewrite Ha. split; [reflexivity | constructor; auto].
Qed.

Lemma grows_cons_line P Q w m ts ls acc ln :
  grows P Q w (Build_World m ts ls acc) -> Q ln ->
  grows P Q w (Build_World m ts (ln :: ls) acc).
Proof.
  intros (Hm & Ha & (l & Hc & HQ)) Hx. cbn in *. repeat split; cbn; auto.
  exists (ln :: l). rewrite Hc. split; [reflexivity | constructor; auto].
Qed.

Lemma grows_base P Q w w1 ts :
  grows P Q w w1 ->
  grows P Q w (Build_World (mem w1) ts (console w1) (accesses w1)).
Proof. intros (Hm & Ha & Hc). repeat split; cbn; auto. Qed.

Lemma grows_trans P Q w w1 w2 :
  grows P Q w w1 -> grows P Q w1 w2 -> grows P Q w w2.
Proof.
  intros (Hm & (acc & Ha & HP) & (ls & Hc & HQ)) (Hm' & (acc' & Ha' & HP') & (ls' & Hc' & HQ')).
  repeat split; [congruence | |].
  - exists (acc' ++ acc). rewrite Ha', Ha, app_assoc. split; [reflexivity|].
    apply Forall_app; auto.
  - exists (ls' ++ ls). rewrite Hc', Hc, app_assoc. split; [reflexivity|].
    apply Forall_app; auto.
Qed.

Lemma grows_In_access P Q w w' x : grows P Q w w' -> In x (accesses w) -> In x (accesses w').
Proof. intros (_ & (acc & -> & _) & _) H. apply in_or_app. auto. Qed.

Lemma grows_In_console P Q w w' x : grows P Q w w' -> In x (console w) -> In x (console w').
Proof. intros (_ & _ & (ls & -> & _)) H. apply in_or_app. auto. Qed.

(** ** The blocks of the decoder *)

(** Closing a goal [grows P Q w0 w'] where [w'] is [w] with entries consed
    on its console and access list. *)
Ltac grows_tac :=
  cbn [mem timer console accesses pair_reads app];
  repeat first
    [ assumption
    | apply grows_base; assumption
    | apply grows_cons_acc; [|solve [auto]]
    | apply grows_cons_line; [|solve [auto]] ].

Ltac norm :=
  cbv beta iota;
  cbn [mem timer console accesses Loop2UInt16 BitNumber FlagError DataBuffer
       set_FlagError set_DataBuffer set_BitNumber set_Loop2UInt16].

Ltac ok_prim :=
  lazymatch goal with
  | |- ok (ret _) _ _ => apply ok_ret
  | |- ok (rd _ _) _ _ => apply ok_rd; [cbn [mem]; assumption | cbn [mem]; lia | ]
  | |- ok (printf _) _ _ => apply ok_printf
  | |- ok get_mem _ _ => apply ok_get_mem
  | |- ok time_us_32 _ _ => apply ok_time_us_32; intros ? ?
  | |- ok (print_pair _ _) _ _ =>
      apply ok_print_pair; [cbn [mem]; assumption | lia | lia | ]
  end.

Ltac ok_step :=
  norm;
  lazymatch goal with
  | |- ok (bind _ _) _ _ => apply ok_bind; ok_prim
  | |- _ => ok_prim
  end;
  norm.

#[local] Hint Extern 1 (plain _) => exact I : core.

Section Blocks.

(** [P] holds of the cells a block may touch, [Q] of the lines it may
    print. *)
Variables (P : Access -> Prop) (Q : Line -> Prop).

Lemma half_bit_spec s l w0 w :
  wf (mem w) -> 0 <= s + Loop2UInt16 l < MAX_IR_READINGS ->
  (forall a, P (Rd a (s + Loop2UInt16 l))) -> (forall st e v, Q (LErrorLow st e v)) ->
  grows P Q w0 w ->
  ok (half_bit s l) w (fun l' w' => grows P Q w0 w' /\ Loop2UInt16 l' = Loop2UInt16 l).
Proof.
  intros Hwf Hi HP HQ Hg. unfold half_bit.
  ok_step. destruct (_ =? 0).
  - ok_step. destruct (_ >? _).
    + repeat ok_step. split; [grows_tac | reflexivity].
    + ok_step. split; [grows_tac | reflexivity].
  - cbn [set_DataBuffer Loop2UInt16]. ok_step. destruct (_ >? _).
    + ok_step. destruct (_ <? _); ok_step; (split; [grows_tac | reflexivity]).
    + ok_step. split; [grows_tac | reflexivity].
Qed.

Lemma grows_mem w0 w w' : grows P Q w0 w -> grows P Q w0 w' -> mem w' = mem w.
Proof. intros (H & _) (H' & _). congruence. Qed.

Lemma half_bit_loop_exit f s l w :
  2 <= Loop2UInt16 l -> half_bit_loop f s l w = Done (l, w).
Proof.
  intros H. destruct f; cbn [half_bit_loop];
    (replace (Loop2UInt16 l <? 2) with false by (symmetry; apply Z.ltb_ge; lia));
    reflexivity.
Qed.

Lemma half_bit_loop_turn f s l w0 w (R : Locals -> World -> Prop) :
  wf (mem w) -> 0 <= s -> s + 1 < MAX_IR_READINGS ->
  Loop2UInt16 l = 0 \/ Loop2UInt16 l = 1 ->
  (forall a, P (Rd a s)) -> (forall a, P (Rd a (s + 1))) ->
  (forall st e v, Q (LErrorLow st e v)) ->
  grows P Q w0 w ->
  (forall l1 w1, grows P Q w0 w1 -> Loop2UInt16 l1 = Loop2UInt16 l + 1 ->
     ok (half_bit_loop f s l1) w1 R) ->
  ok (half_bit_loop (S f) s l) w R.
Proof.
  intros Hwf H0 H1 Hl HP0 HP1 HQ Hg Hk. cbn [half_bit_loop].
  replace (Loop2UInt16 l <? 2) with true by (symmetry; apply Z.ltb_lt; lia).
  apply ok_bind. eapply ok_weaken.
  { apply (half_bit_spec s l w0 w); auto; [lia|].
    destruct Hl as [-> | ->]; rewrite ?Z.add_0_r; auto. }
  intros l1 w1 [Hg1 E1]. cbv beta. apply Hk; [exact Hg1|].
  cbn [Loop2UInt16 set_Loop2UInt16]. rewrite E1.
  destruct Hl as [-> | ->]; reflexivity.
Qed.

Lemma half_bit_loop_spec s l w0 w :
  wf (mem w) -> 0 <= s -> s + 1 < MAX_IR_READINGS -> 0 <= Loop2UInt16 l ->
  (forall a, P (Rd a s)) -> (forall a, P (Rd a (s + 1))) ->
  (Loop2UInt16 l < 2 -> forall st e v, Q (LErrorLow st e v)) ->
  grows P Q w0 w ->
  ok (half_bit_loop 2 s l) w (fun l' w' =>
    grows P Q w0 w' /\ 2 <= Loop2UInt16 l' /\ (2 <= Loop2UInt16 l -> l' = l)).
Proof.
  intros Hwf H0 H1 Hl HP0 HP1 HQe Hg.
  assert (Hwf' : forall w1, grows P Q w0 w1 -> wf (mem w1)).
  { intros w1 Hg1. rewrite (grows_mem _ _ _ Hg Hg1). exact Hwf. }
  assert (Hexit : forall f l1 w1, grows P Q w0 w1 -> 2 <= Loop2UInt16 l1 ->
            (2 <= Loop2UInt16 l -> l1 = l) ->
            ok (half_bit_loop f s l1) w1 (fun l' w' =>
              grows P Q w0 w' /\ 2 <= Loop2UInt16 l' /\ (2 <= Loop2UInt16 l -> l' = l))).
  { intros f l1 w1 Hg1 E1 Hsame. exists l1, w1.
    split; [apply half_bit_loop_exit; exact E1 | auto]. }
  assert (Hcase : Loop2UInt16 l = 0 \/ Loop2UInt16 l = 1 \/ 2 <= Loop2UInt16 l) by lia.
  destruct Hcase as [E | [E | E]].
  - pose proof (HQe ltac:(lia)) as HQ.
    apply (half_bit_loop_turn 1 s l w0 w); auto.
    intros l1 w1 Hg1 E1.
    apply (half_bit_loop_turn 0 s l1 w0 w1); auto; [lia|].
    intros l2 w2 Hg2 E2. apply Hexit; [exact Hg2 | lia | intros ?; lia].
  - pose proof (HQe ltac:(lia)) as HQ.
    apply (half_bit_loop_turn 1 s l w0 w); auto.
    intros l1 w1 Hg1 E1. apply Hexit; [exact Hg1 | lia | intros ?; lia].
  - apply Hexit; auto.
Qed.

Lemma data_bit_block_spec s l w0 w :
  wf (mem w) -> 0 <= s -> s + 1 < MAX_IR_READINGS ->
  (forall a, P (Rd a s)) -> (forall a, P (Rd a (s + 1))) ->
  (forall ln, plain ln -> Q ln) ->
  grows P Q w0 w ->
  ok (data_bit_block s l) w (fun l' w' =>
    grows P Q w0 w' /\
    l' = (if takes_bit (BitNumber l)
          then set_DataBuffer (folded (mem w) s (DataBuffer l)) l else l) /\
    (takes_bit (BitNumber l) = true -> In (Rd ArIrResultValue (s + 1)) (accesses w'))).
Proof.
  intros Hwf H0 H1 HP0 HP1 HQ Hg. unfold data_bit_block. fold (takes_bit (BitNumber l)).
  destruct (takes_bit (BitNumber l)).
  - ok_step. ok_step. ok_step. split; [|split].
    + grows_tac.
    + unfold folded, high_is_one. destruct (_ >? _); reflexivity.
    + intros _. cbn. auto.
  - ok_step. split; [exact Hg|]. split; [reflexivity | discriminate].
Qed.

Lemma extra_bit_block_spec s l w0 w :
  wf (mem w) -> 0 <= s -> s + 1 < MAX_IR_READINGS ->
  (forall a, P (Rd a s)) -> (forall a, P (Rd a (s + 1))) ->
  (forall ln, plain ln -> Q ln) ->
  grows P Q w0 w ->
  ok (extra_bit_block s l) w (fun _ w' =>
    grows P Q w0 w' /\
    (BitNumber l > NUMBER_OF_BITS -> In (Rd ArIrResultValue (s + 1)) (accesses w'))).
Proof.
  intros Hwf H0 H1 HP0 HP1 HQ Hg. unfold extra_bit_block.
  destruct (BitNumber l >? NUMBER_OF_BITS) eqn:E.
  - eapply ok_print_pair; auto. split.
    + grows_tac.
    + intros _. cbn. auto.
  - ok_step. split; [exact Hg|]. intros H. rewrite Z.gtb_ltb in E. apply Z.ltb_ge in E. lia.
Qed.

Lemma separator_block_spec s l w0 w :
  wf (mem w) -> 0 <= s -> s + 1 < MAX_IR_READINGS -> 0 <= Loop2UInt16 l ->
  (forall a, P (Rd a s)) -> (forall a, P (Rd a (s + 1))) ->
  (forall ln, plain ln -> Q ln) ->
  (Loop2UInt16 l < 2 -> forall st e v, Q (LErrorLow st e v)) ->
  (is_separator (mem w) s = true -> Q (LEndOfData s)) ->
  grows P Q w0 w ->
  ok (separator_block s l) w (fun l' w' =>
    grows P Q w0 w' /\ 0 <= Loop2UInt16 l' /\
    (is_separator (mem w) s = true \/ 2 <= Loop2UInt16 l -> l' = l) /\
    (is_separator (mem w) s = true -> exists rest, console w' = LEndOfData s :: rest) /\
    (is_separator (mem w) s = false -> 2 <= Loop2UInt16 l')).
Proof.
  intros Hwf H0 H1 Hl HP0 HP1 HQ HQe HQs Hg. unfold separator_block, is_separator in *.
  ok_step. apply ok_bind.
  destruct (peek ArIrResultValue s (mem w) >? SEPARATOR) eqn:Elo.
  - ok_step. ok_step. ok_step. cbn [orb] in *.
    split; [grows_tac|]. repeat split; eauto; discriminate.
  - cbn [orb] in *. ok_step. ok_step.
    destruct (peek ArIrResultValue (s + 1) (mem w) >? SEPARATOR) eqn:Ehi.
    + ok_step. ok_step. split; [grows_tac|]. repeat split; eauto; discriminate.
    + eapply ok_weaken.
      { apply (half_bit_loop_spec s l w0); cbn [mem]; auto; grows_tac. }
      intros l' w' (Hg' & E' & Hsame). cbv beta.
      split; [exact Hg'|]. split; [lia|]. split; [|split].
      * intros [? | ?]; [discriminate | auto].
      * discriminate.
      * auto.
Qed.

Lemma bit_number_small s :
  NUMBER_OF_WAKEUP_STEPS <= s -> s + 1 < MAX_IR_READINGS ->
  UINT8 ((s - NUMBER_OF_WAKEUP_STEPS) / 2 + 1) = (s - NUMBER_OF_WAKEUP_STEPS) / 2 + 1 /\
  1 <= (s - NUMBER_OF_WAKEUP_STEPS) / 2 + 1 <= 249.
Proof.
  unfold NUMBER_OF_WAKEUP_STEPS, MAX_IR_READINGS, UINT8. intros H0 H1.
  assert (1 <= (s - 2) / 2 + 1 <= 249) by (Z.div_mod_to_equations; lia).
  split; [apply Z.mod_small; lia | assumption].
Qed.

Lemma loop_body_spec s l w0 w :
  wf (mem w) -> 0 <= s -> s + 1 < MAX_IR_READINGS -> 0 <= Loop2UInt16 l ->
  (forall a, P (Rd a s)) -> (forall a, P (Rd a (s + 1))) ->
  (forall ln, plain ln -> Q ln) ->
  (Loop2UInt16 l < 2 -> forall st e v, Q (LErrorLow st e v)) ->
  (NUMBER_OF_WAKEUP_STEPS <= s -> is_separator (mem w) s = true -> Q (LEndOfData s)) ->
  grows P Q w0 w ->
  ok (loop_body s l) w (fun l' w' =>
    grows P Q w0 w' /\ 0 <= Loop2UInt16 l' /\
    In (Rd ArIrResultValue (s + 1)) (accesses w') /\
    (s < NUMBER_OF_WAKEUP_STEPS \/ is_separator (mem w) s = true \/ 2 <= Loop2UInt16 l ->
     l' = step_locals (mem w) s l) /\
    (NUMBER_OF_WAKEUP_STEPS <= s -> is_separator (mem w) s = true ->
     exists rest, console w' = LEndOfData s :: rest) /\
    (NUMBER_OF_WAKEUP_STEPS <= s -> is_separator (mem w) s = false -> 2 <= Loop2UInt16 l')).
Proof.
  intros Hwf H0 H1 Hl HP0 HP1 HQ HQe HQs Hg. unfold loop_body, step_locals.
  destruct (s >=? NUMBER_OF_WAKEUP_STEPS) eqn:Es.
  - assert (Hs : NUMBER_OF_WAKEUP_STEPS <= s) by lia.
    destruct (bit_number_small s Hs H1) as [Ebn Hbn]. rewrite Ebn.
    set (bn := (s - NUMBER_OF_WAKEUP_STEPS) / 2 + 1) in *.
    apply ok_bind. eapply ok_weaken.
    { apply (data_bit_block_spec s (set_BitNumber bn l) w w); auto using grows_refl. }
    intros l1 w1 (Hg1 & El1 & Hin1). cbv beta.
    assert (Hm1 : mem w1 = mem w) by apply Hg1.
    apply ok_bind. eapply ok_weaken.
    { apply (extra_bit_block_spec s l1 w1 w1); auto using grows_refl.
      rewrite Hm1. exact Hwf. }
    intros [] w2 (Hg2 & Hin2). cbv beta.
    assert (Hm2 : mem w2 = mem w) by (destruct Hg2 as [-> _]; exact Hm1).
    assert (Hbn1 : BitNumber l1 = bn /\ Loop2UInt16 l1 = Loop2UInt16 l).
    { rewrite El1. destruct (takes_bit _); split; reflexivity. }
    destruct Hbn1 as [Hbn1 Hl1].
    eapply ok_weaken.
    { apply (separator_block_spec s l1 w2 w2); auto using grows_refl;
        rewrite ?Hm2, ?Hl1; auto. }
    intros l3 w3 (Hg3 & Hl3 & Hsame & Hmark & Hleft). rewrite Hm2 in *.
    split; [|split; [|split; [|split; [|split]]]].
    + eapply grows_trans; [exact Hg|]. eapply grows_trans; [exact Hg1|].
      eapply grows_trans; [exact Hg2 | exact Hg3].
    + exact Hl3.
    + eapply grows_In_access; [exact Hg3|].
      destruct (takes_bit bn) eqn:Et.
      * eapply grows_In_access; [exact Hg2|]. apply Hin1. exact Et.
      * apply Hin2. rewrite Hbn1. unfold takes_bit in Et.
        apply andb_false_iff in Et. destruct Et as [Et | Et]; lia.
    + intros [Hc | Hc]; [lia|]. rewrite Hsame by (rewrite Hl1; exact Hc).
      rewrite El1. cbn [BitNumber set_BitNumber DataBuffer FlagError Loop2UInt16].
      destruct (takes_bit bn); reflexivity.
    + intros _. exact Hmark.
    + intros _. exact Hleft.
  - apply ok_bind. apply ok_print_pair; auto. apply ok_ret.
    split; [grows_tac|]. split; [exact Hl|]. split; [cbn; auto|].
    split; [reflexivity|]. split; intros; lia.
Qed.

End Blocks.

Lemma plain_marked m count counter ln : plain ln -> marked m count counter ln.
Proof. intros H. destruct ln; destruct H; (split; [intros t [=] | discriminate]). Qed.

Lemma step_locals_Loop2UInt16 m s l :
  Loop2UInt16 (step_locals m s l) = Loop2UInt16 l.
Proof. unfold step_locals. destruct (s >=? NUMBER_OF_WAKEUP_STEPS); reflexivity. Qed.

Lemma even_step s count :
  Z.even s = true -> 0 <= s < count -> count <= MAX_IR_READINGS ->
  s + 1 < MAX_IR_READINGS /\ s + 1 <= count /\ (Z.even count = true -> s + 1 < count).
Proof.
  unfold MAX_IR_READINGS. intros Hs H Hc.
  apply Z.even_spec in Hs. destruct Hs as [k ->].
  assert (Heven : Z.even count = true -> 2 * k + 1 < count).
  { intros He. apply Z.even_spec in He. destruct He as [j ->]. lia. }
  repeat split; try lia; try exact Heven.
Qed.

Lemma value_step m s :
  Z.even s = true -> NUMBER_OF_WAKEUP_STEPS <= s ->
  (if takes_bit ((s - NUMBER_OF_WAKEUP_STEPS) / 2 + 1)
   then folded m s (value m (pairs_before s)) else value m (pairs_before s)) =
  value m (pairs_before (s + 2)).
Proof.
  unfold takes_bit, pairs_before, NUMBER_OF_WAKEUP_STEPS, NUMBER_OF_BITS. intros He Hs.
  apply Z.even_spec in He. destruct He as [k ->].
  replace ((2 * k - 2) / 2 + 1) with k by (Z.div_mod_to_equations; lia).
  replace (2 * k / 2 - 1) with (k - 1) by (Z.div_mod_to_equations; lia).
  replace ((2 * k + 2) / 2 - 1) with k by (Z.div_mod_to_equations; lia).
  destruct (k <=? 32) eqn:E.
  - replace (k >? 0) with true by (symmetry; apply Z.gtb_lt; lia). cbn [andb].
    rewrite Z.min_r by lia. rewrite Z.min_r by lia.
    replace (Z.to_nat k) with (S (Z.to_nat (k - 1))) by lia.
    cbn [value]. f_equal. unfold NUMBER_OF_WAKEUP_STEPS. lia.
  - rewrite andb_false_r. rewrite !Z.min_l by lia. reflexivity.
Qed.

Lemma pairs_at_exit s count :
  Z.even s = true -> count <= s <= count + 1 -> pairs_before s = data_pairs count.
Proof.
  intros He Hs. unfold data_pairs, pairs_before. do 3 f_equal.
  apply Z.even_spec in He. destruct He as [k ->].
  assert (count = 2 * k \/ count + 1 = 2 * k) as [-> | <-] by lia; [|reflexivity].
  Z.div_mod_to_equations; lia.
Qed.

Lemma for_loop_spec counter fuel : forall s l w,
  wf (mem w) -> 0 <= IrStepCount (mem w) <= MAX_IR_READINGS ->
  Z.even s = true -> 0 <= s <= IrStepCount (mem w) + 1 ->
  IrStepCount (mem w) <= s + 2 * Z.of_nat fuel ->
  0 <= Loop2UInt16 l -> (2 <= counter -> 2 <= Loop2UInt16 l) ->
  ok (for_loop fuel s l) w (fun l' w' =>
    grows (within (IrStepCount (mem w)))
      (marked (mem w) (IrStepCount (mem w)) counter) w w' /\
    (forall t, Z.even t = true -> s <= t < IrStepCount (mem w) ->
       In (Rd ArIrResultValue (t + 1)) (accesses w')) /\
    (forall t, Z.even t = true -> s <= t < IrStepCount (mem w) ->
       NUMBER_OF_WAKEUP_STEPS <= t -> is_separator (mem w) t = true ->
       In (LEndOfData t) (console w')) /\
    (2 <= Loop2UInt16 l -> DataBuffer l = value (mem w) (pairs_before s) ->
       DataBuffer l' = value (mem w) (data_pairs (IrStepCount (mem w))) /\
       FlagError l' = FlagError l /\ Loop2UInt16 l' = Loop2UInt16 l)).
Proof.
  induction fuel as [|f IH]; intros s l w Hwf Hc He Hs Hfuel Hl Hspent;
    set (m := mem w) in *; set (count := IrStepCount m) in *;
    cbn [for_loop]; apply ok_bind, ok_get_mem; cbv beta; fold m; fold count.
  - replace (s <? count) with false by (symmetry; apply Z.ltb_ge; lia).
    apply ok_ret. split; [apply grows_refl|]. split; [intros; lia|]. split; [intros; lia|].
    intros _ Hv. split; [|split; reflexivity]. rewrite Hv. f_equal.
    apply pairs_at_exit; [exact He | lia].
  - destruct (s <? count) eqn:Elt.
    + apply Z.ltb_lt in Elt.
      destruct (even_step s count He) as (Hb1 & Hb2 & Hb3); [lia | lia |].
      apply ok_bind. eapply ok_weaken.
      { apply (loop_body_spec (within count) (marked m count counter) s l w w);
          auto using grows_refl, plain_marked; try lia.
        - intros a. exists a, s. repeat split; lia.
        - intros a. exists a, (s + 1). repeat split; try lia. exact Hb3.
        - intros Hstale st e v. split; [intros t [=] | intros _; lia].
        - intros H2 Hsep. split; [|discriminate].
          intros t [= <-]. split; [exact He|]. split; [lia | exact Hsep]. }
      fold m. intros l1 w1 (Hg1 & Hl1 & Hin1 & Hloc1 & Hmark1 & _). cbv beta.
      assert (Hm1 : mem w1 = m) by apply Hg1.
      replace (UINT16 (s + 2)) with (s + 2)
        by (unfold UINT16; symmetry; apply Z.mod_small; unfold MAX_IR_READINGS in *; lia).
      eapply ok_weaken.
      { apply (IH (s + 2) l1 w1); rewrite ?Hm1; fold count; auto; try lia.
        - rewrite Z.even_add, He. reflexivity.
        - intros Hc2. rewrite (Hloc1 (or_intror (or_intror (Hspent Hc2)))).
          rewrite step_locals_Loop2UInt16. auto. }
      rewrite Hm1. fold count. intros l2 w2 (Hg2 & Hin2 & Hmark2 & Hloc2). cbv beta.
      assert (Hnext : forall t, Z.even t = true -> s <= t -> t <> s -> s + 2 <= t).
      { intros t Ht Hr Hne. apply Z.even_spec in Ht, He.
        destruct Ht as [i ->], He as [j ->]. lia. }
      split; [eapply grows_trans; eassumption|]. split; [|split].
      * intros t Ht Hr. destruct (Z.eq_dec t s) as [-> | Hne].
        -- eapply grows_In_access; [exact Hg2 | exact Hin1].
        -- apply Hin2; [exact Ht|]. specialize (Hnext t Ht). lia.
      * intros t Ht Hr H2 Hsep. destruct (Z.eq_dec t s) as [-> | Hne].
        -- eapply grows_In_console; [exact Hg2|].
           destruct (Hmark1 H2 Hsep) as [rest ->]. left. reflexivity.
        -- apply Hmark2; auto. specialize (Hnext t Ht). lia.
      * intros Hl2 Hv. specialize (Hloc1 (or_intror (or_intror Hl2))).
        assert (Hl1' : Loop2UInt16 l1 = Loop2UInt16 l /\ FlagError l1 = FlagError l /\
                       DataBuffer l1 = value m (pairs_before (s + 2))).
        { rewrite Hloc1. unfold step_locals. destruct (s >=? NUMBER_OF_WAKEUP_STEPS) eqn:E2.
          - cbn [Loop2UInt16 FlagError DataBuffer]. repeat split.
            destruct (bit_number_small s) as [-> _]; [lia | lia |].
            rewrite Hv. apply value_step; [exact He | lia].
          - repeat split. rewrite Hv. unfold pairs_before, NUMBER_OF_WAKEUP_STEPS in *.
            assert (s = 0) as -> by (apply Z.even_spec in He; destruct He as [j ->]; lia).
            reflexivity. }
        destruct Hl1' as (E1 & E2 & E3).
        destruct Hloc2 as (F1 & F2 & F3); [lia | exact E3 |].
        repeat split; congruence.
    + apply ok_ret. apply Z.ltb_ge in Elt.
      split; [apply grows_refl|]. split; [intros; lia|]. split; [intros; lia|].
      intros _ Hv. split; [|split; reflexivity]. rewrite Hv. f_equal.
      apply pairs_at_exit; [exact He | lia].
Qed.

(** ** The whole scan *)

Lemma decode_scan_spec fuel garbage w :
  wf (mem w) -> 0 <= IrStepCount (mem w) <= MAX_IR_READINGS ->
  IrStepCount (mem w) <= 2 * Z.of_nat fuel ->
  ok (decode_scan fuel garbage) w (fun l' w' =>
    grows (within (IrStepCount (mem w)))
      (marked (mem w) (IrStepCount (mem w)) (UINT16 garbage)) w w' /\
    (forall t, Z.even t = true -> 0 <= t < IrStepCount (mem w) ->
       In (Rd ArIrResultValue (t + 1)) (accesses w')) /\
    (forall t, Z.even t = true -> NUMBER_OF_WAKEUP_STEPS <= t < IrStepCount (mem w) ->
       is_separator (mem w) t = true -> In (LEndOfData t) (console w')) /\
    (2 <= UINT16 garbage ->
       DataBuffer l' = value (mem w) (data_pairs (IrStepCount (mem w))) /\
       FlagError l' = FLAG_OFF)).
Proof.
  intros Hwf Hc Hfuel. unfold decode_scan, display_header.
  do 3 ok_step. apply ok_bind. do 2 ok_step. do 3 ok_step.
  match goal with |- ok _ ?w1 _ => set (w1' := w1) end.
  assert (Hg : grows (within (IrStepCount (mem w)))
                 (marked (mem w) (IrStepCount (mem w)) (UINT16 garbage)) w w1').
  { pose proof (grows_refl (within (IrStepCount (mem w)))
                  (marked (mem w) (IrStepCount (mem w)) (UINT16 garbage)) w) as Hg.
    pose proof (plain_marked (mem w) (IrStepCount (mem w)) (UINT16 garbage)) as Hp.
    subst w1'. grows_tac. }
  eapply ok_weaken.
  { apply (for_loop_spec (UINT16 garbage) fuel 0 (entry_locals garbage) w1');
      subst w1'; cbn [mem]; auto; try lia.
    cbn. apply Z.mod_pos_bound. reflexivity. }
  subst w1'. cbn [mem]. intros l' w' (Hg' & Hin & Hmark & Hloc). cbv beta.
  split; [eapply grows_trans; eassumption|]. split; [exact Hin|].
  split; [intros t Ht Hr; apply Hmark; auto; unfold NUMBER_OF_WAKEUP_STEPS in *; lia|].
  intros Hgar. destruct Hloc as (Hv & Hf & _); [exact Hgar | reflexivity |].
  split; [exact Hv | exact Hf].
Qed.

(** ** The value folded by lines 84-85 *)

Lemma UINT64_double_even v : exists k, UINT64 (Z.shiftl v 1) = 2 * k /\ 0 <= k < 2 ^ 63.
Proof.
  unfold UINT64. rewrite Z.shiftl_mul_pow2 by lia. change (2 ^ 1) with 2.
  exists (v mod 2 ^ 63). split; [|apply Z.mod_pos_bound; reflexivity].
  replace (v * 2) with (2 * v) by lia. change (2 ^ 64) with (2 * 2 ^ 63).
  apply Zmult_mod_distr_l.
Qed.

Lemma folded_double m s v :
  0 <= v < 2 ^ 63 ->
  folded m s v = 2 * v + (if high_is_one m s then 1 else 0).
Proof.
  intros Hv. unfold folded, UINT64. rewrite Z.shiftl_mul_pow2 by lia.
  change (2 ^ 1) with 2. change (2 ^ 63) with 9223372036854775808 in Hv.
  change (2 ^ 64) with 18446744073709551616.
  rewrite (Z.mod_small (v * 2)) by lia.
  destruct (high_is_one m s); rewrite ?Z.mod_small by lia; lia.
Qed.

Lemma value_bound m n :
  (n <= 63)%nat -> 0 <= value m n < 2 ^ Z.of_nat n.
Proof.
  induction n as [|k IH]; intros Hn; [cbn; lia|].
  specialize (IH ltac:(lia)).
  assert (Hp : 2 ^ Z.of_nat k <= 2 ^ 63) by (apply Z.pow_le_mono_r; lia).
  cbn [value]. rewrite folded_double by lia.
  replace (Z.of_nat (S k)) with (Z.of_nat k + 1) by lia.
  rewrite Z.pow_add_r by lia. change (2 ^ 1) with 2.
  destruct (high_is_one _ _); lia.
Qed.

Lemma data_pairs_le count : (data_pairs count <= 32)%nat.
Proof. unfold data_pairs, pairs_before, NUMBER_OF_BITS. lia. Qed.

(** The bit that the data pair of index [k] leaves in the value of [n]
    pairs: the pairs folded after it have shifted it [n - 1 - k] places. *)
Lemma value_testbit m n :
  (n <= 63)%nat -> forall k, (k < n)%nat ->
  Z.testbit (value m n) (Z.of_nat (n - 1 - k)) =
  high_is_one m (NUMBER_OF_WAKEUP_STEPS + 2 * Z.of_nat k).
Proof.
  induction n as [|n IH]; intros Hn k Hk; [lia|].
  pose proof (value_bound m n ltac:(lia)) as Hv.
  assert (Hp : 2 ^ Z.of_nat n <= 2 ^ 63) by (apply Z.pow_le_mono_r; lia).
  cbn [value]. rewrite folded_double by lia.
  change (if high_is_one m (NUMBER_OF_WAKEUP_STEPS + 2 * Z.of_nat n) then 1 else 0)
    with (Z.b2z (high_is_one m (NUMBER_OF_WAKEUP_STEPS + 2 * Z.of_nat n))).
  destruct (Nat.eq_dec k n) as [-> | Hne].
  - replace (S n - 1 - n)%nat with 0%nat by lia. apply Z.testbit_0_r.
  - replace (Z.of_nat (S n - 1 - k)) with (Z.succ (Z.of_nat (n - 1 - k))) by lia.
    rewrite Z.testbit_succ_r by lia. apply IH; lia.
Qed.

(** With [Loop2UInt16] holding 2 or more on entry, every data pair of the
    scan leaves in [DataBuffer] the bit that its high duration decides:
    1 if it is above TRIGGER_POINT_0_1, 0 if it is not, a duration equal
    to the trigger point included. *)
Lemma scan_bits_follow_high_durations fuel garbage w :
  wf (mem w) -> 0 <= IrStepCount (mem w) <= MAX_IR_READINGS ->
  IrStepCount (mem w) <= 2 * Z.of_nat fuel ->
  2 <= UINT16 garbage ->
  exists l' w',
    decode_scan fuel garbage w = Done (l', w') /\
    forall k, (k < data_pairs (IrStepCount (mem w)))%nat ->
      Z.testbit (DataBuffer l') (Z.of_nat (data_pairs (IrStepCount (mem w)) - 1 - k)) =
        (peek ArIrResultValue (NUMBER_OF_WAKEUP_STEPS + 2 * Z.of_nat k + 1) (mem w)
           >? TRIGGER_POINT_0_1) /\
      (peek ArIrResultValue (NUMBER_OF_WAKEUP_STEPS + 2 * Z.of_nat k + 1) (mem w)
         = TRIGGER_POINT_0_1 ->
       Z.testbit (DataBuffer l') (Z.of_nat (data_pairs (IrStepCount (mem w)) - 1 - k)) =
         false).
Proof.
  intros Hwf Hc Hfuel Hgar.
  destruct (decode_scan_spec fuel garbage w Hwf Hc Hfuel) as (l' & w' & Hrun & _ & _ & _ & Hval).
  destruct (Hval Hgar) as [Hv _].
  exists l', w'. split; [exact Hrun|]. intros k Hk.
  pose proof (data_pairs_le (IrStepCount (mem w))) as Hle.
  assert (Hbit := value_testbit (mem w) (data_pairs (IrStepCount (mem w))) ltac:(lia) k Hk).
  rewrite <- Hv in Hbit. unfold high_is_one in Hbit.
  split; [exact Hbit|]. intros Htie. rewrite Hbit, Htie. reflexivity.
Qed.

(** ** Encoded bursts *)

Lemma encode_bits_high n X : forall k,
  (k < n)%nat ->
  encode_bits n X !! (2 * k + 1)%nat =
  Some (if Z.testbit X (Z.of_nat (n - 1 - k)) then 1675 else 550).
Proof.
  induction n as [|n IH]; intros k Hk; [lia|].
  destruct k as [|k].
  - cbn [encode_bits]. replace (S n - 1 - 0)%nat with n by lia. reflexivity.
  - replace (2 * S k + 1)%nat with (S (S (2 * k + 1))) by lia.
    cbn [encode_bits]. cbn [lookup list_lookup]. rewrite IH by lia.
    replace (S n - 1 - S k)%nat with (n - 1 - k)%nat by lia. reflexivity.
Qed.

Lemma encode_bits_short n X : Forall (fun d => d <= 4450) (encode_bits n X).
Proof.
  induction n as [|n IH]; cbn [encode_bits]; [constructor|].
  constructor; [lia|]. constructor; [destruct (Z.testbit _ _); lia | exact IH].
Qed.

Lemma encode_short X : Forall (fun d => d <= 4450) (encode X).
Proof.
  unfold encode. constructor; [lia|]. constructor; [lia|]. apply encode_bits_short.
Qed.

Lemma carried_cell m X i :
  carries m X -> 0 <= i < 66 ->
  IrResultValue m !! Z.to_nat i = encode X !! Z.to_nat i.
Proof.
  intros [_ E] Hi. rewrite <- E. symmetry. apply lookup_take_lt. lia.
Qed.

Lemma carried_high m X k :
  carries m X -> (k < 32)%nat ->
  high_is_one m (NUMBER_OF_WAKEUP_STEPS + 2 * Z.of_nat k) =
  Z.testbit X (Z.of_nat (31 - k)).
Proof.
  intros Hc Hk. unfold high_is_one, peek, NUMBER_OF_WAKEUP_STEPS. cbn [cells].
  rewrite (carried_cell m X) by (auto; lia).
  replace (Z.to_nat (2 + 2 * Z.of_nat k + 1)) with (S (S (2 * k + 1))) by lia.
  unfold encode. cbn [lookup list_lookup]. rewrite encode_bits_high by lia.
  replace (32 - 1 - k)%nat with (31 - k)%nat by lia.
  destruct (Z.testbit X _); reflexivity.
Qed.

Lemma carried_no_separator m X t :
  carries m X -> Z.even t = true -> 0 <= t < 66 -> is_separator m t = false.
Proof.
  intros Hc He Ht.
  assert (Hle : forall i, 0 <= i < 66 -> peek ArIrResultValue i m <= 4450).
  { intros i Hi. unfold peek. cbn [cells]. rewrite (carried_cell m X) by auto.
    destruct (encode X !! Z.to_nat i) as [d|] eqn:E; cbn; [|lia].
    pose proof (encode_short X) as Hall. rewrite Forall_forall in Hall.
    apply Hall. eapply list_elem_of_lookup_2. exact E. }
  assert (t + 1 < 66).
  { apply Z.even_spec in He. destruct He as [j ->]. lia. }
  unfold is_separator, SEPARATOR. apply orb_false_iff.
  split; rewrite Z.gtb_ltb; apply Z.ltb_ge.
  - specialize (Hle t). lia.
  - specialize (Hle (t + 1)). lia.
Qed.

Lemma shiftr_step X j :
  0 <= j -> Z.shiftr X j = 2 * Z.shiftr X (j + 1) + (if Z.testbit X j then 1 else 0).
Proof.
  intros Hj.
  assert (Hb : Z.shiftr X j mod 2 = if Z.testbit X j then 1 else 0).
  { rewrite <- Z.bit0_mod, Z.shiftr_spec by lia. rewrite Z.add_0_l.
    destruct (Z.testbit X j); reflexivity. }
  assert (Hd : Z.shiftr X (j + 1) = Z.shiftr X j / 2).
  { rewrite <- Z.shiftr_shiftr by lia. rewrite (Z.shiftr_div_pow2 _ 1) by lia. reflexivity. }
  rewrite Hd, <- Hb. apply Z.div_mod. lia.
Qed.

Lemma carried_value m X n :
  carries m X -> 0 <= X < 2 ^ 32 -> (n <= 32)%nat ->
  value m n = Z.shiftr X (32 - Z.of_nat n).
Proof.
  intros Hc HX. induction n as [|k IH]; intros Hn.
  - cbn [value]. rewrite Z.shiftr_div_pow2 by lia. symmetry. apply Z.div_small. exact HX.
  - cbn [value]. specialize (IH ltac:(lia)).
    pose proof (value_bound m k ltac:(lia)) as Hb.
    assert (Hp : 2 ^ Z.of_nat k <= 2 ^ 63) by (apply Z.pow_le_mono_r; lia).
    rewrite folded_double by lia. rewrite carried_high with (X := X) by (auto; lia).
    rewrite IH. rewrite (shiftr_step X (32 - Z.of_nat (S k))) by lia.
    replace (32 - Z.of_nat (S k) + 1) with (32 - Z.of_nat k) by lia.
    replace (Z.of_nat (31 - k)) with (32 - Z.of_nat (S k)) by lia.
    reflexivity.
Qed.

(** The round-trip law of the specification, for the runs in which lines
    106-131 do nothing: the burst that encodes [X] decodes to [X], no error
    is flagged, and neither an end-of-data mark nor an error report is
    printed. *)
Lemma round_trip_with_spent_counter fuel garbage X w :
  wf (mem w) -> carries (mem w) X -> 0 <= X < 2 ^ 32 ->
  (33 <= fuel)%nat -> 2 <= UINT16 garbage ->
  exists l w',
    decode_scan fuel garbage w = Done (l, w') /\
    DataBuffer l = X /\ FlagError l = FLAG_OFF /\
    exists ls, console w' = ls ++ console w /\
               Forall (fun ln => is_end_mark ln = false /\ is_error_line ln = false) ls.
Proof.
  intros Hwf Hc HX Hfuel Hgar.
  pose proof Hc as [Hcount _].
  destruct (decode_scan_spec fuel garbage w Hwf) as (l & w' & Hrun & Hg & _ & _ & Hval).
  { rewrite Hcount. unfold MAX_IR_READINGS. lia. }
  { rewrite Hcount. lia. }
  destruct (Hval Hgar) as [Hv Hf].
  exists l, w'. split; [exact Hrun|]. split; [|split; [exact Hf|]].
  - rewrite Hv, Hcount. change (data_pairs 66) with 32%nat.
    rewrite (carried_value (mem w) X 32 Hc HX) by lia. apply Z.shiftr_0_r.
  - destruct Hg as (_ & _ & (ls & Hls & Hall)). exists ls. split; [exact Hls|].
    eapply Forall_impl; [exact Hall|]. intros ln [Hm He]. split.
    + destruct ln; try reflexivity.
      destruct (Hm step eq_refl) as (Hev & Hr & Hsep).
      rewrite (carried_no_separator (mem w) X step Hc Hev) in Hsep; [discriminate|].
      unfold NUMBER_OF_WAKEUP_STEPS in Hr. lia.
    + destruct (is_error_line ln); [specialize (He eq_refl); lia | reflexivity].
Qed.

(** Away from the stale counter the value fits in NUMBER_OF_BITS bits. *)
Lemma value_fits_with_spent_counter fuel garbage w :
  wf (mem w) -> 0 <= IrStepCount (mem w) <= MAX_IR_READINGS ->
  IrStepCount (mem w) <= 2 * Z.of_nat fuel -> 2 <= UINT16 garbage ->
  exists l w',
    decode_scan fuel garbage w = Done (l, w') /\
    0 <= DataBuffer l < 2 ^ NUMBER_OF_BITS.
Proof.
  intros Hwf Hc Hfuel Hgar.
  destruct (decode_scan_spec fuel garbage w Hwf Hc Hfuel) as (l & w' & Hrun & _ & _ & _ & Hval).
  destruct (Hval Hgar) as [Hv _]. exists l, w'. split; [exact Hrun|]. rewrite Hv.
  pose proof (data_pairs_le (IrStepCount (mem w))) as Hle.
  pose proof (value_bound (mem w) (data_pairs (IrStepCount (mem w))) ltac:(lia)) as Hb.
  split; [lia|]. eapply Z.lt_le_trans; [apply Hb|].
  unfold NUMBER_OF_BITS. apply Z.pow_le_mono_r; lia.
Qed.

(** ** The handler past the end of the arrays *)

Lemma bind_done {A B} (c : M A) (k : A -> M B) w a w' :
  c w = Done (a, w') -> bind c k w = k a w'.
Proof. intros H. unfold bind. rewrite H. reflexivity. Qed.

Lemma bind_fault {A B} (c : M A) (k : A -> M B) w f :
  c w = Faulty f -> bind c k w = Faulty f.
Proof. intros H. unfold bind. rewrite H. reflexivity. Qed.

Lemma time_us_64_done w :
  exists t w', time_us_64 w = Done (t, w') /\ mem w' = mem w.
Proof.
  unfold time_us_64. destruct (timer w) as [|t ts]; eexists _, _; split; reflexivity.
Qed.

(** The handler never tests [IrStepCount]: once it has reached the size of
    the arrays, an edge writes [IrFinalValue[IrStepCount]]. *)
Lemma isr_rise_past_the_arrays w :
  wf (mem w) -> MAX_IR_READINGS <= IrStepCount (mem w) ->
  isr_signal_trap IR_RX GPIO_IRQ_EDGE_RISE w =
  Faulty (OutOfBounds ArIrFinalValue (IrStepCount (mem w))).
Proof.
  intros Hwf Hc. unfold isr_signal_trap.
  change (IR_RX =? IR_RX) with true.
  change (negb (Z.land GPIO_IRQ_EDGE_RISE GPIO_IRQ_EDGE_RISE =? 0)) with true.
  cbv iota. apply bind_fault. unfold isr_rise.
  rewrite (bind_done get_mem _ w (mem w) w) by reflexivity.
  destruct (time_us_64_done w) as (t & w1 & Ht & Hm).
  rewrite (bind_done _ _ _ _ _ Ht). apply bind_fault.
  apply wr_fault; [rewrite Hm; assumption | assumption].
Qed.

Lemma isr_fall_past_the_arrays w :
  wf (mem w) -> MAX_IR_READINGS <= IrStepCount (mem w) ->
  isr_signal_trap IR_RX GPIO_IRQ_EDGE_FALL w =
  Faulty (OutOfBounds ArIrFinalValue (IrStepCount (mem w))).
Proof.
  intros Hwf Hc. unfold isr_signal_trap.
  change (IR_RX =? IR_RX) with true.
  change (negb (Z.land GPIO_IRQ_EDGE_FALL GPIO_IRQ_EDGE_RISE =? 0)) with false.
  change (negb (Z.land GPIO_IRQ_EDGE_FALL GPIO_IRQ_EDGE_FALL =? 0)) with true.
  cbv iota. rewrite (bind_done (ret tt) _ w tt w) by reflexivity. unfold isr_fall.
  rewrite (bind_done get_mem _ w (mem w) w) by reflexivity.
  apply bind_fault.
  replace (IrStepCount (mem w) >? 0) with true
    by (symmetry; apply Z.gtb_lt; unfold MAX_IR_READINGS in Hc; lia).
  destruct (time_us_64_done w) as (t & w1 & Ht & Hm).
  rewrite (bind_done _ _ _ _ _ Ht). apply bind_fault.
  apply wr_fault; [rewrite Hm; assumption | assumption].
Qed.

(** ** The number of turns *)

Lemma for_loop_short_of_fuel fuel : forall s l w,
  wf (mem w) -> 0 <= IrStepCount (mem w) <= MAX_IR_READINGS ->
  Z.even s = true -> 0 <= s -> s + 2 * Z.of_nat fuel < IrStepCount (mem w) ->
  0 <= Loop2UInt16 l ->
  for_loop fuel s l w = OutOfFuel.
Proof.
  induction fuel as [|f IH]; intros s l w Hwf Hc He Hs Hfuel Hl;
    cbn [for_loop]; rewrite (bind_done get_mem _ w (mem w) w) by reflexivity;
    (replace (s <? IrStepCount (mem w)) with true by (symmetry; apply Z.ltb_lt; lia)).
  - reflexivity.
  - destruct (even_step s (IrStepCount (mem w)) He) as (Hb1 & _); [lia | lia |].
    destruct (loop_body_spec (fun _ => True) (fun _ => True) s l w w)
      as (l1 & w1 & Hrun & Hg & Hl1 & _); auto using grows_refl.
    rewrite (bind_done _ _ _ _ _ Hrun).
    assert (Hm : mem w1 = mem w) by apply Hg.
    replace (UINT16 (s + 2)) with (s + 2)
      by (unfold UINT16; symmetry; apply Z.mod_small; unfold MAX_IR_READINGS in *; lia).
    apply IH; rewrite ?Hm; auto; try lia.
    rewrite Z.even_add, He. reflexivity.
Qed.

Lemma decode_scan_short_of_fuel fuel garbage w :
  wf (mem w) -> 0 <= IrStepCount (mem w) <= MAX_IR_READINGS ->
  2 * Z.of_nat fuel < IrStepCount (mem w) ->
  decode_scan fuel garbage w = OutOfFuel.
Proof.
  intros Hwf Hc Hfuel. unfold decode_scan, display_header, bind, printf, get_mem.
  cbn [mem timer console accesses].
  apply for_loop_short_of_fuel; cbn [mem]; auto; try lia.
  cbn. apply Z.mod_pos_bound. reflexivity.
Qed.

(** ** The end of the function *)

Lemma wr_RemoteData_run i e w :
  wf (mem w) ->
  wr_RemoteData i e w =
  if (0 <=? i) && (i <? REMOTE_DATA_SIZE)
  then Done (tt, Build_World (set_RemoteData (<[Z.to_nat i := e]> (RemoteData (mem w))) (mem w))
                   (timer w) (console w) (accesses w))
  else Faulty (RemoteDataOutOfBounds i).
Proof.
  intros Hwf. unfold wr_RemoteData, bind, get_mem. rewrite (wf_remote _ Hwf).
  destruct ((0 <=? i) && (i <? REMOTE_DATA_SIZE)); reflexivity.
Qed.

Lemma record_button_run l w :
  wf (mem w) ->
  record_button l w =
  if (0 <=? RemoteDataTotal (mem w)) && (RemoteDataTotal (mem w) <? REMOTE_DATA_SIZE)
  then Done (tt, Build_World
                   (set_RemoteDataTotal (UINT16 (RemoteDataTotal (mem w) + 1))
                      (set_RemoteData
                         (<[Z.to_nat (RemoteDataTotal (mem w)) :=
                              Entry.Build (ButtonName (mem w)) (DataBuffer l)]>
                            (RemoteData (mem w))) (mem w)))
                   (timer w) (console w) (accesses w))
  else Faulty (RemoteDataOutOfBounds (RemoteDataTotal (mem w))).
Proof.
  intros Hwf. unfold record_button. unfold bind at 1. unfold get_mem at 1.
  unfold bind at 1. rewrite (wr_RemoteData_run _ _ _ Hwf).
  destruct ((0 <=? _) && (_ <? _)); reflexivity.
Qed.

Lemma decode_finish_run IRC ans l w :
  wf (mem w) ->
  decode_finish IRC ans l w =
  if confirms ans then
    if (0 <=? RemoteDataTotal (mem w)) && (RemoteDataTotal (mem w) <? REMOTE_DATA_SIZE)
    then Done (UINT8 IRC,
               Build_World
                 (set_RemoteDataTotal (UINT16 (RemoteDataTotal (mem w) + 1))
                    (set_RemoteData
                       (<[Z.to_nat (RemoteDataTotal (mem w)) :=
                            Entry.Build (ButtonName (mem w)) (DataBuffer l)]>
                          (RemoteData (mem w))) (mem w)))
                 (timer w)
                 (LPrompt :: LFinal (DataBuffer l) (IrStepCount (mem w)) NUMBER_OF_STEPS
                    :: console w)
                 (accesses w))
    else Faulty (RemoteDataOutOfBounds (RemoteDataTotal (mem w)))
  else Done (UINT8 IRC,
             Build_World (mem w) (timer w)
               (LPrompt :: LFinal (DataBuffer l) (IrStepCount (mem w)) NUMBER_OF_STEPS
                  :: console w)
               (accesses w)).
Proof.
  intros Hwf. unfold decode_finish. unfold bind at 1. unfold get_mem at 1.
  unfold bind at 1. unfold printf at 1. unfold bind at 1. unfold printf at 1.
  unfold bind at 1. destruct (confirms ans); [|reflexivity].
  rewrite record_button_run by exact Hwf. cbn [mem timer console accesses].
  destruct ((0 <=? _) && (_ <? _)); reflexivity.
Qed.

Lemma decode_finish_never_out_of_fuel IRC ans l w :
  wf (mem w) -> decode_finish IRC ans l w <> OutOfFuel.
Proof.
  intros Hwf. rewrite decode_finish_run by exact Hwf.
  destruct (confirms ans); [destruct ((0 <=? _) && (_ <? _))|]; discriminate.
Qed.

(** ** The handler inside the arrays *)

Lemma forallb_insert {A} (f : A -> bool) (l : list A) i v :
  forallb f l = true -> f v = true -> forallb f (<[i := v]> l) = true.
Proof.
  revert i. induction l as [|x l IH]; intros i Hl Hv; [exact Hl|].
  cbn in Hl. apply andb_true_iff in Hl. destruct Hl as [Hx Hl].
  destruct i as [|i]; cbn; apply andb_true_iff; auto.
Qed.

Lemma wf_set_cells a i v m :
  wf m -> (a = ArIrLevel -> 0 <= v < 3) ->
  wf (set_cells a (<[i := v]> (cells a m)) m).
Proof.
  unfold wf, wf_b. rewrite !andb_true_iff. intros [[[Hlen Hlvl] Hrows] Hrem] Hv.
  cbn [forallb] in Hlen. rewrite !andb_true_iff in Hlen.
  destruct a; cbn [forallb cells set_cells IrFinalValue IrInitialValue IrLevel IrResultValue
                   LevelString RemoteData];
    rewrite ?length_insert, !andb_true_iff; repeat split; try tauto.
  apply forallb_insert; [exact Hlvl|]. specialize (Hv eq_refl).
  apply andb_true_iff. split; [apply Z.leb_le | apply Z.ltb_lt]; lia.
Qed.

Lemma wr_done a i v w :
  wf (mem w) -> 0 <= i < MAX_IR_READINGS ->
  wr a i v w =
  Done (tt, Build_World (set_cells a (<[Z.to_nat i := v]> (cells a (mem w))) (mem w))
              (timer w) (console w) (Wr a i :: accesses w)).
Proof.
  intros Hwf Hi. unfold wr, bind, get_mem. rewrite (wf_cells _ a Hwf).
  replace ((0 <=? i) && (i <? MAX_IR_READINGS)) with true
    by (symmetry; apply andb_true_iff; lia).
  reflexivity.
Qed.

Lemma peek_set_cells_eq a i v m :
  wf m -> 0 <= i < MAX_IR_READINGS ->
  peek a i (set_cells a (<[Z.to_nat i := v]> (cells a m)) m) = v.
Proof.
  intros Hwf Hi. pose proof (wf_cells m a Hwf) as Hlen. unfold peek.
  replace (cells a (set_cells a (<[Z.to_nat i := v]> (cells a m)) m))
    with (<[Z.to_nat i := v]> (cells a m)) by (destruct a; reflexivity).
  rewrite list_lookup_insert_eq by lia. reflexivity.
Qed.

Lemma cells_set_cells_ne a b l m : a <> b -> cells b (set_cells a l m) = cells b m.
Proof. intros H. destruct a, b; try reflexivity; congruence. Qed.

Lemma cells_set_cells_eq a l m : cells a (set_cells a l m) = l.
Proof. destruct a; reflexivity. Qed.

Lemma IrStepCount_set_cells a l m : IrStepCount (set_cells a l m) = IrStepCount m.
Proof. destruct a; reflexivity. Qed.

Lemma peek_set_cells_ne a b i l m : a <> b -> peek b i (set_cells a l m) = peek b i m.
Proof. intros H. unfold peek. rewrite cells_set_cells_ne by exact H. reflexivity. Qed.

Lemma wf_set_IrStepCount n m : wf m -> wf (set_IrStepCount n m).
Proof. intros H. exact H. Qed.

Lemma ok_wr a i v w (R : unit -> World -> Prop) :
  wf (mem w) -> 0 <= i < MAX_IR_READINGS ->
  R tt (Build_World (set_cells a (<[Z.to_nat i := v]> (cells a (mem w))) (mem w))
          (timer w) (console w) (Wr a i :: accesses w)) ->
  ok (wr a i v) w R.
Proof. intros Hwf Hi HR. eexists _, _. split; [apply wr_done; assumption | exact HR]. Qed.

Lemma ok_upd_mem f w (R : unit -> World -> Prop) :
  R tt (Build_World (f (mem w)) (timer w) (console w) (accesses w)) ->
  ok (upd_mem f) w R.
Proof. intros HR. eexists _, _. split; [reflexivity | exact HR]. Qed.

Lemma ok_time_us_64 m t ts co ac (R : Z -> World -> Prop) :
  R (UINT64 t) (Build_World m ts co ac) ->
  ok time_us_64 (Build_World m (t :: ts) co ac) R.
Proof. intros HR. eexists _, _. split; [reflexivity | exact HR]. Qed.

(** Memories reached from a well-formed one by the writes of the handler. *)
Ltac wf_tac :=
  cbn [mem];
  repeat first
    [ assumption
    | apply wf_set_IrStepCount
    | apply wf_set_cells; [|intros Hlevel; first [discriminate Hlevel | lia]] ].

Ltac isr_step :=
  cbv beta;
  lazymatch goal with
  | |- ok (bind _ _) _ _ => apply ok_bind
  | |- _ => idtac
  end;
  lazymatch goal with
  | |- ok (ret _) _ _ => apply ok_ret
  | |- ok get_mem _ _ => apply ok_get_mem
  | |- ok time_us_64 _ _ => apply ok_time_us_64
  | |- ok (upd_mem _) _ _ => apply ok_upd_mem
  | |- ok (rd _ _) _ _ => apply ok_rd; [wf_tac | cbn [mem]; lia | ]
  | |- ok (wr _ _ _) _ _ => apply ok_wr; [wf_tac | cbn [mem]; lia | ]
  | |- ok (gpio_acknowledge_irq _ _) _ _ => apply ok_ret
  end;
  cbv beta; cbn [mem timer console accesses].

Lemma cells_set_IrStepCount a n m : cells a (set_IrStepCount n m) = cells a m.
Proof. destruct a; reflexivity. Qed.

Lemma peek_cells a i m : peek a i m = default 0 (cells a m !! Z.to_nat i).
Proof. reflexivity. Qed.

(** Reading the memory left by the writes of the handler. *)
Ltac mem_simpl :=
  repeat first
    [ rewrite cells_set_cells_eq
    | rewrite cells_set_cells_ne by discriminate
    | rewrite cells_set_IrStepCount
    | rewrite IrStepCount_set_cells ].

(** One edge inside the arrays appends one event: its duration is the time
    read minus the time at which the level began, its level 0 (low) for a
    rising edge and 1 (high) for a falling one. *)
Lemma isr_appends rising w k t t1 rest :
  wf (mem w) -> IrStepCount (mem w) = k -> 0 <= k -> k + 1 < MAX_IR_READINGS ->
  (rising = false -> 0 < k) ->
  peek ArIrInitialValue k (mem w) = t ->
  timer w = t1 :: t1 :: rest ->
  ok (isr_signal_trap IR_RX (edge rising)) w (fun _ w' =>
    wf (mem w') /\
    IrStepCount (mem w') = k + 1 /\
    peek ArIrInitialValue (k + 1) (mem w') = UINT64 t1 /\
    timer w' = rest /\
    IrResultValue (mem w') =
      <[Z.to_nat k := UINT32 (UINT64 (UINT64 t1 - t))]> (IrResultValue (mem w)) /\
    IrLevel (mem w') = <[Z.to_nat k := if rising then 0 else 1]> (IrLevel (mem w)) /\
    RemoteDataTotal (mem w') = RemoteDataTotal (mem w)).
Proof.
  intros Hwf Hk H0 H1 Hfall Ht Htimer.
  destruct w as [m tm co ac]. cbn [mem timer] in *. subst tm.
  assert (Hnext : UINT16 (k + 1) = k + 1).
  { unfold UINT16. apply Z.mod_small. unfold MAX_IR_READINGS in H1.
    change (2 ^ 16) with 65536. lia. }
  pose proof (fun a => wf_cells m a Hwf) as Hlen.
  assert (Hfin : peek ArIrFinalValue k
                   (set_cells ArIrFinalValue
                      (<[Z.to_nat k := UINT64 t1]> (cells ArIrFinalValue m)) m) = UINT64 t1).
  { apply peek_set_cells_eq; [exact Hwf | lia]. }
  assert (Hini : peek ArIrInitialValue k
                   (set_cells ArIrFinalValue
                      (<[Z.to_nat k := UINT64 t1]> (cells ArIrFinalValue m)) m) = t).
  { rewrite peek_set_cells_ne by discriminate. exact Ht. }
  unfold isr_signal_trap, edge. change (IR_RX =? IR_RX) with true. cbv iota.
  destruct rising.
  - change (negb (Z.land GPIO_IRQ_EDGE_RISE GPIO_IRQ_EDGE_RISE =? 0)) with true.
    change (negb (Z.land GPIO_IRQ_EDGE_RISE GPIO_IRQ_EDGE_FALL =? 0)) with false.
    cbv iota. unfold isr_rise. apply ok_bind.
    isr_step. rewrite Hk. do 8 isr_step.
    change (IrStepCount (set_IrStepCount (UINT16 (k + 1)) ?m)) with (UINT16 (k + 1)).
    rewrite Hnext. do 3 isr_step. isr_step.
    split; [wf_tac|]. split; [reflexivity|]. split; [|split; [reflexivity|split; [|split]]].
    + rewrite peek_cells. mem_simpl. rewrite list_lookup_insert_eq; [reflexivity|].
      pose proof (Hlen ArIrInitialValue). pose proof (Hlen ArIrLevel). lia.
    + change (IrResultValue ?x) with (cells ArIrResultValue x). mem_simpl.
      rewrite Hfin, Hini. reflexivity.
    + change (IrLevel ?x) with (cells ArIrLevel x). mem_simpl. reflexivity.
    + reflexivity.
  - change (negb (Z.land GPIO_IRQ_EDGE_FALL GPIO_IRQ_EDGE_RISE =? 0)) with false.
    change (negb (Z.land GPIO_IRQ_EDGE_FALL GPIO_IRQ_EDGE_FALL =? 0)) with true.
    cbv iota. isr_step. unfold isr_fall. apply ok_bind. isr_step. rewrite Hk.
    replace (k >? 0) with true by (symmetry; apply Z.gtb_lt; auto).
    apply ok_bind. do 7 isr_step. isr_step.
    change (IrStepCount (set_IrStepCount (UINT16 (k + 1)) ?m)) with (UINT16 (k + 1)).
    rewrite Hnext. do 3 isr_step.
    split; [wf_tac|]. split; [reflexivity|]. split; [|split; [reflexivity|split; [|split]]].
    + rewrite peek_cells. mem_simpl. rewrite list_lookup_insert_eq; [reflexivity|].
      pose proof (Hlen ArIrInitialValue). pose proof (Hlen ArIrLevel). lia.
    + change (IrResultValue ?x) with (cells ArIrResultValue x). mem_simpl.
      rewrite Hfin, Hini. reflexivity.
    + change (IrLevel ?x) with (cells ArIrLevel x). mem_simpl. reflexivity.
    + reflexivity.
Qed.

Lemma duration_of_times t d :
  0 <= d < 2 ^ 32 -> UINT32 (UINT64 (UINT64 (t + d) - UINT64 t)) = d.
Proof.
  intros Hd. unfold UINT32, UINT64.
  rewrite Zminus_mod_idemp_l, Zminus_mod_idemp_r.
  replace (t + d - t) with d by lia.
  change (2 ^ 32) with 4294967296 in *. change (2 ^ 64) with 18446744073709551616.
  rewrite (Z.mod_small d 18446744073709551616) by lia. apply Z.mod_small. lia.
Qed.

(** The edges of a burst that fits in the arrays append its durations. *)
Lemma edges_append ds : forall rising w k t,
  wf (mem w) -> IrStepCount (mem w) = k -> 0 <= k ->
  k + Z.of_nat (length ds) < MAX_IR_READINGS ->
  rising = Z.even k ->
  peek ArIrInitialValue k (mem w) = UINT64 t ->
  timer w = edge_times t ds ->
  Forall (fun d => 0 <= d < 2 ^ 32) ds ->
  ok (edges rising (length ds)) w (fun _ w' =>
    wf (mem w') /\
    IrStepCount (mem w') = k + Z.of_nat (length ds) /\
    take (Z.to_nat (k + Z.of_nat (length ds))) (IrResultValue (mem w')) =
      take (Z.to_nat k) (IrResultValue (mem w)) ++ ds /\
    take (Z.to_nat (k + Z.of_nat (length ds))) (IrLevel (mem w')) =
      take (Z.to_nat k) (IrLevel (mem w)) ++ levels rising (length ds) /\
    RemoteDataTotal (mem w') = RemoteDataTotal (mem w)).
Proof.
  induction ds as [|d ds IH]; intros rising w k t Hwf Hk H0 H1 Hr Ht Htimer Hds.
  - apply ok_ret. cbn [length levels]. rewrite Z.add_0_r, !app_nil_r. auto.
  - cbn [length edges]. cbn [length] in H1. apply Forall_cons in Hds. destruct Hds as [Hd Hds].
    apply ok_bind.
    fold (edge rising).
    eapply ok_weaken.
    { apply (isr_appends rising w k (UINT64 t) (t + d) (edge_times (t + d) ds)); auto; try lia.
      intros ->. destruct (Z.eq_dec k 0) as [-> | ?]; [discriminate | lia]. }
    intros [] w1 (Hwf1 & Hk1 & Ht1 & Htimer1 & Hres & Hlvl & Htot1). cbv beta.
    rewrite duration_of_times in Hres by exact Hd.
    eapply ok_weaken.
    { apply (IH (negb rising) w1 (k + 1) (t + d)); auto; try lia.
      rewrite Hr, Z.even_add. destruct (Z.even k); reflexivity. }
    intros [] w' (Hwf' & Hk' & Htake & Hlevels & Htot'). cbv beta.
    split; [exact Hwf'|]. split; [lia|].
    replace (k + Z.of_nat (S (length ds))) with (k + 1 + Z.of_nat (length ds)) by lia.
    rewrite Htake, Hres, Hlevels, Hlvl.
    replace (Z.to_nat (k + 1)) with (S (Z.to_nat k)) by lia.
    pose proof (wf_cells _ ArIrResultValue Hwf) as Hlen. cbn [cells] in Hlen.
    pose proof (wf_cells _ ArIrLevel Hwf) as Hlen'. cbn [cells] in Hlen'.
    rewrite (take_S_r _ _ d) by (apply list_lookup_insert_eq; lia).
    rewrite (take_S_r _ _ (if rising then 0 else 1)) by (apply list_lookup_insert_eq; lia).
    rewrite !take_insert_ge by lia. rewrite <- !app_assoc.
    split; [reflexivity | split; [reflexivity | congruence]].
Qed.

Lemma mem_with_timer ticks w : mem (with_timer ticks w) = mem w.
Proof. reflexivity. Qed.

Lemma timer_with_timer ticks w : timer (with_timer ticks w) = ticks.
Proof. reflexivity. Qed.

Lemma start_burst_run ticks :
  start_burst (boot (1000 :: ticks)) = Done (tt, with_timer ticks started).
Proof. vm_compute. reflexivity. Qed.

Lemma started_ready :
  wf (mem started) /\ IrStepCount (mem started) = 0 /\
  peek ArIrInitialValue 0 (mem started) = UINT64 1000 /\
  RemoteDataTotal (mem started) = 0.
Proof. vm_compute. repeat split. Qed.

Lemma capture_run durs ticks :
  capture durs (boot (1000 :: ticks)) =
  edges true (length durs) (with_timer ticks started).
Proof.
  exact (bind_done start_burst (fun _ => edges true (length durs)) _ tt _
           (start_burst_run ticks)).
Qed.

(** What the handler leaves of a burst that fits in the arrays. *)
Lemma capture_spec durs :
  Z.of_nat (length durs) < MAX_IR_READINGS ->
  Forall (fun d => 0 <= d < 2 ^ 32) durs ->
  exists w,
    captured durs = Done (tt, w) /\
    wf (mem w) /\
    IrStepCount (mem w) = Z.of_nat (length durs) /\
    take (length durs) (IrResultValue (mem w)) = durs /\
    take (length durs) (IrLevel (mem w)) = levels true (length durs) /\
    RemoteDataTotal (mem w) = 0.
Proof.
  intros Hlen Hds. destruct started_ready as (Hwf & Hk & Ht & Htot).
  destruct (edges_append durs true (with_timer (edge_times 1000 durs) started) 0 1000)
    as ([] & w & Hrun & Hwf' & Hk' & Htake & Hlevels & Htot').
  - rewrite mem_with_timer. exact Hwf.
  - rewrite mem_with_timer. exact Hk.
  - lia.
  - lia.
  - reflexivity.
  - rewrite mem_with_timer. exact Ht.
  - apply timer_with_timer.
  - exact Hds.
  - exists (Build_World (mem w) [] [] []).
    unfold captured. rewrite capture_run, Hrun. cbn [and_then mem].
    split; [reflexivity|]. split; [exact Hwf'|]. split; [lia|].
    rewrite Z.add_0_l, Nat2Z.id in Htake, Hlevels.
    change (Z.to_nat 0) with 0%nat in Htake, Hlevels.
    rewrite take_0 in Htake, Hlevels. rewrite mem_with_timer in Htot'.
    split; [exact Htake|]. split; [exact Hlevels | congruence].
Qed.

Lemma encode_in_range X : Forall (fun d => 0 <= d < 2 ^ 32) (encode X).
Proof.
  assert (H : forall n, Forall (fun d => 0 <= d < 2 ^ 32) (encode_bits n X)).
  { induction n as [|n IH]; cbn [encode_bits]; [constructor|].
    change (2 ^ 32) with 4294967296.
    constructor; [lia|]. constructor; [destruct (Z.testbit _ _); lia | exact IH]. }
  unfold encode. change (2 ^ 32) with 4294967296 in *.
  constructor; [lia|]. constructor; [lia|]. apply H.
Qed.

Lemma length_encode X : length (encode X) = 66%nat.
Proof. reflexivity. Qed.


(** * The decoder and the handler against their specification *)

(** ** General statements *)

(** C9.  Decoder termination: on every burst of at most MAX_IR_READINGS
    steps the loop of line 70 ends normally within [fuel] turns as soon as
    twice [fuel] reaches the step count (250 turns always suffice), and
    the whole function then never runs out of fuel, whatever [Loop2UInt16]
    held on entry and whatever the user answers.  Each turn moves
    [Loop1UInt16] up by two and the loop leaves only once the count is
    reached: fewer turns than half the count do not end the scan. *)
Theorem decode_terminates fuel IRC garbage Dum1Str w :
  wf (mem w) ->
  0 <= IrStepCount (mem w) <= MAX_IR_READINGS ->
  IrStepCount (mem w) <= 2 * Z.of_nat fuel ->
  (exists l w', decode_scan fuel garbage w = Done (l, w')) /\
  decode_ir_command fuel IRC garbage Dum1Str w <> OutOfFuel /\
  (forall fuel', 2 * Z.of_nat fuel' < IrStepCount (mem w) ->
     decode_scan fuel' garbage w = OutOfFuel).
Proof.
  intros Hwf Hc Hfuel.
  destruct (decode_scan_spec fuel garbage w Hwf Hc Hfuel) as (l & w' & Hrun & Hg & _).
  split; [eauto|].
  split; [|intros fuel' Hshort; apply decode_scan_short_of_fuel; assumption].
  unfold decode_ir_command. unfold bind at 1. rewrite Hrun.
  unfold bind at 1.
  assert (Hwf' : wf (mem w')) by (destruct Hg as [-> _]; exact Hwf).
  pose proof (decode_finish_never_out_of_fuel IRC Dum1Str l w' Hwf') as Hne.
  destruct (decode_finish IRC Dum1Str l w') as [[r w2] | f |]; [discriminate | discriminate | congruence].
Qed.

(** C10.  Unbounded button recording: when the answer starts with 'x' or
    'X', lines 146-148 write the button name and [DataBuffer] at
    [RemoteData[RemoteDataTotal]] and add one to [RemoteDataTotal], without
    any test of [RemoteDataTotal]: below 256 the write lands in the array
    and the total grows by exactly one; from 256 on the write is out of
    bounds. *)
Theorem confirmed_decode_records_unchecked IRC Dum1Str l w :
  wf (mem w) -> confirms Dum1Str = true -> 0 <= RemoteDataTotal (mem w) ->
  (RemoteDataTotal (mem w) < REMOTE_DATA_SIZE ->
   exists w',
     decode_finish IRC Dum1Str l w = Done (UINT8 IRC, w') /\
     RemoteData (mem w') !! Z.to_nat (RemoteDataTotal (mem w)) =
       Some (Entry.Build (ButtonName (mem w)) (DataBuffer l)) /\
     (forall i, i <> Z.to_nat (RemoteDataTotal (mem w)) ->
        RemoteData (mem w') !! i = RemoteData (mem w) !! i) /\
     RemoteDataTotal (mem w') = RemoteDataTotal (mem w) + 1) /\
  (REMOTE_DATA_SIZE <= RemoteDataTotal (mem w) ->
   decode_finish IRC Dum1Str l w = Faulty (RemoteDataOutOfBounds (RemoteDataTotal (mem w)))).
Proof.
  intros Hwf Hx H0. rewrite decode_finish_run by exact Hwf. rewrite Hx. split.
  - intros Hlt.
    replace ((0 <=? RemoteDataTotal (mem w)) && (RemoteDataTotal (mem w) <? REMOTE_DATA_SIZE))
      with true by (symmetry; apply andb_true_iff; split; [apply Z.leb_le | apply Z.ltb_lt]; lia).
    eexists. split; [reflexivity|].
    cbn [mem RemoteData RemoteDataTotal set_RemoteData set_RemoteDataTotal].
    pose proof (wf_remote _ Hwf) as Hlen.
    split; [apply list_lookup_insert_eq; lia|].
    split; [intros i Hi; apply list_lookup_insert_ne; congruence|].
    unfold UINT16. apply Z.mod_small. unfold REMOTE_DATA_SIZE in Hlt.
    change (2 ^ 16) with 65536. lia.
  - intros Hge.
    replace (RemoteDataTotal (mem w) <? REMOTE_DATA_SIZE) with false
      by (symmetry; apply Z.ltb_ge; lia).
    rewrite andb_false_r. reflexivity.
Qed.

(** C8, as amended.  After the loop the decoder prints the final data
    with the step count next to NUMBER_OF_STEPS, prompts, and returns
    IR_COMMAND_TO_EXECUTE: the value returned and the lines printed depend
    neither on [FlagError] nor on whether the count is the expected one. *)
Theorem decode_finish_reports_neither_flag_nor_count IRC Dum1Str l w :
  wf (mem w) ->
  (confirms Dum1Str = true -> 0 <= RemoteDataTotal (mem w) < REMOTE_DATA_SIZE) ->
  exists w',
    decode_finish IRC Dum1Str l w = Done (UINT8 IRC, w') /\
    console w' =
      LPrompt :: LFinal (DataBuffer l) (IrStepCount (mem w)) NUMBER_OF_STEPS :: console w.
Proof.
  intros Hwf Hroom. rewrite decode_finish_run by exact Hwf.
  destruct (confirms Dum1Str).
  - specialize (Hroom eq_refl).
    replace ((0 <=? RemoteDataTotal (mem w)) && (RemoteDataTotal (mem w) <? REMOTE_DATA_SIZE))
      with true by (symmetry; apply andb_true_iff; split; [apply Z.leb_le | apply Z.ltb_lt]; lia).
    eexists. split; reflexivity.
  - eexists. split; reflexivity.
Qed.

(** C2, as amended.  When one of the two durations of a data pair is above
    SEPARATOR, the turn prints the end-of-data mark for that step and
    skips the half-bit verification ([FlagError] and [Loop2UInt16] keep
    their values), but lines 82-89 have already folded the pair when its
    bit number is at most NUMBER_OF_BITS, and the loop goes on with the
    next pair. *)
Theorem separator_pair_is_marked_and_scan_goes_on s l w :
  wf (mem w) -> NUMBER_OF_WAKEUP_STEPS <= s -> s + 1 < MAX_IR_READINGS ->
  0 <= Loop2UInt16 l ->
  is_separator (mem w) s = true ->
  exists l' w',
    loop_body s l w = Done (l', w') /\
    (exists rest, console w' = LEndOfData s :: rest) /\
    BitNumber l' = (s - NUMBER_OF_WAKEUP_STEPS) / 2 + 1 /\
    FlagError l' = FlagError l /\
    Loop2UInt16 l' = Loop2UInt16 l /\
    DataBuffer l' =
      (if takes_bit (BitNumber l') then folded (mem w) s (DataBuffer l) else DataBuffer l) /\
    (forall fuel, s < IrStepCount (mem w) ->
       for_loop (S fuel) s l w = for_loop fuel (UINT16 (s + 2)) l' w').
Proof.
  intros Hwf Hs H1 Hl Hsep.
  destruct (loop_body_spec (fun _ => True) (fun _ => True) s l w w)
    as (l' & w' & Hrun & _ & _ & _ & Hloc & Hmark & _);
    auto using grows_refl; [unfold NUMBER_OF_WAKEUP_STEPS in Hs; lia|].
  exists l', w'. split; [exact Hrun|]. split; [auto|].
  assert (El : l' = Build_Locals ((s - NUMBER_OF_WAKEUP_STEPS) / 2 + 1) (FlagError l)
                      (Loop2UInt16 l)
                      (if takes_bit ((s - NUMBER_OF_WAKEUP_STEPS) / 2 + 1)
                       then folded (mem w) s (DataBuffer l) else DataBuffer l)).
  { rewrite (Hloc (or_intror (or_introl Hsep))). unfold step_locals.
    replace (s >=? NUMBER_OF_WAKEUP_STEPS) with true by (symmetry; apply Z.geb_le; lia).
    destruct (bit_number_small s Hs H1) as [-> _]. reflexivity. }
  split; [rewrite El; reflexivity|]. split; [rewrite El; reflexivity|].
  split; [rewrite El; reflexivity|]. split; [rewrite El; reflexivity|].
  intros fuel Hlt. cbn [for_loop]. unfold bind at 1. unfold get_mem at 1.
  replace (s <? IrStepCount (mem w)) with true by (symmetry; apply Z.ltb_lt; lia).
  unfold bind. rewrite Hrun. reflexivity.
Qed.

(** C5, as amended.  On every burst of at most MAX_IR_READINGS steps the
    scan ends normally and reads event cells inside the arrays only, at
    indices at most the step count, and below it when the count is even;
    when the count is odd the cell at index [IrStepCount] is read.  An
    end-of-data mark is printed only for a data pair holding a duration
    above SEPARATOR, so a missing pair is reported by no mark.  When lines
    106-131 do nothing, [DataBuffer] ends as the fold of every data pair
    that started below the count, up to NUMBER_OF_BITS of them. *)
Theorem scan_reads_up_to_cell_count fuel garbage w :
  wf (mem w) ->
  0 <= IrStepCount (mem w) <= MAX_IR_READINGS ->
  IrStepCount (mem w) <= 2 * Z.of_nat fuel ->
  exists l w',
    decode_scan fuel garbage w = Done (l, w') /\
    grows (within (IrStepCount (mem w)))
      (marked (mem w) (IrStepCount (mem w)) (UINT16 garbage)) w w' /\
    (Z.odd (IrStepCount (mem w)) = true ->
     In (Rd ArIrResultValue (IrStepCount (mem w))) (accesses w')) /\
    (2 <= UINT16 garbage ->
     DataBuffer l = value (mem w) (data_pairs (IrStepCount (mem w)))).
Proof.
  intros Hwf Hc Hfuel.
  destruct (decode_scan_spec fuel garbage w Hwf Hc Hfuel)
    as (l & w' & Hrun & Hg & Hin & _ & Hval).
  exists l, w'. split; [exact Hrun|]. split; [exact Hg|]. split.
  - intros Hodd. apply Z.odd_spec in Hodd. destruct Hodd as [k Hk].
    replace (IrStepCount (mem w)) with (2 * k + 1) at 1 by lia.
    apply Hin; [|lia]. rewrite Z.even_mul. reflexivity.
  - intros Hgar. apply Hval. exact Hgar.
Qed.

(** ** Closed statements *)

(** C1, evaluated on the code.  The burst captured for 0xE0E040BF has 66
    steps with the durations of [encode]; when [Loop2UInt16] holds 0 on
    entry, lines 106-131 fold its first data pair a second time and the
    scan ends with 0x1E0E040BF in [DataBuffer], no error being flagged. *)
Theorem round_trip_breaks_on_stale_counter :
  IrStepCount (mem power_world) = 66 /\
  take 66 (IrResultValue (mem power_world)) = encode 0xE0E040BF /\
  scan_value (decode_scan 33 0 power_world) = Some 0x1E0E040BF /\
  scan_flag (decode_scan 33 0 power_world) = Some FLAG_OFF.
Proof. vm_compute. repeat split. Qed.

(** C4, evaluated on the code.  The same burst decodes to 0x1E0E040BF when
    [Loop2UInt16] holds 0 or 1 on entry and to 0xE0E040BF when it holds
    2. *)
Theorem decode_depends_on_stale_counter :
  scan_value (decode_scan 33 0 power_world) = Some 0x1E0E040BF /\
  scan_value (decode_scan 33 1 power_world) = Some 0x1E0E040BF /\
  scan_value (decode_scan 33 2 power_world) = Some 0xE0E040BF.
Proof. vm_compute. repeat split. Qed.

(** C7, evaluated on the code.  With [Loop2UInt16] holding 0 on entry the
    33 shifts of the scan leave a value of at least 2^32 in
    [DataBuffer]. *)
Theorem value_overflows_thirty_two_bits :
  exists v, scan_value (decode_scan 33 0 power_world) = Some v /\ 2 ^ NUMBER_OF_BITS <= v.
Proof. exists 0x1E0E040BF. split; [vm_compute; reflexivity | vm_compute; discriminate]. Qed.

(** C6, evaluated on the code.  In the burst of one wake-up pair and one
    data pair whose high phase lasts 5000 microseconds, the high duration
    is above TRIGGER_POINT_0_1 and lines 84-85 fold a 1.  When
    [Loop2UInt16] holds 0 or 1 on entry, lines 122-128 fold the pair a
    second time under another rule, above TRIGGER_POINT_0_1 and below four
    times as much, which gives a 0 here: the scan ends with 2 in
    [DataBuffer].  It ends with 1 when [Loop2UInt16] holds 2. *)
Theorem stale_counter_folds_a_pair_under_another_rule :
  peek ArIrResultValue 3 (mem (world_of (captured [4450; 4450; 550; 5000]))) = 5000 /\
  (5000 >? TRIGGER_POINT_0_1) = true /\
  scan_value (on_burst [4450; 4450; 550; 5000] (decode_scan 2 0)) = Some 2 /\
  scan_value (on_burst [4450; 4450; 550; 5000] (decode_scan 2 1)) = Some 2 /\
  scan_value (on_burst [4450; 4450; 550; 5000] (decode_scan 2 2)) = Some 1.
Proof. vm_compute. repeat split. Qed.

(** C3, evaluated on the code.  499 events are captured inside the arrays;
    the handler call that records the 500th event then writes
    [IrInitialValue[500]], one cell past the end. *)
Theorem capture_writes_past_the_arrays :
  returned (captured (replicate 499 550)) = Some tt /\
  IrStepCount (mem (world_of (captured (replicate 499 550)))) = 499 /\
  captured (replicate 500 550) = Faulty (OutOfBounds ArIrInitialValue 500).
Proof. vm_compute. repeat split. Qed.

(** C2, counterexample.  In the burst whose third pair holds 15000
    microseconds, the pair at step 4 is a separator; the scan ends with 7,
    not with the 1 accumulated before step 4, and prints the data bit of
    step 6 after the end-of-data mark. *)
Lemma separator_does_not_stop_scan :
  is_separator (mem separator_world) 4 = true /\
  scan_value (decode_scan 4 2 separator_world) = Some 7 /\
  scan_value (on_burst (take 4 separator_burst) (decode_scan 4 2)) = Some 1 /\
  skipn 6 (printed (decode_scan 4 2 separator_world)) =
  [LDataBit 2 1 "low" 550 "high" 1675 1;
   LDataBit 4 2 "low" 550 "high" 15000 3;
   LEndOfData 4;
   LDataBit 6 3 "low" 550 "high" 1675 7].
Proof. vm_compute. repeat split. Qed.

(** C5, counterexample.  On a burst of 133 steps, one pair short of
    NUMBER_OF_STEPS, the scan reads [IrResultValue[133]] and prints no
    end-of-data mark. *)
Lemma short_burst_reads_cell_at_count :
  IrStepCount (mem short_world) = NUMBER_OF_STEPS - 2 /\
  List.existsb (reads_cell ArIrResultValue (IrStepCount (mem short_world)))
    (touched (decode_scan 67 2 short_world)) = true /\
  List.existsb is_end_mark (printed (decode_scan 67 2 short_world)) = false.
Proof. vm_compute. repeat split. Qed.

(** C8, counterexample.  A burst of 4 steps whose low half is flagged in
    [FlagError] is not valid by the rule of the specification, and a clean
    burst of 135 steps is; [decode_ir_command] returns the same values for
    both, and the lines printed for the first hold no report of the
    count. *)
Lemma anomaly_and_miscount_go_unreported :
  scan_flag (on_burst long_low_burst (decode_scan 2 0)) = Some FLAG_ON /\
  spec_valid true 4 false = false /\
  scan_flag (on_burst full_burst (decode_scan 68 0)) = Some FLAG_OFF /\
  spec_valid false 135 false = true /\
  printed (on_burst long_low_burst (decode_ir_command 2 1 0 "")) =
    [LDecoding; LTotalSteps 4 135; LHeader 4; LButton ""; LColumns;
     LGetReady 0 "low" 4450 "high" 4450;
     LDataBit 2 1 "low" 1000 "high" 1675 1;
     LErrorLow 0 2 1000;
     LFinal 3 4 135; LPrompt] /\
  returned (on_burst long_low_burst (decode_ir_command 2 1 0 "")) = Some (1, 0) /\
  returned (on_burst full_burst (decode_ir_command 68 1 0 "")) = Some (1, 0).
Proof. vm_compute. repeat split. Qed.

(** ** Further evaluations *)

(** A high half of exactly TRIGGER_POINT_0_1 microseconds is a 0, one
    microsecond more is a 1. *)
Example tie_decodes_as_zero :
  scan_value (on_burst [4450; 4450; 550; 750; 550; 751] (decode_scan 3 2)) = Some 1.
Proof. vm_compute. reflexivity. Qed.

(** [main] resets the first MAX_BUTTONS entries of [RemoteData] and leaves
    the other 128 as they were. *)
Example main_resets_the_first_128_entries :
  let junk := Entry.Build "?" 99 in
  let start := set_RemoteData (replicate 256 junk) power_on in
  RemoteData (mem (world_of (main_init (Build_World start [] [] [])))) =
  replicate 128 (Entry.Build EmptyString 0) ++ replicate 128 junk.
Proof. vm_compute. reflexivity. Qed.

(** ** Witnesses *)

(** C9 at the burst of 133 steps. *)
Lemma decode_terminates_witness :
  wf (mem short_world) /\
  (exists l w', decode_scan 67 0 short_world = Done (l, w')) /\
  decode_ir_command 67 1 0 "x" short_world <> OutOfFuel /\
  (forall fuel', 2 * Z.of_nat fuel' < IrStepCount (mem short_world) ->
     decode_scan fuel' 0 short_world = OutOfFuel).
Proof.
  split; [vm_compute; reflexivity|].
  apply (decode_terminates 67 1 0 "x" short_world);
    [vm_compute; reflexivity | vm_compute; split; discriminate | vm_compute; discriminate].
Defined.

(** C10 at the first recording after start-up. *)
Lemma confirmed_decode_records_unchecked_witness :
  confirms "x" = true /\
  (RemoteDataTotal (mem power_world) < REMOTE_DATA_SIZE ->
   exists w',
     decode_finish 1 "x" (Build_Locals 32 0 2 0xE0E040BF) power_world = Done (UINT8 1, w') /\
     RemoteData (mem w') !! Z.to_nat (RemoteDataTotal (mem power_world)) =
       Some (Entry.Build (ButtonName (mem power_world)) 0xE0E040BF) /\
     (forall i, i <> Z.to_nat (RemoteDataTotal (mem power_world)) ->
        RemoteData (mem w') !! i = RemoteData (mem power_world) !! i) /\
     RemoteDataTotal (mem w') = RemoteDataTotal (mem power_world) + 1) /\
  (REMOTE_DATA_SIZE <= RemoteDataTotal (mem power_world) ->
   decode_finish 1 "x" (Build_Locals 32 0 2 0xE0E040BF) power_world =
   Faulty (RemoteDataOutOfBounds (RemoteDataTotal (mem power_world)))).
Proof.
  split; [reflexivity|].
  apply (confirmed_decode_records_unchecked 1 "x" (Build_Locals 32 0 2 0xE0E040BF) power_world);
    [vm_compute; reflexivity | reflexivity | vm_compute; discriminate].
Defined.

(** C8, as amended, with [FlagError] set and 66 steps instead of 135. *)
Lemma decode_finish_reports_neither_flag_nor_count_witness :
  exists w',
    decode_finish 1 "x" (Build_Locals 2 FLAG_ON 2 3) power_world = Done (UINT8 1, w') /\
    console w' =
      LPrompt :: LFinal 3 (IrStepCount (mem power_world)) NUMBER_OF_STEPS :: console power_world.
Proof.
  apply (decode_finish_reports_neither_flag_nor_count 1 "x" (Build_Locals 2 FLAG_ON 2 3) power_world);
    [vm_compute; reflexivity | intros _; vm_compute; split; [discriminate | reflexivity]].
Defined.

(** C2, as amended, at the separator pair of [separator_burst]. *)
Lemma separator_pair_is_marked_and_scan_goes_on_witness :
  is_separator (mem separator_world) 4 = true /\
  exists l' w',
    loop_body 4 (Build_Locals 1 0 2 1) separator_world = Done (l', w') /\
    (exists rest, console w' = LEndOfData 4 :: rest) /\
    BitNumber l' = (4 - NUMBER_OF_WAKEUP_STEPS) / 2 + 1 /\
    FlagError l' = 0 /\
    Loop2UInt16 l' = 2 /\
    DataBuffer l' =
      (if takes_bit (BitNumber l') then folded (mem separator_world) 4 1 else 1) /\
    (forall fuel, 4 < IrStepCount (mem separator_world) ->
       for_loop (S fuel) 4 (Build_Locals 1 0 2 1) separator_world =
       for_loop fuel (UINT16 (4 + 2)) l' w').
Proof.
  split; [vm_compute; reflexivity|].
  apply (separator_pair_is_marked_and_scan_goes_on 4 (Build_Locals 1 0 2 1) separator_world);
    [vm_compute; reflexivity | vm_compute; discriminate | vm_compute; reflexivity
    | vm_compute; discriminate | vm_compute; reflexivity].
Defined.

(** C5, as amended, at the burst of 133 steps. *)
Lemma scan_reads_up_to_cell_count_witness :
  Z.odd (IrStepCount (mem short_world)) = true /\
  exists l w',
    decode_scan 67 2 short_world = Done (l, w') /\
    grows (within (IrStepCount (mem short_world)))
      (marked (mem short_world) (IrStepCount (mem short_world)) (UINT16 2)) short_world w' /\
    (Z.odd (IrStepCount (mem short_world)) = true ->
     In (Rd ArIrResultValue (IrStepCount (mem short_world))) (accesses w')) /\
    (2 <= UINT16 2 ->
     DataBuffer l = value (mem short_world) (data_pairs (IrStepCount (mem short_world)))).
Proof.
  split; [vm_compute; reflexivity|].
  apply (scan_reads_up_to_cell_count 67 2 short_world);
    [vm_compute; reflexivity | vm_compute; split; discriminate | vm_compute; discriminate].
Defined.
(** * Properties of the rest of the program *)

(** ** The interrupt handler and [init_burst_variables] *)

(** The loop of [init_burst_variables] from index [i] on. *)
Lemma init_loop_spec fuel : forall i w,
  wf (mem w) -> 0 <= i <= MAX_IR_READINGS -> MAX_IR_READINGS - i <= Z.of_nat fuel ->
  exists w',
    init_loop fuel i w = Done (tt, w') /\
    wf (mem w') /\
    (forall a, cells a (mem w') =
               take (Z.to_nat i) (cells a (mem w)) ++
               replicate (Z.to_nat (MAX_IR_READINGS - i)) (cleared a)) /\
    globals (mem w') = globals (mem w) /\
    timer w' = timer w /\ console w' = console w.
Proof.
  induction fuel as [|fuel IH]; intros i w Hwf Hi Hfuel.
  - assert (i = MAX_IR_READINGS) as -> by lia. exists w.
    split; [reflexivity|]. split; [exact Hwf|]. split; [|auto].
    intros a. rewrite Z.sub_diag. cbn [Z.to_nat replicate]. rewrite app_nil_r.
    rewrite take_ge; [reflexivity|]. pose proof (wf_cells _ a Hwf). lia.
  - cbn [init_loop]. destruct (i <? MAX_IR_READINGS) eqn:Hlt.
    + apply Z.ltb_lt in Hlt.
      set (w1 := Build_World
                   (set_cells ArIrInitialValue
                      (<[Z.to_nat i := 0]> (cells ArIrInitialValue (mem w))) (mem w))
                   (timer w) (console w) (Wr ArIrInitialValue i :: accesses w)).
      set (w2 := Build_World
                   (set_cells ArIrFinalValue
                      (<[Z.to_nat i := 0]> (cells ArIrFinalValue (mem w1))) (mem w1))
                   (timer w1) (console w1) (Wr ArIrFinalValue i :: accesses w1)).
      set (w3 := Build_World
                   (set_cells ArIrResultValue
                      (<[Z.to_nat i := 0]> (cells ArIrResultValue (mem w2))) (mem w2))
                   (timer w2) (console w2) (Wr ArIrResultValue i :: accesses w2)).
      set (w4 := Build_World
                   (set_cells ArIrLevel
                      (<[Z.to_nat i := 2]> (cells ArIrLevel (mem w3))) (mem w3))
                   (timer w3) (console w3) (Wr ArIrLevel i :: accesses w3)).
      assert (Hwf1 : wf (mem w1)) by (apply wf_set_cells; [exact Hwf | discriminate]).
      assert (Hwf2 : wf (mem w2)) by (apply wf_set_cells; [exact Hwf1 | discriminate]).
      assert (Hwf3 : wf (mem w3)) by (apply wf_set_cells; [exact Hwf2 | discriminate]).
      assert (Hwf4 : wf (mem w4)) by (apply wf_set_cells; [exact Hwf3 | lia]).
      rewrite (bind_done _ _ _ _ _ (wr_done ArIrInitialValue i 0 w Hwf ltac:(lia))).
      fold w1.
      rewrite (bind_done _ _ _ _ _ (wr_done ArIrFinalValue i 0 w1 Hwf1 ltac:(lia))).
      fold w2.
      rewrite (bind_done _ _ _ _ _ (wr_done ArIrResultValue i 0 w2 Hwf2 ltac:(lia))).
      fold w3.
      rewrite (bind_done _ _ _ _ _ (wr_done ArIrLevel i 2 w3 Hwf3 ltac:(lia))).
      fold w4.
      destruct (IH (i + 1) w4 Hwf4 ltac:(lia) ltac:(lia))
        as (w' & Hrun & Hwf' & Hcells & Hglob & Htimer & Hconsole).
      exists w'. split; [exact Hrun|]. split; [exact Hwf'|]. split; [|auto].
      intros a. rewrite Hcells.
      assert (Hcell : cells a (mem w4) = <[Z.to_nat i := cleared a]> (cells a (mem w))).
      { destruct a; reflexivity. }
      rewrite Hcell.
      replace (Z.to_nat (i + 1)) with (S (Z.to_nat i)) by lia.
      pose proof (wf_cells _ a Hwf) as Hlen.
      rewrite (take_S_r _ _ (cleared a)) by (apply list_lookup_insert_eq; lia).
      rewrite take_insert_ge by lia. rewrite <- app_assoc. f_equal.
      replace (Z.to_nat (MAX_IR_READINGS - i))
        with (S (Z.to_nat (MAX_IR_READINGS - (i + 1)))) by lia.
      reflexivity.
    + apply Z.ltb_ge in Hlt. assert (i = MAX_IR_READINGS) as -> by lia. exists w.
      split; [reflexivity|]. split; [exact Hwf|]. split; [|auto].
      intros a. rewrite Z.sub_diag. cbn [Z.to_nat replicate]. rewrite app_nil_r.
      rewrite take_ge; [reflexivity|]. pose proof (wf_cells _ a Hwf). lia.
Qed.

(** X1.  [init_burst_variables] always ends: it sets the step count to 0
    and every cell of the four arrays to its rest value (0, and 2 for
    [IrLevel], the row "---" of [LevelString]), whatever the last burst
    left there, and it touches neither the button name, nor the buttons
    recorded so far, nor the console. *)
Theorem init_burst_variables_clears_the_burst w :
  wf (mem w) ->
  exists w',
    init_burst_variables w = Done (tt, w') /\
    IrStepCount (mem w') = 0 /\
    (forall a, cells a (mem w') = replicate (Z.to_nat MAX_IR_READINGS) (cleared a)) /\
    ButtonName (mem w') = ButtonName (mem w) /\
    RemoteData (mem w') = RemoteData (mem w) /\
    RemoteDataTotal (mem w') = RemoteDataTotal (mem w) /\
    console w' = console w.
Proof.
  intros Hwf. unfold init_burst_variables.
  set (w0 := Build_World (set_IrStepCount 0 (mem w)) (timer w) (console w) (accesses w)).
  destruct (init_loop_spec (Z.to_nat MAX_IR_READINGS) 0 w0)
    as (w' & Hrun & _ & Hcells & Hglob & _ & Hconsole).
  - exact Hwf.
  - unfold MAX_IR_READINGS. lia.
  - unfold MAX_IR_READINGS. lia.
  - exists w'. split.
    + rewrite <- Hrun. reflexivity.
    + unfold globals in Hglob. injection Hglob as H1 H2 H3 H4 H5.
      split; [exact H1|]. split; [|auto].
      intros a. rewrite Hcells. reflexivity.
Qed.

Lemma init_burst_variables_clears_the_burst_witness :
  exists w',
    init_burst_variables power_world = Done (tt, w') /\
    IrStepCount (mem w') = 0 /\
    (forall a, cells a (mem w') = replicate (Z.to_nat MAX_IR_READINGS) (cleared a)) /\
    ButtonName (mem w') = ButtonName (mem power_world) /\
    RemoteData (mem w') = RemoteData (mem power_world) /\
    RemoteDataTotal (mem w') = RemoteDataTotal (mem power_world) /\
    console w' = console power_world.
Proof.
  apply (init_burst_variables_clears_the_burst power_world).
  vm_compute; reflexivity.
Defined.

(** X2.  Every burst of fewer than MAX_IR_READINGS durations, each below
    2^32 microseconds, is captured as it is: the handler counts its steps
    and stores their durations in order in [IrResultValue]. *)
Theorem capture_records_durations durs :
  Z.of_nat (length durs) < MAX_IR_READINGS ->
  Forall (fun d => 0 <= d < 2 ^ 32) durs ->
  exists w,
    captured durs = Done (tt, w) /\
    wf (mem w) /\
    IrStepCount (mem w) = Z.of_nat (length durs) /\
    take (length durs) (IrResultValue (mem w)) = durs.
Proof.
  intros Hlen Hds.
  destruct (capture_spec durs Hlen Hds) as (w & Hrun & Hwf & Hk & Htake & _ & _).
  exists w. auto.
Qed.

Lemma capture_records_durations_witness :
  exists w,
    captured long_low_burst = Done (tt, w) /\
    wf (mem w) /\
    IrStepCount (mem w) = Z.of_nat (length long_low_burst) /\
    take (length long_low_burst) (IrResultValue (mem w)) = long_low_burst.
Proof.
  apply (capture_records_durations long_low_burst);
    [vm_compute; reflexivity | repeat constructor; vm_compute; discriminate].
Defined.

Lemma levels_lookup n : forall rising i,
  (i < n)%nat ->
  levels rising n !! i =
  Some (if Bool.eqb rising (Z.even (Z.of_nat i)) then 0 else 1).
Proof.
  induction n as [|n IH]; intros rising i Hi; [lia|].
  destruct i as [|i]; cbn [levels].
  - destruct rising; reflexivity.
  - cbn [lookup list_lookup]. rewrite IH by lia.
    rewrite Nat2Z.inj_succ, Z.even_succ, <- Z.negb_even.
    destruct rising, (Z.even (Z.of_nat i)); reflexivity.
Qed.

(** X3.  In a captured burst the levels alternate: the steps of even index
    are low levels (0), those of odd index are high levels (1). *)
Theorem capture_alternates_levels durs i :
  Z.of_nat (length durs) < MAX_IR_READINGS ->
  Forall (fun d => 0 <= d < 2 ^ 32) durs ->
  0 <= i < Z.of_nat (length durs) ->
  exists w,
    captured durs = Done (tt, w) /\
    peek ArIrLevel i (mem w) = i mod 2.
Proof.
  intros Hlen Hds Hi.
  destruct (capture_spec durs Hlen Hds) as (w & Hrun & Hwf & Hk & _ & Hlevels & _).
  exists w. split; [exact Hrun|].
  unfold peek. cbn [cells].
  rewrite <- (lookup_take_lt (IrLevel (mem w)) (length durs)) by lia.
  rewrite Hlevels, levels_lookup by lia. rewrite Z2Nat.id by lia.
  rewrite Zmod_even. destruct (Z.even i); reflexivity.
Qed.

Lemma capture_alternates_levels_witness :
  exists w,
    captured power_burst = Done (tt, w) /\
    peek ArIrLevel 3 (mem w) = 3 mod 2.
Proof.
  apply (capture_alternates_levels power_burst 3);
    [vm_compute; reflexivity | apply encode_in_range
    | vm_compute; split; [discriminate | reflexivity]].
Defined.

(** X4.  The round trip from the edges of the line to [DataBuffer]: when
    the local [Loop2UInt16] holds 2 or more on entry, so that lines 106-131
    do nothing, the burst that the handler captures for a 32-bit word [X]
    sent with the timings of the header of Samsung.c decodes to [X], with
    [FlagError] off. *)
Theorem round_trip_from_edges X garbage :
  0 <= X < 2 ^ 32 -> 2 <= UINT16 garbage ->
  scan_value (on_burst (encode X) (decode_scan 33 garbage)) = Some X /\
  scan_flag (on_burst (encode X) (decode_scan 33 garbage)) = Some FLAG_OFF.
Proof.
  intros HX Hgar.
  destruct (capture_spec (encode X)) as (w & Hcap & Hwf & Hk & Htake & _ & _).
  { rewrite length_encode. reflexivity. }
  { apply encode_in_range. }
  rewrite length_encode in Hk, Htake.
  destruct (round_trip_with_spent_counter 33 garbage X w Hwf (conj Hk Htake) HX
              (le_n 33) Hgar) as (l & w' & Hrun & Hv & Hf & _).
  unfold on_burst. rewrite Hcap. cbn [and_then]. rewrite Hrun. cbn [scan_value scan_flag].
  split; congruence.
Qed.

Lemma round_trip_from_edges_witness :
  scan_value (on_burst (encode 0xE0E040BF) (decode_scan 33 2)) = Some 0xE0E040BF /\
  scan_flag (on_burst (encode 0xE0E040BF) (decode_scan 33 2)) = Some FLAG_OFF.
Proof.
  apply (round_trip_from_edges 0xE0E040BF 2);
    [vm_compute; split; [discriminate | reflexivity] | vm_compute; discriminate].
Defined.

(** ** The console *)

Local Open Scope io_scope.

Lemma io_bind_returned {A B} (c : IO A) (k : A -> IO B) mc a mc' :
  c mc = Returned (a, mc') -> io_bind c k mc = k a mc'.
Proof. intros H. unfold io_bind. rewrite H. reflexivity. Qed.

Lemma io_bind_broke {A B} (c : IO A) (k : A -> IO B) mc t :
  c mc = Broke t -> io_bind c k mc = Broke t.
Proof. intros H. unfold io_bind. rewrite H. reflexivity. Qed.

Lemma store_returned s i v mc :
  0 <= i < Z.of_nat (length s) ->
  store s i v mc = Returned (<[Z.to_nat i := v]> s, mc).
Proof.
  intros Hi. unfold store.
  replace ((0 <=? i) && (i <? Z.of_nat (length s))) with true
    by (symmetry; apply andb_true_iff; lia).
  reflexivity.
Qed.

Lemma store_broke s i v mc :
  Z.of_nat (length s) <= i -> store s i v mc = Broke (Overrun i).
Proof.
  intros Hi. unfold store.
  replace (i <? Z.of_nat (length s)) with false by (symmetry; apply Z.ltb_ge; lia).
  rewrite andb_false_r. reflexivity.
Qed.

Lemma int8_t_ordinary k :
  ordinary k ->
  int8_t k <> PICO_ERROR_TIMEOUT /\ int8_t k <> 0 /\ int8_t k <> 8 /\ int8_t k <> 13 /\
  UCHAR (int8_t k) = k.
Proof.
  unfold ordinary, int8_t, UCHAR, PICO_ERROR_TIMEOUT.
  change (2 ^ 7) with 128. change (2 ^ 8) with 256.
  intros H. repeat split; Z.div_mod_to_equations; lia.
Qed.

(** An ordinary key is echoed and stored at [Loop1UInt8]. *)
Lemma input_switch_ordinary k Str (n : nat) mc :
  ordinary k -> (n < length Str)%nat -> (n < 255)%nat ->
  input_switch (int8_t k) Str (Z.of_nat n) mc =
  Returned ((<[n := k]> Str, Z.of_nat (S n)), after (keys mc) [IChars [k]] mc).
Proof.
  intros Hk Hn Hn'. destruct (int8_t_ordinary k Hk) as (H1 & H2 & H3 & H4 & H5).
  unfold input_switch.
  apply Z.eqb_neq in H1, H2, H3, H4. rewrite H1, H2, H3, H4. cbn [orb].
  rewrite H5. unfold io_bind at 1. cbn [say].
  rewrite (io_bind_returned _ _ _ _ _ (store_returned Str (Z.of_nat n) k _ ltac:(lia))).
  unfold io_ret, after. cbn [app]. rewrite Nat2Z.id.
  replace (UINT8 (Z.of_nat n + 1)) with (Z.of_nat (S n)); [reflexivity|].
  unfold UINT8. change (2 ^ 8) with 256. rewrite Z.mod_small by lia. lia.
Qed.

Lemma input_loop_turn fuel Str n mc k ks :
  keys mc = k :: ks ->
  input_loop (S fuel) Str n mc =
  io_bind (input_switch (int8_t k) Str n)
    (fun r => if (snd r <? 128) && negb (int8_t k =? 13)
              then input_loop fuel (fst r) (snd r) else io_ret r)
    (after ks [] mc).
Proof.
  intros H. cbn [input_loop]. unfold io_bind at 1, getchar_timeout_us. rewrite H.
  reflexivity.
Qed.

Lemma after_after r1 i1 r2 i2 mc :
  after r2 i2 (after r1 i1 mc) = after r2 (i2 ++ i1) mc.
Proof. unfold after. cbn. rewrite app_assoc. reflexivity. Qed.

Lemma after_nothing mc : after (keys mc) [] mc = mc.
Proof. destruct mc. reflexivity. Qed.

(** Ordinary keys below the limit of 128 are stored one after the other. *)
Lemma input_loop_ordinary cs : forall fuel Str (n : nat) mc tail,
  Forall ordinary cs -> keys mc = cs ++ tail ->
  (n + length cs <= 127)%nat -> (n + length cs <= length Str)%nat ->
  input_loop (length cs + fuel) Str (Z.of_nat n) mc =
  input_loop fuel (take n Str ++ cs ++ drop (n + length cs) Str) (Z.of_nat (n + length cs))
    (after tail (echo cs) mc).
Proof.
  induction cs as [|c cs IH]; intros fuel Str n mc tail Hcs Hkeys Hn Hsize.
  - cbn [length app echo rev map]. rewrite Nat.add_0_r, take_drop.
    cbn [app] in Hkeys. rewrite <- Hkeys, after_nothing. reflexivity.
  - apply Forall_cons in Hcs. destruct Hcs as [Hc Hcs]. cbn [length] in Hn, Hsize.
    cbn [length Nat.add]. rewrite (input_loop_turn _ _ _ _ c (cs ++ tail)) by exact Hkeys.
    rewrite (io_bind_returned _ _ _ _ _
               (input_switch_ordinary c Str n _ Hc ltac:(lia) ltac:(lia))).
    cbn [fst snd]. destruct (int8_t_ordinary c Hc) as (_ & _ & _ & H13 & _).
    apply Z.eqb_neq in H13. rewrite H13.
    replace (Z.of_nat (S n) <? 128) with true by (symmetry; apply Z.ltb_lt; lia).
    cbn [negb andb]. rewrite after_after.
    rewrite (IH fuel _ (S n) _ tail Hcs); [| reflexivity | lia | rewrite length_insert; lia].
    rewrite after_after. f_equal.
    + rewrite (take_S_r _ _ c) by (apply list_lookup_insert_eq; lia).
      rewrite take_insert_ge by lia. rewrite drop_insert_lt by lia.
      rewrite <- app_assoc. cbn [app].
      replace (S n + length cs)%nat with (n + S (length cs))%nat by lia. reflexivity.
    + f_equal. lia.
    + unfold after, echo. cbn [rev]. rewrite map_app. cbn [map app].
      rewrite <- app_assoc. reflexivity.
Qed.

Lemma input_loop_ordinary_start cs fuel Str mc tail :
  Forall ordinary cs -> keys mc = cs ++ tail ->
  (length cs <= 127)%nat -> (length cs <= length Str)%nat ->
  input_loop (length cs + fuel) Str 0 mc =
  input_loop fuel (cs ++ drop (length cs) Str) (Z.of_nat (length cs))
    (after tail (echo cs) mc).
Proof.
  intros Hcs Hkeys Hn Hsize.
  exact (input_loop_ordinary cs fuel Str 0 mc tail Hcs Hkeys Hn Hsize).
Qed.

Lemma int8_t_enter : int8_t 13 = 13.
Proof. reflexivity. Qed.

(** Enter after at least one character: the array is left as it is. *)
Lemma input_switch_enter Str n mc :
  n <> 0 ->
  input_switch 13 Str n mc = Returned ((Str, n), after (keys mc) [IChars [13]] mc).
Proof.
  intros Hn. unfold input_switch.
  change ((13 =? PICO_ERROR_TIMEOUT) || (13 =? 0)) with false.
  change (13 =? 8) with false. change (13 =? 13) with true. cbv iota.
  apply Z.eqb_neq in Hn. rewrite Hn. reflexivity.
Qed.

(** Enter on an empty line: the array receives the character 13 and a
    NUL, and [Loop1UInt8] ends at 2. *)
Lemma input_switch_enter_empty Str mc :
  (2 <= length Str)%nat ->
  input_switch 13 Str 0 mc =
  Returned ((<[1%nat := 0]> (<[0%nat := 13]> Str), 2), after (keys mc) [IChars [13]] mc).
Proof.
  intros Hlen. unfold input_switch.
  change ((13 =? PICO_ERROR_TIMEOUT) || (13 =? 0)) with false.
  change (13 =? 8) with false. change (13 =? 13) with true. cbv iota.
  change (0 =? 0) with true. cbv iota.
  unfold io_bind at 1. unfold io_bind at 1.
  rewrite (store_returned Str 0 (UCHAR 13) mc) by lia.
  unfold io_bind at 1. change (UINT8 (0 + 1)) with 1.
  rewrite store_returned by (rewrite length_insert; lia).
  reflexivity.
Qed.

Lemma length_keys_line {A} (cs : list A) k rest :
  S (length (cs ++ k :: rest)) = (length cs + S (S (length rest)))%nat.
Proof. rewrite length_app. cbn [length]. lia. Qed.

Lemma insert_after_prefix (cs Str : list Z) v :
  (length cs < length Str)%nat ->
  <[length cs := v]> (cs ++ drop (length cs) Str) = cs ++ v :: drop (S (length cs)) Str.
Proof.
  intros Hlen. rewrite insert_app_r_alt by lia. rewrite Nat.sub_diag.
  destruct (drop (length cs) Str) as [|x l] eqn:Hd.
  - apply (f_equal length) in Hd. rewrite length_drop in Hd. cbn in Hd. lia.
  - cbn. f_equal. f_equal. rewrite <- Nat.add_1_l, Nat.add_comm, <- drop_drop, Hd. reflexivity.
Qed.

Lemma echo_snoc cs c : echo (cs ++ [c]) = IChars [c] :: echo cs.
Proof. unfold echo. rewrite rev_app_distr. reflexivity. Qed.

Lemma split_last_key (cs : list Z) n :
  length cs = S n -> exists cs0 c, cs = cs0 ++ [c] /\ length cs0 = n.
Proof.
  intros Hlen. destruct (exists_last (l := cs)) as (cs0 & c & ->).
  - intros ->. discriminate.
  - exists cs0, c. split; [reflexivity|]. rewrite length_app in Hlen. cbn in Hlen. lia.
Qed.

(** The loop on a line of 1 to 127 ordinary characters ended by Enter. *)
Lemma input_loop_line cs rest Str mc :
  Forall ordinary cs -> (0 < length cs < 128)%nat -> (length cs <= length Str)%nat ->
  keys mc = cs ++ 13 :: rest ->
  input_loop (S (length (keys mc))) Str 0 mc =
  Returned ((cs ++ drop (length cs) Str, Z.of_nat (length cs)),
            after rest (IChars [13] :: echo cs) mc).
Proof.
  intros Hcs Hlen Hsize Hkeys. rewrite Hkeys at 1. rewrite length_keys_line.
  rewrite (input_loop_ordinary_start cs _ Str mc (13 :: rest) Hcs Hkeys) by lia.
  rewrite (input_loop_turn _ _ _ _ 13 rest) by reflexivity.
  rewrite int8_t_enter.
  rewrite (io_bind_returned _ _ _ _ _
             (input_switch_enter _ (Z.of_nat (length cs)) _ ltac:(lia))).
  cbn [fst snd]. change (negb (13 =? 13)) with false. rewrite andb_false_r.
  rewrite !after_after. reflexivity.
Qed.

(** The turn of the loop that stores the 128th character is the last. *)
Lemma input_loop_128th fuel Str c tail mc :
  ordinary c -> (127 < length Str)%nat -> keys mc = c :: tail ->
  input_loop (S fuel) Str 127 mc =
  Returned ((<[127%nat := c]> Str, 128), after tail [IChars [c]] mc).
Proof.
  intros Hc Hlen Hkeys. rewrite (input_loop_turn _ _ _ _ c tail Hkeys).
  rewrite (io_bind_returned _ _ _ _ _
             (input_switch_ordinary c Str 127 _ Hc ltac:(lia) ltac:(lia))).
  cbn [fst snd]. change (Z.of_nat 128 <? 128) with false. cbn [andb].
  rewrite after_after. reflexivity.
Qed.

(** The loop on 128 ordinary characters. *)
Lemma input_loop_full cs tail Str mc :
  Forall ordinary cs -> length cs = 128%nat -> (128 <= length Str)%nat ->
  keys mc = cs ++ tail ->
  input_loop (S (length (keys mc))) Str 0 mc =
  Returned ((cs ++ drop 128 Str, 128), after tail (echo cs) mc).
Proof.
  intros Hcs Hlen Hsize Hkeys.
  destruct (split_last_key cs 127 Hlen) as (cs0 & c & -> & Hlen0).
  apply Forall_app in Hcs. destruct Hcs as [Hcs0 Hc].
  apply (proj1 (Forall_singleton _ _)) in Hc.
  rewrite <- app_assoc in Hkeys. cbn [app] in Hkeys.
  rewrite Hkeys at 1. rewrite length_keys_line.
  rewrite (input_loop_ordinary_start cs0 _ Str mc (c :: tail) Hcs0 Hkeys) by lia.
  rewrite Hlen0. change (Z.of_nat 127) with 127.
  rewrite (input_loop_128th _ _ c tail); [| exact Hc | | reflexivity].
  - rewrite after_after, echo_snoc. rewrite <- Hlen0, insert_after_prefix by lia.
    rewrite <- app_assoc, Hlen0. reflexivity.
  - rewrite length_app, length_drop. lia.
Qed.

(** An ordinary key typed when the array is full is stored past its end. *)
Lemma input_switch_ordinary_overrun k Str (n : nat) mc :
  ordinary k -> (length Str <= n)%nat ->
  input_switch (int8_t k) Str (Z.of_nat n) mc = Broke (Overrun (Z.of_nat n)).
Proof.
  intros Hk Hn. destruct (int8_t_ordinary k Hk) as (H1 & H2 & H3 & H4 & H5).
  unfold input_switch.
  apply Z.eqb_neq in H1, H2, H3, H4. rewrite H1, H2, H3, H4. cbn [orb].
  unfold io_bind at 1. cbn [say].
  rewrite (io_bind_broke _ _ _ _ (store_broke Str (Z.of_nat n) _ _ ltac:(lia))).
  reflexivity.
Qed.

(** X5.  A line of 1 to 127 ordinary characters ended by Enter, typed
    into an array with room for it and its NUL: [input_string] returns
    with the characters at the start of the array, followed by one NUL;
    the cells after it keep what they held, each character is echoed
    once, and the keys after Enter are left for the next call. *)
Theorem input_string_reads_a_line cs rest Str mc :
  Forall ordinary cs -> (0 < length cs < 128)%nat -> (length cs < length Str)%nat ->
  keys mc = cs ++ 13 :: rest ->
  input_string Str mc =
  Returned (cs ++ 0 :: drop (S (length cs)) Str, after rest (IChars [13] :: echo cs) mc).
Proof.
  intros Hcs Hlen Hsize Hkeys. unfold input_string.
  unfold io_bind at 1. cbn [get_machine].
  rewrite (io_bind_returned _ _ _ _ _
             (input_loop_line cs rest Str mc Hcs Hlen ltac:(lia) Hkeys)).
  cbn [fst snd]. rewrite store_returned by (rewrite length_app, length_drop; lia).
  rewrite Nat2Z.id, insert_after_prefix by lia. reflexivity.
Qed.

Lemma input_string_reads_a_line_witness :
  input_string (replicate 64 0) (console_on power_world ([79; 78] ++ 13 :: [120])) =
  Returned ([79; 78] ++ 0 :: drop (S (length [79; 78])) (replicate 64 0),
            after [120] (IChars [13] :: echo [79; 78])
              (console_on power_world ([79; 78] ++ 13 :: [120]))).
Proof.
  apply (input_string_reads_a_line [79; 78] [120] (replicate 64 0)
           (console_on power_world ([79; 78] ++ 13 :: [120])));
    [repeat constructor; vm_compute; discriminate
    | vm_compute; lia | vm_compute; lia | reflexivity].
Defined.

(** X6.  [input_string] does not wait for Enter for ever: once 128
    ordinary characters are typed it returns, with the NUL stored at
    index 128 of the array, and leaves the keys that follow, Enter
    included, to the next call. *)
Theorem input_string_returns_after_128_characters cs tail Str mc :
  Forall ordinary cs -> length cs = 128%nat -> (128 < length Str)%nat ->
  keys mc = cs ++ tail ->
  input_string Str mc =
  Returned (cs ++ 0 :: drop 129 Str, after tail (echo cs) mc).
Proof.
  intros Hcs Hlen Hsize Hkeys. unfold input_string.
  unfold io_bind at 1. cbn [get_machine].
  rewrite (io_bind_returned _ _ _ _ _
             (input_loop_full cs tail Str mc Hcs Hlen ltac:(lia) Hkeys)).
  cbn [fst snd]. rewrite store_returned by (rewrite length_app, length_drop; lia).
  change (Z.to_nat 128) with 128%nat. rewrite <- Hlen at 1 2.
  rewrite insert_after_prefix by lia. rewrite Hlen. reflexivity.
Qed.

Lemma input_string_returns_after_128_characters_witness :
  input_string (replicate 130 0) (console_on power_world (replicate 128 65 ++ [13])) =
  Returned (replicate 128 65 ++ 0 :: drop 129 (replicate 130 0),
            after [13] (echo (replicate 128 65))
              (console_on power_world (replicate 128 65 ++ [13]))).
Proof.
  apply (input_string_returns_after_128_characters (replicate 128 65) [13] (replicate 130 0)
           (console_on power_world (replicate 128 65 ++ [13])));
    [apply Forall_replicate; repeat split; vm_compute; discriminate
    | reflexivity | vm_compute; lia | reflexivity].
Defined.

Lemma input_string_overrun cs rest Str mc :
  Forall ordinary cs -> (length Str <= length cs <= 128)%nat ->
  keys mc = cs ++ 13 :: rest ->
  input_string Str mc = Broke (Overrun (Z.of_nat (length Str))).
Proof.
  intros Hcs Hlen Hkeys. unfold input_string.
  unfold io_bind at 1. cbn [get_machine].
  destruct (Nat.eq_dec (length Str) (length cs)) as [Heq | Hne].
  - destruct (Nat.eq_dec (length cs) 128%nat) as [H128 | H128].
    + rewrite (io_bind_returned _ _ _ _ _
                 (input_loop_full cs (13 :: rest) Str mc Hcs H128 ltac:(lia) Hkeys)).
      cbn [fst snd]. rewrite store_broke by (rewrite length_app, length_drop; lia).
      rewrite Heq, H128. reflexivity.
    + destruct cs as [|c cs].
      * destruct Str; [|discriminate]. cbn [app] in Hkeys.
        rewrite Hkeys at 1. cbn [length].
        rewrite (io_bind_broke _ _ _ (Overrun 0)); [reflexivity|].
        rewrite (input_loop_turn _ _ _ _ 13 rest Hkeys), int8_t_enter.
        apply io_bind_broke. reflexivity.
      * rewrite (io_bind_returned _ _ _ _ _
                   (input_loop_line (c :: cs) rest Str mc Hcs ltac:(cbn [length] in *; lia)
                      ltac:(lia) Hkeys)).
        cbn [fst snd]. rewrite store_broke by (rewrite length_app, length_drop; lia).
        rewrite Heq. reflexivity.
  - assert (Hs : (length Str < length cs)%nat) by lia.
    rewrite <- (take_drop (length Str) cs) in Hkeys, Hcs.
    apply Forall_app in Hcs. destruct Hcs as [Hcs1 Hcs2].
    destruct (drop (length Str) cs) as [|c cs2] eqn:Hdrop.
    { apply (f_equal length) in Hdrop. rewrite length_drop in Hdrop. cbn in Hdrop. lia. }
    apply Forall_cons in Hcs2. destruct Hcs2 as [Hc _].
    rewrite <- app_assoc in Hkeys. cbn [app] in Hkeys.
    assert (Hlen1 : length (take (length Str) cs) = length Str)
      by (rewrite length_take; lia).
    rewrite (io_bind_broke _ _ _ (Overrun (Z.of_nat (length Str)))); [reflexivity|].
    rewrite Hkeys at 1. rewrite length_keys_line.
    rewrite (input_loop_ordinary_start _ _ Str mc _ Hcs1 Hkeys) by lia.
    rewrite (input_loop_turn _ _ _ _ c (cs2 ++ 13 :: rest)) by reflexivity.
    apply io_bind_broke. rewrite Hlen1.
    apply input_switch_ordinary_overrun; [exact Hc|].
    rewrite length_app, length_drop. lia.
Qed.

(** X7.  Nothing in [input_string] knows the size of the array it fills:
    a line of as many ordinary characters as the array has cells, or
    more (up to the 128 that the function takes), is written past its
    end, at the index that equals the size.  The local arrays of 64
    bytes of [enter_remote_id] and [decode_ir_command] and the global
    [ButtonName] are overrun by a line of 64 characters. *)
Theorem input_string_overruns_a_short_array cs rest Str mc :
  Forall ordinary cs -> (length Str <= length cs <= 128)%nat ->
  keys mc = cs ++ 13 :: rest ->
  input_string Str mc = Broke (Overrun (Z.of_nat (length Str))).
Proof.
  intros Hcs Hlen Hkeys. apply (input_string_overrun cs rest); assumption.
Qed.

Lemma input_string_overruns_a_short_array_witness :
  input_string (replicate 64 0) (console_on power_world (replicate 64 65 ++ 13 :: [])) =
  Broke (Overrun (Z.of_nat (length (replicate 64 0)))).
Proof.
  apply (input_string_overruns_a_short_array (replicate 64 65) [] (replicate 64 0)
           (console_on power_world (replicate 64 65 ++ 13 :: [])));
    [apply Forall_replicate; repeat split; vm_compute; discriminate
    | vm_compute; lia | reflexivity].
Defined.

Lemma strike_length line k : (length (strike line k) <= S (length line))%nat.
Proof.
  unfold strike. destruct (_ || _); [lia|]. destruct (_ =? 8).
  - destruct line as [|x l] using rev_ind; [cbn; lia|].
    rewrite removelast_last, length_app. cbn. lia.
  - rewrite length_app. cbn. lia.
Qed.

Lemma typed_length ks : forall line,
  (length (fold_left strike ks line) <= length line + length ks)%nat.
Proof.
  induction ks as [|k ks IH]; intros line; cbn [fold_left length]; [lia|].
  specialize (IH (strike line k)). pose proof (strike_length line k). lia.
Qed.

Lemma UCHAR_int8_t_nonzero k : int8_t k <> 0 -> UCHAR (int8_t k) <> 0.
Proof.
  unfold UCHAR, int8_t. change (2 ^ 7) with 128. change (2 ^ 8) with 256.
  intros H. Z.div_mod_to_equations. lia.
Qed.

Lemma strike_no_nul line k :
  Forall (fun c => c <> 0) line -> Forall (fun c => c <> 0) (strike line k).
Proof.
  intros Hline. unfold strike.
  destruct (int8_t k =? PICO_ERROR_TIMEOUT) eqn:H1; [exact Hline|].
  destruct (int8_t k =? 0) eqn:H2; [exact Hline|]. cbn [orb].
  destruct (int8_t k =? 8).
  - destruct line as [|x l _] using rev_ind; [exact Hline|].
    rewrite removelast_last. apply Forall_app in Hline. tauto.
  - apply Forall_app. split; [exact Hline|]. constructor; [|constructor].
    apply UCHAR_int8_t_nonzero. apply Z.eqb_neq. exact H2.
Qed.

Lemma typed_no_nul ks : forall line,
  Forall (fun c => c <> 0) line -> Forall (fun c => c <> 0) (fold_left strike ks line).
Proof.
  induction ks as [|k ks IH]; intros line Hline; cbn [fold_left]; [exact Hline|].
  apply IH, strike_no_nul, Hline.
Qed.

Lemma c_str_prefix line l :
  Forall (fun c => c <> 0) line -> c_str (line ++ 0 :: l) = line.
Proof.
  induction 1 as [|c line Hc _ IH]; [reflexivity|].
  cbn [app c_str]. apply Z.eqb_neq in Hc. rewrite Hc, IH. reflexivity.
Qed.

(** One turn of the loop on a key other than Enter. *)
Lemma input_switch_strike k line Str mc :
  int8_t k <> 13 ->
  take (length line) Str = line -> (length line < length Str)%nat ->
  (length line < 128)%nat ->
  exists Str' items,
    input_switch (int8_t k) Str (Z.of_nat (length line)) mc =
      Returned ((Str', Z.of_nat (length (strike line k))), after (keys mc) items mc) /\
    length Str' = length Str /\
    take (length (strike line k)) Str' = strike line k.
Proof.
  intros H13 Htake Hsize Hmax. unfold input_switch, strike.
  destruct ((int8_t k =? PICO_ERROR_TIMEOUT) || (int8_t k =? 0)).
  { exists Str, []. rewrite after_nothing. auto. }
  destruct (int8_t k =? 8).
  - destruct line as [|x l _] using rev_ind.
    + exists Str, []. rewrite after_nothing. auto.
    + rewrite removelast_last. rewrite length_app in *. cbn [length] in *.
      replace (Z.of_nat (length l + 1) >? 0) with true by (symmetry; apply Z.gtb_lt; lia).
      replace (UINT8 (Z.of_nat (length l + 1) - 1)) with (Z.of_nat (length l)).
      2:{ unfold UINT8. change (2 ^ 8) with 256. rewrite Z.mod_small by lia. lia. }
      exists (<[length l := 0]> Str), [IChars [8; 32; 8]].
      rewrite (io_bind_returned _ _ _ _ _
                 (store_returned Str (Z.of_nat (length l)) 0 mc ltac:(lia))).
      rewrite Nat2Z.id. split; [reflexivity|]. split; [apply length_insert|].
      rewrite take_insert_ge by lia.
      apply (f_equal (take (length l))) in Htake.
      rewrite take_take, Nat.min_l, take_app_length in Htake by lia. exact Htake.
  - apply Z.eqb_neq in H13. rewrite H13.
    exists (<[length line := UCHAR (int8_t k)]> Str), [IChars [UCHAR (int8_t k)]].
    unfold io_bind at 1. cbn [say].
    rewrite (io_bind_returned _ _ _ _ _
               (store_returned Str (Z.of_nat (length line)) (UCHAR (int8_t k)) _ ltac:(lia))).
    rewrite Nat2Z.id, length_app. cbn [length].
    replace (UINT8 (Z.of_nat (length line) + 1)) with (Z.of_nat (length line + 1)).
    2:{ unfold UINT8. change (2 ^ 8) with 256. rewrite Z.mod_small by lia. lia. }
    split; [reflexivity|]. split; [apply length_insert|].
    rewrite Nat.add_1_r.
    rewrite (take_S_r _ _ (UCHAR (int8_t k))) by (apply list_lookup_insert_eq; lia).
    rewrite take_insert_ge by lia. rewrite Htake. reflexivity.
Qed.

(** The loop on keys other than Enter. *)
Lemma input_loop_edit ks : forall fuel line Str mc tail,
  Forall (fun k => int8_t k <> 13) ks ->
  keys mc = ks ++ tail ->
  take (length line) Str = line ->
  (length line + length ks < 128)%nat -> (length line + length ks < length Str)%nat ->
  exists Str' items,
    input_loop (length ks + fuel) Str (Z.of_nat (length line)) mc =
      input_loop fuel Str' (Z.of_nat (length (fold_left strike ks line)))
        (after tail items mc) /\
    length Str' = length Str /\
    take (length (fold_left strike ks line)) Str' = fold_left strike ks line.
Proof.
  induction ks as [|k ks IH]; intros fuel line Str mc tail Hks Hkeys Htake Hmax Hsize.
  - exists Str, []. cbn [app] in Hkeys. rewrite <- Hkeys, after_nothing. auto.
  - apply Forall_cons in Hks. destruct Hks as [Hk Hks]. cbn [length] in Hmax, Hsize.
    cbn [length Nat.add fold_left].
    rewrite (input_loop_turn _ _ _ _ k (ks ++ tail) Hkeys).
    destruct (input_switch_strike k line Str (after (ks ++ tail) [] mc) Hk Htake)
      as (Str1 & items1 & Hrun1 & Hlen1 & Htake1); [lia | lia |].
    rewrite (io_bind_returned _ _ _ _ _ Hrun1). cbn [fst snd].
    pose proof (strike_length line k) as Hgrow.
    replace (Z.of_nat (length (strike line k)) <? 128) with true
      by (symmetry; apply Z.ltb_lt; lia).
    apply Z.eqb_neq in Hk. rewrite Hk. cbn [negb andb].
    destruct (IH fuel (strike line k) Str1
                (after (keys (after (ks ++ tail) [] mc)) items1 (after (ks ++ tail) [] mc))
                tail Hks)
      as (Str' & items & Hrun & Hlen & Htake'); [reflexivity | exact Htake1 | lia | lia |].
    exists Str', (items ++ items1). rewrite Hrun. rewrite !after_after, app_nil_r.
    split; [reflexivity|]. split; [congruence | exact Htake'].
Qed.

(** X8.  The array that [input_string] returns holds, as a C string, the
    line as edited: time-outs and NULs count for nothing, Backspace
    removes the last character typed (and does nothing on an empty
    line), every other key is appended; a line that is empty when Enter
    comes is returned as the one character 13, which is what the callers
    test. *)
Theorem input_string_returns_the_edited_line ks rest Str mc :
  Forall (fun k => int8_t k <> 13) ks ->
  (length ks < 128)%nat -> (length ks + 2 < length Str)%nat ->
  keys mc = ks ++ 13 :: rest ->
  exists Str' items,
    input_string Str mc = Returned (Str', after rest items mc) /\
    length Str' = length Str /\
    c_str Str' = match typed ks with [] => [13] | _ => typed ks end.
Proof.
  intros Hks Hmax Hsize Hkeys. unfold input_string.
  unfold io_bind at 1. cbn [get_machine].
  assert (Hfuel : S (length (keys mc)) = (length ks + S (S (length rest)))%nat)
    by (rewrite Hkeys; apply length_keys_line).
  rewrite Hfuel. clear Hfuel.
  destruct (input_loop_edit ks (S (S (length rest))) [] Str mc (13 :: rest) Hks Hkeys)
    as (Str1 & items1 & Hrun1 & Hlen1 & Htake1); [reflexivity | cbn; lia | cbn; lia |].
  fold (typed ks) in Hrun1, Htake1.
  pose proof (typed_length ks []) as Hshort. fold (typed ks) in Hshort. cbn [length] in Hshort.
  pose proof (typed_no_nul ks [] ltac:(constructor)) as Hnul. fold (typed ks) in Hnul.
  change (Z.of_nat (length (@nil Z))) with 0 in Hrun1.
  destruct (typed ks) as [|c line] eqn:Hline.
  - exists (<[2%nat := 0]> (<[1%nat := 0]> (<[0%nat := 13]> Str1))),
           (IChars [13] :: items1).
    rewrite (io_bind_returned _ _ _
               (<[1%nat := 0]> (<[0%nat := 13]> Str1), 2)
               (after rest (IChars [13] :: items1) mc)).
    + cbn [fst snd]. rewrite store_returned by (rewrite !length_insert; lia).
      split; [reflexivity|]. split; [rewrite !length_insert; lia|].
      destruct Str1 as [|a [|b [|d l]]]; cbn [length] in Hlen1; try lia. reflexivity.
    + rewrite Hrun1. change (Z.of_nat (length (@nil Z))) with 0.
      rewrite (input_loop_turn _ _ _ _ 13 rest) by reflexivity. rewrite int8_t_enter.
      rewrite (io_bind_returned _ _ _ _ _
                 (input_switch_enter_empty Str1 _ ltac:(lia))).
      cbn [fst snd]. change (negb (13 =? 13)) with false. rewrite andb_false_r.
      rewrite !after_after. reflexivity.
  - set (n := length (c :: line)) in *.
    exists (<[n := 0]> Str1), (IChars [13] :: items1).
    rewrite (io_bind_returned _ _ _ (Str1, Z.of_nat n)
               (after rest (IChars [13] :: items1) mc)).
    + cbn [fst snd]. rewrite store_returned by lia. rewrite Nat2Z.id.
      split; [reflexivity|]. split; [rewrite length_insert; lia|].
      rewrite insert_take_drop by lia. rewrite Htake1. apply c_str_prefix, Hnul.
    + rewrite Hrun1.
      rewrite (input_loop_turn _ _ _ _ 13 rest) by reflexivity. rewrite int8_t_enter.
      rewrite (io_bind_returned _ _ _ _ _
                 (input_switch_enter Str1 (Z.of_nat n) _ ltac:(subst n; cbn [length]; lia))).
      cbn [fst snd]. change (negb (13 =? 13)) with false. rewrite andb_false_r.
      rewrite !after_after. reflexivity.
Qed.

Lemma input_string_returns_the_edited_line_witness :
  exists Str' items,
    input_string (replicate 64 0) (console_on power_world ([79; -1; 70; 8; 78] ++ 13 :: [])) =
      Returned (Str', after [] items (console_on power_world ([79; -1; 70; 8; 78] ++ 13 :: []))) /\
    length Str' = length (replicate 64 0) /\
    c_str Str' =
      match typed [79; -1; 70; 8; 78] with [] => [13] | _ => typed [79; -1; 70; 8; 78] end.
Proof.
  apply (input_string_returns_the_edited_line [79; -1; 70; 8; 78] [] (replicate 64 0)
           (console_on power_world ([79; -1; 70; 8; 78] ++ 13 :: [])));
    [repeat constructor; vm_compute; discriminate
    | vm_compute; lia | vm_compute; lia | reflexivity].
Defined.

(** Enter alone. *)
Lemma input_string_empty_line rest Str mc :
  (3 <= length Str)%nat -> keys mc = 13 :: rest ->
  input_string Str mc =
  Returned (<[2%nat := 0]> (<[1%nat := 0]> (<[0%nat := 13]> Str)),
            after rest [IChars [13]] mc).
Proof.
  intros Hlen Hkeys. unfold input_string. unfold io_bind at 1. cbn [get_machine].
  rewrite (io_bind_returned _ _ _ (<[1%nat := 0]> (<[0%nat := 13]> Str), 2)
             (after rest [IChars [13]] mc)).
  - cbn [fst snd]. rewrite store_returned by (rewrite !length_insert; lia). reflexivity.
  - rewrite (input_loop_turn _ _ _ _ 13 rest Hkeys), int8_t_enter.
    rewrite (io_bind_returned _ _ _ _ _ (input_switch_enter_empty Str _ ltac:(lia))).
    cbn [fst snd]. change (negb (13 =? 13)) with false. rewrite andb_false_r.
    rewrite !after_after. reflexivity.
Qed.

Lemma strlen_prefix line l :
  Forall (fun c => c <> 0) line -> strlen (line ++ 0 :: l) = Some (length line).
Proof.
  induction 1 as [|c line Hc _ IH]; [reflexivity|].
  cbn [app strlen]. apply Z.eqb_neq in Hc. rewrite Hc, IH. reflexivity.
Qed.

Lemma ordinary_no_nul cs : Forall ordinary cs -> Forall (fun c => c <> 0) cs.
Proof.
  intros H. eapply Forall_impl; [exact H|]. unfold ordinary. intros c Hc. lia.
Qed.

Lemma input_string_line cs rest Str mc :
  Forall ordinary cs -> (0 < length cs < 128)%nat -> (length cs < length Str)%nat ->
  keys mc = cs ++ 13 :: rest ->
  input_string Str mc =
  Returned (cs ++ 0 :: drop (S (length cs)) Str, after rest (IChars [13] :: echo cs) mc).
Proof.
  intros Hcs Hlen Hsize Hkeys. unfold input_string.
  unfold io_bind at 1. cbn [get_machine].
  rewrite (io_bind_returned _ _ _ _ _
             (input_loop_line cs rest Str mc Hcs Hlen ltac:(lia) Hkeys)).
  cbn [fst snd]. rewrite store_returned by (rewrite length_app, length_drop; lia).
  rewrite Nat2Z.id, insert_after_prefix by lia. reflexivity.
Qed.

Lemma load_head c l mc : load (c :: l) 0 mc = Returned (c, mc).
Proof. reflexivity. Qed.

Lemma strcpy_line line l old mc :
  Forall (fun c => c <> 0) line -> (S (length line) <= length old)%nat ->
  strcpy old (line ++ 0 :: l) mc =
  Returned (line ++ 0 :: drop (S (length line)) old, mc).
Proof.
  intros Hnul Hlen. unfold strcpy. rewrite strlen_prefix by exact Hnul.
  replace (S (length line) <=? length old)%nat with true
    by (symmetry; apply Nat.leb_le; lia).
  unfold io_ret. do 2 f_equal.
  replace (S (length line)) with (length line + 1)%nat at 1 by lia.
  rewrite take_app_add. cbn [take]. rewrite <- app_assoc. reflexivity.
Qed.

(** One question of [enter_remote_id]: the answer [cs] replaces the name
    held by [old], and Enter alone keeps it. *)
Lemma answer_replaces_name cs rest Dum1UChar old mc :
  Forall ordinary cs -> (length cs < 64)%nat -> length Dum1UChar = 64%nat ->
  length old = 128%nat ->
  keys mc = cs ++ 13 :: rest ->
  exists Dum1UChar' first new,
    input_string Dum1UChar mc =
      Returned (Dum1UChar', after rest (IChars [13] :: echo cs) mc) /\
    length Dum1UChar' = 64%nat /\
    (forall mc', load Dum1UChar' 0 mc' = Returned (first, mc')) /\
    negb (first =? 0) && negb (first =? 13) = match cs with [] => false | _ => true end /\
    (forall mc', cs <> [] -> strcpy old Dum1UChar' mc' = Returned (new, mc')) /\
    length new = 128%nat /\
    c_str new = match cs with [] => c_str old | _ => cs end /\
    (strlen old <> None -> strlen new <> None).
Proof.
  intros Hcs Hlen Hdum Hold Hkeys. destruct cs as [|c cs].
  - exists (<[2%nat := 0]> (<[1%nat := 0]> (<[0%nat := 13]> Dum1UChar))), 13, old.
    split; [apply input_string_empty_line; [lia | exact Hkeys]|].
    split; [rewrite !length_insert; exact Hdum|].
    split; [intros mc'; destruct Dum1UChar as [|a [|b [|d l]]]; try discriminate;
            reflexivity|].
    split; [reflexivity|]. split; [congruence|].
    split; [exact Hold|]. split; [reflexivity | auto].
  - set (line := c :: cs) in *.
    pose proof (ordinary_no_nul line Hcs) as Hnul.
    assert (Hc : ordinary c) by (apply Forall_cons in Hcs; tauto).
    exists (line ++ 0 :: drop (S (length line)) Dum1UChar), c,
           (line ++ 0 :: drop (S (length line)) old).
    split.
    { apply input_string_line; auto; subst line; cbn [length] in *; lia. }
    split; [rewrite length_app; cbn [length]; rewrite length_drop; lia|].
    split; [intros mc'; reflexivity|].
    split.
    { destruct Hc as (Hc0 & _ & Hc13).
      replace (c =? 0) with false by (symmetry; apply Z.eqb_neq; lia).
      replace (c =? 13) with false by (symmetry; apply Z.eqb_neq; lia).
      reflexivity. }
    split; [intros mc' _; apply strcpy_line; [exact Hnul | lia]|].
    split; [rewrite length_app; cbn [length]; rewrite length_drop; lia|].
    split; [apply c_str_prefix, Hnul|].
    intros _. rewrite strlen_prefix by exact Hnul. discriminate.
Qed.

Lemma text_of_returned s mc :
  strlen s <> None -> text_of s mc = Returned (c_str s, mc).
Proof. intros H. unfold text_of. destruct (strlen s); [reflexivity | congruence]. Qed.

(** X9.  [enter_remote_id] asks two questions.  An answer of 1 to 63
    ordinary characters replaces the brand name, or the model number;
    Enter alone keeps the current one.  The decoder's world is not
    touched. *)
Theorem enter_remote_id_keeps_or_replaces brand model rest Dum1UChar mc :
  Forall ordinary brand -> Forall ordinary model ->
  (length brand < 64)%nat -> (length model < 64)%nat ->
  length Dum1UChar = 64%nat ->
  length (BrandName mc) = 128%nat -> length (RemoteModel mc) = 128%nat ->
  strlen (BrandName mc) <> None -> strlen (RemoteModel mc) <> None ->
  keys mc = brand ++ 13 :: model ++ 13 :: rest ->
  exists mc',
    enter_remote_id Dum1UChar mc = Returned (tt, mc') /\
    c_str (BrandName mc') = match brand with [] => c_str (BrandName mc) | _ => brand end /\
    c_str (RemoteModel mc') = match model with [] => c_str (RemoteModel mc) | _ => model end /\
    keys mc' = rest /\
    world mc' = world mc.
Proof.
  intros Hbrand Hmodel Hlb Hlm Hdum HlenB HlenM HstrB HstrM Hkeys.
  unfold enter_remote_id. unfold io_bind at 1. cbn [get_machine].
  rewrite (io_bind_returned _ _ _ _ _ (text_of_returned _ mc HstrB)).
  unfold io_bind at 1. cbn [say]. unfold io_bind at 1. cbn [say].
  match goal with |- context [io_bind (input_string Dum1UChar) _ ?m] => set (mc0 := m) end.
  destruct (answer_replaces_name brand (model ++ 13 :: rest) Dum1UChar (BrandName mc) mc0
              Hbrand Hlb Hdum HlenB Hkeys)
    as (Dum1 & first1 & newB & Hrun1 & Hlen1 & Hload1 & Hcond1 & Hcpy1 & HlenN1 & Hstr1 & Hterm1).
  rewrite (io_bind_returned _ _ _ _ _ Hrun1).
  rewrite (io_bind_returned _ _ _ _ _ (Hload1 _)). rewrite Hcond1.
  match goal with |- context [after ?r ?i mc0] => set (mc1 := after r i mc0) end.
  set (B := match brand with [] => BrandName mc | _ => newB end).
  set (mc2 := Build_Machine (world mc1) (keys mc1) (screen mc1) B (RemoteModel mc1)).
  assert (Hfirst :
    (if match brand with [] => false | _ => true end
     then io_bind get_machine (fun mc0 => io_bind (strcpy (BrandName mc0) Dum1) set_BrandName)
     else io_ret tt) mc1 = Returned (tt, mc2)).
  { subst mc2 B. destruct brand as [|b brand].
    - reflexivity.
    - unfold io_bind at 1. cbn [get_machine].
      rewrite (io_bind_returned _ _ _ _ _ (Hcpy1 mc1 ltac:(discriminate))). reflexivity. }
  rewrite (io_bind_returned _ _ _ _ _ Hfirst).
  assert (HstrM2 : strlen (RemoteModel mc2) <> None) by exact HstrM.
  unfold io_bind at 1. cbn [get_machine].
  rewrite (io_bind_returned _ _ _ _ _ (text_of_returned _ mc2 HstrM2)).
  unfold io_bind at 1. cbn [say]. unfold io_bind at 1. cbn [say].
  match goal with |- context [io_bind (input_string Dum1) _ ?m] => set (mc3 := m) end.
  destruct (answer_replaces_name model rest Dum1 (RemoteModel mc) mc3
              Hmodel Hlm Hlen1 HlenM eq_refl)
    as (Dum2 & first2 & newM & Hrun2 & Hlen2 & Hload2 & Hcond2 & Hcpy2 & HlenN2 & Hstr2 & Hterm2).
  rewrite (io_bind_returned _ _ _ _ _ Hrun2).
  rewrite (io_bind_returned _ _ _ _ _ (Hload2 _)). rewrite Hcond2.
  match goal with |- context [after ?r ?i mc3] => set (mc4 := after r i mc3) end.
  set (R := match model with [] => RemoteModel mc | _ => newM end).
  exists (Build_Machine (world mc4) (keys mc4) (screen mc4) (BrandName mc4) R).
  split.
  { subst R. destruct model as [|m model].
    - reflexivity.
    - unfold io_bind at 1. cbn [get_machine].
      rewrite (io_bind_returned _ _ _ _ _ (Hcpy2 mc4 ltac:(discriminate))). reflexivity. }
  cbn [BrandName RemoteModel keys world]. subst R B.
  split; [destruct brand; [reflexivity | exact Hstr1]|].
  split; [destruct model; [reflexivity | exact Hstr2]|].
  split; reflexivity.
Qed.

Lemma enter_remote_id_keeps_or_replaces_witness :
  exists mc',
    enter_remote_id (replicate 64 0)
      (console_on power_world ([76; 71] ++ 13 :: [] ++ 13 :: [51])) = Returned (tt, mc') /\
    c_str (BrandName mc') =
      match [76; 71] with
      | [] => c_str (BrandName (console_on power_world ([76; 71] ++ 13 :: [] ++ 13 :: [51])))
      | _ => [76; 71]
      end /\
    c_str (RemoteModel mc') =
      match @nil Z with
      | [] => c_str (RemoteModel (console_on power_world ([76; 71] ++ 13 :: [] ++ 13 :: [51])))
      | _ => []
      end /\
    keys mc' = [51] /\
    world mc' = world (console_on power_world ([76; 71] ++ 13 :: [] ++ 13 :: [51])).
Proof.
  apply (enter_remote_id_keeps_or_replaces [76; 71] [] [51] (replicate 64 0)
           (console_on power_world ([76; 71] ++ 13 :: [] ++ 13 :: [51])));
    [repeat constructor; vm_compute; discriminate | constructor
    | vm_compute; lia | vm_compute; lia | reflexivity | reflexivity | reflexivity
    | vm_compute; discriminate | vm_compute; discriminate | reflexivity].
Defined.

(** ** Listings *)

Lemma shown_nothing mc : shown [] [] mc = mc.
Proof. destruct mc as [[m t c a] k s b r]. reflexivity. Qed.

Lemma shown_shown a1 i1 a2 i2 mc :
  shown a2 i2 (shown a1 i1 mc) = shown (a2 ++ a1) (i2 ++ i1) mc.
Proof. unfold shown. cbn. rewrite !app_assoc. reflexivity. Qed.

Lemma mem_shown acc items mc : mem (world (shown acc items mc)) = mem (world mc).
Proof. reflexivity. Qed.

Lemma lift_get_mem mc : lift get_mem mc = Returned (mem (world mc), mc).
Proof. destruct mc as [[m t c a] k s b r]. reflexivity. Qed.

Lemma lift_printf ln mc : lift (printf ln) mc = Returned (tt, shown [] [IDecoder ln] mc).
Proof. reflexivity. Qed.

Lemma say_returned item mc : say item mc = Returned (tt, shown [] [item] mc).
Proof. destruct mc as [[m t c a] k s b r]. reflexivity. Qed.

(** *** Numbers and literals *)

Lemma UINT16_small n : 0 <= n < 65536 -> UINT16 n = n.
Proof. intros H. unfold UINT16. change (2 ^ 16) with 65536. apply Z.mod_small, H. Qed.

Lemma length_bytes_of s : length (bytes_of s) = String.length s.
Proof.
  unfold bytes_of. rewrite length_map.
  induction s as [|c s IH]; [reflexivity|]. cbn. rewrite IH. reflexivity.
Qed.

Lemma digits_length fuel : forall k n,
  (1 <= k)%nat -> 0 <= n < 10 ^ Z.of_nat k -> (1 <= length (digits (S fuel) n) <= k)%nat.
Proof.
  induction fuel as [|fuel IH]; intros k n Hk Hn.
  - cbn [digits]. destruct (n <? 10); cbn; rewrite ?app_nil_r; cbn; lia.
  - remember (S fuel) as f. cbn [digits]. destruct (n <? 10) eqn:Hlt; [cbn; lia|].
    apply Z.ltb_ge in Hlt. rewrite length_app. cbn [length]. subst f.
    destruct k as [|[|k]]; [lia | cbn in Hn; lia |].
    specialize (IH (S k) (n / 10) ltac:(lia)).
    assert (0 <= n / 10 < 10 ^ Z.of_nat (S k)).
    { replace (Z.of_nat (S (S k))) with (Z.succ (Z.of_nat (S k))) in Hn by lia.
      rewrite Z.pow_succ_r in Hn by lia. Z.div_mod_to_equations. lia. }
    specialize (IH ltac:(assumption)). lia.
Qed.

Lemma digits_plain fuel : forall n,
  0 <= n -> Forall (fun c => 48 <= c <= 57) (digits fuel n).
Proof.
  induction fuel as [|fuel IH]; intros n Hn; [constructor|].
  cbn [digits]. apply Forall_app. split.
  - destruct (n <? 10); [constructor|]. apply IH. Z.div_mod_to_equations. lia.
  - constructor; [|constructor]. Z.div_mod_to_equations. lia.
Qed.


(** * The banner *)

Lemma c_str_no_nul s : Forall (fun c => c <> 0) (c_str s).
Proof.
  induction s as [|c s IH]; cbn [c_str]; [constructor|].
  destruct (c =? 0) eqn:E; [constructor|].
  constructor; [apply Z.eqb_neq, E | exact IH].
Qed.

Lemma length_c_str s : forall n, strlen s = Some n -> length (c_str s) = n.
Proof.
  induction s as [|c s IH]; intros n H; cbn [strlen c_str] in *; [discriminate|].
  destruct (c =? 0); [injection H as <-; reflexivity|].
  destruct (strlen s) as [k|]; [|discriminate]. injection H as <-.
  cbn [length]. rewrite (IH k eq_refl). reflexivity.
Qed.

Lemma length_Separator : length Separator = 106%nat.
Proof. reflexivity. Qed.

Lemma sprintf_to_returned Str text mc :
  (length text < length Str)%nat ->
  sprintf_to Str text mc = Returned (text ++ 0 :: drop (S (length text)) Str, mc).
Proof.
  intros H. unfold sprintf_to.
  replace (length text <? length Str)%nat with true by (symmetry; apply Nat.ltb_lt; exact H).
  reflexivity.
Qed.

Lemma length_sprintf_to Str text :
  (length text < length Str)%nat ->
  length (text ++ 0 :: drop (S (length text)) Str) = length Str.
Proof. intros H. rewrite length_app. cbn [length]. rewrite length_drop. lia. Qed.

Lemma text_of_prefix text tail mc :
  Forall (fun c => c <> 0) text -> text_of (text ++ 0 :: tail) mc = Returned (text, mc).
Proof.
  intros H. rewrite text_of_returned by (rewrite strlen_prefix by exact H; discriminate).
  rewrite c_str_prefix by exact H. reflexivity.
Qed.

Lemma margin_run text tail mc :
  Forall (fun c => c <> 0) text ->
  margin (text ++ 0 :: tail) mc =
  Returned (UINT32 (Z.of_nat (length Separator) - Z.of_nat (length text)) / 2, mc).
Proof.
  intros H. unfold margin. rewrite (io_bind_returned _ _ _ _ _ (text_of_prefix _ _ _ H)).
  reflexivity.
Qed.

(** The loop on a text that is not longer than the bar. *)
Lemma pad_run text tail : forall fuel i mc,
  Forall (fun c => c <> 0) text -> (length text <= length Separator)%nat ->
  0 <= i <= (Z.of_nat (length Separator) - Z.of_nat (length text)) / 2 ->
  (Z.of_nat (length Separator) - Z.of_nat (length text)) / 2 - i <= Z.of_nat fuel ->
  pad fuel i (text ++ 0 :: tail) mc =
  Returned (tt, shown []
                  (replicate
                     (Z.to_nat ((Z.of_nat (length Separator) - Z.of_nat (length text)) / 2 - i))
                     (IChars [32])) mc).
Proof.
  rewrite length_Separator. set (k := (Z.of_nat 106 - Z.of_nat (length text)) / 2).
  intros fuel i mc Hnul Hlen Hi Hfuel.
  assert (Hk : 0 <= k <= 53) by (subst k; Z.div_mod_to_equations; lia).
  assert (Hbound : UINT32 (Z.of_nat 106 - Z.of_nat (length text)) / 2 = k).
  { unfold UINT32. rewrite Z.mod_small by (change (2 ^ 32) with 4294967296; lia).
    reflexivity. }
  revert i mc Hi Hfuel. induction fuel as [|fuel IH]; intros i mc Hi Hfuel.
  - assert (i = k) as -> by lia. cbn [pad].
    rewrite (io_bind_returned _ _ _ _ _ (margin_run _ _ _ Hnul)).
    rewrite length_Separator, Hbound, Z.ltb_irrefl, Z.sub_diag. cbn [Z.to_nat replicate].
    rewrite shown_nothing. reflexivity.
  - cbn [pad]. rewrite (io_bind_returned _ _ _ _ _ (margin_run _ _ _ Hnul)).
    rewrite length_Separator, Hbound.
    destruct (i <? k) eqn:Hlt.
    + apply Z.ltb_lt in Hlt.
      rewrite (io_bind_returned _ _ _ _ _ (say_returned _ _)).
      rewrite UINT16_small by lia. rewrite IH by lia. rewrite shown_shown. cbn [app].
      replace (Z.to_nat (k - i)) with (S (Z.to_nat (k - (i + 1)))) by lia.
      rewrite replicate_S_end. reflexivity.
    + apply Z.ltb_ge in Hlt. assert (i = k) as -> by lia.
      rewrite Z.sub_diag. cbn [Z.to_nat replicate]. rewrite shown_nothing. reflexivity.
Qed.

(** The loop on a text that is longer than the bar never ends. *)
Lemma pad_never text tail : forall fuel i mc,
  Forall (fun c => c <> 0) text ->
  (length Separator < length text)%nat -> Z.of_nat (length text) < 2 ^ 31 ->
  0 <= i < 2 ^ 16 ->
  pad fuel i (text ++ 0 :: tail) mc = Spent.
Proof.
  rewrite length_Separator. intros fuel i mc Hnul Hlen Hsmall.
  change (2 ^ 31) with 2147483648 in Hsmall.
  assert (Hbound : 2 ^ 16 <= UINT32 (Z.of_nat 106 - Z.of_nat (length text)) / 2).
  { unfold UINT32. change (2 ^ 32) with 4294967296. change (2 ^ 16) with 65536.
    Z.div_mod_to_equations. lia. }
  revert i mc. induction fuel as [|fuel IH]; intros i mc Hi; cbn [pad];
    rewrite (io_bind_returned _ _ _ _ _ (margin_run _ _ _ Hnul)), length_Separator;
    replace (i <? UINT32 (Z.of_nat 106 - Z.of_nat (length text)) / 2) with true
      by (symmetry; apply Z.ltb_lt; lia).
  - reflexivity.
  - rewrite (io_bind_returned _ _ _ _ _ (say_returned _ _)). apply IH.
    unfold UINT16. apply Z.mod_pos_bound. reflexivity.
Qed.

(** A line that fits under the bar. *)
Lemma banner_line_run fuel Str text mc :
  Forall (fun c => c <> 0) text -> (length text < length Str)%nat ->
  (length text <= length Separator)%nat -> (53 <= fuel)%nat ->
  banner_line fuel Str text mc =
  Returned (text ++ 0 :: drop (S (length text)) Str, shown [] (centred text) mc).
Proof.
  intros Hnul Hfit Hlen Hfuel. unfold banner_line.
  rewrite (io_bind_returned _ _ _ _ _ (sprintf_to_returned _ _ _ Hfit)).
  rewrite (io_bind_returned _ _ _ _ _
             (pad_run text _ fuel 0 mc Hnul Hlen
                ltac:(rewrite length_Separator in *; Z.div_mod_to_equations; lia)
                ltac:(rewrite length_Separator in *; Z.div_mod_to_equations; lia))).
  rewrite (io_bind_returned _ _ _ _ _ (text_of_prefix _ _ _ Hnul)).
  rewrite (io_bind_returned _ _ _ _ _ (say_returned _ _)).
  rewrite shown_shown, Z.sub_0_r. reflexivity.
Qed.

Lemma io_bind_spent {A B} (c : IO A) (k : A -> IO B) mc :
  c mc = Spent -> io_bind c k mc = Spent.
Proof. intros H. unfold io_bind. rewrite H. reflexivity. Qed.

(** With too little fuel the loop is cut short. *)
Lemma pad_short text tail : forall fuel i mc,
  Forall (fun c => c <> 0) text -> (length text <= length Separator)%nat ->
  0 <= i ->
  Z.of_nat fuel < (Z.of_nat (length Separator) - Z.of_nat (length text)) / 2 - i ->
  pad fuel i (text ++ 0 :: tail) mc = Spent.
Proof.
  rewrite length_Separator. set (k := (Z.of_nat 106 - Z.of_nat (length text)) / 2).
  intros fuel i mc Hnul Hlen.
  assert (Hk : 0 <= k <= 53) by (subst k; Z.div_mod_to_equations; lia).
  assert (Hbound : UINT32 (Z.of_nat 106 - Z.of_nat (length text)) / 2 = k).
  { unfold UINT32. rewrite Z.mod_small by (change (2 ^ 32) with 4294967296; lia).
    reflexivity. }
  revert i mc. induction fuel as [|fuel IH]; intros i mc Hi Hfuel; cbn [pad];
    rewrite (io_bind_returned _ _ _ _ _ (margin_run _ _ _ Hnul)), length_Separator, Hbound;
    replace (i <? k) with true by (symmetry; apply Z.ltb_lt; lia).
  - reflexivity.
  - rewrite (io_bind_returned _ _ _ _ _ (say_returned _ _)).
    rewrite UINT16_small by lia. apply IH; lia.
Qed.

(** A line that fits under the bar, whatever the fuel. *)
Lemma banner_line_cases fuel Str text mc :
  Forall (fun c => c <> 0) text -> (length text < length Str)%nat ->
  (length text <= length Separator)%nat ->
  banner_line fuel Str text mc = Spent \/
  banner_line fuel Str text mc =
    Returned (text ++ 0 :: drop (S (length text)) Str, shown [] (centred text) mc).
Proof.
  intros Hnul Hfit Hlen.
  destruct (Z_lt_dec (Z.of_nat fuel)
              ((Z.of_nat (length Separator) - Z.of_nat (length text)) / 2)) as [Hlt | Hge].
  - left. unfold banner_line.
    rewrite (io_bind_returned _ _ _ _ _ (sprintf_to_returned _ _ _ Hfit)).
    apply io_bind_spent. apply pad_short; [exact Hnul | exact Hlen | lia | lia].
  - right. unfold banner_line.
    rewrite (io_bind_returned _ _ _ _ _ (sprintf_to_returned _ _ _ Hfit)).
    rewrite (io_bind_returned _ _ _ _ _
               (pad_run text _ fuel 0 mc Hnul Hlen
                  ltac:(rewrite length_Separator in *; Z.div_mod_to_equations; lia)
                  ltac:(lia))).
    rewrite (io_bind_returned _ _ _ _ _ (text_of_prefix _ _ _ Hnul)).
    rewrite (io_bind_returned _ _ _ _ _ (say_returned _ _)).
    rewrite shown_shown, Z.sub_0_r. reflexivity.
Qed.

(** A line that is longer than the bar and fits in the array. *)
Lemma banner_line_never fuel Str text mc :
  Forall (fun c => c <> 0) text -> (length text < length Str)%nat ->
  (length Separator < length text)%nat -> Z.of_nat (length text) < 2 ^ 31 ->
  banner_line fuel Str text mc = Spent.
Proof.
  intros Hnul Hfit Hlen Hsmall. unfold banner_line.
  rewrite (io_bind_returned _ _ _ _ _ (sprintf_to_returned _ _ _ Hfit)).
  apply io_bind_spent. apply pad_never; [exact Hnul | exact Hlen | exact Hsmall|].
  change (2 ^ 16) with 65536. lia.
Qed.

(** A line that does not fit in the array. *)
Lemma banner_line_overrun fuel Str text mc :
  (length Str <= length text)%nat ->
  banner_line fuel Str text mc = Broke (Overrun (Z.of_nat (length Str))).
Proof.
  intros H. unfold banner_line, sprintf_to.
  replace (length text <? length Str)%nat with false by (symmetry; apply Nat.ltb_ge; exact H).
  reflexivity.
Qed.

Lemma no_nul_b l : forallb (fun c => negb (c =? 0)) l = true -> Forall (fun c => c <> 0) l.
Proof.
  induction l as [|c l IH]; cbn [forallb]; intros H; [constructor|].
  apply andb_true_iff in H. destruct H as [Hc Hl].
  constructor; [|exact (IH Hl)]. apply Z.eqb_neq. destruct (c =? 0); [discriminate | reflexivity].
Qed.

Lemma digits_no_nul fuel n : 0 <= n -> Forall (fun c => c <> 0) (digits fuel n).
Proof.
  intros Hn. eapply Forall_impl; [apply digits_plain, Hn|]. intros c Hc. cbv beta in Hc. lia.
Qed.

(** A text of the banner: a literal, an argument and a carriage return. *)
Lemma framed_text lit mid :
  forallb (fun c => negb (c =? 0)) (bytes_of lit) = true ->
  Forall (fun c => c <> 0) mid ->
  Forall (fun c => c <> 0) (bytes_of lit ++ mid ++ [13]) /\
  length (bytes_of lit ++ mid ++ [13]) = (String.length lit + length mid + 1)%nat.
Proof.
  intros Hlit Hmid. split.
  - apply Forall_app. split; [apply no_nul_b, Hlit|].
    apply Forall_app. split; [exact Hmid|]. repeat constructor. discriminate.
  - rewrite !length_app, length_bytes_of. cbn [length]. lia.
Qed.

(** The six texts of the banner when the names are short enough: none
    holds a NUL and none is longer than the bar. *)
Lemma banner_texts_fit PicoType id brand model count :
  Forall (fun c => c <> 0) id -> Forall (fun c => c <> 0) brand ->
  Forall (fun c => c <> 0) model ->
  (length id <= 40)%nat -> (length brand <= 83)%nat -> (length model <= 76)%nat ->
  0 <= count < 2 ^ 16 ->
  Forall (fun text => Forall (fun c => c <> 0) text /\ (length text <= 106)%nat)
    (banner_texts PicoType id brand model count).
Proof.
  intros Hid Hbrand Hmodel Hi Hb Hr Hcount. unfold banner_texts.
  pose proof (digits_no_nul 10 count ltac:(lia)) as Hdig.
  pose proof (digits_length 9 5 count ltac:(lia)
                ltac:(change (10 ^ Z.of_nat 5) with 100000; change (2 ^ 16) with 65536 in Hcount;
                      lia)) as Hdiglen.
  pose proof (framed_text "Flash-Remote-Analyzer" [] eq_refl (Forall_nil_2 _)) as [H1 L1].
  assert (H2 : Forall (fun c => c <> 0)
                 (bytes_of "Microcontroller is a " ++
                  (if PicoType =? TYPE_PICO then bytes_of "Pico" else bytes_of "Pico W") ++ [13]) /\
               Nat.le
                 (length (bytes_of "Microcontroller is a " ++
                    (if PicoType =? TYPE_PICO then bytes_of "Pico" else bytes_of "Pico W") ++
                    [13])) 106).
  { destruct (PicoType =? TYPE_PICO).
    - destruct (framed_text "Microcontroller is a " (bytes_of "Pico") eq_refl
                  (no_nul_b (bytes_of "Pico") eq_refl)) as [H L].
      split; [exact H|]. rewrite L. cbn. lia.
    - destruct (framed_text "Microcontroller is a " (bytes_of "Pico W") eq_refl
                  (no_nul_b (bytes_of "Pico W") eq_refl)) as [H L].
      split; [exact H|]. rewrite L. cbn. lia. }
  pose proof (framed_text "Pico's Unique ID: " id eq_refl Hid) as [H3 L3].
  pose proof (framed_text "Brand under analysis: " brand eq_refl Hbrand) as [H4 L4].
  pose proof (framed_text "Remote control model number: " model eq_refl Hmodel) as [H5 L5].
  pose proof (framed_text "Step count: " (digits 10 count) eq_refl Hdig) as [H6 L6].
  cbn [String.length app] in L1, L3, L4, L5, L6.
  repeat apply Forall_cons_2; try apply Forall_nil_2.
  - split; [exact H1|]. cbn [app]. rewrite L1. cbn. lia.
  - exact H2.
  - split; [exact H3|]. rewrite L3. lia.
  - split; [exact H4|]. rewrite L4. lia.
  - split; [exact H5|]. rewrite L5. lia.
  - split; [exact H6|]. rewrite L6. lia.
Qed.

Lemma banner_step {B} fuel Str text (k : list Z -> IO B) mc :
  Forall (fun c => c <> 0) text /\ (length text <= 106)%nat ->
  length Str = 128%nat -> (53 <= fuel)%nat ->
  io_bind (banner_line fuel Str text) k mc =
  k (text ++ 0 :: drop (S (length text)) Str) (shown [] (centred text) mc).
Proof.
  intros [Hnul Hlen] HStr Hfuel. apply io_bind_returned.
  apply banner_line_run; [exact Hnul | lia | rewrite length_Separator; exact Hlen | exact Hfuel].
Qed.

Lemma length_banner_step Str text :
  Forall (fun c => c <> 0) text /\ (length text <= 106)%nat ->
  length Str = 128%nat ->
  length (text ++ 0 :: drop (S (length text)) Str) = 128%nat.
Proof. intros [_ Hlen] HStr. rewrite length_sprintf_to by lia. exact HStr. Qed.

(** The banner when every line fits under the bar. *)
Lemma display_header_text_returns
    fuel PicoType PicoUniqueId Str mc i b r :
  length Str = 128%nat ->
  strlen PicoUniqueId = Some i -> (i <= 40)%nat ->
  strlen (BrandName mc) = Some b -> (b <= 83)%nat ->
  strlen (RemoteModel mc) = Some r -> (r <= 76)%nat ->
  0 <= IrStepCount (mem (world mc)) < 2 ^ 16 ->
  (53 <= fuel)%nat ->
  display_header_text fuel PicoType PicoUniqueId Str mc =
  Returned (tt, shown []
                  (ISeparator ::
                   flat_map centred
                     (rev (banner_texts PicoType (c_str PicoUniqueId) (c_str (BrandName mc))
                             (c_str (RemoteModel mc)) (IrStepCount (mem (world mc))))) ++
                   [ISeparator]) mc).
Proof.
  intros HStr Hid Hi Hb Hb' Hr Hr' Hcount Hfuel.
  pose proof (banner_texts_fit PicoType (c_str PicoUniqueId) (c_str (BrandName mc))
                (c_str (RemoteModel mc)) (IrStepCount (mem (world mc)))
                (c_str_no_nul _) (c_str_no_nul _) (c_str_no_nul _)
                ltac:(rewrite (length_c_str _ _ Hid); exact Hi)
                ltac:(rewrite (length_c_str _ _ Hb); exact Hb')
                ltac:(rewrite (length_c_str _ _ Hr); exact Hr') Hcount) as Hfit.
  unfold banner_texts in Hfit |- *.
  apply Forall_cons in Hfit as [H1 Hfit]. apply Forall_cons in Hfit as [H2 Hfit].
  apply Forall_cons in Hfit as [H3 Hfit]. apply Forall_cons in Hfit as [H4 Hfit].
  apply Forall_cons in Hfit as [H5 Hfit]. apply Forall_cons in Hfit as [H6 _].
  unfold display_header_text.
  rewrite (io_bind_returned _ _ _ _ _ (say_returned _ _)).
  rewrite (banner_step fuel Str _ _ _ H1 HStr Hfuel).
  pose proof (length_banner_step Str _ H1 HStr) as HStr1.
  rewrite (banner_step fuel _ _ _ _ H2 HStr1 Hfuel).
  pose proof (length_banner_step _ _ H2 HStr1) as HStr2.
  rewrite (io_bind_returned _ _ _ _ _
             (text_of_returned PicoUniqueId _ ltac:(rewrite Hid; discriminate))).
  rewrite (banner_step fuel _ _ _ _ H3 HStr2 Hfuel).
  pose proof (length_banner_step _ _ H3 HStr2) as HStr3.
  unfold io_bind at 1. cbn [get_machine].
  rewrite (io_bind_returned _ _ _ _ _
             (text_of_returned (BrandName mc) _ ltac:(rewrite Hb; discriminate))).
  rewrite (banner_step fuel _ _ _ _ H4 HStr3 Hfuel).
  pose proof (length_banner_step _ _ H4 HStr3) as HStr4.
  unfold io_bind at 1. cbn [get_machine].
  rewrite (io_bind_returned _ _ _ _ _
             (text_of_returned (RemoteModel mc) _ ltac:(rewrite Hr; discriminate))).
  rewrite (banner_step fuel _ _ _ _ H5 HStr4 Hfuel).
  pose proof (length_banner_step _ _ H5 HStr4) as HStr5.
  rewrite (io_bind_returned _ _ _ _ _ (lift_get_mem _)). rewrite mem_shown.
  rewrite (banner_step fuel _ _ _ _ H6 HStr5 Hfuel).
  rewrite say_returned. rewrite !shown_shown.
  cbn [rev flat_map app]. rewrite <- !app_assoc. cbn [app]. rewrite ?app_nil_r.
  reflexivity.
Qed.

(** X27.  The banner as [display_header] writes it, when the Unique ID
    has at most 40 characters, the brand at most 83 and the model at most
    76: the function returns, nothing is written outside its local array,
    and the screen shows the bar, then each of the six lines after as many
    spaces as half of what the bar has more than the line, then the bar
    again.  53 turns of fuel are enough for every loop. *)
Theorem display_header_text_centres_the_banner
    fuel PicoType PicoUniqueId Str mc i b r :
  length Str = 128%nat ->
  strlen PicoUniqueId = Some i -> (i <= 40)%nat ->
  strlen (BrandName mc) = Some b -> (b <= 83)%nat ->
  strlen (RemoteModel mc) = Some r -> (r <= 76)%nat ->
  0 <= IrStepCount (mem (world mc)) < 2 ^ 16 ->
  (53 <= fuel)%nat ->
  display_header_text fuel PicoType PicoUniqueId Str mc =
  Returned (tt, shown []
                  (ISeparator ::
                   flat_map centred
                     (rev (banner_texts PicoType (c_str PicoUniqueId) (c_str (BrandName mc))
                             (c_str (RemoteModel mc)) (IrStepCount (mem (world mc))))) ++
                   [ISeparator]) mc).
Proof.
  intros HStr Hid Hi Hb Hb' Hr Hr' Hcount Hfuel.
  exact (display_header_text_returns fuel PicoType PicoUniqueId Str mc i b r
           HStr Hid Hi Hb Hb' Hr Hr' Hcount Hfuel).
Qed.

(** The banner as the functions of the console call it. *)
Lemma banner_run h mc :
  banner_fits h mc -> 0 <= IrStepCount (mem (world mc)) < 2 ^ 16 ->
  display_header_text (spaces h) (PicoType h) (PicoUniqueId h) (header_String h) mc =
  Returned (tt, shown [] (banner h mc) mc).
Proof.
  intros (HStr & Hfuel & Hid & Hb & Hr) Hcount. unfold short_enough in Hid, Hb, Hr.
  destruct (strlen (PicoUniqueId h)) as [i|] eqn:Ei; [|contradiction].
  destruct (strlen (BrandName mc)) as [b|] eqn:Eb; [|contradiction].
  destruct (strlen (RemoteModel mc)) as [r|] eqn:Er; [|contradiction].
  exact (display_header_text_returns (spaces h) (PicoType h) (PicoUniqueId h) (header_String h)
           mc i b r HStr Ei Hid Eb Hb Er Hr Hcount Hfuel).
Qed.

Lemma listed_text items : forallb is_text items = true -> listed items = [].
Proof.
  intros H. unfold listed.
  assert (Hrev : forallb is_text (rev items) = true).
  { apply forallb_forall. intros it Hit. apply in_rev in Hit.
    exact (proj1 (forallb_forall _ _) H it Hit). }
  revert Hrev. generalize (rev items). intros l.
  induction l as [|it l IH]; intros Hl; [reflexivity|].
  cbn [forallb] in Hl. apply andb_true_iff in Hl. destruct Hl as [Hit Hl].
  destruct it; try discriminate; exact (IH Hl).
Qed.

Lemma timed_text items : forallb is_text items = true -> timed items = [].
Proof.
  intros H. unfold timed.
  assert (Hrev : forallb is_text (rev items) = true).
  { apply forallb_forall. intros it Hit. apply in_rev in Hit.
    exact (proj1 (forallb_forall _ _) H it Hit). }
  revert Hrev. generalize (rev items). intros l.
  induction l as [|it l IH]; intros Hl; [reflexivity|].
  cbn [forallb] in Hl. apply andb_true_iff in Hl. destruct Hl as [Hit Hl].
  destruct it; try discriminate; exact (IH Hl).
Qed.

Lemma is_text_centred text : forallb is_text (centred text) = true.
Proof.
  unfold centred. cbn [forallb is_text]. apply forallb_forall. intros it Hit.
  apply list_elem_of_In, elem_of_replicate in Hit. destruct Hit as [-> _]. reflexivity.
Qed.

Lemma is_text_banner h mc : forallb is_text (banner h mc) = true.
Proof.
  unfold banner. cbn [forallb is_text]. rewrite forallb_app. cbn [forallb is_text].
  rewrite andb_true_r. apply forallb_forall. intros it Hit.
  apply in_flat_map in Hit. destruct Hit as (text & _ & Hit).
  exact (proj1 (forallb_forall _ _) (is_text_centred text) it Hit).
Qed.

Lemma listed_banner h mc : listed (banner h mc) = [].
Proof. apply listed_text, is_text_banner. Qed.

Lemma timed_banner h mc : timed (banner h mc) = [].
Proof. apply timed_text, is_text_banner. Qed.

Lemma display_header_text_centres_the_banner_witness :
  display_header_text 53 1 (array_of 41 "E660-5838-835C-112A") (replicate 128 0) (console_on power_world []) =
  Returned (tt, shown []
                  (ISeparator ::
                   flat_map centred
                     (rev (banner_texts 1 (c_str (array_of 41 "E660-5838-835C-112A"))
                             (c_str (BrandName (console_on power_world [])))
                             (c_str (RemoteModel (console_on power_world [])))
                             (IrStepCount (mem (world (console_on power_world [])))))) ++
                   [ISeparator]) (console_on power_world [])).
Proof.
  apply (display_header_text_centres_the_banner 53 1 (array_of 41 "E660-5838-835C-112A") (replicate 128 0)
           (console_on power_world []) 19 7 3);
    [reflexivity | vm_compute; reflexivity | lia | vm_compute; reflexivity | lia
    | vm_compute; reflexivity | lia | vm_compute; split; [discriminate | reflexivity] | lia].
Defined.

(** The three lines before the brand, whatever the fuel: either the fuel
    runs out or the function reaches line 552. *)
Lemma display_header_text_to_the_brand fuel PicoType PicoUniqueId Str mc i b :
  length Str = 128%nat ->
  strlen PicoUniqueId = Some i -> (i <= 40)%nat ->
  strlen (BrandName mc) = Some b ->
  display_header_text fuel PicoType PicoUniqueId Str mc = Spent \/
  exists Str' mc',
    length Str' = 128%nat /\
    display_header_text fuel PicoType PicoUniqueId Str mc =
    io_bind (banner_line fuel Str'
               (bytes_of "Brand under analysis: " ++ c_str (BrandName mc) ++ [13]))
      (fun Str =>
         io_bind get_machine (fun mc =>
         io_bind (text_of (RemoteModel mc)) (fun model =>
         io_bind (banner_line fuel Str
                    (bytes_of "Remote control model number: " ++ model ++ [13]))
           (fun Str =>
              io_bind (lift get_mem) (fun m =>
              io_bind (banner_line fuel Str
                         (bytes_of "Step count: " ++ digits 10 (IrStepCount m) ++ [13]))
                (fun _ => say ISeparator)))))) mc'.
Proof.
  intros HStr Hid Hi Hb.
  pose proof (banner_texts_fit PicoType (c_str PicoUniqueId) [] [] 0
                (c_str_no_nul _) (Forall_nil_2 _) (Forall_nil_2 _)
                ltac:(rewrite (length_c_str _ _ Hid); exact Hi)
                ltac:(cbn; lia) ltac:(cbn; lia) ltac:(change (2 ^ 16) with 65536; lia)) as Hfit.
  unfold banner_texts in Hfit.
  apply Forall_cons in Hfit as [[N1 L1] Hfit]. apply Forall_cons in Hfit as [[N2 L2] Hfit].
  apply Forall_cons in Hfit as [[N3 L3] _].
  unfold display_header_text.
  rewrite (io_bind_returned _ _ _ _ _ (say_returned _ _)).
  destruct (banner_line_cases fuel Str _ (shown [] [ISeparator] mc) N1
              ltac:(lia) ltac:(rewrite length_Separator; exact L1)) as [E1 | E1];
    [left; apply io_bind_spent, E1|].
  rewrite (io_bind_returned _ _ _ _ _ E1).
  pose proof (length_banner_step Str _ (conj N1 L1) HStr) as HStr1.
  match goal with |- context [banner_line fuel ?s _] => set (Str1 := s) in * end.
  match goal with |- context [io_bind (banner_line fuel Str1 _) _ ?x] => set (mc1 := x) end.
  destruct (banner_line_cases fuel Str1 _ mc1 N2
              ltac:(lia) ltac:(rewrite length_Separator; exact L2)) as [E2 | E2];
    [left; apply io_bind_spent, E2|].
  rewrite (io_bind_returned _ _ _ _ _ E2).
  pose proof (length_banner_step Str1 _ (conj N2 L2) HStr1) as HStr2.
  match goal with |- context [banner_line fuel ?s (bytes_of "Pico's Unique ID: " ++ _)] =>
    set (Str2 := s) in * end.
  rewrite (io_bind_returned _ _ _ _ _
             (text_of_returned PicoUniqueId _ ltac:(rewrite Hid; discriminate))).
  match goal with |- context [io_bind (banner_line fuel Str2 _) _ ?x] => set (mc2 := x) end.
  destruct (banner_line_cases fuel Str2 _ mc2 N3
              ltac:(lia) ltac:(rewrite length_Separator; exact L3)) as [E3 | E3];
    [left; apply io_bind_spent, E3|].
  rewrite (io_bind_returned _ _ _ _ _ E3).
  pose proof (length_banner_step Str2 _ (conj N3 L3) HStr2) as HStr3.
  right. eexists _, _. split; [exact HStr3|].
  unfold io_bind at 1. cbn [get_machine].
  rewrite (io_bind_returned _ _ _ _ _
             (text_of_returned (BrandName mc) _ ltac:(rewrite Hb; discriminate))).
  reflexivity.
Qed.

(** X28.  A brand of 84 to 104 characters makes its line of the banner
    longer than the bar and short enough for the local array: the
    difference of the two lengths, taken in [size_t], wraps around to a
    bound that the 16-bit counter of the loop never reaches, so that
    [display_header] prints spaces for ever.  No amount of fuel lets the
    function return. *)
Theorem display_header_text_never_ends_on_a_long_brand
    fuel PicoType PicoUniqueId Str mc i b :
  length Str = 128%nat ->
  strlen PicoUniqueId = Some i -> (i <= 40)%nat ->
  strlen (BrandName mc) = Some b -> (84 <= b <= 104)%nat ->
  display_header_text fuel PicoType PicoUniqueId Str mc = Spent.
Proof.
  intros HStr Hid Hi Hb Hlong.
  destruct (display_header_text_to_the_brand fuel PicoType PicoUniqueId Str mc i b
              HStr Hid Hi Hb)
    as [E | (Str' & mc' & HStr' & E)]; [exact E|].
  rewrite E. apply io_bind_spent.
  destruct (framed_text "Brand under analysis: " (c_str (BrandName mc)) eq_refl
              (c_str_no_nul _)) as [N L].
  rewrite (length_c_str _ _ Hb) in L. cbn [String.length] in L.
  apply banner_line_never; [exact N | lia | rewrite length_Separator; lia|].
  rewrite L. change (2 ^ 31) with 2147483648. lia.
Qed.

Lemma display_header_text_never_ends_on_a_long_brand_witness :
  display_header_text 1000 1 (array_of 41 "E660-5838-835C-112A") (replicate 128 0)
    (Build_Machine power_world [] [] (replicate 84 65 ++ replicate 44 0) (array_of 128 "TBD")) = Spent.
Proof.
  apply (display_header_text_never_ends_on_a_long_brand 1000 1 (array_of 41 "E660-5838-835C-112A") (replicate 128 0)
           (Build_Machine power_world [] [] (replicate 84 65 ++ replicate 44 0) (array_of 128 "TBD")) 19 84);
    [reflexivity | vm_compute; reflexivity | lia | vm_compute; reflexivity | lia].
Defined.

(** X29.  A brand of 105 characters or more makes its line of the banner
    longer than the local array of 128 bytes of [display_header]:
    [sprintf] writes past the end of the array. *)
Theorem display_header_text_overruns_on_a_longer_brand
    fuel PicoType PicoUniqueId Str mc i b :
  length Str = 128%nat ->
  strlen PicoUniqueId = Some i -> (i <= 40)%nat ->
  strlen (BrandName mc) = Some b -> (105 <= b)%nat ->
  (53 <= fuel)%nat ->
  display_header_text fuel PicoType PicoUniqueId Str mc = Broke (Overrun 128).
Proof.
  intros HStr Hid Hi Hb Hlong Hfuel.
  pose proof (banner_texts_fit PicoType (c_str PicoUniqueId) [] [] 0
                (c_str_no_nul _) (Forall_nil_2 _) (Forall_nil_2 _)
                ltac:(rewrite (length_c_str _ _ Hid); exact Hi)
                ltac:(cbn; lia) ltac:(cbn; lia) ltac:(change (2 ^ 16) with 65536; lia)) as Hfit.
  unfold banner_texts in Hfit.
  apply Forall_cons in Hfit as [H1 Hfit]. apply Forall_cons in Hfit as [H2 Hfit].
  apply Forall_cons in Hfit as [H3 _].
  unfold display_header_text.
  rewrite (io_bind_returned _ _ _ _ _ (say_returned _ _)).
  rewrite (banner_step fuel Str _ _ _ H1 HStr Hfuel).
  pose proof (length_banner_step Str _ H1 HStr) as HStr1.
  rewrite (banner_step fuel _ _ _ _ H2 HStr1 Hfuel).
  pose proof (length_banner_step _ _ H2 HStr1) as HStr2.
  rewrite (io_bind_returned _ _ _ _ _
             (text_of_returned PicoUniqueId _ ltac:(rewrite Hid; discriminate))).
  rewrite (banner_step fuel _ _ _ _ H3 HStr2 Hfuel).
  pose proof (length_banner_step _ _ H3 HStr2) as HStr3.
  unfold io_bind at 1. cbn [get_machine].
  rewrite (io_bind_returned _ _ _ _ _
             (text_of_returned (BrandName mc) _ ltac:(rewrite Hb; discriminate))).
  apply io_bind_broke.
  destruct (framed_text "Brand under analysis: " (c_str (BrandName mc)) eq_refl
              (c_str_no_nul _)) as [_ L].
  rewrite (length_c_str _ _ Hb) in L. cbn [String.length] in L.
  match goal with |- banner_line fuel ?s _ _ = _ =>
    replace 128 with (Z.of_nat (length s)) by (rewrite HStr3; reflexivity) end.
  apply banner_line_overrun. rewrite L, HStr3. lia.
Qed.

Lemma display_header_text_overruns_on_a_longer_brand_witness :
  display_header_text 53 1 (array_of 41 "E660-5838-835C-112A") (replicate 128 0)
    (Build_Machine power_world [] [] (replicate 105 65 ++ replicate 23 0) (array_of 128 "TBD")) = Broke (Overrun 128).
Proof.
  apply (display_header_text_overruns_on_a_longer_brand 53 1 (array_of 41 "E660-5838-835C-112A") (replicate 128 0)
           (Build_Machine power_world [] [] (replicate 105 65 ++ replicate 23 0) (array_of 128 "TBD")) 19 105);
    [reflexivity | vm_compute; reflexivity | lia | vm_compute; reflexivity | lia | lia].
Defined.

Lemma lift_rd_RemoteData i mc :
  0 <= i < Z.of_nat (length (RemoteData (mem (world mc)))) ->
  lift (rd_RemoteData i) mc = Returned (entry_at (mem (world mc)) i, mc).
Proof.
  intros Hi. destruct mc as [[m t c a] k s b r]. unfold lift, rd_RemoteData, entry_at.
  cbn [world mem timer console accesses] in *.
  replace (0 <=? i) with true by (symmetry; apply Z.leb_le; lia).
  destruct (lookup_lt_is_Some_2 (RemoteData m) (Z.to_nat i)) as [e He]; [lia|].
  rewrite He. reflexivity.
Qed.

Lemma lift_rd_RemoteData_fault i mc :
  Z.of_nat (length (RemoteData (mem (world mc)))) <= i ->
  lift (rd_RemoteData i) mc = Broke (Hardware (RemoteDataOutOfBounds i)).
Proof.
  intros Hi. unfold lift, rd_RemoteData. cbn [mem].
  destruct (0 <=? i); [|reflexivity].
  rewrite lookup_ge_None_2 by lia. reflexivity.
Qed.

Lemma button_heading_run h mc :
  banner_fits h mc -> 0 <= IrStepCount (mem (world mc)) < 2 ^ 16 ->
  button_heading h mc =
  Returned (tt, shown []
                  (IButtonColumns :: IButtonCount (RemoteDataTotal (mem (world mc))) ::
                   banner h mc) mc).
Proof.
  intros Hfits Hcount. unfold button_heading.
  rewrite (io_bind_returned _ _ _ _ _ (banner_run h mc Hfits Hcount)).
  rewrite (io_bind_returned _ _ _ _ _ (lift_get_mem _)). rewrite mem_shown.
  rewrite (io_bind_returned _ _ _ _ _ (say_returned _ _)).
  rewrite say_returned, !shown_shown. reflexivity.
Qed.

Lemma listed_app i1 i2 : listed (i2 ++ i1) = listed i1 ++ listed i2.
Proof. unfold listed. rewrite rev_app_distr, omap_app. reflexivity. Qed.

(** The loop of [display_button_list] from the entry of index [i] on. *)
Lemma button_rows_spec h fuel : forall i mc,
  banner_fits h mc -> 0 <= IrStepCount (mem (world mc)) < 2 ^ 16 ->
  0 <= i <= RemoteDataTotal (mem (world mc)) ->
  RemoteDataTotal (mem (world mc)) <= REMOTE_DATA_SIZE ->
  Z.of_nat (length (RemoteData (mem (world mc)))) = REMOTE_DATA_SIZE ->
  RemoteDataTotal (mem (world mc)) - i <= Z.of_nat fuel ->
  exists items,
    button_rows h fuel i mc = Returned (tt, shown [] items mc) /\
    listed items =
      map (button_row (mem (world mc))) (seqZ i (RemoteDataTotal (mem (world mc)) - i)).
Proof.
  induction fuel as [|fuel IH]; intros i mc Hfits Hcount Hi Htotal Hlen Hfuel;
    set (m := mem (world mc)) in *.
  - assert (i = RemoteDataTotal m) as -> by lia. exists [].
    cbn [button_rows]. rewrite (io_bind_returned _ _ _ _ _ (lift_get_mem mc)).
    fold m. rewrite Z.ltb_irrefl, Z.sub_diag, shown_nothing. split; reflexivity.
  - cbn [button_rows]. rewrite (io_bind_returned _ _ _ _ _ (lift_get_mem mc)). fold m.
    destruct (i <? RemoteDataTotal m) eqn:Hlt.
    + apply Z.ltb_lt in Hlt.
      rewrite (io_bind_returned _ _ _ _ _ (lift_rd_RemoteData i mc ltac:(fold m; lia))).
      fold m. rewrite (io_bind_returned _ _ _ _ _ (say_returned _ _)).
      set (row := IButtonRow i (Entry.ButtonName (entry_at m i))
                    (Entry.CommandId (entry_at m i))).
      set (more := if (i mod LineCount =? 0) && negb (i =? 0)
                   then (IButtonColumns :: IButtonCount (RemoteDataTotal m) ::
                         banner h mc) ++ [ISeparator; IContinued]
                   else []).
      rewrite (io_bind_returned _ _ _ tt (shown [] (more ++ [row]) mc)).
      2:{ subst more. destruct ((i mod LineCount =? 0) && negb (i =? 0)).
          - rewrite (io_bind_returned _ _ _ _ _ (say_returned _ _)).
            rewrite (io_bind_returned _ _ _ _ _ (say_returned _ _)).
            rewrite button_heading_run by (first [exact Hfits | exact Hcount]).
            rewrite !shown_shown. rewrite <- !app_assoc. reflexivity.
          - reflexivity. }
      unfold REMOTE_DATA_SIZE in *. rewrite UINT16_small by lia.
      destruct (IH (i + 1) (shown [] (more ++ [row]) mc) Hfits Hcount)
        as (items & Hrun & Hrows);
        try (rewrite mem_shown; fold m; lia).
      exists (items ++ more ++ [row]). rewrite Hrun, shown_shown. split; [reflexivity|].
      rewrite listed_app, Hrows, mem_shown. fold m.
      replace (RemoteDataTotal m - i) with (Z.succ (RemoteDataTotal m - (i + 1))) by lia.
      rewrite (seqZ_cons i) by lia. cbn [map].
      replace (Z.succ i) with (i + 1) by lia.
      replace (Z.pred (Z.succ (RemoteDataTotal m - (i + 1))))
        with (RemoteDataTotal m - (i + 1)) by lia.
      assert (Hmore : listed (more ++ [row]) = [button_row m i]).
      { rewrite listed_app. subst more row.
        destruct ((i mod LineCount =? 0) && negb (i =? 0)); [|reflexivity].
        rewrite listed_app. cbn [app].
        change (IButtonColumns :: IButtonCount (RemoteDataTotal m) :: banner h mc)
          with ([IButtonColumns; IButtonCount (RemoteDataTotal m)] ++ banner h mc).
        rewrite listed_app, listed_banner. reflexivity. }
      rewrite Hmore. reflexivity.
    + apply Z.ltb_ge in Hlt. assert (i = RemoteDataTotal m) as -> by lia. exists [].
      rewrite Z.sub_diag, shown_nothing. split; reflexivity.
Qed.

Lemma display_button_list_run h mc :
  banner_fits h mc -> 0 <= IrStepCount (mem (world mc)) < 2 ^ 16 ->
  0 <= RemoteDataTotal (mem (world mc)) <= REMOTE_DATA_SIZE ->
  Z.of_nat (length (RemoteData (mem (world mc)))) = REMOTE_DATA_SIZE ->
  exists items,
    display_button_list h mc = Returned (tt, shown [] items mc) /\
    listed items =
      map (button_row (mem (world mc))) (seqZ 0 (RemoteDataTotal (mem (world mc)))).
Proof.
  intros Hfits Hcount Htotal Hlen. unfold display_button_list.
  rewrite (io_bind_returned _ _ _ _ _ (button_heading_run h mc Hfits Hcount)).
  rewrite (io_bind_returned _ _ _ _ _ (lift_get_mem _)). rewrite mem_shown.
  match goal with |- context [button_rows _ _ 0] =>
    match goal with |- context [shown [] ?h mc] => set (heading := h) end end.
  destruct (button_rows_spec h (Z.to_nat (RemoteDataTotal (mem (world mc)))) 0
              (shown [] heading mc) Hfits Hcount) as (items & Hrun & Hrows);
    try (rewrite mem_shown; lia).
  rewrite mem_shown, Z.sub_0_r in Hrows.
  exists (ISeparator :: items ++ heading).
  rewrite (io_bind_returned _ _ _ _ _ Hrun), say_returned, !shown_shown.
  split; [reflexivity|].
  change (ISeparator :: items ++ heading) with ([ISeparator] ++ items ++ heading).
  rewrite !listed_app, Hrows. subst heading.
  change (IButtonColumns :: IButtonCount (RemoteDataTotal (mem (world mc))) :: banner h mc)
    with ([IButtonColumns; IButtonCount (RemoteDataTotal (mem (world mc)))] ++ banner h mc).
  rewrite listed_app, listed_banner. cbn. rewrite app_nil_r. reflexivity.
Qed.

(** X10.  When [display_header] prints its banner (the conditions
    [banner_fits] of X27, the step count being a UINT16),
    [display_button_list] returns: it lists the entries of [RemoteData] of
    index 0 to [RemoteDataTotal - 1], one row each and in that order, with
    the index, the name and the command recorded; it changes nothing but
    the screen. *)
Theorem display_button_list_lists_every_recorded_button h mc :
  wf (mem (world mc)) ->
  banner_fits h mc -> 0 <= IrStepCount (mem (world mc)) < 2 ^ 16 ->
  0 <= RemoteDataTotal (mem (world mc)) <= REMOTE_DATA_SIZE ->
  exists items,
    display_button_list h mc = Returned (tt, shown [] items mc) /\
    listed items =
      map (button_row (mem (world mc))) (seqZ 0 (RemoteDataTotal (mem (world mc)))).
Proof.
  intros Hwf Hfits Hcount Htotal.
  apply display_button_list_run; [exact Hfits | exact Hcount | exact Htotal|].
  apply wf_remote, Hwf.
Qed.

(** X10 on a machine with two buttons recorded. *)
Lemma display_button_list_lists_every_recorded_button_witness :
  exists items,
    display_button_list pico_board (console_on recorded_world []) =
      Returned (tt, shown [] items (console_on recorded_world [])) /\
    listed items =
      [(0, "Power"%string, 0xE0E040BF); (1, "Volume up"%string, 0xE0E0E01F)].
Proof.
  destruct (display_button_list_lists_every_recorded_button pico_board
              (console_on recorded_world []))
    as (items & Hrun & Hrows);
    [vm_compute; reflexivity | vm_compute; repeat split; lia
    | vm_compute; split; [discriminate | reflexivity]
    | vm_compute; split; discriminate|].
  exists items. split; [exact Hrun|]. rewrite Hrows. vm_compute. reflexivity.
Defined.

(** X11.  A button that the decoder records is the last row of the list
    that [display_button_list] prints afterwards, when [display_header]
    prints its banner ([banner_fits]) and fewer than 256 buttons were
    recorded: it carries the next free index, the name held by
    [ButtonName] and the value of [DataBuffer]; the rows of the buttons
    recorded before are the same as before. *)
Theorem recorded_button_is_listed_last h l mc :
  wf (mem (world mc)) ->
  banner_fits h mc -> 0 <= IrStepCount (mem (world mc)) < 2 ^ 16 ->
  0 <= RemoteDataTotal (mem (world mc)) < REMOTE_DATA_SIZE ->
  exists mc' items,
    lift (record_button l) mc = Returned (tt, mc') /\
    display_button_list h mc' = Returned (tt, shown [] items mc') /\
    listed items =
      map (button_row (mem (world mc))) (seqZ 0 (RemoteDataTotal (mem (world mc)))) ++
      [(RemoteDataTotal (mem (world mc)), ButtonName (mem (world mc)), DataBuffer l)].
Proof.
  intros Hwf Hfits Hcount Htotal. set (m := mem (world mc)) in *.
  set (e := Entry.Build (ButtonName m) (DataBuffer l)).
  set (m' := set_RemoteDataTotal (UINT16 (RemoteDataTotal m + 1))
               (set_RemoteData (<[Z.to_nat (RemoteDataTotal m) := e]> (RemoteData m)) m)).
  pose proof (wf_remote _ Hwf) as Hlen. fold m in Hlen.
  unfold REMOTE_DATA_SIZE in *.
  exists (Build_Machine
            (Build_World m' (timer (world mc)) (console (world mc)) (accesses (world mc)))
            (keys mc) (screen mc) (BrandName mc) (RemoteModel mc)).
  match goal with |- exists items, _ /\ display_button_list h ?x = _ /\ _ => set (mc' := x) end.
  assert (Htotal' : RemoteDataTotal (mem (world mc')) = RemoteDataTotal m + 1).
  { cbn. apply UINT16_small. lia. }
  destruct (display_button_list_run h mc' Hfits Hcount) as (items & Hrun & Hrows).
  { rewrite Htotal'. unfold REMOTE_DATA_SIZE. lia. }
  { cbn. rewrite length_insert. exact Hlen. }
  exists items. split; [|split; [exact Hrun|]].
  - unfold lift. rewrite record_button_run by exact Hwf. cbn [mem]. fold m.
    replace ((0 <=? RemoteDataTotal m) && (RemoteDataTotal m <? REMOTE_DATA_SIZE)) with true
      by (symmetry; apply andb_true_iff; unfold REMOTE_DATA_SIZE; lia).
    reflexivity.
  - rewrite Hrows, Htotal'. rewrite seqZ_app by lia. rewrite map_app. cbn [seqZ].
    f_equal.
    + apply map_ext_in. intros i Hi. apply list_elem_of_In, elem_of_seqZ in Hi.
      unfold button_row, entry_at, mc', m'.
      cbn [mem world RemoteData set_RemoteDataTotal set_RemoteData].
      rewrite list_lookup_insert_ne by lia. reflexivity.
    + unfold button_row, entry_at, mc', m'.
      cbn [mem world RemoteData set_RemoteDataTotal set_RemoteData].
      rewrite Z.add_0_l, (seqZ_cons _ 1), seqZ_nil by lia. cbn [map].
      rewrite list_lookup_insert_eq by lia. reflexivity.
Qed.

(** X11 for a third button after the two of [recorded_world]. *)
Lemma recorded_button_is_listed_last_witness :
  exists mc' items,
    lift (record_button (Build_Locals 32 0 2 0xE0E0D02F)) (console_on recorded_world []) =
      Returned (tt, mc') /\
    display_button_list pico_board mc' = Returned (tt, shown [] items mc') /\
    listed items =
      map (button_row (mem (world (console_on recorded_world []))))
        (seqZ 0 (RemoteDataTotal (mem (world (console_on recorded_world []))))) ++
      [(RemoteDataTotal (mem (world (console_on recorded_world []))),
        ButtonName (mem (world (console_on recorded_world []))),
        DataBuffer (Build_Locals 32 0 2 0xE0E0D02F))].
Proof.
  apply (recorded_button_is_listed_last pico_board (Build_Locals 32 0 2 0xE0E0D02F)
           (console_on recorded_world []));
    [vm_compute; reflexivity | vm_compute; repeat split; lia
    | vm_compute; split; [discriminate | reflexivity]
    | vm_compute; split; [discriminate | reflexivity]].
Defined.

(** *** The timing table *)

Lemma lift_step_fields i mc :
  wf (mem (world mc)) -> 0 <= i < MAX_IR_READINGS ->
  lift (step_fields i) mc =
  Returned (step_row (mem (world mc)) i,
            shown [Rd ArIrResultValue i; Rd ArIrLevel i] [] mc).
Proof.
  intros Hwf Hi. destruct mc as [[m t c a] k s b r]. cbn [world mem] in *.
  unfold lift, step_fields. cbn [world mem timer console accesses].
  run_rd. run_name Hwf. run_rd. reflexivity.
Qed.

Lemma lift_step_fields_fault i mc :
  wf (mem (world mc)) -> MAX_IR_READINGS <= i ->
  lift (step_fields i) mc = Broke (Hardware (OutOfBounds ArIrLevel i)).
Proof.
  intros Hwf Hi. destruct mc as [[m t c a] k s b r]. cbn [world mem] in *.
  unfold lift, step_fields. cbn [world mem timer console accesses].
  unfold bind at 1. unfold rd, bind, get_mem. cbn [mem].
  rewrite (wf_cells _ ArIrLevel Hwf).
  replace (i <? MAX_IR_READINGS) with false by (symmetry; apply Z.ltb_ge; lia).
  rewrite andb_false_r. reflexivity.
Qed.

Lemma timed_app i1 i2 : timed (i2 ++ i1) = timed i1 ++ timed i2.
Proof. unfold timed. rewrite rev_app_distr, flat_map_app. reflexivity. Qed.

Lemma timing_rows_spec fuel : forall L a mc,
  wf (mem (world mc)) ->
  0 <= L -> L + 2 * LineCount <= MAX_IR_READINGS ->
  L <= a <= L + LineCount -> a <= IrStepCount (mem (world mc)) ->
  L + LineCount - a <= Z.of_nat fuel ->
  exists acc items,
    timing_rows fuel L a mc = Returned (tt, shown acc items mc) /\
    timed items =
      flat_map (row_entries (mem (world mc)))
        (seqZ a (Z.min (L + LineCount) (IrStepCount (mem (world mc)) + 1) - a)).
Proof.
  unfold LineCount, MAX_IR_READINGS.
  induction fuel as [|fuel IH]; intros L a mc Hwf HL HL' Ha Hcount Hfuel;
    set (m := mem (world mc)) in *.
  - assert (a = L + 50) as -> by lia. exists [], [].
    cbn [timing_rows]. unfold LineCount. rewrite Z.ltb_irrefl, shown_nothing.
    split; [reflexivity|]. rewrite seqZ_nil by lia. reflexivity.
  - cbn [timing_rows]. unfold LineCount. destruct (a <? L + 50) eqn:Hlt.
    + apply Z.ltb_lt in Hlt.
      rewrite (io_bind_returned _ _ _ _ _
                 (lift_step_fields a mc Hwf ltac:(unfold MAX_IR_READINGS; lia))).
      rewrite (io_bind_returned _ _ _ _ _ (lift_get_mem _)). rewrite mem_shown. fold m.
      set (right := if IrStepCount m >? a + 50 then Some (step_row m (a + 50)) else None).
      set (acc1 := (if IrStepCount m >? a + 50
                    then [Rd ArIrResultValue (a + 50); Rd ArIrLevel (a + 50)] else [])
                   ++ [Rd ArIrResultValue a; Rd ArIrLevel a]).
      rewrite (io_bind_returned _ _ _ right (shown acc1 [] mc)).
      2:{ subst right acc1. destruct (IrStepCount m >? a + 50).
          - rewrite (io_bind_returned _ _ _ _ _
                       (lift_step_fields (a + 50)
                          (shown [Rd ArIrResultValue a; Rd ArIrLevel a] [] mc) Hwf
                          ltac:(unfold MAX_IR_READINGS; lia))).
            rewrite shown_shown. reflexivity.
          - reflexivity. }
      rewrite (io_bind_returned _ _ _ _ _ (say_returned _ _)).
      rewrite (io_bind_returned _ _ _ _ _ (lift_get_mem _)). rewrite !mem_shown. fold m.
      rewrite !shown_shown. cbn [app].
      assert (Hrow : timed [ITimingRow (step_row m a) right] = row_entries m a).
      { subst right. unfold timed, row_entries. cbn. unfold LineCount.
        destruct (IrStepCount m >? a + 50); reflexivity. }
      replace (Z.min (L + 50) (IrStepCount m + 1) - a)
        with (Z.succ (Z.min (L + 50) (IrStepCount m + 1) - (a + 1))) by lia.
      rewrite (seqZ_cons a) by lia. cbn [flat_map].
      replace (Z.pred (Z.succ (Z.min (L + 50) (IrStepCount m + 1) - (a + 1))))
        with (Z.min (L + 50) (IrStepCount m + 1) - (a + 1)) by lia.
      replace (Z.succ a) with (a + 1) by lia.
      destruct (a =? IrStepCount m) eqn:Hbreak.
      * apply Z.eqb_eq in Hbreak.
        exists acc1, [ISeparator; ITimingRow (step_row m a) right].
        rewrite say_returned, shown_shown. split; [reflexivity|].
        rewrite seqZ_nil by lia. cbn [flat_map]. rewrite app_nil_r, <- Hrow. reflexivity.
      * apply Z.eqb_neq in Hbreak. rewrite UINT16_small by lia.
        destruct (IH L (a + 1) (shown acc1 [ITimingRow (step_row m a) right] mc))
          as (acc & items & Hrun & Hrows); try (rewrite ?mem_shown; fold m; lia).
        { exact Hwf. }
        exists (acc ++ acc1), (items ++ [ITimingRow (step_row m a) right]).
        rewrite Hrun, shown_shown. split; [reflexivity|].
        rewrite timed_app, Hrow, Hrows, mem_shown. reflexivity.
    + apply Z.ltb_ge in Hlt. assert (a = L + 50) as -> by lia. exists [], [].
      rewrite shown_nothing. split; [reflexivity|]. rewrite seqZ_nil by lia. reflexivity.
Qed.

Lemma flat_map_bind {A B} (f : A -> list B) (l : list A) : flat_map f l = l ≫= f.
Proof. induction l as [|x l IH]; [reflexivity|]. cbn. rewrite IH. reflexivity. Qed.

Lemma map_of_flat_map {A B C} (f : B -> C) (g : A -> list B) (l : list A) :
  map f (flat_map g l) = flat_map (fun x => map f (g x)) l.
Proof.
  induction l as [|x l IH]; [reflexivity|]. cbn [flat_map]. rewrite map_app, IH. reflexivity.
Qed.

Lemma number_step_row m j : number (step_row m j) = j + 1.
Proof. reflexivity. Qed.

Lemma elem_of_row_entries m j e :
  e ∈ row_entries m j <->
  e = step_row m j \/ (IrStepCount m > j + LineCount /\ e = step_row m (j + LineCount)).
Proof.
  unfold row_entries. destruct (IrStepCount m >? j + LineCount) eqn:H.
  - apply Z.gtb_lt in H. rewrite elem_of_cons, list_elem_of_singleton.
    split; [intros [-> | ->]; auto; right; split; [lia | reflexivity] | tauto].
  - rewrite list_elem_of_singleton. split; [auto|]. intros [-> | [H' _]]; [reflexivity|].
    rewrite Z.gtb_ltb in H. apply Z.ltb_ge in H. lia.
Qed.

(** The rows of one page: every step of the page is shown, every entry
    shown is a cell of the page, and no step number is shown twice. *)
Lemma page_rows_facts m L :
  0 <= L -> L < IrStepCount m ->
  let rows := flat_map (row_entries m)
                (seqZ L (Z.min (L + LineCount) (IrStepCount m + 1) - L)) in
  (forall s, L <= s < IrStepCount m -> s < L + 2 * LineCount -> step_row m s ∈ rows) /\
  (forall e, e ∈ rows -> exists j, L <= j < L + 2 * LineCount /\ e = step_row m j) /\
  NoDup (map number rows).
Proof.
  intros HL Hcount rows. subst rows. rewrite map_of_flat_map, !flat_map_bind.
  unfold LineCount. split; [|split].
  - intros s Hs Hs'. apply list_elem_of_bind.
    destruct (Z_lt_dec s (L + 50)) as [Hleft | Hright].
    + exists s. split; [apply elem_of_row_entries; auto|]. apply elem_of_seqZ. lia.
    + exists (s - 50). split.
      * apply elem_of_row_entries. right. unfold LineCount.
        replace (s - 50 + 50) with s by lia. split; [lia | reflexivity].
      * apply elem_of_seqZ. lia.
  - intros e He. apply list_elem_of_bind in He. destruct He as (j & He & Hj).
    apply elem_of_seqZ in Hj. apply elem_of_row_entries in He. unfold LineCount in He.
    destruct He as [-> | [_ ->]]; [exists j | exists (j + 50)]; split; (lia || reflexivity).
  - apply NoDup_bind.
    + intros j1 j2 y Hj1 Hj2 Hy1 Hy2. apply elem_of_seqZ in Hj1, Hj2.
      apply (list_elem_of_fmap number) in Hy1, Hy2.
      destruct Hy1 as (e1 & -> & He1), Hy2 as (e2 & Heq & He2).
      apply elem_of_row_entries in He1, He2. unfold LineCount in *.
      destruct He1 as [-> | [_ ->]], He2 as [-> | [_ ->]];
        rewrite !number_step_row in Heq; lia.
    + intros j _. unfold row_entries, LineCount.
      destruct (IrStepCount m >? j + 50); cbn [map].
      * apply NoDup_cons. rewrite list_elem_of_singleton, !number_step_row.
        split; [lia | apply NoDup_singleton].
      * apply NoDup_singleton.
    + apply NoDup_seqZ.
Qed.

(** One page of the timing table, inside the arrays. *)
Lemma timing_pages_turn h fuel L mc :
  wf (mem (world mc)) ->
  banner_fits h mc -> IrStepCount (mem (world mc)) < 2 ^ 16 ->
  0 <= L -> L + 2 * LineCount <= MAX_IR_READINGS -> L < IrStepCount (mem (world mc)) ->
  exists acc items,
    timing_pages h (S fuel) L mc =
      timing_pages h fuel (L + 2 * LineCount) (shown acc items mc) /\
    timed items =
      flat_map (row_entries (mem (world mc)))
        (seqZ L (Z.min (L + LineCount) (IrStepCount (mem (world mc)) + 1) - L)).
Proof.
  intros Hwf Hfits Hword HL HL' Hcount.
  assert (Hbanner := banner_run h mc Hfits ltac:(lia)).
  set (m := mem (world mc)) in *.
  cbn [timing_pages]. rewrite (io_bind_returned _ _ _ _ _ (lift_get_mem mc)). fold m.
  replace (L <? IrStepCount m) with true by (symmetry; apply Z.ltb_lt; lia).
  rewrite (io_bind_returned _ _ _ _ _ Hbanner).
  rewrite (io_bind_returned _ _ _ _ _ (lift_get_mem _)). rewrite mem_shown. fold m.
  rewrite (io_bind_returned _ _ _ _ _ (lift_printf _ _)).
  rewrite (io_bind_returned _ _ _ _ _ (say_returned _ _)).
  rewrite !shown_shown. cbn [app].
  match goal with |- context [shown [] ?h mc] => set (heading := h) end.
  destruct (timing_rows_spec (Z.to_nat LineCount) L L (shown [] heading mc))
    as (acc & rows & Hrun & Hrows);
    try (rewrite ?mem_shown; fold m; unfold LineCount, MAX_IR_READINGS in *; lia).
  { exact Hwf. }
  rewrite mem_shown in Hrows. fold m in Hrows.
  rewrite (io_bind_returned _ _ _ _ _ Hrun).
  rewrite (io_bind_returned _ _ _ _ _ (lift_get_mem _)). rewrite !mem_shown. fold m.
  set (more := if IrStepCount m >? L + LineCount * 2 then [IContinued] else []).
  rewrite (io_bind_returned _ _ _ tt (shown [] more (shown acc rows (shown [] heading mc)))).
  2:{ subst more. destruct (IrStepCount m >? L + LineCount * 2).
      - apply say_returned.
      - rewrite shown_nothing. reflexivity. }
  rewrite (io_bind_returned _ _ _ _ _ (say_returned _ _)).
  rewrite !shown_shown.
  unfold LineCount, MAX_IR_READINGS in *. rewrite UINT16_small by lia.
  eexists _, _. split; [reflexivity|].
  assert (Hheading : timed heading = []).
  { subst heading.
    match goal with
    | |- timed (?a :: ?b :: ?l) = [] => change (timed ([a; b] ++ l) = [])
    end.
    rewrite timed_app, timed_banner. reflexivity. }
  rewrite !timed_app, Hrows, Hheading. subst more.
  destruct (IrStepCount m >? L + 50 * 2); cbn; rewrite ?app_nil_r; reflexivity.
Qed.

Lemma timing_pages_end h fuel L mc :
  IrStepCount (mem (world mc)) <= L -> timing_pages h fuel L mc = Returned (tt, mc).
Proof.
  intros HL. destruct fuel; cbn [timing_pages];
    rewrite (io_bind_returned _ _ _ _ _ (lift_get_mem mc));
    replace (L <? IrStepCount (mem (world mc))) with false
      by (symmetry; apply Z.ltb_ge; lia);
    reflexivity.
Qed.

(** The pages of the timing table from the step of index [L] on. *)
Lemma timing_pages_spec h fuel : forall L mc,
  wf (mem (world mc)) -> banner_fits h mc ->
  IrStepCount (mem (world mc)) <= MAX_IR_READINGS ->
  0 <= L -> L mod (2 * LineCount) = 0 ->
  IrStepCount (mem (world mc)) - L <= 2 * LineCount * Z.of_nat fuel ->
  exists acc items,
    timing_pages h fuel L mc = Returned (tt, shown acc items mc) /\
    (forall s, L <= s < IrStepCount (mem (world mc)) ->
               step_row (mem (world mc)) s ∈ timed items) /\
    (forall e, e ∈ timed items ->
               exists j, L <= j < MAX_IR_READINGS /\ e = step_row (mem (world mc)) j) /\
    NoDup (map number (timed items)).
Proof.
  unfold LineCount, MAX_IR_READINGS.
  induction fuel as [|fuel IH]; intros L mc Hwf Hfits Hcount HL Hmod Hfuel;
    set (m := mem (world mc)) in *.
  - exists [], []. rewrite timing_pages_end by (fold m; lia). rewrite shown_nothing.
    split; [reflexivity|]. split; [intros s Hs; lia|].
    split; [intros e He; inversion He | constructor].
  - destruct (Z_lt_dec L (IrStepCount m)) as [Hlt | Hge].
    + assert (HL' : L + 100 <= 500) by (Z.div_mod_to_equations; lia).
      destruct (timing_pages_turn h fuel L mc Hwf Hfits) as (acc1 & items1 & Hrun1 & Hrows1);
        try (fold m; unfold LineCount, MAX_IR_READINGS; lia).
      fold m in Hrows1. unfold LineCount in Hrun1, Hrows1. rewrite Hrun1.
      destruct (IH (L + 2 * 50) (shown acc1 items1 mc)) as (acc & items & Hrun & Hin & Hout & Hdup);
        try (rewrite ?mem_shown; fold m; lia).
      { exact Hwf. }
      { exact Hfits. }
      { rewrite <- Z.add_mod_idemp_l, Hmod by lia. reflexivity. }
      rewrite mem_shown in Hin, Hout. fold m in Hin, Hout.
      destruct (page_rows_facts m L HL Hlt) as (Hin1 & Hout1 & Hdup1).
      unfold LineCount in Hin1, Hout1, Hdup1. rewrite <- Hrows1 in Hin1, Hout1, Hdup1.
      exists (acc ++ acc1), (items ++ items1). rewrite Hrun, shown_shown.
      split; [reflexivity|]. rewrite timed_app. split; [|split].
      * intros s Hs. apply elem_of_app.
        destruct (Z_lt_dec s (L + 2 * 50)); [left; apply Hin1 | right; apply Hin]; lia.
      * intros e He. apply elem_of_app in He. destruct He as [He | He].
        -- destruct (Hout1 e He) as (j & Hj & ->). exists j. split; [lia | reflexivity].
        -- destruct (Hout e He) as (j & Hj & ->). exists j. split; [lia | reflexivity].
      * rewrite map_app. apply NoDup_app. split; [exact Hdup1|]. split; [|exact Hdup].
        intros x Hx1 Hx2.
        apply (list_elem_of_fmap number) in Hx1, Hx2.
        destruct Hx1 as (e1 & -> & He1), Hx2 as (e2 & Heq & He2).
        destruct (Hout1 e1 He1) as (j1 & Hj1 & ->).
        destruct (Hout e2 He2) as (j2 & Hj2 & ->).
        rewrite !number_step_row in Heq. lia.
    + exists [], []. rewrite timing_pages_end by (fold m; lia). rewrite shown_nothing.
      split; [reflexivity|]. split; [intros s Hs; lia|].
      split; [intros e He; inversion He | constructor].
Qed.

Lemma display_burst_timing_off h fuel Str mc :
  IrStepCount (mem (world mc)) <> 0 ->
  display_burst_timing h fuel FLAG_OFF Str mc = timing_pages h fuel 0 mc.
Proof.
  intros Hcount. unfold display_burst_timing.
  rewrite (io_bind_returned _ _ _ _ _ (lift_get_mem mc)).
  apply Z.eqb_neq in Hcount. rewrite Hcount. reflexivity.
Qed.

(** X12.  For a burst of 1 to MAX_IR_READINGS steps, and when
    [display_header] prints its banner on every page (the conditions
    [banner_fits] of X27), [display_burst_timing] ends without reading
    outside the arrays and without changing the memory; every step of the
    burst is shown, with its number, the name of its level and its
    duration; each entry shown is the content of a cell of the arrays; and
    no step number is shown twice.  Five pages of fuel are enough. *)
Theorem display_burst_timing_shows_every_step_once h fuel Str mc :
  wf (mem (world mc)) ->
  banner_fits h mc ->
  0 < IrStepCount (mem (world mc)) <= MAX_IR_READINGS ->
  (5 <= fuel)%nat ->
  exists acc items,
    display_burst_timing h fuel FLAG_OFF Str mc = Returned (tt, shown acc items mc) /\
    (forall s, 0 <= s < IrStepCount (mem (world mc)) ->
               step_row (mem (world mc)) s ∈ timed items) /\
    (forall e, e ∈ timed items ->
               exists j, 0 <= j < MAX_IR_READINGS /\ e = step_row (mem (world mc)) j) /\
    NoDup (map number (timed items)).
Proof.
  intros Hwf Hfits Hcount Hfuel. rewrite display_burst_timing_off by lia.
  apply timing_pages_spec; auto; unfold MAX_IR_READINGS, LineCount in *; lia.
Qed.

Lemma display_burst_timing_shows_every_step_once_witness :
  exists acc items,
    display_burst_timing pico_board 5 FLAG_OFF (replicate 128 0) (console_on power_world []) =
      Returned (tt, shown acc items (console_on power_world [])) /\
    (forall s, 0 <= s < IrStepCount (mem (world (console_on power_world []))) ->
               step_row (mem (world (console_on power_world []))) s ∈ timed items) /\
    (forall e, e ∈ timed items ->
               exists j, 0 <= j < MAX_IR_READINGS /\
                         e = step_row (mem (world (console_on power_world []))) j) /\
    NoDup (map number (timed items)).
Proof.
  apply (display_burst_timing_shows_every_step_once pico_board 5 (replicate 128 0)
           (console_on power_world []));
    [vm_compute; reflexivity | vm_compute; repeat split; lia
    | vm_compute; split; [reflexivity | discriminate] | lia].
Defined.

Lemma flat_map_row_entries_short m l :
  Forall (fun j => IrStepCount m <= j + LineCount) l ->
  flat_map (row_entries m) l = map (step_row m) l.
Proof.
  induction 1 as [|j l Hj _ IH]; [reflexivity|]. cbn [flat_map map]. rewrite IH.
  unfold row_entries.
  replace (IrStepCount m >? j + LineCount) with false; [reflexivity|].
  symmetry. rewrite Z.gtb_ltb. apply Z.ltb_ge. exact Hj.
Qed.

(** X13.  For a burst of fewer than 50 steps, and when [display_header]
    prints its banner ([banner_fits]), the table has one row more than the
    burst has steps: the loop of lines 435-451 tests
    [Loop2UInt16 == IrStepCount] after the row is printed, so the cell
    that follows the last step is shown too. *)
Theorem display_burst_timing_shows_one_cell_past_a_short_burst h fuel Str mc :
  wf (mem (world mc)) ->
  banner_fits h mc ->
  0 < IrStepCount (mem (world mc)) < LineCount ->
  (1 <= fuel)%nat ->
  exists acc items,
    display_burst_timing h fuel FLAG_OFF Str mc = Returned (tt, shown acc items mc) /\
    timed items =
      map (step_row (mem (world mc))) (seqZ 0 (IrStepCount (mem (world mc)) + 1)).
Proof.
  intros Hwf Hfits Hcount Hfuel. rewrite display_burst_timing_off by lia.
  destruct fuel as [|fuel]; [lia|].
  destruct (timing_pages_turn h fuel 0 mc Hwf Hfits) as (acc & items & Hrun & Hrows);
    try (unfold LineCount, MAX_IR_READINGS in *; lia).
  exists acc, items. rewrite Hrun.
  rewrite timing_pages_end by (rewrite mem_shown; unfold LineCount in *; lia).
  split; [reflexivity|]. rewrite Hrows. unfold LineCount in *.
  replace (Z.min (0 + 50) (IrStepCount (mem (world mc)) + 1) - 0)
    with (IrStepCount (mem (world mc)) + 1) by lia.
  apply flat_map_row_entries_short. apply Forall_seqZ. unfold LineCount. lia.
Qed.

Lemma display_burst_timing_shows_one_cell_past_a_short_burst_witness :
  exists acc items,
    display_burst_timing pico_board 1 FLAG_OFF (replicate 128 0)
      (console_on long_low_world []) =
      Returned (tt, shown acc items (console_on long_low_world [])) /\
    timed items =
      map (step_row (mem (world (console_on long_low_world []))))
        (seqZ 0 (IrStepCount (mem (world (console_on long_low_world []))) + 1)).
Proof.
  apply (display_burst_timing_shows_one_cell_past_a_short_burst pico_board 1
           (replicate 128 0) (console_on long_low_world []));
    [vm_compute; reflexivity | vm_compute; repeat split; lia
    | vm_compute; split; reflexivity | lia].
Defined.

Lemma timing_pages_past_the_arrays h fuel : forall L mc,
  wf (mem (world mc)) -> banner_fits h mc ->
  MAX_IR_READINGS < IrStepCount (mem (world mc)) < 2 ^ 16 ->
  0 <= L <= MAX_IR_READINGS -> L mod (2 * LineCount) = 0 ->
  MAX_IR_READINGS - L < 2 * LineCount * Z.of_nat fuel ->
  timing_pages h fuel L mc = Broke (Hardware (OutOfBounds ArIrLevel MAX_IR_READINGS)).
Proof.
  unfold LineCount, MAX_IR_READINGS.
  induction fuel as [|fuel IH]; intros L mc Hwf Hfits Hcount HL Hmod Hfuel; [lia|].
  assert (Hbanner := banner_run h mc Hfits ltac:(lia)).
  set (m := mem (world mc)) in *.
  destruct (Z.eq_dec L 500) as [-> | Hne].
  - cbn [timing_pages]. rewrite (io_bind_returned _ _ _ _ _ (lift_get_mem mc)). fold m.
    replace (500 <? IrStepCount m) with true by (symmetry; apply Z.ltb_lt; lia).
    rewrite (io_bind_returned _ _ _ _ _ Hbanner).
    rewrite (io_bind_returned _ _ _ _ _ (lift_get_mem _)).
    rewrite (io_bind_returned _ _ _ _ _ (lift_printf _ _)).
    rewrite (io_bind_returned _ _ _ _ _ (say_returned _ _)).
    apply io_bind_broke. change (Z.to_nat LineCount) with 50%nat. cbn [timing_rows].
    change (500 <? 500 + LineCount) with true. cbv iota.
    apply io_bind_broke. apply lift_step_fields_fault; [exact Hwf|].
    unfold MAX_IR_READINGS. lia.
  - assert (HL' : L + 100 <= 500) by (Z.div_mod_to_equations; lia).
    destruct (timing_pages_turn h fuel L mc Hwf Hfits) as (acc & items & Hrun & _);
      try (fold m; unfold LineCount, MAX_IR_READINGS; lia).
    rewrite Hrun. unfold LineCount. apply IH; rewrite ?mem_shown; fold m; try lia.
    + exact Hwf.
    + exact Hfits.
    + rewrite <- Z.add_mod_idemp_l, Hmod by lia. reflexivity.
Qed.

(** X14.  When the step count has passed MAX_IR_READINGS (it is a
    UINT16) and [display_header] prints its banner ([banner_fits]),
    [display_burst_timing] does not return: it ends on the read of
    [IrLevel] at index MAX_IR_READINGS, one cell past the end of the
    array. *)
Theorem display_burst_timing_reads_past_the_arrays h fuel Str mc :
  wf (mem (world mc)) ->
  banner_fits h mc ->
  MAX_IR_READINGS < IrStepCount (mem (world mc)) < 2 ^ 16 ->
  (6 <= fuel)%nat ->
  display_burst_timing h fuel FLAG_OFF Str mc =
  Broke (Hardware (OutOfBounds ArIrLevel MAX_IR_READINGS)).
Proof.
  intros Hwf Hfits Hcount Hfuel.
  rewrite display_burst_timing_off by (unfold MAX_IR_READINGS in *; lia).
  apply timing_pages_past_the_arrays; auto; unfold MAX_IR_READINGS, LineCount in *; lia.
Qed.

Lemma display_burst_timing_reads_past_the_arrays_witness :
  display_burst_timing pico_board 6 FLAG_OFF (replicate 128 0) (console_on overrun_world []) =
  Broke (Hardware (OutOfBounds ArIrLevel MAX_IR_READINGS)).
Proof.
  apply (display_burst_timing_reads_past_the_arrays pico_board 6 (replicate 128 0)
           (console_on overrun_world []));
    [vm_compute; reflexivity | vm_compute; repeat split; lia
    | vm_compute; split; reflexivity | lia].
Defined.

(** *** Decoding at the console *)

Lemma lift_ok {A} (c : M A) mc (R : A -> World -> Prop) :
  ok c (Build_World (mem (world mc)) (timer (world mc)) [] (accesses (world mc))) R ->
  exists a w',
    lift c mc =
      Returned (a, Build_Machine
                     (Build_World (mem w') (timer w') (console (world mc)) (accesses w'))
                     (keys mc) (map IDecoder (console w') ++ screen mc)
                     (BrandName mc) (RemoteModel mc)) /\
    R a w'.
Proof.
  intros (a & w' & Hrun & HR). exists a, w'. split; [|exact HR].
  unfold lift. rewrite Hrun. reflexivity.
Qed.

Lemma lift_upd_mem f mc :
  lift (upd_mem f) mc =
  Returned (tt, Build_Machine
                  (Build_World (f (mem (world mc))) (timer (world mc)) (console (world mc))
                     (accesses (world mc)))
                  (keys mc) (screen mc) (BrandName mc) (RemoteModel mc)).
Proof. reflexivity. Qed.

Lemma length_array_of n s : length (array_of n s) = n.
Proof.
  unfold array_of. rewrite length_take, length_app, length_replicate. lia.
Qed.

(** The question of lines 416-420, answered by a name of 1 to 63
    characters. *)
Lemma enter_ButtonName_run name rest mc :
  Forall ordinary name -> (0 < length name < 64)%nat ->
  keys mc = name ++ 13 :: rest ->
  enter_ButtonName mc =
  Returned (tt, Build_Machine
                  (Build_World (set_ButtonName (string_of name) (mem (world mc)))
                     (timer (world mc)) (console (world mc)) (accesses (world mc)))
                  rest (IChars [13] :: echo name ++ IAskButton :: screen mc)
                  (BrandName mc) (RemoteModel mc)).
Proof.
  intros Hname Hlen Hkeys. unfold enter_ButtonName.
  rewrite (io_bind_returned _ _ _ _ _ (say_returned _ _)).
  rewrite (io_bind_returned _ _ _ _ _ (lift_get_mem _)). rewrite mem_shown.
  rewrite (io_bind_returned _ _ _ _ _
             (input_string_line name rest (array_of 64 (ButtonName (mem (world mc))))
                (shown [] [IAskButton] mc) Hname
                ltac:(lia) ltac:(rewrite length_array_of; lia) Hkeys)).
  rewrite c_str_prefix by (apply ordinary_no_nul, Hname).
  rewrite lift_upd_mem. destruct mc as [[m t c a] k s b r].
  unfold after, shown. cbn. reflexivity.
Qed.

Lemma lift_record_button l mc :
  wf (mem (world mc)) ->
  0 <= RemoteDataTotal (mem (world mc)) < REMOTE_DATA_SIZE ->
  lift (record_button l) mc =
  Returned (tt, Build_Machine
                  (Build_World (recorded (DataBuffer l) (mem (world mc)))
                     (timer (world mc)) (console (world mc)) (accesses (world mc)))
                  (keys mc) (screen mc) (BrandName mc) (RemoteModel mc)).
Proof.
  intros Hwf Htotal. unfold lift. rewrite record_button_run by exact Hwf. cbn [mem].
  replace ((0 <=? RemoteDataTotal (mem (world mc)))
           && (RemoteDataTotal (mem (world mc)) <? REMOTE_DATA_SIZE)) with true
    by (symmetry; apply andb_true_iff; lia).
  reflexivity.
Qed.

(** [decode_ir_command] with its question answered by a line of 1 to 63
    characters. *)
Lemma decode_ir_command_io_run h turns IRC garbage c cs rest Dum1Str mc :
  wf (mem (world mc)) ->
  banner_fits h mc ->
  0 <= IrStepCount (mem (world mc)) <= MAX_IR_READINGS ->
  IrStepCount (mem (world mc)) <= 2 * Z.of_nat turns ->
  0 <= RemoteDataTotal (mem (world mc)) < REMOTE_DATA_SIZE ->
  Forall ordinary (c :: cs) -> (length (c :: cs) < 64)%nat -> length Dum1Str = 64%nat ->
  keys mc = (c :: cs) ++ 13 :: rest ->
  exists v mc',
    decode_ir_command_io h turns IRC garbage Dum1Str mc = Returned ((UINT8 IRC, 0), mc') /\
    mem (world mc') =
      (if is_x c then recorded v (mem (world mc)) else mem (world mc)) /\
    keys mc' = rest /\
    IDecoder (LFinal v (IrStepCount (mem (world mc))) NUMBER_OF_STEPS) ∈ screen mc' /\
    (2 <= UINT16 garbage ->
     v = value (mem (world mc)) (data_pairs (IrStepCount (mem (world mc))))) /\
    BrandName mc' = BrandName mc /\ RemoteModel mc' = RemoteModel mc.
Proof.
  intros Hwf Hfits Hcount Hturns Htotal Hans Hlen Hdum Hkeys.
  set (m := mem (world mc)) in *.
  unfold decode_ir_command_io.
  rewrite (io_bind_returned _ _ _ _ _ (lift_printf _ _)).
  rewrite (io_bind_returned _ _ _ _ _ (lift_get_mem _)). rewrite mem_shown. fold m.
  rewrite (io_bind_returned _ _ _ _ _ (lift_printf _ _)). rewrite shown_shown. cbn [app].
  match goal with |- context [shown [] ?i mc] => set (opening := i) end.
  rewrite (io_bind_returned _ _ _ tt (shown [] (banner h mc) (shown [] opening mc)))
    by exact (banner_run h (shown [] opening mc) Hfits
                ltac:(change (0 <= IrStepCount m < 2 ^ 16);
                      unfold MAX_IR_READINGS in Hcount; lia)).
  rewrite (io_bind_returned _ _ _ _ _ (lift_get_mem _)). rewrite !mem_shown. fold m.
  rewrite (io_bind_returned _ _ _ _ _ (lift_printf _ _)).
  rewrite (io_bind_returned _ _ _ _ _ (lift_printf _ _)). rewrite !shown_shown. cbn [app].
  match goal with |- context [io_bind (lift (for_loop _ _ _)) _ ?x] => set (mc0 := x) end.
  assert (Hpos : 0 <= Loop2UInt16 (entry_locals garbage)).
  { cbn. apply Z.mod_pos_bound. reflexivity. }
  destruct (lift_ok (for_loop turns 0 (entry_locals garbage)) mc0 _
              (for_loop_spec (UINT16 garbage) turns 0 (entry_locals garbage)
                 (Build_World (mem (world mc0)) (timer (world mc0)) [] (accesses (world mc0)))
                 Hwf Hcount eq_refl ltac:(cbn [mem world mc0 shown]; fold m; lia)
                 ltac:(cbn [mem world mc0 shown]; fold m; lia) Hpos (fun Hgar => Hgar)))
    as (l & w' & Hrun & Hg & _ & _ & Hloc).
  cbn [mem] in Hg, Hloc. change (mem (world mc0)) with m in Hg, Hloc.
  destruct Hg as (Hmem & _ & _). cbn [mem] in Hmem.
  assert (Hval : 2 <= UINT16 garbage ->
                 DataBuffer l = value m (data_pairs (IrStepCount m))).
  { intros Hgar. destruct Hloc as (Hv & _); [exact Hgar | reflexivity | exact Hv]. }
  clear Hloc.
  exists (DataBuffer l).
  rewrite (io_bind_returned _ _ _ _ _ Hrun).
  rewrite (io_bind_returned _ _ _ _ _ (say_returned _ _)).
  match goal with |- context [io_bind (lift get_mem) _ ?x] => set (mc1 := x) end.
  rewrite (io_bind_returned _ _ _ _ _ (lift_get_mem mc1)).
  assert (Hmem1 : mem (world mc1) = m) by exact Hmem. rewrite Hmem1.
  rewrite (io_bind_returned _ _ _ _ _ (lift_printf _ _)).
  rewrite (io_bind_returned _ _ _ _ _ (say_returned _ _)).
  rewrite (io_bind_returned _ _ _ _ _ (lift_printf _ _)). rewrite !shown_shown. cbn [app].
  match goal with |- context [io_bind (input_string Dum1Str) _ ?x] => set (mc2 := x) end.
  rewrite (io_bind_returned _ _ _ _ _
             (input_string_line (c :: cs) rest Dum1Str mc2 Hans
                ltac:(cbn [length] in *; lia) ltac:(lia) Hkeys)).
  cbn [app]. rewrite (io_bind_returned _ _ _ _ _ (load_head c _ _)). fold (is_x c).
  match goal with |- context [after rest ?i mc2] => set (mc3 := after rest i mc2) end.
  assert (Hmem3 : mem (world mc3) = m) by exact Hmem.
  assert (Hscreen : IDecoder (LFinal (DataBuffer l) (IrStepCount m) NUMBER_OF_STEPS)
                      ∈ screen mc3).
  { subst mc3 mc2. unfold after, shown. cbn [screen].
    apply elem_of_app. right. apply elem_of_app. left.
    apply elem_of_cons. right. apply elem_of_cons. right. apply elem_of_cons. left.
    reflexivity. }
  destruct (is_x c).
  - rewrite (io_bind_returned _ _ _ _ _
               (lift_record_button l mc3 ltac:(rewrite Hmem3; exact Hwf)
                  ltac:(rewrite Hmem3; exact Htotal))).
    eexists. split; [reflexivity|]. cbn [world mem keys screen].
    split; [rewrite Hmem3; reflexivity|]. split; [reflexivity|]. split; [exact Hscreen|].
    split; [exact Hval|]. split; reflexivity.
  - exists mc3. split; [reflexivity|]. split; [exact Hmem3|]. split; [reflexivity|].
    split; [exact Hscreen|]. split; [exact Hval|]. split; reflexivity.
Qed.

Lemma value_set_ButtonName s m n : value (set_ButtonName s m) n = value m n.
Proof.
  induction n as [|n IH]; [reflexivity|]. cbn [value]. rewrite IH. reflexivity.
Qed.

(** Menu choice 3 on a burst that fits in the arrays. *)
Lemma decode_ir_burst_run
    h pages turns IRC garbage name c cs rest Str Str' Dum1Str mc :
  wf (mem (world mc)) ->
  banner_fits h mc ->
  0 < IrStepCount (mem (world mc)) <= MAX_IR_READINGS ->
  IrStepCount (mem (world mc)) <= 2 * Z.of_nat turns -> (5 <= pages)%nat ->
  0 <= RemoteDataTotal (mem (world mc)) < REMOTE_DATA_SIZE ->
  Forall ordinary name -> (0 < length name < 64)%nat ->
  Forall ordinary (c :: cs) -> (length (c :: cs) < 64)%nat ->
  length Dum1Str = 64%nat ->
  keys mc = name ++ 13 :: (c :: cs) ++ 13 :: rest ->
  exists v mc',
    decode_ir_burst h pages turns IRC garbage FLAG_ON Str Str' Dum1Str mc =
      Returned (tt, mc') /\
    mem (world mc') =
      (if is_x c then recorded v (set_ButtonName (string_of name) (mem (world mc)))
       else set_ButtonName (string_of name) (mem (world mc))) /\
    keys mc' = rest /\
    (2 <= UINT16 garbage ->
     v = value (mem (world mc)) (data_pairs (IrStepCount (mem (world mc))))) /\
    BrandName mc' = BrandName mc /\ RemoteModel mc' = RemoteModel mc.
Proof.
  intros Hwf Hfits Hcount Hturns Hpages Htotal Hname Hlen Hans Hlen' Hdum Hkeys.
  set (m := mem (world mc)) in *. unfold decode_ir_burst.
  rewrite (io_bind_returned _ _ _ _ _ (lift_get_mem mc)). fold m.
  replace (IrStepCount m =? 0) with false by (symmetry; apply Z.eqb_neq; lia).
  change (negb (FLAG_ON =? 0)) with true. cbv iota.
  rewrite (io_bind_returned _ _ _ _ _ (enter_ButtonName_run name _ mc Hname Hlen Hkeys)).
  fold m.
  match goal with |- context [io_bind (display_burst_timing _ _ _ _) _ ?x] => set (mc1 := x) end.
  set (m1 := set_ButtonName (string_of name) m).
  assert (Hwf1 : wf (mem (world mc1))) by exact Hwf.
  assert (Hfits1 : banner_fits h mc1) by exact Hfits.
  destruct (timing_pages_spec h pages 0 mc1 Hwf1 Hfits1) as (acc & items & Hrun & _);
    try (cbn [mc1 world mem]; unfold MAX_IR_READINGS, LineCount in *;
         change (IrStepCount (set_ButtonName (string_of name) m)) with (IrStepCount m); lia).
  { reflexivity. }
  rewrite <- (display_burst_timing_off h pages Str') in Hrun
    by (change (IrStepCount (mem (world mc1))) with (IrStepCount m); lia).
  rewrite (io_bind_returned _ _ _ _ _ Hrun).
  destruct (decode_ir_command_io_run h turns IRC garbage c cs rest Dum1Str
              (shown acc items mc1))
    as (v & mc' & Hrun' & Hmem' & Hkeys' & _ & Hval & Hbrand & Hmodel); auto;
    try (rewrite mem_shown; change (mem (world mc1)) with m1; subst m1;
         cbn [IrStepCount RemoteDataTotal set_ButtonName]; unfold MAX_IR_READINGS in *; lia).
  exists v, mc'. rewrite (io_bind_returned _ _ _ _ _ Hrun').
  split; [reflexivity|]. split; [exact Hmem'|]. split; [exact Hkeys'|].
  split; [|split; [exact Hbrand | exact Hmodel]].
  intros Hgar. rewrite (Hval Hgar). apply value_set_ButtonName.
Qed.

(** X15.  Menu choice 3 on a burst of 1 to MAX_IR_READINGS steps, with
    fewer than 256 buttons recorded and when [display_header] prints its
    banner ([banner_fits]): the name typed becomes [ButtonName], the timing
    table and the decoding are printed, and the answer to the last question
    decides: if its first character is [x] or [X], the value of
    [DataBuffer] is recorded under the name typed, at the index
    [RemoteDataTotal], which grows by one; any other answer leaves
    [RemoteData] as it was.  The value is the one that lines 84-85 alone
    give when the local [Loop2UInt16] holds 2 or more on entry. *)
Theorem decode_ir_burst_records_under_the_typed_name
    h pages turns IRC garbage name c cs rest Str Str' Dum1Str mc :
  wf (mem (world mc)) ->
  banner_fits h mc ->
  0 < IrStepCount (mem (world mc)) <= MAX_IR_READINGS ->
  IrStepCount (mem (world mc)) <= 2 * Z.of_nat turns -> (5 <= pages)%nat ->
  0 <= RemoteDataTotal (mem (world mc)) < REMOTE_DATA_SIZE ->
  Forall ordinary name -> (0 < length name < 64)%nat ->
  Forall ordinary (c :: cs) -> (length (c :: cs) < 64)%nat ->
  length Dum1Str = 64%nat ->
  keys mc = name ++ 13 :: (c :: cs) ++ 13 :: rest ->
  exists v mc',
    decode_ir_burst h pages turns IRC garbage FLAG_ON Str Str' Dum1Str mc =
      Returned (tt, mc') /\
    mem (world mc') =
      (if is_x c then recorded v (set_ButtonName (string_of name) (mem (world mc)))
       else set_ButtonName (string_of name) (mem (world mc))) /\
    keys mc' = rest /\
    (2 <= UINT16 garbage ->
     v = value (mem (world mc)) (data_pairs (IrStepCount (mem (world mc))))).
Proof.
  intros Hwf Hfits Hcount Hturns Hpages Htotal Hname Hlen Hans Hlen' Hdum Hkeys.
  destruct (decode_ir_burst_run h pages turns IRC garbage name c cs rest Str Str' Dum1Str mc
              Hwf Hfits Hcount Hturns Hpages Htotal Hname Hlen Hans Hlen' Hdum Hkeys)
    as (v & mc' & Hrun & Hmem & Hkeys' & Hval & _).
  exists v, mc'. auto.
Qed.

Lemma decode_ir_burst_records_under_the_typed_name_witness :
  exists v mc',
    decode_ir_burst pico_board 5 34 1 2 FLAG_ON (replicate 128 0) (replicate 128 0)
      (replicate 64 0)
      (console_on power_world ([79; 78] ++ 13 :: [120] ++ 13 :: [])) = Returned (tt, mc') /\
    mem (world mc') =
      (if is_x 120
       then recorded v
              (set_ButtonName (string_of [79; 78])
                 (mem (world (console_on power_world ([79; 78] ++ 13 :: [120] ++ 13 :: [])))))
       else set_ButtonName (string_of [79; 78])
              (mem (world (console_on power_world ([79; 78] ++ 13 :: [120] ++ 13 :: []))))) /\
    keys mc' = [] /\
    (2 <= UINT16 2 ->
     v = value (mem (world (console_on power_world ([79; 78] ++ 13 :: [120] ++ 13 :: []))))
           (data_pairs
              (IrStepCount
                 (mem (world (console_on power_world ([79; 78] ++ 13 :: [120] ++ 13 :: []))))))).
Proof.
  apply (decode_ir_burst_records_under_the_typed_name pico_board 5 34 1 2 [79; 78] 120 [] []
           (replicate 128 0) (replicate 128 0) (replicate 64 0)
           (console_on power_world ([79; 78] ++ 13 :: [120] ++ 13 :: [])));
    [vm_compute; reflexivity | vm_compute; repeat split; lia
    | vm_compute; split; [reflexivity | discriminate]
    | vm_compute; discriminate | lia | vm_compute; split; [discriminate | reflexivity]
    | repeat constructor; vm_compute; discriminate | vm_compute; lia
    | repeat constructor; vm_compute; discriminate | vm_compute; lia
    | reflexivity | reflexivity].
Defined.

Lemma ordinary_x : Forall ordinary [120].
Proof. constructor; [unfold ordinary; lia | constructor]. Qed.

(** X16.  From the line to the list.  A 32-bit word [X] is sent with the
    timings of the header of Samsung.c and captured by the handler; at
    menu choice 3 the user types a name of 1 to 63 characters, then [x];
    when the local [Loop2UInt16] of the decoder holds 2 or more on entry
    and [display_header] prints its banner (a brand of at most 83
    characters, a model of at most 76, an identifier of at most 40), the
    list that [display_button_list] prints afterwards is the one row
    [0, name, X]. *)
Theorem a_button_goes_from_the_line_to_the_list
    h X garbage IRC name rest Str Str' Dum1Str brand model :
  0 <= X < 2 ^ 32 -> 2 <= UINT16 garbage ->
  Forall ordinary name -> (0 < length name < 64)%nat -> length Dum1Str = 64%nat ->
  length (header_String h) = 128%nat -> (53 <= spaces h)%nat ->
  short_enough 40 (PicoUniqueId h) -> short_enough 83 brand -> short_enough 76 model ->
  exists w mc' items,
    captured (encode X) = Done (tt, w) /\
    decode_ir_burst h 5 33 IRC garbage FLAG_ON Str Str' Dum1Str
      (Build_Machine w (name ++ 13 :: 120 :: 13 :: rest) [] brand model) =
      Returned (tt, mc') /\
    display_button_list h mc' = Returned (tt, shown [] items mc') /\
    listed items = [(0, string_of name, X)].
Proof.
  intros HX Hgar Hname Hlen Hdum HString Hspaces Hid Hbrand Hmodel.
  destruct (capture_spec (encode X)) as (w & Hcap & Hwf & Hk & Htake & _ & Htot).
  { rewrite length_encode. reflexivity. }
  { apply encode_in_range. }
  rewrite length_encode in Hk, Htake. change (Z.of_nat 66) with 66 in Hk.
  set (mc := Build_Machine w (name ++ 13 :: 120 :: 13 :: rest) [] brand model).
  assert (Hfits : banner_fits h mc)
    by exact (conj HString (conj Hspaces (conj Hid (conj Hbrand Hmodel)))).
  destruct (decode_ir_burst_run h 5 33 IRC garbage name 120 [] rest Str Str' Dum1Str mc)
    as (v & mc' & Hrun & Hmem & Hkeys & Hval & Hb & Hr); auto using ordinary_x;
    try (cbn [mc world mem]; rewrite ?Hk, ?Htot;
         unfold MAX_IR_READINGS, REMOTE_DATA_SIZE; cbn [length]; lia).
  change (is_x 120) with true in Hmem. cbv iota in Hmem.
  cbn [mc world] in Hmem, Hval. rewrite (Hval Hgar), Hk in Hmem.
  change (data_pairs 66) with 32%nat in Hmem.
  rewrite (carried_value (mem w) X 32 (conj Hk Htake) HX (le_n 32)) in Hmem.
  change (32 - Z.of_nat 32) with 0 in Hmem. rewrite Z.shiftr_0_r in Hmem.
  assert (Hfits' : banner_fits h mc').
  { unfold banner_fits. rewrite Hb, Hr. exact Hfits. }
  destruct (display_button_list_run h mc' Hfits') as (items & Hlist & Hrows).
  { rewrite Hmem. unfold recorded. cbn [IrStepCount set_RemoteDataTotal set_RemoteData
                                          set_ButtonName]. rewrite Hk. lia. }
  { rewrite Hmem. unfold recorded. cbn [RemoteDataTotal set_RemoteDataTotal set_RemoteData
                                          set_ButtonName]. rewrite Htot.
    unfold REMOTE_DATA_SIZE. change (UINT16 (0 + 1)) with 1. lia. }
  { rewrite Hmem. unfold recorded. cbn [RemoteData set_RemoteDataTotal set_RemoteData
                                          set_ButtonName]. rewrite length_insert.
    apply wf_remote, Hwf. }
  exists w, mc', items. split; [exact Hcap|]. split; [exact Hrun|]. split; [exact Hlist|].
  rewrite Hrows, Hmem. unfold recorded.
  cbn [RemoteDataTotal set_RemoteDataTotal set_RemoteData set_ButtonName]. rewrite Htot.
  change (UINT16 (0 + 1)) with 1. rewrite (seqZ_cons 0 1), seqZ_nil by lia. cbn [map].
  unfold button_row, entry_at.
  cbn [RemoteData ButtonName set_RemoteDataTotal set_RemoteData set_ButtonName Z.to_nat].
  pose proof (wf_remote _ Hwf) as Hlen'. unfold REMOTE_DATA_SIZE in Hlen'.
  rewrite list_lookup_insert_eq by lia. reflexivity.
Qed.

Lemma a_button_goes_from_the_line_to_the_list_witness :
  exists w mc' items,
    captured (encode 0xE0E040BF) = Done (tt, w) /\
    decode_ir_burst pico_board 5 33 1 2 FLAG_ON (replicate 128 0) (replicate 128 0)
      (replicate 64 0)
      (Build_Machine w ([79; 78] ++ 13 :: 120 :: 13 :: []) []
         (array_of 128 "Samsung") (array_of 128 "TBD")) =
      Returned (tt, mc') /\
    display_button_list pico_board mc' = Returned (tt, shown [] items mc') /\
    listed items = [(0, string_of [79; 78], 0xE0E040BF)].
Proof.
  apply (a_button_goes_from_the_line_to_the_list pico_board 0xE0E040BF 2 1 [79; 78] []
           (replicate 128 0) (replicate 128 0) (replicate 64 0)
           (array_of 128 "Samsung") (array_of 128 "TBD"));
    [vm_compute; split; [discriminate | reflexivity] | vm_compute; discriminate
    | repeat constructor; vm_compute; discriminate | vm_compute; lia | reflexivity
    | reflexivity | vm_compute; lia | vm_compute; lia | vm_compute; lia | vm_compute; lia].
Defined.

(** ** uart_send *)

Lemma length_lu width n :
  (1 <= width <= 10)%nat -> 0 <= n < 10 ^ Z.of_nat width -> length (lu width n) = width.
Proof.
  intros Hw Hn. unfold lu. rewrite length_app, length_replicate.
  pose proof (digits_length 9 width n ltac:(lia) Hn). lia.
Qed.

Lemma lu_plain width n : 0 <= n -> Forall (fun c => c <> 37 /\ c <> 0) (lu width n).
Proof.
  intros Hn. unfold lu. apply Forall_app. split.
  - apply Forall_replicate. lia.
  - eapply Forall_impl; [apply digits_plain, Hn|]. cbv beta. intros c Hc. lia.
Qed.

Lemma stamp_plain LineNumber t :
  0 <= LineNumber -> 0 <= t -> Forall (fun c => c <> 37 /\ c <> 0) (stamp LineNumber t).
Proof.
  intros H1 H2.
  assert (H : forall w n, 0 <= n ->
            Forall (fun c => c <> 37 /\ c <> 0) (bytes_of "[" ++ lu w n ++ bytes_of "] ")).
  { intros w n Hn. apply Forall_app. split; [repeat constructor; discriminate|].
    apply Forall_app. split; [apply lu_plain, Hn | repeat constructor; discriminate]. }
  unfold stamp. apply Forall_app. split; apply H; assumption.
Qed.

Lemma length_stamp LineNumber t :
  0 <= LineNumber < 2 ^ 16 -> 0 <= t < 2 ^ 32 -> length (stamp LineNumber t) = 23%nat.
Proof.
  intros H1 H2. unfold stamp. rewrite !length_app.
  rewrite (length_lu 7), (length_lu 10); [reflexivity | lia | | lia |].
  - change (10 ^ Z.of_nat 10) with 10000000000. change (2 ^ 32) with 4294967296 in H2. lia.
  - change (10 ^ Z.of_nat 7) with 10000000. change (2 ^ 16) with 65536 in H1. lia.
Qed.

Lemma formatted_plain s mc :
  Forall (fun c => c <> 37) s -> formatted s mc = Returned (s, mc).
Proof.
  induction 1 as [|c s Hc _ IH]; [reflexivity|].
  assert (Hstep : formatted (c :: s) = io_bind (formatted s) (fun r => io_ret (c :: r))).
  { cbn [formatted].
    destruct c as [|p|p]; try reflexivity.
    do 6 (destruct p as [p|p|]; try reflexivity). congruence. }
  rewrite Hstep, (io_bind_returned _ _ _ _ _ IH). reflexivity.
Qed.

Lemma strcmp_is_spec s : forall lit tail mc,
  Forall (fun c => c <> 0) s -> Forall (fun c => c <> 0) lit ->
  exists b, strcmp_is (s ++ 0 :: tail) lit mc = Returned (b, mc) /\ (b = true <-> s = lit).
Proof.
  induction s as [|c s IH]; intros lit tail mc Hs Hlit.
  - destruct lit as [|l lit]; cbn [app strcmp_is].
    + exists true. split; [reflexivity | tauto].
    + apply Forall_cons in Hlit. destruct Hlit as [Hl _].
      replace (0 =? l) with false by (symmetry; apply Z.eqb_neq; lia).
      exists false. split; [reflexivity|]. split; discriminate.
  - apply Forall_cons in Hs. destruct Hs as [Hc Hs].
    destruct lit as [|l lit]; cbn [app strcmp_is].
    + replace (c =? 0) with false by (symmetry; apply Z.eqb_neq; lia).
      exists false. split; [reflexivity|]. split; discriminate.
    + apply Forall_cons in Hlit. destruct Hlit as [_ Hlit].
      destruct (c =? l) eqn:Hcl.
      * apply Z.eqb_eq in Hcl. subst l.
        destruct (IH lit tail mc Hs Hlit) as (b & Hrun & Hb). exists b.
        split; [exact Hrun|]. rewrite Hb. split; [congruence|]. intros [= ->]. reflexivity.
      * apply Z.eqb_neq in Hcl. exists false. split; [reflexivity|].
        split; [discriminate|]. intros [= -> _]. congruence.
Qed.

Lemma strcmp_is_other s lit tail mc :
  Forall (fun c => c <> 0) s -> Forall (fun c => c <> 0) lit -> s <> lit ->
  strcmp_is (s ++ 0 :: tail) lit mc = Returned (false, mc).
Proof.
  intros Hs Hlit Hne. destruct (strcmp_is_spec s lit tail mc Hs Hlit) as (b & Hrun & Hb).
  rewrite Hrun. destruct b; [|reflexivity]. destruct Hne. apply Hb. reflexivity.
Qed.

Lemma lift_time_us_32 mc :
  exists t mc',
    lift time_us_32 mc = Returned (t, mc') /\ 0 <= t < 2 ^ 32 /\
    screen mc' = screen mc /\ keys mc' = keys mc /\ mem (world mc') = mem (world mc).
Proof.
  destruct mc as [[m [|t0 ts] c a] k s b r].
  - exists (UINT32 0). eexists. split; [reflexivity|]. split; [|auto].
    unfold UINT32. apply Z.mod_pos_bound. reflexivity.
  - exists (UINT32 (UINT64 t0)). eexists. split; [reflexivity|]. split; [|auto].
    unfold UINT32. apply Z.mod_pos_bound. reflexivity.
Qed.

Lemma append_LineString_returned l s mc :
  (length (l ++ s) < 512)%nat -> append_LineString l s mc = Returned (l ++ s, mc).
Proof.
  intros H. unfold append_LineString.
  replace (length (l ++ s) <? 512)%nat with true by (symmetry; apply Nat.ltb_lt; exact H).
  reflexivity.
Qed.

Lemma load_first s tail mc :
  load (s ++ 0 :: tail) 0 mc = Returned (hd 0 s, mc).
Proof. destruct s; reflexivity. Qed.

Lemma bare_first s :
  negb (hd 0 s =? 45) && negb (hd 0 s =? 13) && negb (hd 0 s =? 27) && negb (hd 0 s =? 124)
  = negb (bare s).
Proof.
  destruct s as [|c s]; [reflexivity|]. cbn [hd bare].
  destruct (c =? 45), (c =? 13), (c =? 27), (c =? 124); reflexivity.
Qed.

(** The stamp of a line, as lines 870-873 build it. *)
Lemma stamp_run LineNumber mc :
  0 <= LineNumber < 2 ^ 16 ->
  exists t mc',
    io_bind (append_LineString [] (bytes_of "[" ++ lu 7 LineNumber ++ bytes_of "] "))
      (fun s => io_bind (lift time_us_32)
         (fun t => append_LineString s (bytes_of "[" ++ lu 10 t ++ bytes_of "] "))) mc =
      Returned (stamp LineNumber t, mc') /\
    0 <= t < 2 ^ 32 /\ screen mc' = screen mc.
Proof.
  intros Hn. destruct (lift_time_us_32 mc) as (t & mc' & Hrun & Ht & Hscreen & _).
  exists t, mc'. split; [|auto].
  pose proof (length_stamp LineNumber t Hn Ht) as Hlen. unfold stamp in Hlen.
  rewrite length_app in Hlen.
  rewrite (io_bind_returned _ _ _ _ _
             (append_LineString_returned [] (bytes_of "[" ++ lu 7 LineNumber ++ bytes_of "] ")
                mc ltac:(rewrite app_nil_l; lia))).
  rewrite (io_bind_returned _ _ _ _ _ Hrun). rewrite app_nil_l.
  apply append_LineString_returned. rewrite length_app. lia.
Qed.

(** Lines 841-874: up to the stamp, for a line that is not one of the
    two tags. *)
Lemma uart_send_head LineNumber s tail mc :
  Forall (fun c => c <> 0) s ->
  s <> bytes_of "home" -> s <> bytes_of "cls" ->
  0 <= LineNumber < 2 ^ 16 ->
  exists t mc1,
    0 <= t < 2 ^ 32 /\ screen mc1 = screen mc /\
    length (stamp LineNumber t) = 23%nat /\
    uart_send LineNumber (s ++ 0 :: tail) mc =
    io_bind (formatted s) (fun body =>
      io_bind (append_LineString (if bare s then [] else stamp LineNumber t) body)
        (fun LineString =>
           io_bind (formatted LineString) (fun out =>
             io_bind (say (IChars out)) (fun _ => io_ret (s ++ 0 :: tail))))) mc1.
Proof.
  intros Hnul Hhome Hcls Hn. unfold uart_send.
  rewrite (io_bind_returned _ _ _ _ _
             (strcmp_is_other s (bytes_of "home") tail mc Hnul
                ltac:(repeat constructor; discriminate) Hhome)).
  cbv iota. unfold io_bind at 1. cbn [io_ret].
  rewrite (io_bind_returned _ _ _ _ _
             (strcmp_is_other s (bytes_of "cls") tail mc Hnul
                ltac:(repeat constructor; discriminate) Hcls)).
  cbv iota. unfold io_bind at 1. cbn [io_ret].
  rewrite (io_bind_returned _ _ _ _ _ (load_first s tail mc)). rewrite bare_first.
  assert (Htext : forall mc0, text_of (s ++ 0 :: tail) mc0 = Returned (s, mc0)).
  { intros mc0. unfold text_of. rewrite strlen_prefix, c_str_prefix by exact Hnul.
    reflexivity. }
  destruct (bare s) eqn:Hbare; cbn [negb].
  - exists 0, mc. split; [split; [lia | reflexivity]|]. split; [reflexivity|].
    split; [apply length_stamp; [exact Hn | split; [lia | reflexivity]]|].
    unfold io_bind at 1. cbn [io_ret].
    rewrite (io_bind_returned _ _ _ _ _ (Htext mc)). reflexivity.
  - destruct (stamp_run LineNumber mc Hn) as (t & mc1 & Hrun & Ht & Hscreen).
    exists t, mc1. split; [exact Ht|]. split; [exact Hscreen|].
    split; [apply length_stamp; assumption|].
    rewrite (io_bind_returned _ _ _ _ _ Hrun).
    rewrite (io_bind_returned _ _ _ _ _ (Htext mc1)). reflexivity.
Qed.

Lemma no_nul_no_percent s :
  Forall (fun c => c <> 0 /\ c <> 37) s ->
  Forall (fun c => c <> 0) s /\ Forall (fun c => c <> 37) s.
Proof.
  intros Hs. split; (eapply Forall_impl; [exact Hs|]); intros c [H0 H37]; assumption.
Qed.

(** X17.  A line that holds no [%] and is not one of the tags [home] and
    [cls] is sent as it is, after a stamp of exactly 23 characters (the
    line number in 7 columns and the time in 10, each between brackets)
    unless it starts with [-], a carriage return, ESC or [|]; the
    caller's array is not changed. *)
Theorem uart_send_stamps_a_line LineNumber s tail mc :
  Forall (fun c => c <> 0 /\ c <> 37) s ->
  s <> bytes_of "home" -> s <> bytes_of "cls" ->
  (length s + 23 < 512)%nat ->
  0 <= LineNumber < 2 ^ 16 ->
  exists t mc',
    uart_send LineNumber (s ++ 0 :: tail) mc = Returned (s ++ 0 :: tail, mc') /\
    0 <= t < 2 ^ 32 /\
    screen mc' = IChars ((if bare s then [] else stamp LineNumber t) ++ s) :: screen mc /\
    length (stamp LineNumber t) = 23%nat.
Proof.
  intros Hs Hhome Hcls Hlen Hn. destruct (no_nul_no_percent s Hs) as [Hnul Hpct].
  destruct (uart_send_head LineNumber s tail mc Hnul Hhome Hcls Hn)
    as (t & mc1 & Ht & Hscreen & Hlen' & Hrun).
  set (P := if bare s then [] else stamp LineNumber t) in *.
  assert (HP : Forall (fun c => c <> 37) P /\ (length P <= 23)%nat).
  { subst P. destruct (bare s); [split; [constructor | cbn; lia]|]. split; [|lia].
    eapply Forall_impl; [apply stamp_plain; lia|]. intros c [H37 H0]. exact H37. }
  destruct HP as [HP HlenP].
  exists t, (shown [] [IChars (P ++ s)] mc1). rewrite Hrun.
  rewrite (io_bind_returned _ _ _ _ _ (formatted_plain s mc1 Hpct)).
  rewrite (io_bind_returned _ _ _ _ _
             (append_LineString_returned P s mc1 ltac:(rewrite length_app; lia))).
  rewrite (io_bind_returned _ _ _ _ _
             (formatted_plain (P ++ s) mc1 ltac:(apply Forall_app; split; assumption))).
  rewrite (io_bind_returned _ _ _ _ _ (say_returned _ _)).
  split; [reflexivity|]. split; [exact Ht|]. split; [|exact Hlen'].
  cbn [screen shown app]. rewrite Hscreen. reflexivity.
Qed.

Lemma uart_send_stamps_a_line_witness :
  exists t mc',
    uart_send 100 ([79; 75] ++ 0 :: []) (console_on power_world []) =
      Returned ([79; 75] ++ 0 :: [], mc') /\
    0 <= t < 2 ^ 32 /\
    screen mc' =
      IChars ((if bare [79; 75] then [] else stamp 100 t) ++ [79; 75]) ::
      screen (console_on power_world []) /\
    length (stamp 100 t) = 23%nat.
Proof.
  apply (uart_send_stamps_a_line 100 [79; 75] [] (console_on power_world []));
    [repeat constructor; discriminate | vm_compute; discriminate | vm_compute; discriminate
    | vm_compute; lia | vm_compute; split; [discriminate | reflexivity]].
Defined.

Lemma formatted_step c s :
  c <> 37 -> formatted (c :: s) = io_bind (formatted s) (fun r => io_ret (c :: r)).
Proof.
  intros Hc. cbn [formatted]. destruct c as [|p|p]; try reflexivity.
  do 6 (destruct p as [p|p|]; try reflexivity). congruence.
Qed.

(** A [%] that stands alone is a conversion without argument. *)
Lemma formatted_single a b mc :
  Forall (fun c => c <> 37) a -> Forall (fun c => c <> 37) b ->
  formatted (a ++ 37 :: b) mc = Broke Directive.
Proof.
  intros Ha Hb. induction Ha as [|c a Hc _ IH].
  - destruct b as [|c b]; [reflexivity|]. apply Forall_cons in Hb. destruct Hb as [Hc _].
    cbn [app formatted]. destruct c as [|p|p]; try reflexivity.
    do 6 (destruct p as [p|p|]; try reflexivity). congruence.
  - cbn [app]. rewrite formatted_step by exact Hc. apply io_bind_broke, IH.
Qed.

(** [%%] is written as one [%]. *)
Lemma formatted_double a b mc :
  Forall (fun c => c <> 37) a -> Forall (fun c => c <> 37) b ->
  formatted (a ++ 37 :: 37 :: b) mc = Returned (a ++ 37 :: b, mc).
Proof.
  intros Ha Hb. induction Ha as [|c a Hc _ IH].
  - cbn [app formatted]. rewrite (io_bind_returned _ _ _ _ _ (formatted_plain b mc Hb)).
    reflexivity.
  - cbn [app]. rewrite formatted_step by exact Hc.
    rewrite (io_bind_returned _ _ _ _ _ IH). reflexivity.
Qed.

Lemma percent_not_in_tag a b lit :
  Forall (fun c => c <> 37) lit -> a ++ 37 :: b <> lit.
Proof.
  intros Hlit Heq. rewrite <- Heq in Hlit. apply Forall_app in Hlit.
  destruct Hlit as [_ Hlit]. apply Forall_cons in Hlit. destruct Hlit as [H _]. congruence.
Qed.

(** X18.  [uart_send] hands the text to [sprintf] and then to [printf] as
    the format: a text with one [%], alone or doubled, meets a conversion
    that has no argument, in the first call when the [%] is alone and in
    the second when it is doubled.  No text of this shape is printed. *)
Theorem uart_send_takes_the_text_for_a_format LineNumber s a b tail mc :
  Forall (fun c => c <> 0) s ->
  Forall (fun c => c <> 37) a -> Forall (fun c => c <> 37) b ->
  s = a ++ 37 :: b \/ s = a ++ 37 :: 37 :: b ->
  (length s + 23 < 512)%nat ->
  0 <= LineNumber < 2 ^ 16 ->
  uart_send LineNumber (s ++ 0 :: tail) mc = Broke Directive.
Proof.
  intros Hnul Ha Hb Hs Hlen Hn.
  assert (Htags : s <> bytes_of "home" /\ s <> bytes_of "cls").
  { destruct Hs as [-> | ->]; split; apply percent_not_in_tag; repeat constructor;
      discriminate. }
  destruct Htags as [Hhome Hcls].
  destruct (uart_send_head LineNumber s tail mc Hnul Hhome Hcls Hn)
    as (t & mc1 & Ht & Hscreen & Hlen' & Hrun).
  rewrite Hrun. destruct Hs as [-> | ->].
  - apply io_bind_broke, formatted_single; assumption.
  - rewrite (io_bind_returned _ _ _ _ _ (formatted_double a b mc1 Ha Hb)).
    set (P := if bare (a ++ 37 :: 37 :: b) then [] else stamp LineNumber t).
    assert (HP : Forall (fun c => c <> 37) P /\ (length P <= 23)%nat).
    { subst P. destruct (bare _); [split; [constructor | cbn; lia]|]. split; [|lia].
      eapply Forall_impl; [apply stamp_plain; lia|]. intros c [H37 H0]. exact H37. }
    destruct HP as [HP HlenP].
    rewrite (io_bind_returned _ _ _ _ _
               (append_LineString_returned P (a ++ 37 :: b) mc1
                  ltac:(rewrite !length_app in *; cbn [length] in *; lia))).
    apply io_bind_broke. rewrite app_assoc. apply formatted_single; [|exact Hb].
    apply Forall_app. split; assumption.
Qed.

Lemma uart_send_takes_the_text_for_a_format_witness :
  uart_send 100 ([53; 48; 37] ++ 0 :: []) (console_on power_world []) = Broke Directive.
Proof.
  apply (uart_send_takes_the_text_for_a_format 100 [53; 48; 37] [53; 48] [] []
           (console_on power_world []));
    [repeat constructor; discriminate | repeat constructor; discriminate | constructor
    | left; reflexivity | vm_compute; lia | vm_compute; split; [discriminate | reflexivity]].
Defined.

Lemma store_bind {B} s i v (k : list Z -> IO B) mc :
  0 <= i < Z.of_nat (length s) ->
  io_bind (store s i v) k mc = k (<[Z.to_nat i := v]> s) mc.
Proof. intros Hi. apply io_bind_returned, store_returned, Hi. Qed.

Lemma strcmp_is_same lit tail mc :
  Forall (fun c => c <> 0) lit -> strcmp_is (lit ++ 0 :: tail) lit mc = Returned (true, mc).
Proof.
  intros Hlit. destruct (strcmp_is_spec lit lit tail mc Hlit Hlit) as (b & Hrun & Hb).
  rewrite Hrun. replace b with true; [reflexivity|]. symmetry. apply Hb. reflexivity.
Qed.

(** X19.  The two tags.  [home] is replaced in the caller's array by ESC
    [[H] and [cls] by ESC [[2J], and the sequence is sent without a
    stamp.  The second sequence is one character longer than the tag: an
    array that holds just [cls] and its NUL is written past its end, at
    index 4. *)
Theorem uart_send_rewrites_the_tags LineNumber c tail mc :
  uart_send LineNumber (bytes_of "home" ++ 0 :: tail) mc =
    Returned ([27; 91; 72; 0; 0] ++ tail, shown [] [IChars [27; 91; 72]] mc) /\
  uart_send LineNumber (bytes_of "cls" ++ 0 :: c :: tail) mc =
    Returned ([27; 91; 50; 74; 0] ++ tail, shown [] [IChars [27; 91; 50; 74]] mc) /\
  uart_send LineNumber (bytes_of "cls" ++ [0]) mc = Broke (Overrun 4).
Proof.
  assert (Hhome : Forall (fun c => c <> 0) (bytes_of "home"))
    by (repeat constructor; discriminate).
  assert (Hcls : Forall (fun c => c <> 0) (bytes_of "cls"))
    by (repeat constructor; discriminate).
  split; [|split]; unfold uart_send.
  - rewrite (io_bind_returned _ _ _ _ _ (strcmp_is_same _ tail mc Hhome)). cbv iota.
    change (bytes_of "home" ++ 0 :: tail) with (104 :: 111 :: 109 :: 101 :: 0 :: tail).
    unfold io_bind at 1.
    rewrite !store_bind by (rewrite ?length_insert; cbn [length]; lia).
    rewrite store_returned by (rewrite ?length_insert; cbn [length]; lia).
    destruct mc as [[m t co a] k s b r]. reflexivity.
  - rewrite (io_bind_returned _ _ _ _ _
               (strcmp_is_other (bytes_of "cls") (bytes_of "home") (c :: tail) mc Hcls Hhome
                  ltac:(discriminate))).
    cbv iota. unfold io_bind at 1. cbn [io_ret].
    rewrite (io_bind_returned _ _ _ _ _ (strcmp_is_same _ (c :: tail) mc Hcls)). cbv iota.
    change (bytes_of "cls" ++ 0 :: c :: tail) with (99 :: 108 :: 115 :: 0 :: c :: tail).
    unfold io_bind at 1.
    rewrite !store_bind by (rewrite ?length_insert; cbn [length]; lia).
    rewrite store_returned by (rewrite ?length_insert; cbn [length]; lia).
    destruct mc as [[m t co a] k s b r]. reflexivity.
  - rewrite (io_bind_returned _ _ _ _ _
               (strcmp_is_other (bytes_of "cls") (bytes_of "home") [] mc Hcls Hhome
                  ltac:(discriminate))).
    cbv iota. unfold io_bind at 1. cbn [io_ret].
    rewrite (io_bind_returned _ _ _ _ _ (strcmp_is_same _ [] mc Hcls)). cbv iota.
    reflexivity.
Qed.

(** ** The Unique ID string and the brand name *)

Lemma unique_id_run a b c d e f g h mc :
  unique_id [a; b; c; d; e; f; g; h] mc =
  Returned (X2 a ++ X2 b ++ [45] ++ X2 c ++ X2 d ++ [45] ++
            X2 e ++ X2 f ++ [45] ++ X2 g ++ X2 h, mc).
Proof. reflexivity. Qed.

Lemma hex_digit_inj d1 d2 :
  0 <= d1 < 16 -> 0 <= d2 < 16 -> hex_digit d1 = hex_digit d2 -> d1 = d2.
Proof.
  unfold hex_digit. intros H1 H2.
  destruct (d1 <? 10) eqn:E1, (d2 <? 10) eqn:E2;
    rewrite ?Z.ltb_lt, ?Z.ltb_ge in *; lia.
Qed.

Lemma X2_inj b1 b2 :
  0 <= b1 < 256 -> 0 <= b2 < 256 -> X2 b1 = X2 b2 -> b1 = b2.
Proof.
  intros H1 H2 Heq. unfold X2 in Heq. injection Heq as Hhi Hlo.
  apply hex_digit_inj in Hhi; [|Z.div_mod_to_equations; lia..].
  apply hex_digit_inj in Hlo; [|Z.div_mod_to_equations; lia..].
  Z.div_mod_to_equations. lia.
Qed.

(** X20.  The Unique ID string of a board: 16 hexadecimal digits in
    groups of four, with a dash between the groups, 19 characters in all;
    two boards whose identifiers differ have different strings. *)
Theorem unique_id_tells_boards_apart id1 id2 mc :
  length id1 = 8%nat -> length id2 = 8%nat ->
  Forall (fun b => 0 <= b < 256) id1 -> Forall (fun b => 0 <= b < 256) id2 ->
  exists s1 s2,
    unique_id id1 mc = Returned (s1, mc) /\ unique_id id2 mc = Returned (s2, mc) /\
    length s1 = 19%nat /\
    (s1 !! 4%nat = Some 45 /\ s1 !! 9%nat = Some 45 /\ s1 !! 14%nat = Some 45) /\
    (s1 = s2 -> id1 = id2).
Proof.
  intros Hlen1 Hlen2 Hb1 Hb2.
  destruct id1 as [|a1 [|b1 [|c1 [|d1 [|e1 [|f1 [|g1 [|h1 [|]]]]]]]]]; try discriminate.
  destruct id2 as [|a2 [|b2 [|c2 [|d2 [|e2 [|f2 [|g2 [|h2 [|]]]]]]]]]; try discriminate.
  eexists _, _. split; [apply unique_id_run|]. split; [apply unique_id_run|].
  split; [reflexivity|]. split; [repeat split; reflexivity|].
  intros Heq.
  repeat match goal with
         | H : Forall _ (_ :: _) |- _ => apply Forall_cons in H; destruct H as [? H]
         end.
  cbn [app X2] in Heq. injection Heq as Ha Ha' Hb Hb' Hc Hc' Hd Hd' He He' Hf Hf' Hg Hg' Hh Hh'.
  assert (HX : forall x y, 0 <= x < 256 -> 0 <= y < 256 ->
                 hex_digit (x / 16) = hex_digit (y / 16) ->
                 hex_digit (x mod 16) = hex_digit (y mod 16) -> x = y).
  { intros x y Hx Hy Ehi Elo. apply X2_inj; auto. unfold X2. congruence. }
  f_equal; [|f_equal; [|f_equal; [|f_equal; [|f_equal; [|f_equal; [|f_equal; [|f_equal]]]]]]];
    auto.
Qed.

Lemma unique_id_tells_boards_apart_witness :
  exists s1 s2,
    unique_id [230; 96; 88; 56; 131; 92; 17; 42] (console_on power_world []) =
      Returned (s1, console_on power_world []) /\
    unique_id [230; 96; 88; 56; 131; 92; 17; 43] (console_on power_world []) =
      Returned (s2, console_on power_world []) /\
    length s1 = 19%nat /\
    (s1 !! 4%nat = Some 45 /\ s1 !! 9%nat = Some 45 /\ s1 !! 14%nat = Some 45) /\
    (s1 = s2 -> [230; 96; 88; 56; 131; 92; 17; 42] = [230; 96; 88; 56; 131; 92; 17; 43]).
Proof.
  apply (unique_id_tells_boards_apart [230; 96; 88; 56; 131; 92; 17; 42]
           [230; 96; 88; 56; 131; 92; 17; 43] (console_on power_world []));
    [reflexivity | reflexivity
    | repeat constructor; vm_compute; discriminate
    | repeat constructor; vm_compute; discriminate].
Defined.

Lemma strlen_app_nul pre s :
  Forall (fun c => c <> 0) pre ->
  strlen (pre ++ s) = option_map (fun n => (length pre + n)%nat) (strlen s).
Proof.
  induction 1 as [|c pre Hc _ IH]; cbn [app strlen length].
  - destruct (strlen s); reflexivity.
  - apply Z.eqb_neq in Hc. rewrite Hc, IH. destruct (strlen s); reflexivity.
Qed.

Lemma c_str_app pre s :
  Forall (fun c => c <> 0) pre -> c_str (pre ++ s) = pre ++ c_str s.
Proof.
  induction 1 as [|c pre Hc _ IH]; cbn [app c_str]; [reflexivity|].
  apply Z.eqb_neq in Hc. rewrite Hc, IH. reflexivity.
Qed.

(** The loop of lines 165-166 from the character of index [length pre]
    on. *)
Lemma brand_loop_spec f : forall fuel pre rest mc,
  Forall (fun c => c <> 0) pre -> Forall (fun c => c <> 0) f ->
  (length f <= fuel)%nat -> Z.of_nat (length pre + length f) < 2 ^ 31 ->
  exists s,
    brand_loop fuel (Z.of_nat (length pre)) (pre ++ f ++ 0 :: rest) mc = Returned (s, mc) /\
    c_str s = pre ++ stem f /\
    length s = length (pre ++ f ++ 0 :: rest).
Proof.
  induction f as [|c f IH]; intros fuel pre rest mc Hpre Hf Hfuel Hsmall.
  - exists (pre ++ 0 :: rest). cbn [app stem]. split; [|split; [|reflexivity]].
    + destruct fuel; cbn [brand_loop]; rewrite strlen_app_nul by exact Hpre;
        cbn [strlen option_map]; change (0 =? 0) with true; cbn [option_map];
        rewrite Nat.add_0_r, Z.ltb_irrefl; reflexivity.
    + rewrite c_str_app by exact Hpre. reflexivity.
  - apply Forall_cons in Hf. destruct Hf as [Hc Hf]. cbn [length] in Hfuel, Hsmall.
    destruct fuel as [|fuel]; [lia|]. cbn [brand_loop].
    rewrite strlen_app_nul by exact Hpre.
    change ((c :: f) ++ 0 :: rest) with ((c :: f) ++ 0 :: rest).
    rewrite (strlen_prefix (c :: f) rest) by (constructor; assumption).
    cbn [option_map length].
    replace (Z.of_nat (length pre) <? Z.of_nat (length pre + S (length f))) with true
      by (symmetry; apply Z.ltb_lt; lia).
    assert (Hload : load (pre ++ (c :: f) ++ 0 :: rest) (Z.of_nat (length pre)) mc
                    = Returned (c, mc)).
    { unfold load. replace (0 <=? Z.of_nat (length pre)) with true
        by (symmetry; apply Z.leb_le; lia).
      rewrite Nat2Z.id, lookup_app_r, Nat.sub_diag by lia. reflexivity. }
    rewrite (io_bind_returned _ _ _ _ _ Hload).
    replace (UINT32 (Z.of_nat (length pre) + 1)) with (Z.of_nat (length (pre ++ [c]))).
    2:{ rewrite length_app. cbn [length]. unfold UINT32.
        change (2 ^ 32) with 4294967296. change (2 ^ 31) with 2147483648 in Hsmall.
        rewrite Z.mod_small by lia. lia. }
    destruct (c =? 46) eqn:Hdot.
    + rewrite store_bind by (rewrite !length_app; cbn [length]; lia).
      rewrite Nat2Z.id. rewrite insert_app_r_alt, Nat.sub_diag by lia. cbn [app insert list_insert].
      exists (pre ++ 0 :: f ++ 0 :: rest). split; [|split].
      * destruct fuel; cbn [brand_loop]; rewrite strlen_app_nul by exact Hpre;
          cbn [strlen option_map]; change (0 =? 0) with true; cbn [option_map];
          rewrite Nat.add_0_r;
          (replace (Z.of_nat (length (pre ++ [c])) <? Z.of_nat (length pre)) with false
            by (symmetry; apply Z.ltb_ge; rewrite length_app; cbn [length]; lia));
          reflexivity.
      * rewrite c_str_app by exact Hpre. cbn [stem]. rewrite Hdot. reflexivity.
      * rewrite !length_app. cbn [length]. rewrite !length_app. reflexivity.
    + unfold io_bind at 1. cbn [io_ret].
      destruct (IH fuel (pre ++ [c]) rest mc) as (s & Hrun & Hstr & Hlen).
      * apply Forall_app. split; [exact Hpre | constructor; [exact Hc | constructor]].
      * exact Hf.
      * lia.
      * rewrite length_app. cbn [length]. lia.
      * exists s. rewrite <- app_assoc in Hrun, Hstr, Hlen. cbn [app] in Hrun, Hstr, Hlen.
        split; [exact Hrun|]. split; [|exact Hlen].
        rewrite Hstr. cbn [stem]. rewrite Hdot. reflexivity.
Qed.

(** X21.  [main] takes the brand from the name of the decoder file: what
    is left in [BrandName] is the part of REMOTE_FILENAME before its first
    dot, and the whole name when it has no dot. *)
Theorem set_brand_keeps_what_comes_before_the_dot f mc :
  Forall (fun c => c <> 0) f -> (length f < 128)%nat ->
  length (BrandName mc) = 128%nat ->
  exists s,
    set_brand f mc =
      Returned (tt, Build_Machine (world mc) (keys mc) (screen mc) s (RemoteModel mc)) /\
    c_str s = stem f /\ length s = 128%nat.
Proof.
  intros Hf Hlen Hsize. unfold set_brand. unfold io_bind at 1. cbn [get_machine].
  rewrite (io_bind_returned _ _ _ _ _
             (strcpy_line f [] (BrandName mc) mc Hf ltac:(lia))).
  set (rest := drop (S (length f)) (BrandName mc)).
  assert (Hlen' : length (f ++ 0 :: rest) = 128%nat).
  { subst rest. rewrite length_app. cbn [length]. rewrite length_drop. lia. }
  destruct (brand_loop_spec f (length (f ++ 0 :: rest)) [] rest mc) as (s & Hrun & Hstr & Hlen'').
  - constructor.
  - exact Hf.
  - rewrite Hlen'. lia.
  - cbn [length Nat.add]. change (2 ^ 31) with 2147483648. lia.
  - exists s. cbn [app length] in Hrun, Hstr, Hlen''. change (Z.of_nat 0) with 0 in Hrun.
    rewrite (io_bind_returned _ _ _ _ _ Hrun). split; [reflexivity|].
    split; [exact Hstr | congruence].
Qed.

Lemma set_brand_keeps_what_comes_before_the_dot_witness :
  exists s,
    set_brand (bytes_of "Samsung.c") (console_on power_world []) =
      Returned (tt, Build_Machine (world (console_on power_world []))
                      (keys (console_on power_world []))
                      (screen (console_on power_world [])) s
                      (RemoteModel (console_on power_world []))) /\
    c_str s = stem (bytes_of "Samsung.c") /\ length s = 128%nat.
Proof.
  apply (set_brand_keeps_what_comes_before_the_dot (bytes_of "Samsung.c")
           (console_on power_world []));
    [vm_compute; repeat constructor; discriminate | vm_compute; lia | reflexivity].
Defined.

(** X22.  The first answer to [enter_remote_id] goes to a local array of
    64 bytes: a brand of 64 to 128 ordinary characters is written past
    its end, in the frame of the function, before any of it reaches
    [BrandName]. *)
Theorem enter_remote_id_overruns_its_local_array brand rest Dum1UChar mc :
  Forall ordinary brand -> (64 <= length brand <= 128)%nat ->
  length Dum1UChar = 64%nat ->
  strlen (BrandName mc) <> None ->
  keys mc = brand ++ 13 :: rest ->
  enter_remote_id Dum1UChar mc = Broke (Overrun 64).
Proof.
  intros Hbrand Hlen Hdum HstrB Hkeys.
  unfold enter_remote_id. unfold io_bind at 1. cbn [get_machine].
  rewrite (io_bind_returned _ _ _ _ _ (text_of_returned _ mc HstrB)).
  unfold io_bind at 1. cbn [say]. unfold io_bind at 1. cbn [say].
  apply io_bind_broke.
  rewrite (input_string_overrun brand rest Dum1UChar) by (auto; lia).
  rewrite Hdum. reflexivity.
Qed.

Lemma enter_remote_id_overruns_its_local_array_witness :
  enter_remote_id (replicate 64 0) (console_on power_world (replicate 64 65 ++ 13 :: [])) =
  Broke (Overrun 64).
Proof.
  apply (enter_remote_id_overruns_its_local_array (replicate 64 65) [] (replicate 64 0)
           (console_on power_world (replicate 64 65 ++ 13 :: [])));
    [apply Forall_replicate; repeat split; vm_compute; discriminate
    | vm_compute; lia | reflexivity | vm_compute; discriminate | reflexivity].
Defined.


(** * The main loop *)

(** ** What the handler leaves alone *)

Lemma keeps_ret {A} (a : A) : keeps (ret a).
Proof. intros w a' w' H. injection H as _ <-. auto. Qed.

Lemma keeps_bind {A B} (c : M A) (k : A -> M B) :
  keeps c -> (forall a, keeps (k a)) -> keeps (bind c k).
Proof.
  intros Hc Hk w b w' H. unfold bind in H.
  destruct (c w) as [[a w1]| |] eqn:E; try discriminate.
  destruct (Hc _ _ _ E) as [H1 H2]. destruct (Hk _ _ _ _ H) as [H3 H4].
  split; congruence.
Qed.

Lemma keeps_get_mem : keeps get_mem.
Proof. intros w a w' H. injection H as _ <-. auto. Qed.

Lemma keeps_time_us_64 : keeps time_us_64.
Proof.
  intros w a w' H. unfold time_us_64 in H.
  destruct (timer w); injection H as _ <-; auto.
Qed.

Lemma keeps_set_IrStepCount n : keeps (upd_mem (set_IrStepCount n)).
Proof. intros w a w' H. injection H as _ <-. auto. Qed.

Lemma keeps_wr a i v : keeps (wr a i v).
Proof.
  intros w u w' H. unfold wr, bind, get_mem in H.
  destruct ((0 <=? i) && (i <? Z.of_nat (length (cells a (mem w))))); [|discriminate].
  injection H as _ <-. split; [destruct a|]; reflexivity.
Qed.

Lemma keeps_rd a i : keeps (rd a i).
Proof.
  intros w u w' H. unfold rd, bind, get_mem in H.
  destruct ((0 <=? i) && (i <? Z.of_nat (length (cells a (mem w))))); [|discriminate].
  injection H as _ <-. auto.
Qed.

Ltac keeps_step :=
  lazymatch goal with
  | |- keeps (bind _ _) => apply keeps_bind; [|intros ?]
  | |- keeps (ret _) => apply keeps_ret
  | |- keeps get_mem => apply keeps_get_mem
  | |- keeps time_us_64 => apply keeps_time_us_64
  | |- keeps (upd_mem (set_IrStepCount _)) => apply keeps_set_IrStepCount
  | |- keeps (wr _ _ _) => apply keeps_wr
  | |- keeps (rd _ _) => apply keeps_rd
  | |- keeps (if ?b then _ else _) => destruct b
  end.

Lemma keeps_isr_signal_trap gpio Events : keeps (isr_signal_trap gpio Events).
Proof.
  unfold isr_signal_trap, isr_rise, isr_fall, gpio_acknowledge_irq. repeat keeps_step.
Qed.

Lemma keeps_edges n : forall rising, keeps (edges rising n).
Proof.
  induction n as [|n IH]; intros rising; cbn [edges].
  - apply keeps_ret.
  - apply keeps_bind; [apply keeps_isr_signal_trap | intros _; apply IH].
Qed.

(** ** The start of a turn *)

Local Open Scope io_scope.

Lemma lift_done {A} (c : M A) mc a w' :
  c (Build_World (mem (world mc)) (timer (world mc)) [] (accesses (world mc))) = Done (a, w') ->
  console w' = [] ->
  lift c mc =
  Returned (a, on_world (Build_World (mem w') (timer w') (console (world mc)) (accesses w')) mc).
Proof. intros H Hc. unfold lift. rewrite H, Hc. reflexivity. Qed.

Lemma init_burst_variables_run w :
  wf (mem w) ->
  exists w',
    init_burst_variables w = Done (tt, w') /\
    wf (mem w') /\ IrStepCount (mem w') = 0 /\
    records (mem w') = records (mem w) /\
    timer w' = timer w /\ console w' = console w.
Proof.
  intros Hwf. unfold init_burst_variables.
  set (w0 := Build_World (set_IrStepCount 0 (mem w)) (timer w) (console w) (accesses w)).
  destruct (init_loop_spec (Z.to_nat MAX_IR_READINGS) 0 w0)
    as (w' & Hrun & Hwf' & _ & Hglob & Htimer & Hconsole).
  - exact Hwf.
  - unfold MAX_IR_READINGS. lia.
  - unfold MAX_IR_READINGS. lia.
  - exists w'. split; [rewrite <- Hrun; reflexivity|].
    unfold globals in Hglob. injection Hglob as H1 H2 H3 H4 H5.
    split; [exact Hwf'|]. split; [exact H1|]. split; [|auto].
    unfold records. rewrite H2, H3, H4, H5. reflexivity.
Qed.

(** The falling edge that starts a burst. *)
Lemma isr_fall_first w t rest :
  wf (mem w) -> IrStepCount (mem w) = 0 -> timer w = t :: rest ->
  exists w',
    isr_signal_trap IR_RX GPIO_IRQ_EDGE_FALL w = Done (tt, w') /\
    wf (mem w') /\ IrStepCount (mem w') = 0 /\
    peek ArIrInitialValue 0 (mem w') = UINT64 t /\
    timer w' = rest.
Proof.
  intros Hwf Hk Htimer. destruct w as [m tm co ac]. cbn [mem timer] in *. subst tm.
  set (w1 := Build_World m rest co ac).
  exists (Build_World
            (set_cells ArIrInitialValue
               (<[Z.to_nat 0 := UINT64 t]> (cells ArIrInitialValue (mem w1))) (mem w1))
            (timer w1) (console w1) (Wr ArIrInitialValue 0 :: accesses w1)).
  split.
  - unfold isr_signal_trap. change (IR_RX =? IR_RX) with true.
    change (negb (Z.land GPIO_IRQ_EDGE_FALL GPIO_IRQ_EDGE_RISE =? 0)) with false.
    change (negb (Z.land GPIO_IRQ_EDGE_FALL GPIO_IRQ_EDGE_FALL =? 0)) with true.
    cbv iota. unfold isr_fall, gpio_acknowledge_irq.
    unfold bind at 1. cbn [ret]. unfold bind at 1. cbn [get_mem mem].
    rewrite Hk. change (0 >? 0) with false. cbv iota.
    unfold bind at 1. cbn [ret]. unfold bind at 1. cbn [get_mem mem].
    unfold bind at 1. cbn [time_us_64 timer]. fold w1. rewrite Hk.
    rewrite (bind_done _ _ _ _ _ (wr_done ArIrInitialValue 0 (UINT64 t) w1 Hwf
                                    ltac:(unfold MAX_IR_READINGS; lia))).
    reflexivity.
  - cbn [mem timer w1]. split; [apply wf_set_cells; [exact Hwf | discriminate]|].
    split; [rewrite IrStepCount_set_cells; exact Hk|]. split; [|reflexivity].
    apply peek_set_cells_eq; [exact Hwf | unfold MAX_IR_READINGS; lia].
Qed.

(** The wait for a burst that fits in the arrays. *)
Lemma await_burst_run t durs mc :
  wf (mem (world mc)) -> IrStepCount (mem (world mc)) = 0 ->
  (0 < length durs)%nat -> Z.of_nat (length durs) < MAX_IR_READINGS ->
  Forall (fun d => 0 <= d < 2 ^ 32) durs ->
  exists w',
    await_burst t durs mc = Returned (tt, on_world w' mc) /\
    wf (mem w') /\
    IrStepCount (mem w') = Z.of_nat (length durs) /\
    take (length durs) (IrResultValue (mem w')) = durs /\
    records (mem w') = records (mem (world mc)) /\
    console w' = console (world mc) /\
    take (length durs) (IrLevel (mem w')) = levels true (length durs).
Proof.
  intros Hwf Hk Hpos Hlen Hds. unfold await_burst.
  unfold io_bind at 1. cbn [set_timer].
  set (mc0 := Build_Machine (with_timer (t :: edge_times t durs) (world mc)) (keys mc)
                (screen mc) (BrandName mc) (RemoteModel mc)).
  set (W0 := Build_World (mem (world mc0)) (timer (world mc0)) [] (accesses (world mc0))).
  destruct (isr_fall_first W0 t (edge_times t durs) Hwf Hk eq_refl)
    as (w1 & Hrun1 & Hwf1 & Hk1 & Hinit1 & Htimer1).
  destruct (keeps_isr_signal_trap _ _ _ _ _ Hrun1) as [Hrec1 Hcon1].
  rewrite (io_bind_returned _ _ _ _ _ (lift_done _ mc0 tt w1 Hrun1 Hcon1)).
  set (mc1 := on_world (Build_World (mem w1) (timer w1) (console (world mc0)) (accesses w1)) mc0).
  set (W1 := Build_World (mem (world mc1)) (timer (world mc1)) [] (accesses (world mc1))).
  destruct (edges_append durs true W1 0 t Hwf1 Hk1 ltac:(lia) ltac:(lia) eq_refl Hinit1
              Htimer1 Hds)
    as ([] & w2 & Hrun2 & Hwf2 & Hk2 & Htake2 & Hlevels2 & _).
  destruct (keeps_edges _ _ _ _ _ Hrun2) as [Hrec2 Hcon2].
  rewrite (io_bind_returned _ _ _ _ _ (lift_done _ mc1 tt w2 Hrun2 Hcon2)).
  rewrite (io_bind_returned _ _ _ _ _ (lift_get_mem _)).
  cbn [on_world world mem]. rewrite Hk2.
  replace (0 + Z.of_nat (length durs) =? 0) with false by (symmetry; apply Z.eqb_neq; lia).
  exists (Build_World (mem w2) (timer w2) (console (world mc)) (accesses w2)).
  split; [reflexivity|]. cbn [mem console]. split; [exact Hwf2|].
  split; [lia|]. split.
  - rewrite Z.add_0_l, Nat2Z.id in Htake2. exact Htake2.
  - split; [rewrite Hrec2; exact Hrec1|]. split; [reflexivity|].
    rewrite Z.add_0_l, Nat2Z.id in Hlevels2. exact Hlevels2.
Qed.

(** Lines 225-250: a turn up to the question of the menu. *)
Lemma main_menu_asks h t durs Str mc :
  wf (mem (world mc)) -> banner_fits h mc ->
  (0 < length durs)%nat -> Z.of_nat (length durs) < MAX_IR_READINGS ->
  Forall (fun d => 0 <= d < 2 ^ 32) durs ->
  exists w' items,
    main_menu h t durs Str mc =
      input_string Str
        (Build_Machine w' (keys mc) (items ++ screen mc) (BrandName mc) (RemoteModel mc)) /\
    wf (mem w') /\
    IrStepCount (mem w') = Z.of_nat (length durs) /\
    take (length durs) (IrResultValue (mem w')) = durs /\
    records (mem w') = records (mem (world mc)) /\
    listed items = [] /\
    take (length durs) (IrLevel (mem w')) = levels true (length durs).
Proof.
  intros Hwf Hfits Hpos Hlen Hds. unfold main_menu.
  set (W := Build_World (mem (world mc)) (timer (world mc)) [] (accesses (world mc))).
  destruct (init_burst_variables_run W Hwf) as (w1 & Hrun1 & Hwf1 & Hk1 & Hrec1 & _ & Hcon1).
  rewrite (io_bind_returned _ _ _ _ _ (lift_done _ mc tt w1 Hrun1 Hcon1)).
  rewrite (io_bind_returned _ _ _ _ _ (lift_get_mem _)).
  rewrite (io_bind_returned _ _ _ _ _ (say_returned _ _)).
  rewrite (io_bind_returned _ _ _ _ _ (say_returned _ _)).
  match goal with |- context [io_bind (await_burst t durs) _ ?x] => set (mcB := x) end.
  destruct (await_burst_run t durs mcB Hwf1 Hk1 Hpos Hlen Hds)
    as (w2 & Hrun2 & Hwf2 & Hk2 & Htake2 & Hrec2 & _ & Hlevels2).
  rewrite (io_bind_returned _ _ _ _ _ Hrun2).
  set (mcA := on_world w2 mcB).
  assert (Hbanner := banner_run h mcA Hfits
                       ltac:(change (0 <= IrStepCount (mem w2) < 2 ^ 16); rewrite Hk2;
                             unfold MAX_IR_READINGS in Hlen; lia)).
  rewrite (io_bind_returned _ _ _ _ _ Hbanner).
  rewrite (io_bind_returned _ _ _ _ _ (lift_get_mem _)).
  rewrite (io_bind_returned _ _ _ _ _ (say_returned _ _)).
  rewrite (io_bind_returned _ _ _ _ _ (say_returned _ _)).
  rewrite !shown_shown, !mem_shown.
  exists w2,
    (([IMenu] ++ [IStepCount (IrStepCount (mem w2))] ++ banner h mcA) ++
     [IAwaitBurst; IStepCount (IrStepCount (mem w1))]).
  split.
  { f_equal. unfold shown. cbn [mcA on_world world keys screen BrandName RemoteModel mcB shown].
    rewrite <- !app_assoc. destruct w2. reflexivity. }
  split; [exact Hwf2|]. split; [exact Hk2|].
  split; [exact Htake2|]. split; [rewrite Hrec2; exact Hrec1|].
  split; [|exact Hlevels2].
  rewrite !listed_app, listed_banner. reflexivity.
Qed.

(** ** The choices *)

Lemma atoi_3 l mc : atoi (51 :: 0 :: l) mc = Returned (3, mc).
Proof. reflexivity. Qed.

Lemma atoi_4 l mc : atoi (52 :: 0 :: l) mc = Returned (4, mc).
Proof. reflexivity. Qed.

Lemma button_row_records m m' i :
  RemoteData m' = RemoteData m -> button_row m' i = button_row m i.
Proof. intros H. unfold button_row, entry_at. rewrite H. reflexivity. Qed.

(** A turn in which the user chooses 4. *)
Lemma main_turn_choice_4
    h pages turns IRC garbage t durs rest Dum1UChar Str3 Str2 Dum1Str Str mc :
  wf (mem (world mc)) -> banner_fits h mc ->
  (0 < length durs)%nat -> Z.of_nat (length durs) < MAX_IR_READINGS ->
  Forall (fun d => 0 <= d < 2 ^ 32) durs ->
  0 <= RemoteDataTotal (mem (world mc)) <= REMOTE_DATA_SIZE ->
  (1 < length Str)%nat ->
  keys mc = 52 :: 13 :: rest ->
  exists mc' items,
    main_turn h pages turns IRC garbage t durs Dum1UChar Str3 Str2 Dum1Str Str mc =
      Returned (52 :: 0 :: drop 2 Str, mc') /\
    screen mc' = items ++ screen mc /\
    listed items =
      map (button_row (mem (world mc))) (seqZ 0 (RemoteDataTotal (mem (world mc)))) /\
    wf (mem (world mc')) /\
    records (mem (world mc')) = records (mem (world mc)) /\
    keys mc' = rest.
Proof.
  intros Hwf Hfits Hpos Hlen Hds Htotal Hsize Hkeys. unfold main_turn.
  destruct (main_menu_asks h t durs Str mc Hwf Hfits Hpos Hlen Hds)
    as (w' & items0 & Hmenu & Hwf' & Hk & _ & Hrec & Hlisted0 & _).
  set (mcP := Build_Machine w' (keys mc) (items0 ++ screen mc) (BrandName mc) (RemoteModel mc))
    in Hmenu.
  assert (Hline : input_string Str mcP =
                  Returned ([52] ++ 0 :: drop (S (length [52])) Str,
                            after rest (IChars [13] :: echo [52]) mcP)).
  { apply input_string_line.
    - repeat constructor; unfold ordinary; lia.
    - cbn [length]. lia.
    - cbn [length]. lia.
    - exact Hkeys. }
  rewrite <- Hmenu in Hline. rewrite (io_bind_returned _ _ _ _ _ Hline).
  set (mcQ := after rest (IChars [13] :: echo [52]) mcP).
  change ([52] ++ 0 :: drop (S (length [52])) Str) with (52 :: 0 :: drop 2 Str).
  unfold records in Hrec. injection Hrec as Hname Hlevels Hdata Htot.
  destruct (display_button_list_run h mcQ Hfits) as (items & Hlist & Hrows).
  { cbn [mcQ after world mcP]. rewrite Hk. unfold MAX_IR_READINGS in Hlen. lia. }
  { cbn [mcQ after world mcP]. rewrite Htot. exact Htotal. }
  { cbn [mcQ after world mcP]. apply wf_remote, Hwf'. }
  assert (Hchoice : main_choice h pages turns IRC garbage Dum1UChar Str3 Str2 Dum1Str
                      (52 :: 0 :: drop 2 Str) mcQ = Returned (tt, shown [] items mcQ)).
  { unfold main_choice.
    rewrite (io_bind_returned _ _ _ _ _ (load_head _ _ _)).
    change (52 =? 13) with false. cbv iota.
    rewrite (io_bind_returned _ _ _ _ _ (atoi_4 _ _)).
    exact Hlist. }
  rewrite (io_bind_returned _ _ _ _ _ Hchoice).
  exists (shown [] items mcQ), (items ++ (IChars [13] :: echo [52]) ++ items0).
  split; [reflexivity|]. split.
  { cbn [shown screen mcQ after mcP]. rewrite <- !app_assoc. reflexivity. }
  split.
  { rewrite !listed_app, Hlisted0, Hrows. cbn [mcQ after world mcP]. rewrite Htot.
    cbn [app]. apply map_ext. intros i. apply button_row_records, Hdata. }
  split; [exact Hwf'|]. split; [|reflexivity].
  cbn [shown world mem mcQ after mcP]. unfold records.
  rewrite Hname, Hlevels, Hdata, Htot. reflexivity.
Qed.

Lemma wf_recorded v m : wf m -> wf (recorded v m).
Proof.
  unfold wf, wf_b, recorded. cbn [cells IrLevel LevelString RemoteData set_RemoteDataTotal
                                    set_RemoteData]. rewrite length_insert. auto.
Qed.

(** A turn in which the user chooses 3, names the button and confirms
    with [x], on the burst of a 32-bit word. *)
Lemma main_turn_choice_3
    h pages turns IRC garbage t X name rest Dum1UChar Str3 Str2 Dum1Str Str mc :
  wf (mem (world mc)) -> banner_fits h mc ->
  0 <= RemoteDataTotal (mem (world mc)) < REMOTE_DATA_SIZE ->
  0 <= X < 2 ^ 32 -> 2 <= UINT16 garbage ->
  (5 <= pages)%nat -> (33 <= turns)%nat ->
  Forall ordinary name -> (0 < length name < 64)%nat ->
  length Dum1Str = 64%nat -> (1 < length Str)%nat ->
  keys mc = 51 :: 13 :: name ++ 13 :: 120 :: 13 :: rest ->
  exists mc',
    main_turn h pages turns IRC garbage t (encode X) Dum1UChar Str3 Str2 Dum1Str Str mc =
      Returned (51 :: 0 :: drop 2 Str, mc') /\
    wf (mem (world mc')) /\
    RemoteData (mem (world mc')) =
      <[Z.to_nat (RemoteDataTotal (mem (world mc))) := Entry.Build (string_of name) X]>
        (RemoteData (mem (world mc))) /\
    RemoteDataTotal (mem (world mc')) = RemoteDataTotal (mem (world mc)) + 1 /\
    keys mc' = rest /\
    banner_fits h mc'.
Proof.
  intros Hwf Hfits Htotal HX Hgar Hpages Hturns Hname Hlen Hdum Hsize Hkeys. unfold main_turn.
  destruct (main_menu_asks h t (encode X) Str mc Hwf Hfits)
    as (w' & items0 & Hmenu & Hwf' & Hk & Htake & Hrec & _ & _).
  { rewrite length_encode. lia. }
  { rewrite length_encode. reflexivity. }
  { apply encode_in_range. }
  rewrite length_encode in Hk, Htake. change (Z.of_nat 66) with 66 in Hk.
  set (mcP := Build_Machine w' (keys mc) (items0 ++ screen mc) (BrandName mc) (RemoteModel mc))
    in Hmenu.
  assert (Hline : input_string Str mcP =
                  Returned ([51] ++ 0 :: drop (S (length [51])) Str,
                            after (name ++ 13 :: 120 :: 13 :: rest)
                              (IChars [13] :: echo [51]) mcP)).
  { apply input_string_line.
    - repeat constructor; unfold ordinary; lia.
    - cbn [length]. lia.
    - cbn [length]. lia.
    - exact Hkeys. }
  rewrite <- Hmenu in Hline. rewrite (io_bind_returned _ _ _ _ _ Hline).
  set (mcQ := after (name ++ 13 :: 120 :: 13 :: rest) (IChars [13] :: echo [51]) mcP).
  change ([51] ++ 0 :: drop (S (length [51])) Str) with (51 :: 0 :: drop 2 Str).
  unfold records in Hrec. injection Hrec as Hbutton Hlevels Hdata Htot.
  destruct (decode_ir_burst_run h pages turns IRC garbage name 120 [] rest Str3 Str2 Dum1Str
              mcQ)
    as (v & mc' & Hrun & Hmem & Hkeys' & Hval & Hb & Hr); auto using ordinary_x;
    try (cbn [mcQ after world mcP]; rewrite ?Hk, ?Htot;
         unfold MAX_IR_READINGS, REMOTE_DATA_SIZE in *; cbn [length]; lia).
  assert (Hchoice : main_choice h pages turns IRC garbage Dum1UChar Str3 Str2 Dum1Str
                      (51 :: 0 :: drop 2 Str) mcQ = Returned (tt, mc')).
  { unfold main_choice.
    rewrite (io_bind_returned _ _ _ _ _ (load_head _ _ _)).
    change (51 =? 13) with false. cbv iota.
    rewrite (io_bind_returned _ _ _ _ _ (atoi_3 _ _)).
    exact Hrun. }
  rewrite (io_bind_returned _ _ _ _ _ Hchoice).
  change (is_x 120) with true in Hmem. cbv iota in Hmem.
  cbn [mcQ after world mcP] in Hmem, Hval. rewrite (Hval Hgar), Hk in Hmem.
  change (data_pairs 66) with 32%nat in Hmem.
  rewrite (carried_value (mem w') X 32 (conj Hk Htake) HX (le_n 32)) in Hmem.
  change (32 - Z.of_nat 32) with 0 in Hmem. rewrite Z.shiftr_0_r in Hmem.
  exists mc'. split; [reflexivity|]. rewrite Hmem.
  split; [apply wf_recorded; exact Hwf'|].
  unfold recorded.
  cbn [RemoteData RemoteDataTotal ButtonName set_RemoteDataTotal set_RemoteData set_ButtonName].
  rewrite Hdata, Htot. split; [reflexivity|].
  split; [apply UINT16_small; unfold REMOTE_DATA_SIZE in Htotal; lia|].
  split; [exact Hkeys'|].
  unfold banner_fits. rewrite Hb, Hr. exact Hfits.
Qed.

(** X23.  A session of two turns of the main loop, on a board and a
    remote for which [display_header] prints its banner ([banner_fits]).
    At the first turn the burst of a 32-bit word [X] sent with the timings
    of Samsung.c comes in, the user chooses 3, types a name of 1 to 63
    characters and confirms with [x]; at the next turn, after any burst
    that fits in the arrays, the user chooses 4.  The list then printed is
    the list of the buttons recorded before, followed by one row with the
    next index, the name typed and [X] (the local [Loop2UInt16] of the
    decoder holding 2 or more on entry). *)
Theorem a_button_recorded_at_one_turn_is_listed_at_the_next
    h pages turns IRC garbage t X name
    pages' turns' IRC' garbage' t' durs rest
    Dum1UChar Str3 Str2 Dum1Str Dum1UChar' Str3' Str2' Dum1Str' Str mc :
  wf (mem (world mc)) ->
  banner_fits h mc ->
  0 <= RemoteDataTotal (mem (world mc)) < REMOTE_DATA_SIZE ->
  0 <= X < 2 ^ 32 -> 2 <= UINT16 garbage ->
  (5 <= pages)%nat -> (33 <= turns)%nat ->
  Forall ordinary name -> (0 < length name < 64)%nat ->
  length Dum1Str = 64%nat -> (1 < length Str)%nat ->
  (0 < length durs)%nat -> Z.of_nat (length durs) < MAX_IR_READINGS ->
  Forall (fun d => 0 <= d < 2 ^ 32) durs ->
  keys mc = 51 :: 13 :: name ++ 13 :: 120 :: 13 :: 52 :: 13 :: rest ->
  exists String1 mc1 String2 mc2 items,
    main_turn h pages turns IRC garbage t (encode X) Dum1UChar Str3 Str2 Dum1Str Str mc =
      Returned (String1, mc1) /\
    main_turn h pages' turns' IRC' garbage' t' durs Dum1UChar' Str3' Str2' Dum1Str' String1
      mc1 =
      Returned (String2, mc2) /\
    screen mc2 = items ++ screen mc1 /\
    listed items =
      map (button_row (mem (world mc))) (seqZ 0 (RemoteDataTotal (mem (world mc)))) ++
      [(RemoteDataTotal (mem (world mc)), string_of name, X)] /\
    keys mc2 = rest.
Proof.
  intros Hwf Hfits Htotal HX Hgar Hpages Hturns Hname Hlen Hdum Hsize Hpos Hfit Hds Hkeys.
  destruct (main_turn_choice_3 h pages turns IRC garbage t X name (52 :: 13 :: rest)
              Dum1UChar Str3 Str2 Dum1Str Str mc)
    as (mc1 & Hrun1 & Hwf1 & Hdata1 & Htot1 & Hkeys1 & Hfits1); auto.
  destruct (main_turn_choice_4 h pages' turns' IRC' garbage' t' durs rest
              Dum1UChar' Str3' Str2' Dum1Str' (51 :: 0 :: drop 2 Str) mc1)
    as (mc2 & items & Hrun2 & Hscreen & Hlisted & _ & _ & Hkeys2); auto.
  { rewrite Htot1. lia. }
  { cbn [length]. lia. }
  exists (51 :: 0 :: drop 2 Str), mc1, (52 :: 0 :: drop 2 (51 :: 0 :: drop 2 Str)), mc2, items.
  split; [exact Hrun1|]. split; [exact Hrun2|]. split; [exact Hscreen|].
  split; [|exact Hkeys2].
  set (n := RemoteDataTotal (mem (world mc))) in *.
  pose proof (wf_remote _ Hwf) as Hsize'. unfold REMOTE_DATA_SIZE in *.
  rewrite Hlisted, Htot1. rewrite (seqZ_app 0 n 1) by lia. rewrite map_app. f_equal.
  - apply map_ext_in. intros i Hi. apply list_elem_of_In, elem_of_seqZ in Hi.
    unfold button_row, entry_at. rewrite Hdata1.
    rewrite list_lookup_insert_ne by lia. reflexivity.
  - rewrite Z.add_0_l. rewrite (seqZ_cons n 1), seqZ_nil by lia. cbn [map].
    unfold button_row, entry_at. rewrite Hdata1.
    rewrite list_lookup_insert_eq by lia. reflexivity.
Qed.

(** X23 for a third button after the two of [recorded_world]. *)
Lemma a_button_recorded_at_one_turn_is_listed_at_the_next_witness :
  exists String1 mc1 String2 mc2 items,
    main_turn pico_board 5 33 1 2 1000 (encode 0xE0E0D02F) (replicate 64 0) (replicate 256 0)
      (replicate 128 0) (replicate 64 0) (replicate 256 0)
      (console_on recorded_world
         (51 :: 13 :: [79; 78] ++ 13 :: 120 :: 13 :: 52 :: 13 :: [])) =
      Returned (String1, mc1) /\
    main_turn pico_board 5 33 1 0 5000 long_low_burst (replicate 64 0) (replicate 256 0)
      (replicate 128 0) (replicate 64 0) String1 mc1 =
      Returned (String2, mc2) /\
    screen mc2 = items ++ screen mc1 /\
    listed items =
      [(0, "Power"%string, 0xE0E040BF); (1, "Volume up"%string, 0xE0E0E01F);
       (2, "ON"%string, 0xE0E0D02F)] /\
    keys mc2 = [].
Proof.
  destruct (a_button_recorded_at_one_turn_is_listed_at_the_next
              pico_board 5 33 1 2 1000 0xE0E0D02F [79; 78] 5 33 1 0 5000 long_low_burst []
              (replicate 64 0) (replicate 256 0) (replicate 128 0) (replicate 64 0)
              (replicate 64 0) (replicate 256 0) (replicate 128 0) (replicate 64 0)
              (replicate 256 0)
              (console_on recorded_world
                 (51 :: 13 :: [79; 78] ++ 13 :: 120 :: 13 :: 52 :: 13 :: [])))
    as (String1 & mc1 & String2 & mc2 & items & Hrun1 & Hrun2 & Hscreen & Hrows & Hkeys);
    [vm_compute; reflexivity | vm_compute; repeat split; lia
    | vm_compute; split; [discriminate | reflexivity]
    | vm_compute; split; [discriminate | reflexivity] | vm_compute; discriminate
    | lia | lia | repeat constructor; vm_compute; discriminate | vm_compute; lia
    | reflexivity | vm_compute; lia | vm_compute; lia | vm_compute; reflexivity
    | repeat constructor; vm_compute; discriminate | reflexivity|].
  exists String1, mc1, String2, mc2, items.
  split; [exact Hrun1|]. split; [exact Hrun2|]. split; [exact Hscreen|].
  split; [|exact Hkeys]. rewrite Hrows. vm_compute. reflexivity.
Defined.

(** X24.  A turn of the main loop in which the user chooses 4, after any
    burst that fits in the arrays and when [display_header] prints its
    banner ([banner_fits]): the turn ends, one row is printed for each
    button recorded, in the order of recording, and neither the buttons
    recorded nor the button name change. *)
Theorem main_turn_lists_every_recorded_button
    h pages turns IRC garbage t durs rest Dum1UChar Str3 Str2 Dum1Str Str mc :
  wf (mem (world mc)) ->
  banner_fits h mc ->
  (0 < length durs)%nat -> Z.of_nat (length durs) < MAX_IR_READINGS ->
  Forall (fun d => 0 <= d < 2 ^ 32) durs ->
  0 <= RemoteDataTotal (mem (world mc)) <= REMOTE_DATA_SIZE ->
  (1 < length Str)%nat ->
  keys mc = 52 :: 13 :: rest ->
  exists Str' mc' items,
    main_turn h pages turns IRC garbage t durs Dum1UChar Str3 Str2 Dum1Str Str mc =
      Returned (Str', mc') /\
    screen mc' = items ++ screen mc /\
    listed items =
      map (button_row (mem (world mc))) (seqZ 0 (RemoteDataTotal (mem (world mc)))) /\
    records (mem (world mc')) = records (mem (world mc)) /\
    keys mc' = rest.
Proof.
  intros Hwf Hfits Hpos Hfit Hds Htotal Hsize Hkeys.
  destruct (main_turn_choice_4 h pages turns IRC garbage t durs rest
              Dum1UChar Str3 Str2 Dum1Str Str mc Hwf Hfits Hpos Hfit Hds Htotal Hsize Hkeys)
    as (mc' & items & Hrun & Hscreen & Hlisted & _ & Hrec & Hkeys').
  exists (52 :: 0 :: drop 2 Str), mc', items. auto.
Qed.

(** X24 on a machine with two buttons recorded. *)
Lemma main_turn_lists_every_recorded_button_witness :
  exists Str' mc' items,
    main_turn pico_board 5 33 1 0 1000 long_low_burst (replicate 64 0) (replicate 256 0)
      (replicate 128 0) (replicate 64 0) (replicate 256 0)
      (console_on recorded_world (52 :: 13 :: [])) = Returned (Str', mc') /\
    screen mc' = items ++ screen (console_on recorded_world (52 :: 13 :: [])) /\
    listed items =
      [(0, "Power"%string, 0xE0E040BF); (1, "Volume up"%string, 0xE0E0E01F)] /\
    records (mem (world mc')) =
      records (mem (world (console_on recorded_world (52 :: 13 :: [])))) /\
    keys mc' = [].
Proof.
  destruct (main_turn_lists_every_recorded_button pico_board 5 33 1 0 1000 long_low_burst []
              (replicate 64 0) (replicate 256 0) (replicate 128 0) (replicate 64 0)
              (replicate 256 0) (console_on recorded_world (52 :: 13 :: [])))
    as (Str' & mc' & items & Hrun & Hscreen & Hrows & Hrec & Hkeys);
    [vm_compute; reflexivity | vm_compute; repeat split; lia
    | vm_compute; lia | vm_compute; reflexivity
    | repeat constructor; vm_compute; discriminate
    | vm_compute; split; discriminate | vm_compute; lia | reflexivity|].
  exists Str', mc', items.
  split; [exact Hrun|]. split; [exact Hscreen|]. split; [|split; [exact Hrec | exact Hkeys]].
  rewrite Hrows. vm_compute. reflexivity.
Defined.

Lemma atoi_spelled s text mc :
  text_of s mc = Returned (text, mc) -> INT_MIN <= spelled text <= INT_MAX ->
  atoi s mc = Returned (spelled text, mc).
Proof.
  intros H Hint. unfold atoi. rewrite (io_bind_returned _ _ _ _ _ H).
  replace ((INT_MIN <=? spelled text) && (spelled text <=? INT_MAX)) with true
    by (symmetry; apply andb_true_iff; split; apply Z.leb_le; lia).
  reflexivity.
Qed.

(** X25.  A turn of the main loop in which the answer to the menu is Enter
    alone, or a line that [atoi] reads as a number other than 1, 2, 3 and
    4, when [display_header] prints its banner above the menu
    ([banner_fits]): the turn ends; the button name, the buttons recorded,
    the brand and the model are as they were, and the line is all that was
    read from the keyboard. *)
Theorem main_turn_without_a_choice_keeps_the_records
    h pages turns IRC garbage t durs cs rest Dum1UChar Str3 Str2 Dum1Str Str mc :
  wf (mem (world mc)) ->
  banner_fits h mc ->
  (0 < length durs)%nat -> Z.of_nat (length durs) < MAX_IR_READINGS ->
  Forall (fun d => 0 <= d < 2 ^ 32) durs ->
  Forall ordinary cs -> (length cs < 128)%nat -> (length cs + 2 < length Str)%nat ->
  (cs <> [] -> INT_MIN <= spelled cs <= INT_MAX /\ ~ 1 <= UINT32 (spelled cs) <= 4) ->
  keys mc = cs ++ 13 :: rest ->
  exists Str' mc',
    main_turn h pages turns IRC garbage t durs Dum1UChar Str3 Str2 Dum1Str Str mc =
      Returned (Str', mc') /\
    records (mem (world mc')) = records (mem (world mc)) /\
    BrandName mc' = BrandName mc /\ RemoteModel mc' = RemoteModel mc /\
    keys mc' = rest.
Proof.
  intros Hwf Hfits Hpos Hfit Hds Hcs Hlen Hsize Hother Hkeys. unfold main_turn.
  destruct (main_menu_asks h t durs Str mc Hwf Hfits Hpos Hfit Hds)
    as (w' & items0 & Hmenu & _ & _ & _ & Hrec & _ & _).
  set (mcP := Build_Machine w' (keys mc) (items0 ++ screen mc) (BrandName mc) (RemoteModel mc))
    in Hmenu.
  destruct cs as [|c cs].
  - pose proof (input_string_empty_line rest Str mcP ltac:(cbn [length] in Hsize; lia) Hkeys)
      as Hline.
    rewrite <- Hmenu in Hline. rewrite (io_bind_returned _ _ _ _ _ Hline).
    destruct Str as [|s0 [|s1 [|s2 Str]]]; try (cbn [length] in Hsize; lia).
    cbn [insert list_insert].
    assert (Hchoice : main_choice h pages turns IRC garbage Dum1UChar Str3 Str2 Dum1Str
                        (13 :: 0 :: 0 :: Str) (after rest [IChars [13]] mcP) =
                      Returned (tt, after rest [IChars [13]] mcP)).
    { unfold main_choice.
      rewrite (io_bind_returned _ _ _ _ _ (load_head _ _ _)). reflexivity. }
    rewrite (io_bind_returned _ _ _ _ _ Hchoice).
    eexists _, _. split; [reflexivity|].
    cbn [after world mem BrandName RemoteModel keys mcP]. auto.
  - pose proof (input_string_line (c :: cs) rest Str mcP Hcs
                  ltac:(cbn [length] in *; lia) ltac:(lia) Hkeys) as Hline.
    rewrite <- Hmenu in Hline. rewrite (io_bind_returned _ _ _ _ _ Hline).
    destruct (Hother ltac:(discriminate)) as [Hint Hmenu'].
    pose proof (ordinary_no_nul _ Hcs) as Hnul.
    pose proof (proj1 (Forall_cons _ _ _) Hcs) as [Hc _].
    set (tail := drop (S (length (c :: cs))) Str).
    set (mcQ := after rest (IChars [13] :: echo (c :: cs)) mcP).
    assert (Htext : text_of ((c :: cs) ++ 0 :: tail) mcQ = Returned (c :: cs, mcQ)).
    { rewrite text_of_returned by (rewrite strlen_prefix by exact Hnul; discriminate).
      rewrite c_str_prefix by exact Hnul. reflexivity. }
    cbn [app] in Htext |- *.
    assert (Hchoice : main_choice h pages turns IRC garbage Dum1UChar Str3 Str2 Dum1Str
                        (c :: cs ++ 0 :: tail) mcQ =
                      Returned (tt, shown [] [IInvalidChoice (c :: cs)
                                                (UINT32 (spelled (c :: cs)))] mcQ)).
    { unfold main_choice.
      rewrite (io_bind_returned _ _ _ _ _ (load_head _ _ _)).
      replace (c =? 13) with false by (symmetry; apply Z.eqb_neq; unfold ordinary in Hc; lia).
      cbv iota.
      rewrite (io_bind_returned _ _ _ _ _ (atoi_spelled _ _ _ Htext Hint)). cbv zeta.
      replace (UINT32 (spelled (c :: cs)) =? 1) with false by (symmetry; apply Z.eqb_neq; lia).
      replace (UINT32 (spelled (c :: cs)) =? 2) with false by (symmetry; apply Z.eqb_neq; lia).
      replace (UINT32 (spelled (c :: cs)) =? 3) with false by (symmetry; apply Z.eqb_neq; lia).
      replace (UINT32 (spelled (c :: cs)) =? 4) with false by (symmetry; apply Z.eqb_neq; lia).
      rewrite (io_bind_returned _ _ _ _ _ Htext).
      apply say_returned. }
    rewrite (io_bind_returned _ _ _ _ _ Hchoice).
    eexists _, _. split; [reflexivity|].
    cbn [shown after world mem BrandName RemoteModel keys mcP mcQ]. auto.
Qed.

Lemma main_turn_without_a_choice_keeps_the_records_witness :
  exists Str' mc',
    main_turn pico_board 5 33 1 0 1000 long_low_burst (replicate 64 0) (replicate 256 0)
      (replicate 128 0) (replicate 64 0) (replicate 256 0)
      (console_on power_world ([57] ++ 13 :: [])) = Returned (Str', mc') /\
    records (mem (world mc')) = records (mem (world (console_on power_world ([57] ++ 13 :: [])))) /\
    BrandName mc' = BrandName (console_on power_world ([57] ++ 13 :: [])) /\
    RemoteModel mc' = RemoteModel (console_on power_world ([57] ++ 13 :: [])) /\
    keys mc' = [].
Proof.
  apply (main_turn_without_a_choice_keeps_the_records pico_board 5 33 1 0 1000
           long_low_burst [57] []
           (replicate 64 0) (replicate 256 0) (replicate 128 0) (replicate 64 0)
           (replicate 256 0) (console_on power_world ([57] ++ 13 :: [])));
    [vm_compute; reflexivity | vm_compute; repeat split; lia | vm_compute; lia | vm_compute; reflexivity
    | repeat constructor; vm_compute; discriminate
    | repeat constructor; vm_compute; discriminate | vm_compute; lia | vm_compute; lia
    | intros _; vm_compute; split; [split; discriminate | intros [_ H]; apply H; reflexivity]
    | reflexivity].
Defined.

Lemma atoi_2 l mc : atoi (50 :: 0 :: l) mc = Returned (2, mc).
Proof. reflexivity. Qed.

Lemma display_burst_timing_on h fuel Str mc :
  IrStepCount (mem (world mc)) <> 0 ->
  display_burst_timing h fuel FLAG_ON Str mc =
  io_bind enter_ButtonName (fun _ => timing_pages h fuel 0) mc.
Proof.
  intros Hcount. unfold display_burst_timing.
  rewrite (io_bind_returned _ _ _ _ _ (lift_get_mem mc)).
  apply Z.eqb_neq in Hcount. rewrite Hcount. reflexivity.
Qed.

(** X26.  A turn of the main loop in which the user chooses 2 and names
    the button, the level names being those that [main] sets at lines
    159-161 and [display_header] printing its banner ([banner_fits]): the
    table printed shows the burst as it came on the line,
    every duration with the number of its step, counted from 1, and its
    level, low for the first step and alternating from there; the name
    typed is the button name afterwards. *)
Theorem main_turn_shows_the_burst_as_it_came
    h pages turns IRC garbage t durs name rest Dum1UChar Str3 Str2 Dum1Str Str mc :
  wf (mem (world mc)) ->
  banner_fits h mc ->
  LevelString (mem (world mc)) = ["low"; "high"; "---"]%string ->
  (0 < length durs)%nat -> Z.of_nat (length durs) < MAX_IR_READINGS ->
  Forall (fun d => 0 <= d < 2 ^ 32) durs ->
  (5 <= pages)%nat ->
  Forall ordinary name -> (0 < length name < 64)%nat -> (1 < length Str)%nat ->
  keys mc = 50 :: 13 :: name ++ 13 :: rest ->
  exists Str' mc' items,
    main_turn h pages turns IRC garbage t durs Dum1UChar Str3 Str2 Dum1Str Str mc =
      Returned (Str', mc') /\
    screen mc' = items ++ screen mc /\
    (forall i d, durs !! i = Some d ->
       (Z.of_nat i + 1, (if Z.even (Z.of_nat i) then "low" else "high")%string, d)
         ∈ timed items) /\
    ButtonName (mem (world mc')) = string_of name /\
    keys mc' = rest.
Proof.
  intros Hwf Hfits Hnames Hpos Hfit Hds Hpages Hname Hlen Hsize Hkeys. unfold main_turn.
  destruct (main_menu_asks h t durs Str mc Hwf Hfits Hpos Hfit Hds)
    as (w' & items0 & Hmenu & Hwf' & Hk & Htake & Hrec & _ & Hlevels).
  set (mcP := Build_Machine w' (keys mc) (items0 ++ screen mc) (BrandName mc) (RemoteModel mc))
    in Hmenu.
  assert (Hline : input_string Str mcP =
                  Returned ([50] ++ 0 :: drop (S (length [50])) Str,
                            after (name ++ 13 :: rest) (IChars [13] :: echo [50]) mcP)).
  { apply input_string_line.
    - repeat constructor; unfold ordinary; lia.
    - cbn [length]. lia.
    - cbn [length]. lia.
    - exact Hkeys. }
  rewrite <- Hmenu in Hline. rewrite (io_bind_returned _ _ _ _ _ Hline).
  set (mcQ := after (name ++ 13 :: rest) (IChars [13] :: echo [50]) mcP).
  change ([50] ++ 0 :: drop (S (length [50])) Str) with (50 :: 0 :: drop 2 Str).
  unfold records in Hrec. injection Hrec as _ Hlevelnames _ _.
  pose proof (enter_ButtonName_run name rest mcQ Hname Hlen eq_refl) as Hask.
  match type of Hask with _ = Returned (tt, ?x) => set (mcR := x) in Hask end.
  set (m := mem (world mcR)).
  assert (Hcount : IrStepCount m = Z.of_nat (length durs)) by exact Hk.
  destruct (timing_pages_spec h pages 0 mcR Hwf' Hfits)
    as (acc & items1 & Hpagesrun & Hrows & _);
    try (fold m; rewrite ?Hcount; unfold MAX_IR_READINGS, LineCount in *; lia).
  { reflexivity. }
  fold m in Hrows.
  assert (Hchoice : main_choice h pages turns IRC garbage Dum1UChar Str3 Str2 Dum1Str
                      (50 :: 0 :: drop 2 Str) mcQ = Returned (tt, shown acc items1 mcR)).
  { unfold main_choice.
    rewrite (io_bind_returned _ _ _ _ _ (load_head _ _ _)).
    change (50 =? 13) with false. cbv iota.
    rewrite (io_bind_returned _ _ _ _ _ (atoi_2 _ _)).
    cbv zeta. change (UINT32 2 =? 1) with false. change (UINT32 2 =? 2) with true. cbv iota.
    rewrite display_burst_timing_on
      by (change (IrStepCount (mem (world mcQ))) with (IrStepCount (mem w')); lia).
    rewrite (io_bind_returned _ _ _ _ _ Hask). exact Hpagesrun. }
  rewrite (io_bind_returned _ _ _ _ _ Hchoice).
  exists (50 :: 0 :: drop 2 Str), (shown acc items1 mcR),
    (items1 ++ (IChars [13] :: echo name ++ [IAskButton]) ++ (IChars [13] :: echo [50]) ++ items0).
  split; [reflexivity|]. split.
  { cbn [shown screen mcR mcQ after mcP]. rewrite <- !app_assoc. cbn [app].
    rewrite <- !app_assoc. reflexivity. }
  split; [|split; reflexivity].
  intros i d Hd. rewrite timed_app. apply elem_of_app. right.
  pose proof (lookup_lt_Some _ _ _ Hd) as Hi.
  specialize (Hrows (Z.of_nat i) ltac:(lia)).
  replace (step_row m (Z.of_nat i))
    with (Z.of_nat i + 1, (if Z.even (Z.of_nat i) then "low" else "high")%string, d) in Hrows;
    [exact Hrows|].
  unfold step_row, level_name, peek. rewrite Nat2Z.id.
  change (cells ArIrResultValue m) with (IrResultValue (mem w')).
  change (cells ArIrLevel m) with (IrLevel (mem w')).
  change (LevelString m) with (LevelString (mem w')).
  rewrite <- (lookup_take_lt (IrResultValue (mem w')) (length durs) i) by exact Hi.
  rewrite <- (lookup_take_lt (IrLevel (mem w')) (length durs) i) by exact Hi.
  rewrite Htake, Hlevels, Hd, levels_lookup by exact Hi. rewrite Hlevelnames, Hnames.
  destruct (Z.even (Z.of_nat i)); reflexivity.
Qed.

Lemma main_turn_shows_the_burst_as_it_came_witness :
  exists Str' mc' items,
    main_turn pico_board 5 33 1 0 1000 long_low_burst (replicate 64 0) (replicate 256 0)
      (replicate 128 0) (replicate 64 0) (replicate 256 0)
      (console_on power_world (50 :: 13 :: [79; 78] ++ 13 :: [])) = Returned (Str', mc') /\
    screen mc' = items ++ screen (console_on power_world (50 :: 13 :: [79; 78] ++ 13 :: [])) /\
    (forall i d, long_low_burst !! i = Some d ->
       (Z.of_nat i + 1, (if Z.even (Z.of_nat i) then "low" else "high")%string, d)
         ∈ timed items) /\
    ButtonName (mem (world mc')) = string_of [79; 78] /\
    keys mc' = [].
Proof.
  apply (main_turn_shows_the_burst_as_it_came pico_board 5 33 1 0 1000 long_low_burst
           [79; 78] []
           (replicate 64 0) (replicate 256 0) (replicate 128 0) (replicate 64 0)
           (replicate 256 0) (console_on power_world (50 :: 13 :: [79; 78] ++ 13 :: [])));
    [vm_compute; reflexivity | vm_compute; repeat split; lia
    | vm_compute; reflexivity | vm_compute; lia
    | vm_compute; reflexivity | repeat constructor; vm_compute; discriminate | lia
    | repeat constructor; vm_compute; discriminate | vm_compute; lia | vm_compute; lia
    | reflexivity].
Defined.
